(* ===== verification/_CoqProject ===== *)
-Q . S2P
Prelude.v
GoStrings.v
Naming.v
Reflect.v
Testing.v
Entities.v
Util.v
Meta.v
Parse.v
Race.v
DataRace.v
Layout.v
Hooks.v
Repo.v
Router.v
Routes.v
Handlers.v
App.v
Server.v
Gorm.v
Resource.v
Service.v
Session.v
HooksTest.v
MetaTests.v
ModelTests.v
HttpTests.v
FlowTests.v
RepoTests.v
AppTests.v
ProductFlows.v
