(* ===== verification/Prelude.v ===== *)
(** * go-blar: a verification development

    The program (Go, module github.com/kamil5b/go-blar) turns struct
    declarations into table mappings, a generic CRUD repository,
    lifecycle hook dispatch and generated REST routes.  A caller gives
    entity values to the application ([goblar.New], [Register]); the
    parser ([meta.Parse]) reads the struct type by reflection and caches
    one descriptor per type in a package-level registry; the repository,
    the handlers and the router consult the descriptor; a handler
    sequences hook, storage operation, hook for each request.  The
    repository also carries an example program and its tests
    (src/example_main.go, src/unnamed/part_004) and the unit tests of
    its packages (the files named _test.go), which are modelled as the
    code they are.

    ** The files, in dependency order

    - [Prelude] (this file): the shared vocabulary.  Go's [error]
      values ([GoError]; a nil error is [None]), the [outcome] of a call
      that may panic ([Ok] / [Panic]) with its monad instances, a
      pointer that may be nil ([is_nil], [indirect]), the tactics [outcome_simpl] and [destruct_bools], the hint databases
      [goblar] and [goblar_rw], and the list and option lemmas the
      components share.
    - [GoStrings]: the functions of Go's [strings] and [strconv] the
      sources call ([Split], [TrimSpace], [HasPrefix], [TrimPrefix],
      [Contains], [ToLower], [ParseInt]) on ASCII strings, with their
      laws.  Environment: the Go standard library.
    - [Naming]: [toSnakeCase] (src/internal/meta/parse.go) and
      [toURLPath] (src/internal/hooks/hooks.go, router part), each
      translated index by index as the loops are written
      ([snake_write], [url_write] are one iteration), with a
      structurally recursive reference and the equivalence of the two;
      [toSnakeCase_checked] is the loop of [toSnakeCase] with the
      bounds check Go makes at [runes[i-1]] and [runes[i+1]].
    - [Reflect]: the fragment of Go's [reflect] the sources consult:
      [Kind], [GoType] (predeclared, defined, struct, pointer and slice
      types), [StructField] with its tag as key/value pairs, the dynamic
      value [any], [reflect_New], field access and assignment,
      composite literals, the identity of types ([type_eqb], which
      decides equality); the machine integers ([wrap_int],
      [wrap_uint], [in_range]); the typing of values ([has_type],
      [well_typed]) with its lemmas.  Environment.
    - [Testing]: what the tests use of package testing.  A test body
      is a function of the state of its [T] (failure flag and log) to
      the new state and, unless [FailNow] stopped it, a result
      ([Test]); [Log], [Logf], [Errorf], [Fatal], [Fatalf], the loops
      [for_each] and [for_fold].  The process of [main] with the
      standard logger has the same shape.  [passing m Q] says that a
      test runs to its end without a failure and returns a value of
      [Q], with a rule for each construct and the tactic [pass_step]
      to walk through a test.
    - [Entities]: the struct declarations of src/example_main.go (the
      example program and the two test packages) as [GoType] values,
      and [CalculateTotals] / [AfterFind] of the test package's Product.
    - [Util]: [DeepFieldByName] and [IsZeroValue] of the util package
      of src/example_main.go, over values with their types.
    - [Meta]: the metadata model of src/unnamed/part_002 ([FieldMeta],
      [ForeignKey], [ManyToMany], [NestedMeta], [AggregateMeta],
      [EntityMeta], [GetFieldByName], [GetAggregateByName]).
    - [Parse]: the parser and the registry of
      src/internal/meta/parse.go ([parseField], [parseGormTag], [Parse],
      [ClearRegistry]).  The package state is a [Store]: a heap of
      descriptors and a [gmap] from a type's printed name to a pointer
      (an index of the heap), so that "the same instance" is equality
      of pointers.
    - [Race]: goroutines that call [Parse] on the shared registry.  A
      call is cut at its two accesses to the map into three atomic
      steps ([call_step]); a configuration is the pool of calls with
      the store; [step] lets one goroutine step, [run] follows a
      schedule, [reaches] is the reachability relation;
      [step_or_reset] and [run_resets] add a [ClearRegistry] by another
      goroutine to the steps.  The scheduler is the code with a lock
      around each access of the map.
    - [DataRace]: the accesses of the registry a run makes
      ([next_access], [trace]), the runs with a data race ([racy]: two
      accesses by different goroutines, one of them the assignment,
      which nothing in the code orders) and the pools of calls without
      one ([race_free]), for which the scheduler of [Race] is what Go
      guarantees.
    - [Layout]: the stores up to the addresses of their descriptors:
      [similar] relates two stores that keep the invariant and cache
      the same descriptions under the same keys; [expected] is what a
      call of [Parse] answers alone, read through its pointer, and
      [answer] what a call of [Race] that is over has answered.
    - [Hooks]: the six hook interfaces of src/goblar/hooks.go as the
      class [MethodSet], the six dispatchers of
      src/internal/hooks/hooks.go, and the test entities of
      src/unnamed/part_004.
    - [Repo]: the generic repository of src/unnamed/part_003 and the
      aggregate stub; the storage driver as the class [Driver] with the
      laws [DriverLaws], and an in-memory [Table] that satisfies them.
    - [Router]: the router of src/internal/hooks/hooks.go ([New],
      [AddMiddleware], [ApplyMiddleware], [RegisterEntityRoutes]) over
      a model of the mux; the handlers behind the class [HandlerSet].
      A [Method] is one of the nine methods the mux knows or any other
      token; the mux routes a request to a handler, to the answer
      method-not-allowed with the methods registered on the path, or
      to not-found ([Mux_route]).
    - [Routes]: the three comments "Generated Routes" of
      src/example_main.go as tables, set against the routes
      [RegisterEntityRoutes] registers for the same entities.
    - [Handlers]: the five request handlers of
      src/internal/http/handlers.go as functions from a request and a
      database state to a response and a state, with the hooks of the
      example program's Product.
    - [App]: the options of src/unnamed/part_001, the application of
      src/goblar/app.go ([New], [Register], [Start]), [Run] of
      src/goblar/run.go and [main] of src/example_main.go, which runs
      in the monad of [Testing] with [gorm.Open] and [ListenAndServe]
      as parameters.
    - [Server]: the router and the handlers composed: the mux run on a
      request ([ServeHTTP]: the route that matches, its parameters, the
      middlewares around it, 405 with the Allow headers when the path
      has routes of other methods only, 404 when it has none) and what
      a server value answers ([serve]).
    - [Gorm]: the contract of the storage driver that the tag flows,
      the repository tests and the resource rely on, as the class
      [GormSpec] over an abstraction of the database to a finite map
      of rows; the in-memory table keeps it.
    - [Resource]: the REST resource of an entity as a transition
      system on its rows ([spec_step], [spec_run]): what each of the
      five operations may answer and do to the rows; the handler of
      each endpoint ([handler_of]) and a sequence of requests
      ([serve_all]).
    - [Service]: the REST interface of an entity at the HTTP
      boundary: the routing table [endpoint_of] from a method and a
      path to an endpoint, stated on the path alone, the operation a
      request asks for ([api]), what a request without an endpoint is
      answered ([unrouted]: 405 on one of the two paths of the entity,
      404 elsewhere), and the resource seen through HTTP ([api_step],
      [api_run]); [serve_requests] serves the requests of a client
      through the mux one after the other.
    - [Session]: an in-memory database of the entities of the test
      package with the associations of a product (its items, its tags
      through the join table), [Preload], the [AfterFind] hook and
      [Where]: what the product flows call of gorm.
    - [HooksTest]: the nine tests of the dispatchers
      (src/unnamed/part_004).
    - [MetaTests]: the eight tests of the parser
      (src/internal/meta/parse_test.go) with the struct types they
      declare.
    - [ModelTests]: [TestAppInitialization] and the model tests of the
      two test packages of src/example_main.go.
    - [HttpTests]: the eleven request tests of src/example_main.go.
    - [FlowTests]: [TestTagFlowComplete] and [TestTagDetailFlow] with
      [stringPtr] and [toJSON], over any driver.
    - [RepoTests]: the eight tests of the repository
      (src/internal/repo/repository_test.go) with [setupTestDB], over
      any driver.
    - [AppTests]: the seven tests of the application
      (src/goblar/app_test.go) and the five of its options
      (src/goblar/options_test.go).
    - [ProductFlows]: [TestProductFlowComplete],
      [TestProductDetailFlow] and [TestProductItemDetailFlow], on the
      database of [Session].

    ** Conventions

    Strings are Rocq [string]s read as Go strings of ASCII bytes: on
    that fragment a rune is a byte, so [[]rune(s)] and [range s] both
    visit the characters of [s].  Integers are [Z] or [nat]: an [int]
    that the code adds to wraps at 64 bits ([wrap_int]; the platform is
    taken to be a 64-bit one), the narrowing conversion [byte(...)] of
    [toURLPath] is written with its wrap-around modulo 256, and
    [ParseInt] checks the range of int64.  A [float64] is a primitive
    float of Rocq, which is IEEE 754 binary64 as in Go; prices are
    added and compared with its operations.

    A Go pointer that may be nil is an [option]; a pointer whose
    identity matters (the cached [*EntityMeta]) is an address into an
    explicit heap.  A function that can panic returns an [outcome]; a
    function that reads or writes state (the registry, the database,
    the application) takes the state and returns the new one.  A test
    function runs in [Testing.Test].  Go interfaces are classes:
    [Hooks.MethodSet] for the hook interfaces, [Repo.Driver] for the
    database handle, [Router.HandlerSet] for the handler constructors,
    [Handlers.Codec] for the JSON decoder, [App.Migrator] for
    [AutoMigrate]; [Gorm.GormSpec] is the contract of a driver, and the
    theorems of its clients are proved against it.

    ** What the theorems show

    - [Reflect]: the machine integers stay in range; assignments and
      reads of fields keep values well typed.
    - [Entities], [Util]: [CalculateTotals] stores the floating-point
      sum of the prices, taken from left to right, and the sum of the
      quantities modulo 2^64, which is the sum when it fits; it keeps a
      product well typed; the sum of the prices depends on their order;
      [DeepFieldByName] never panics on a well-typed value and follows
      a path part by part.
    - [Naming]: the loops compute their references; no index of the
      loop of [toSnakeCase] is out of range; the conversion
      table of the tests; no upper-case letter survives [toSnakeCase],
      it is idempotent and only inserts underscores; [toURLPath] shifts
      every byte by 33 and so never lower-cases.
    - [Parse]: the cache returns the same pointer; a miss allocates
      the description of the type ([describe]) and nothing else
      changes; the invariant of reachable stores; refinement of the
      abstract map of descriptions ([spec_Parse]); the panics; the
      flags of a field; the last marked primary key wins.
    - [Race]: the three steps of a call that runs alone are [Parse];
      two calls that interleave on an uncached type return two
      different pointers, two calls in a row the same one; a
      descriptor built before a reset is cached after it.  These runs
      have no two accesses at once, so they are runs of the code as it
      stands.  With a lock around each access, every interleaving
      keeps the invariant of the store and returns pointers to
      descriptions of the right type, also with resets among the
      steps: facts about the repaired code, not about the code as it
      stands.
    - [DataRace]: a pool of calls is free of data races exactly when
      no call that caches a descriptor runs beside another call that
      reaches the registry; in such a pool every call answers, under
      every schedule, what [Parse] answers on the store at the start,
      and the store at the end is the one the calls leave when they
      run one after the other, in any order; two calls on one uncached
      struct type are a data race, for which Go promises nothing.
    - [Layout]: [Parse], [ClearRegistry] and every program of them
      respect [similar] ([Proper] instances), and what was parsed
      before a [ClearRegistry] leaves nothing to see; with a lock
      around each access of the map and printed names that tell the
      types of the callers apart, a concurrent call answers under
      every schedule what it answers alone, and two schedules that let
      every call finish leave similar stores; with the two structs
      Product of the test packages, which print alike, the answers and
      the registry depend on the schedule.
    - [Hooks]: a dispatcher calls the method of its lifecycle point
      once, or does nothing; the test entities.
    - [Repo]: every operation fails with [ErrInvalidDB] on a nil
      handle and passes through otherwise; what [GetByID] reads after
      a [Create], an [Update] and a [Delete], relative to
      [DriverLaws]; the in-memory table keeps the laws.
    - [Router], [Routes]: the order in which middlewares reach the
      mux; the five routes of an entity; the names for which
      registration panics; no route of the documented tables is
      registered or served.
    - [Handlers]: the statuses each handler can answer; bad ids and
      bodies; a failing before-hook aborts; create then get and delete
      then get against [DriverLaws]; the requests of the example; the
      handlers read a descriptor only through its type, so the flags
      hidden and readonly have no effect on what is stored or answered.
    - [App]: the options; what [Register] leaves registered, its
      errors and when it succeeds; [Run] never reaches [Start]; [Start]
      serves no route; what [main] logs and how it ends.
    - [Server]: the requests that reach each of the five handlers of
      an entity, with the id as parameter, and the methods a request
      on one of the two paths is told when its own has no route;
      create then get through the
      router against [DriverLaws]; the middleware added last sees a
      request first; the server of a registered application answers
      404 to every request.
    - [Resource]: every run of a handler, and every sequence of
      requests, is a run of the specification on the rows, against
      every driver that keeps [GormSpec], and no handler panics
      (simulation); what follows for a client from the specification
      alone (the statuses, reads change nothing, a deleted row is not
      found, the key zero is never used); a failing after-hook is
      answered 500 with the row written.
    - [Service]: the composition of the router, the mux and the
      handlers: the mux with the routes of an entity finds exactly the
      handlers of the routing table; for an entity whose name has no
      upper-case Z registration does not panic, and any requests,
      whatever their methods and paths, are a run of the interface
      against every driver that keeps [GormSpec] (simulation): a
      request with an endpoint is a step of the resource, any other is
      answered 405 or 404 and changes nothing; GET is safe, on every
      path, whatever the hooks do.
    - [Gorm], [Session]: the in-memory table keeps the contract; a
      query lists the rows in key order; [Delete] does not cascade; the
      table names agree with the metadata of [Parse].
    - [HooksTest], [ModelTests], [HttpTests], [FlowTests],
      [ProductFlows]: the tests pass, the tag flows against every
      driver that keeps [GormSpec] and the product flows on the
      database of [Session]; the request tests pass without serving
      their request; the product flow leaves the items of the products
      it deletes.
    - [MetaTests], [RepoTests], [AppTests]: every unit test passes
      ([Testing.passing]): the tests of the parser on every store,
      since each resets the registry, and they need the reset, for
      their types share keys; the tests of the repository against
      every driver that keeps [GormSpec], on a database that opens
      empty; the tests of the application and its options on every
      store that satisfies the parser's invariant, which they
      preserve, so in any order.

    The places where the code departs from the written specification
    or from its own comments are theorems too, and are listed as
    findings of the manifest.

    ** Bounds and fuel

    All recursion is structural.  [zero_value] and [has_type] take
    fuel, the nesting depth of the type ([type_depth]), which is enough
    to reach every field; a value is well typed when some fuel accepts
    it.  The loops of the sources run over finite sequences (the runes
    of a name, the fields of a struct, the parts of a tag, the models
    of a call, the rows of a query), so every operation is a total
    function and a panic is a value.  A call of [Parse] takes at most
    three steps in [Race]; the witnesses use two goroutines and
    schedules of six steps, the least that shows both outcomes.  The
    loops of the repository tests create three and five rows; their
    proofs carry the number of rows as the loop invariant
    ([Testing.passing_for_fold]) and do not unroll them.

    ** Not modelled

    The relational engine behind gorm, the matching of the chi
    multiplexer beyond segment-wise patterns, the bytes of JSON, the
    network and the rendering of the log are outside the repository:
    they appear as classes of operations, as parameters or as the
    in-memory databases of [Repo] and [Session], without SQL,
    transactions or timestamps.  Of the mux, patterns with a star or
    a regular expression, sub-routers and the panic on a parameter
    named twice are left out (no route of the sources has them), and
    the Allow headers of a 405 are listed in the order of
    registration, where chi lists them in the order of a Go map.  A
    hook is a total function: hooks that panic are outside the model.
    [Race] takes every access to the registry to be atomic and the
    interleaving to be sequentially consistent, which Go guarantees
    only to the pools [DataRace] proves free of data races; on a pool
    with a race the Go runtime may abort the process or corrupt the
    map, which no definition here expresses, so of such a pool only
    the runs without two accesses at once are claimed.  A test runs
    alone on its [T]:
    subtests, parallel tests and the order in which the test binary
    picks the functions are not modelled, and the theorems on the unit
    tests hold of every order.  Two struct types are the same type
    when they agree in package, name and fields, so two declarations
    that are alike in all three are not told apart.  Unicode outside
    ASCII, embedded (promoted) struct fields and anonymous struct
    types are outside the model of [Reflect]. *)

From Stdlib Require Import Ascii String.
From stdpp Require Import base tactics option list strings.

(** String literals are read in [string_scope]; the scopes of numbers and
    lists stay above it, so [≤] and [++] keep their usual meaning and
    strings are appended with [+:+]. *)
#[global] Open Scope string_scope.
#[global] Open Scope list_scope.
#[global] Open Scope nat_scope.
#[global] Open Scope stdpp_scope.

(** [simpl] unfolds an append whose first argument starts with a
    character, and leaves the others folded. *)
#[global] Arguments String.append !_ _ / : simpl nomatch.

(** ** Go errors *)

(** The error values the sources create or compare against.  An [error]
    interface value is [option GoError]: [None] is Go's nil. *)
Inductive GoError : Type :=
| ErrInvalidDB
| ErrRecordNotFound
| ErrInvalidData
| ErrNew (msg : string)
| ErrWrap (msg : string) (inner : GoError).

Abbreviation error := (option GoError).

Definition nil_error : error := None.

#[global] Instance GoError_eq_dec : EqDecision GoError.
Proof. solve_decision. Defined.

(** [err.Error()]: the message a handler writes into a response. *)
Fixpoint error_message (e : GoError) : string :=
  match e with
  | ErrInvalidDB => "invalid db"
  | ErrRecordNotFound => "record not found"
  | ErrInvalidData => "unsupported data"
  | ErrNew msg => msg
  | ErrWrap msg inner => msg +:+ ": " +:+ error_message inner
  end.

(** [errors.Is (err, target)] for the wrapping the sources use. *)
Fixpoint error_is (target e : GoError) : bool :=
  bool_decide (e = target) ||
  match e with
  | ErrWrap _ inner => error_is target inner
  | _ => false
  end.

(** ** Calls that may panic *)

Inductive outcome (A : Type) : Type :=
| Ok (a : A)
| Panic (msg : string).

Arguments Ok {A} a.
Arguments Panic {A} msg.

#[global] Instance outcome_ret : MRet outcome := fun A a => Ok a.
#[global] Instance outcome_bind : MBind outcome := fun A B f m =>
  match m with
  | Ok a => f a
  | Panic msg => Panic msg
  end.
#[global] Instance outcome_fmap : FMap outcome := fun A B f m =>
  match m with
  | Ok a => Ok (f a)
  | Panic msg => Panic msg
  end.

Definition is_Ok {A} (m : outcome A) : bool :=
  match m with Ok _ => true | Panic _ => false end.

Definition is_Panic {A} (m : outcome A) : bool := negb (is_Ok m).

#[global] Instance outcome_eq_dec `{EqDecision A} : EqDecision (outcome A).
Proof. solve_decision. Defined.

(** A pointer that may be nil is an [option]: [p == nil], and the
    indirection [*p] or [p.f], which panics on nil. *)
Definition is_nil {A} (p : option A) : bool :=
  if p is None then true else false.

Definition indirect {A} (p : option A) : outcome A :=
  match p with
  | Some a => Ok a
  | None => Panic "invalid memory address or nil pointer dereference"
  end.

(** ** Automation *)

Create HintDb goblar discriminated.
Create Rewrite HintDb goblar_rw.

(** Unfold the monad operations of [outcome] in the goal and hypotheses. *)
Ltac outcome_simpl :=
  repeat (unfold mret, mbind, fmap, outcome_ret, outcome_bind, outcome_fmap in *;
          simpl in * ).

(** Split every boolean connective of the hypotheses into its parts. *)
Ltac destruct_bools :=
  repeat match goal with
  | H : _ && _ = true |- _ => apply andb_true_iff in H; destruct H
  | H : _ || _ = false |- _ => apply orb_false_iff in H; destruct H
  | H : negb _ = true |- _ => apply negb_true_iff in H
  | H : negb _ = false |- _ => apply negb_false_iff in H
  | H : bool_decide _ = true |- _ => apply bool_decide_eq_true in H
  | H : bool_decide _ = false |- _ => apply bool_decide_eq_false in H
  end.

(** ** Laws of [outcome] *)

Section outcome_laws.
Context {A B C : Type}.
Implicit Types (m : outcome A) (f : A -> outcome B) (g : B -> outcome C).

Lemma outcome_bind_ret_l (a : A) f : (mret a ≫= f) = f a.
Proof. reflexivity. Qed.

Lemma outcome_bind_ret_r m : (m ≫= mret) = m.
Proof. by destruct m. Qed.

Lemma outcome_bind_assoc m f g : ((m ≫= f) ≫= g) = (m ≫= fun a => f a ≫= g).
Proof. by destruct m. Qed.

Lemma outcome_bind_Ok m f (b : B) :
  (m ≫= f) = Ok b <-> exists a, m = Ok a /\ f a = Ok b.
Proof.
  destruct m as [a|msg]; outcome_simpl; split.
  - eauto.
  - by intros (a' & [= ->] & ?).
  - done.
  - by intros (? & ? & ?).
Qed.

Lemma outcome_bind_Panic m f msg :
  (m ≫= f) = Panic msg <-> m = Panic msg \/ exists a, m = Ok a /\ f a = Panic msg.
Proof.
  destruct m as [a|msg']; outcome_simpl; split.
  - eauto.
  - by intros [?|(a' & [= ->] & ?)].
  - intros [= ->]; by left.
  - by intros [[= ->]|(? & ? & ?)].
Qed.

Lemma is_Ok_true m : is_Ok m = true <-> exists a, m = Ok a.
Proof. destruct m; simpl; split; eauto; try done. by intros [? ?]. Qed.

End outcome_laws.

#[export] Hint Rewrite @outcome_bind_ret_l @outcome_bind_ret_r : goblar_rw.

(** ** Lists and options *)

Section list_facts.
Context {A B : Type}.
Implicit Types (l k : list A) (x y : A).

Lemma last_snoc l x : last (l ++ [x]) = Some x.
Proof. induction l as [|a [|b l] IH]; simpl in *; auto. Qed.

Lemma last_filter_snoc (P : A -> bool) l x :
  last (List.filter P (l ++ [x])) = if P x then Some x else last (List.filter P l).
Proof.
  rewrite List.filter_app; simpl. destruct (P x).
  - apply last_snoc.
  - by rewrite app_nil_r.
Qed.

Lemma foldl_snoc (f : B -> A -> B) (b : B) l x :
  foldl f b (l ++ [x]) = f (foldl f b l) x.
Proof. by rewrite foldl_app. Qed.

Lemma find_Some_In (P : A -> bool) l x : List.find P l = Some x -> In x l /\ P x = true.
Proof. apply List.find_some. Qed.

Lemma find_app (P : A -> bool) l k :
  List.find P (l ++ k) = match List.find P l with Some x => Some x | None => List.find P k end.
Proof. induction l as [|a l IH]; simpl; [done|]. by destruct (P a). Qed.

Lemma find_none_iff (P : A -> bool) l :
  List.find P l = None <-> forall x, In x l -> P x = false.
Proof.
  split; [apply List.find_none|].
  induction l as [|a l IH]; simpl; intros H; [done|].
  rewrite (H a) by auto. apply IH. auto.
Qed.

End list_facts.

(** A loop whose body may panic stays panicked, and filters compose. *)
Lemma foldl_bind_Panic {A B} (f : A -> B -> outcome A) msg l :
  foldl (fun acc b => a ← acc; f a b) (Panic msg) l = Panic msg.
Proof. by induction l. Qed.

Lemma filter_filter_andb {A} (P Q : A -> bool) l :
  List.filter P (List.filter Q l) = List.filter (fun x => Q x && P x) l.
Proof.
  induction l as [|x l IH]; [done|]. simpl.
  destruct (Q x); simpl; [destruct (P x)|]; by rewrite ?IH.
Qed.

#[export] Hint Rewrite @last_snoc @foldl_snoc : goblar_rw.
