(* ===== verification/GoStrings.v ===== *)
(** * GoStrings: the functions of Go's [strings] and [strconv] the sources call

    [Split], [Join], [TrimSpace], [HasPrefix], [TrimPrefix], [Contains],
    [ToLower] and [ParseInt], with the character classes the sources
    test by hand ([r >= 'A' && r <= 'Z'] and the like).  A string is a sequence of
    ASCII bytes, so a rune is an [ascii]; the separator of [Split] is the
    single byte every call of the sources passes.  These definitions
    model the Go standard library: they are the environment of the
    repository's code, and the laws below are what the components use of
    them. *)

From Stdlib Require Import ZArith Ascii String Lia.
From stdpp Require Import base tactics option list strings.
From S2P Require Import Prelude.

Abbreviation chars := list_ascii_of_string.
Abbreviation of_chars := string_of_list_ascii.

(** ** Runes *)

Definition code (c : ascii) : nat := nat_of_ascii c.

(** [byte(n)]: the conversion keeps the low eight bits. *)
Definition byte_of (n : nat) : ascii := ascii_of_nat (n mod 256).

Definition is_upper (c : ascii) : bool := (65 <=? code c) && (code c <=? 90).

Definition is_lower (c : ascii) : bool := (97 <=? code c) && (code c <=? 122).

Definition is_underscore (c : ascii) : bool := bool_decide (c = "_"%char).

(** The ASCII white space of [unicode.IsSpace]: tab, line feed, vertical
    tab, form feed, carriage return and space. *)
Definition is_space (c : ascii) : bool :=
  ((9 <=? code c) && (code c <=? 13)) || (code c =? 32).

Definition lower_rune (c : ascii) : ascii :=
  if is_upper c then byte_of (code c + 32) else c.

(** ** The functions *)

Fixpoint ToLower (s : string) : string :=
  match s with
  | "" => ""
  | String c s' => String (lower_rune c) (ToLower s')
  end.

Fixpoint Split (s : string) (sep : ascii) : list string :=
  match s with
  | "" => [""]
  | String c s' =>
      if decide (c = sep) then "" :: Split s' sep
      else match Split s' sep with
           | p :: ps => String c p :: ps
           | [] => [String c ""]
           end
  end.

Fixpoint Join (parts : list string) (sep : ascii) : string :=
  match parts with
  | [] => ""
  | p :: ps =>
      match ps with
      | [] => p
      | _ :: _ => p +:+ String sep (Join ps sep)
      end
  end.

Fixpoint trim_left (s : string) : string :=
  match s with
  | "" => ""
  | String c s' => if is_space c then trim_left s' else s
  end.

Fixpoint trim_right (s : string) : string :=
  match s with
  | "" => ""
  | String c s' =>
      match trim_right s' with
      | "" => if is_space c then "" else String c ""
      | t => String c t
      end
  end.

Definition TrimSpace (s : string) : string := trim_right (trim_left s).

Fixpoint HasPrefix (s prefix : string) {struct prefix} : bool :=
  match prefix, s with
  | "", _ => true
  | String a p', String b s' => bool_decide (a = b) && HasPrefix s' p'
  | String _ _, "" => false
  end.

Fixpoint drop_string (n : nat) (s : string) : string :=
  match n, s with
  | 0, _ => s
  | S n', String _ s' => drop_string n' s'
  | S _, "" => ""
  end.

Definition TrimPrefix (s prefix : string) : string :=
  if HasPrefix s prefix then drop_string (String.length prefix) s else s.

Fixpoint Contains (s substr : string) : bool :=
  HasPrefix s substr ||
  match s with
  | "" => false
  | String _ s' => Contains s' substr
  end.

(** ** strconv *)

(** The value of a decimal digit. *)
Definition digit_of (c : ascii) : option Z :=
  if (48 <=? code c) && (code c <=? 57) then Some (Z.of_nat (code c - 48)) else None.

Fixpoint parse_digits (acc : Z) (cs : list ascii) : option Z :=
  match cs with
  | [] => Some acc
  | c :: rest => d ← digit_of c; parse_digits (10 * acc + d)%Z rest
  end.

(** [strconv.ParseInt(s, 10, 64)]: an optional sign and at least one
    decimal digit, in the range of int64; [None] is the error. *)
Definition ParseInt (s : string) : option Z :=
  match chars s with
  | [] => None
  | c :: rest =>
      let '(neg, ds) :=
        if bool_decide (c = "+"%char) then (false, rest)
        else if bool_decide (c = "-"%char) then (true, rest)
        else (false, c :: rest) in
      match ds with
      | [] => None
      | _ =>
          un ← parse_digits 0 ds;
          if neg then (if (un <=? 2 ^ 63)%Z then Some (- un)%Z else None)
          else (if (un <? 2 ^ 63)%Z then Some un else None)
      end
  end.

(** ** Facts about runes *)

Lemma is_upper_lower_rune c : is_upper (lower_rune c) = false.
Proof. by destruct c as [[] [] [] [] [] [] [] []]. Qed.

Lemma is_upper_not_lower c : is_upper c = true -> is_lower c = false.
Proof. by destruct c as [[] [] [] [] [] [] [] []]. Qed.

Lemma is_upper_not_underscore c : is_upper c = true -> is_underscore c = false.
Proof. by destruct c as [[] [] [] [] [] [] [] []]. Qed.

Lemma is_lower_not_underscore c : is_lower c = true -> is_underscore c = false.
Proof. by destruct c as [[] [] [] [] [] [] [] []]. Qed.

Lemma lower_rune_id c : is_upper c = false -> lower_rune c = c.
Proof. unfold lower_rune. by intros ->. Qed.

Lemma lower_rune_idemp c : lower_rune (lower_rune c) = lower_rune c.
Proof. apply lower_rune_id, is_upper_lower_rune. Qed.

Lemma lower_rune_underscore c :
  is_underscore (lower_rune c) = is_underscore c.
Proof. by destruct c as [[] [] [] [] [] [] [] []]. Qed.

Lemma is_underscore_true c : is_underscore c = true <-> c = "_"%char.
Proof. unfold is_underscore. by rewrite bool_decide_eq_true. Qed.

#[export] Hint Rewrite is_upper_lower_rune lower_rune_idemp lower_rune_underscore
  : goblar_rw.

(** ** Strings as lists of characters *)

Lemma chars_of_chars l : chars (of_chars l) = l.
Proof. apply list_ascii_of_string_of_list_ascii. Qed.

Lemma chars_app s t : chars (s +:+ t) = chars s ++ chars t.
Proof. induction s as [|c s IH]; simpl; [done|]. by rewrite IH. Qed.

Lemma chars_inj s t : chars s = chars t -> s = t.
Proof.
  intros H. rewrite <- (string_of_list_ascii_of_string s),
    <- (string_of_list_ascii_of_string t). by rewrite H.
Qed.

Lemma string_app_nil_r s : s +:+ "" = s.
Proof. induction s as [|c s IH]; simpl; [done|]. by rewrite IH. Qed.

Lemma string_app_assoc s t u : (s +:+ t) +:+ u = s +:+ (t +:+ u).
Proof. induction s as [|c s IH]; simpl; [done|]. by rewrite IH. Qed.

Lemma string_length_app s t :
  String.length (s +:+ t) = String.length s + String.length t.
Proof. induction s as [|c s IH]; simpl; [done|]. by rewrite IH. Qed.

Lemma chars_length s : length (chars s) = String.length s.
Proof. induction s as [|c s IH]; simpl; [done|]. by rewrite IH. Qed.

(** ** [ToLower] *)

Lemma ToLower_chars s : chars (ToLower s) = lower_rune <$> chars s.
Proof. induction s as [|c s IH]; simpl; [done|]. by rewrite IH. Qed.

Lemma ToLower_of_chars l : ToLower (of_chars l) = of_chars (lower_rune <$> l).
Proof. induction l as [|c l IH]; simpl; [done|]. by rewrite IH. Qed.

Lemma ToLower_length s : String.length (ToLower s) = String.length s.
Proof. induction s as [|c s IH]; simpl; [done|]. by rewrite IH. Qed.

Lemma ToLower_app s t : ToLower (s +:+ t) = ToLower s +:+ ToLower t.
Proof. induction s as [|c s IH]; simpl; [done|]. by rewrite IH. Qed.

Lemma ToLower_idemp s : ToLower (ToLower s) = ToLower s.
Proof.
  induction s as [|c s IH]; simpl; [done|]. by rewrite IH, lower_rune_idemp.
Qed.

Lemma ToLower_no_upper s : Forall (fun c => is_upper c = false) (chars (ToLower s)).
Proof.
  induction s as [|c s IH]; simpl; constructor; auto using is_upper_lower_rune.
Qed.

Lemma ToLower_id s :
  Forall (fun c => is_upper c = false) (chars s) -> ToLower s = s.
Proof.
  induction s as [|c s IH]; simpl; [done|].
  intros [Hc Hs]%Forall_cons. by rewrite IH, lower_rune_id.
Qed.

(** ** [Split] and [Join] *)

Lemma Split_nonempty s sep : Split s sep <> [].
Proof.
  destruct s as [|c s]; simpl; [done|].
  case_decide; [done|]. by destruct (Split s sep).
Qed.

Lemma Split_cons s sep : exists p ps, Split s sep = p :: ps.
Proof.
  destruct (Split s sep) as [|p ps] eqn:E; [|eauto].
  by destruct (Split_nonempty s sep).
Qed.

Lemma Join_cons_cons p q ps sep :
  Join (p :: q :: ps) sep = p +:+ String sep (Join (q :: ps) sep).
Proof. reflexivity. Qed.

(** Joining the parts of [s] with the separator gives [s] back. *)
Lemma Join_Split s sep : Join (Split s sep) sep = s.
Proof.
  induction s as [|c s IH]; simpl; [done|].
  destruct (Split_cons s sep) as (p & ps & E). rewrite E in *.
  destruct (decide (c = sep)) as [->|Hne].
  - rewrite Join_cons_cons. simpl. f_equal. exact IH.
  - destruct ps as [|q ps]; simpl; f_equal; exact IH.
Qed.

(** No part holds the separator. *)
Lemma Split_no_sep s sep : Forall (fun p => ~ In sep (chars p)) (Split s sep).
Proof.
  induction s as [|c s IH]; simpl.
  - constructor; [|constructor]. by intros [].
  - destruct (Split_cons s sep) as (p & ps & E). rewrite E in *.
    apply Forall_cons in IH as [Hp Hps].
    destruct (decide (c = sep)) as [->|Hne].
    + repeat constructor; auto.
    + constructor; [|done]. simpl. intros [?|?]; by subst.
Qed.

(** There is one more part than separators. *)
Lemma Split_length s sep :
  length (Split s sep) = S (count_occ ascii_dec (chars s) sep).
Proof.
  induction s as [|c s IH]; simpl; [done|].
  destruct (Split_cons s sep) as (p & ps & E). rewrite E in *.
  destruct (ascii_dec c sep) as [->|Hne].
  - rewrite decide_True by done. simpl. by rewrite <- IH.
  - rewrite decide_False by done. simpl in *. done.
Qed.

Lemma Split_no_occurrence s sep : ~ In sep (chars s) -> Split s sep = [s].
Proof.
  induction s as [|c s IH]; simpl; [done|]. intros H.
  rewrite decide_False by (intros ->; auto). rewrite IH by auto. done.
Qed.

(** Splitting a joined list of separator-free parts gives the parts back. *)
Lemma Split_Join parts sep :
  parts <> [] ->
  Forall (fun p => ~ In sep (chars p)) parts ->
  Split (Join parts sep) sep = parts.
Proof.
  induction parts as [|p ps IH]; [done|]. intros _ [Hp Hps]%Forall_cons.
  destruct ps as [|q ps].
  - simpl. by apply Split_no_occurrence.
  - rewrite Join_cons_cons.
    assert (IH' : Split (Join (q :: ps) sep) sep = q :: ps) by by apply IH.
    clear IH. revert Hp. generalize (Join (q :: ps) sep) IH'. intros j Hj.
    induction p as [|c p IHp]; simpl; intros Hp.
    + rewrite decide_True by done. by rewrite Hj.
    + rewrite decide_False by (intros ->; apply Hp; by left).
      rewrite IHp by (intros ?; apply Hp; by right). done.
Qed.

(** ** [TrimSpace] *)

Lemma trim_left_no_space s :
  match s with String c _ => is_space c = false | "" => True end ->
  trim_left s = s.
Proof. destruct s as [|c s]; simpl; [done|]. by intros ->. Qed.

Lemma trim_left_head s :
  match trim_left s with String c _ => is_space c = false | "" => True end.
Proof.
  induction s as [|c s IH]; simpl; [done|].
  by destruct (is_space c) eqn:E.
Qed.

Lemma trim_left_idemp s : trim_left (trim_left s) = trim_left s.
Proof. apply trim_left_no_space, trim_left_head. Qed.

Lemma trim_right_all_space s :
  trim_right s = "" <-> Forall (fun c => is_space c = true) (chars s).
Proof.
  induction s as [|c s IH]; simpl.
  - split; [constructor|done].
  - destruct (trim_right s) as [|d t] eqn:E.
    + destruct (is_space c) eqn:Ec; split; try done.
      * intros _. constructor; [done|]. by apply IH.
      * intros [? ?]%Forall_cons. congruence.
    + split; [done|]. intros [_ H]%Forall_cons. by apply IH in H.
Qed.

Lemma trim_right_idemp s : trim_right (trim_right s) = trim_right s.
Proof.
  induction s as [|c s IH]; simpl; [done|].
  destruct (trim_right s) as [|d t] eqn:E.
  - destruct (is_space c) eqn:Ec; simpl; [done|]. by rewrite Ec.
  - simpl in *. rewrite IH. done.
Qed.

Lemma trim_right_head s c t :
  s = String c t -> is_space c = false ->
  exists t', trim_right s = String c t'.
Proof.
  intros -> Hc. simpl. destruct (trim_right t); rewrite ?Hc; eauto.
Qed.

(** Trimming keeps the first character of a string that starts with a
    character other than white space. *)
Lemma trim_left_trim_right s : trim_left (trim_right (trim_left s)) = trim_right (trim_left s).
Proof.
  pose proof (trim_left_head s) as H.
  destruct (trim_left s) as [|c t] eqn:E; [done|].
  destruct (trim_right_head (String c t) c t eq_refl H) as (t' & ->).
  simpl. by rewrite H.
Qed.

Lemma TrimSpace_idemp s : TrimSpace (TrimSpace s) = TrimSpace s.
Proof.
  unfold TrimSpace. by rewrite trim_left_trim_right, trim_right_idemp.
Qed.

Lemma trim_right_no_space s :
  Forall (fun c => is_space c = false) (chars s) -> trim_right s = s.
Proof.
  induction s as [|c s IH]; simpl; [done|].
  intros [Hc Hs]%Forall_cons. rewrite IH by done. rewrite Hc. by destruct s.
Qed.

(** A string with no white space is its own trimming. *)
Lemma TrimSpace_no_space s :
  Forall (fun c => is_space c = false) (chars s) -> TrimSpace s = s.
Proof.
  intros H. unfold TrimSpace. rewrite trim_left_no_space.
  - by apply trim_right_no_space.
  - destruct s; [done|]. by apply Forall_cons in H as [? _].
Qed.

(** ** [HasPrefix], [TrimPrefix] and [Contains] *)

Lemma HasPrefix_app p r : HasPrefix (p +:+ r) p = true.
Proof.
  induction p as [|c p IH]; simpl; [done|].
  by rewrite bool_decide_true, IH.
Qed.

Lemma HasPrefix_iff s p : HasPrefix s p = true <-> exists r, s = p +:+ r.
Proof.
  split; [|intros [r ->]; apply HasPrefix_app].
  revert s. induction p as [|c p IH]; intros s; simpl; [eauto|].
  destruct s as [|d s]; [done|]. intros H. destruct_bools. subst.
  destruct (IH s) as [r ->]; eauto.
Qed.

Lemma HasPrefix_empty s : HasPrefix s "" = true.
Proof. done. Qed.

Lemma drop_string_app p r : drop_string (String.length p) (p +:+ r) = r.
Proof. induction p as [|c p IH]; simpl; [by destruct r|done]. Qed.

Lemma TrimPrefix_app p r : TrimPrefix (p +:+ r) p = r.
Proof. unfold TrimPrefix. by rewrite HasPrefix_app, drop_string_app. Qed.

Lemma TrimPrefix_no_prefix s p : HasPrefix s p = false -> TrimPrefix s p = s.
Proof. unfold TrimPrefix. by intros ->. Qed.

(** What [TrimPrefix] removes is the prefix. *)
Lemma TrimPrefix_HasPrefix s p :
  HasPrefix s p = true -> s = p +:+ TrimPrefix s p.
Proof. intros [r ->]%HasPrefix_iff. by rewrite TrimPrefix_app. Qed.

Lemma Contains_iff s sub :
  Contains s sub = true <-> exists a b, s = a +:+ (sub +:+ b).
Proof.
  split.
  - induction s as [|c s IH]; simpl; intros H.
    + rewrite orb_false_r in H. apply HasPrefix_iff in H as [r Hr].
      by exists "", r.
    + apply orb_true_iff in H as [H|H].
      * apply HasPrefix_iff in H as [r Hr]. by exists "", r.
      * destruct (IH H) as (a & b & ->). by exists (String c a), b.
  - intros (a & b & ->). induction a as [|c a IH]; simpl.
    + destruct (sub +:+ b) eqn:E; simpl.
      * destruct sub; [done|discriminate].
      * rewrite <- E, HasPrefix_app. done.
    + rewrite IH. apply orb_true_r.
Qed.

Lemma Contains_empty s : Contains "" s = bool_decide (s = "").
Proof. by destruct s. Qed.

#[export] Hint Rewrite HasPrefix_app TrimPrefix_app Join_Split ToLower_idemp
  TrimSpace_idemp : goblar_rw.

(** The components reason about these functions through the laws above:
    [simpl] leaves their applications folded. *)
(** Splitting at a separator splits both sides. *)
Lemma Split_app_sep a b sep :
  Split (a +:+ String sep b) sep = Split a sep ++ Split b sep.
Proof.
  induction a as [|c a IH]; simpl.
  - by rewrite decide_True.
  - rewrite IH. case_decide; [done|].
    destruct (Split_cons a sep) as (p & ps & ->). done.
Qed.

(** ** [ParseInt] *)

Lemma digit_of_range c d : digit_of c = Some d -> (0 <= d <= 9)%Z.
Proof.
  unfold digit_of. destruct (_ && _) eqn:Hc; [|done]. intros [= <-].
  apply andb_true_iff in Hc as [?%Nat.leb_le ?%Nat.leb_le]. lia.
Qed.

Lemma parse_digits_nonneg cs acc n :
  parse_digits acc cs = Some n -> (0 <= acc)%Z -> (0 <= n)%Z.
Proof.
  revert acc. induction cs as [|c cs IH]; intros acc; simpl; [by intros [= <-]|].
  destruct (digit_of c) as [d|] eqn:Hd; [|done]. simpl. intros Hp Hacc.
  apply digit_of_range in Hd. apply (IH _ Hp). lia.
Qed.

(** What [ParseInt] accepts is an int64. *)
Lemma ParseInt_range s n : ParseInt s = Some n -> (- 2 ^ 63 <= n < 2 ^ 63)%Z.
Proof.
  unfold ParseInt. destruct (chars s) as [|c rest]; [done|].
  destruct (if bool_decide (c = "+"%char) then _ else _) as [neg ds].
  destruct ds as [|d ds]; [done|].
  destruct (parse_digits 0 (d :: ds)) as [un|] eqn:Hp; [|done]. simpl.
  apply parse_digits_nonneg in Hp; [|done].
  destruct neg.
  - destruct (Z.leb_spec un (2 ^ 63)); [|done]. intros [= <-]. lia.
  - destruct (Z.ltb_spec un (2 ^ 63)); [|done]. intros [= <-]. lia.
Qed.

Lemma ParseInt_empty : ParseInt "" = None.
Proof. reflexivity. Qed.

#[global] Arguments HasPrefix : simpl never.
#[global] Arguments TrimPrefix : simpl never.
#[global] Arguments Contains : simpl never.
#[global] Arguments TrimSpace : simpl never.
#[global] Arguments Split : simpl never.
