(* ===== verification/Naming.v ===== *)
(** * Naming: the two identifier transforms

    [toSnakeCase] (src/internal/meta/parse.go) derives the default table
    name of an entity, [toURLPath] (the router part of
    src/internal/hooks/hooks.go) its URL segment.  Both are loops over
    the characters of the name with an index; each is translated as the
    loop is written ([snake_write] and [url_write] are one iteration,
    reading [runes[i-1]] and [runes[i+1]] by index) and then shown equal
    to a structurally recursive reference that carries the previous
    character along.  [rune_at] reads an index without Go's bounds
    check; [toSnakeCase_checked] is the same loop with the check at
    every index expression and the conjunctions evaluated from the left
    as Go evaluates them, and [toSnakeCase_in_range] shows that no check
    fails, so that the two are one function.

    Strings are sequences of 8-bit characters: the loops are those of
    the sources on names of ASCII characters, as Go identifiers of the
    examples are, where a rune is a byte and a byte index a rune
    index. *)

From Stdlib Require Import Ascii String Lia.
From stdpp Require Import base tactics option list strings.
From S2P Require Import Prelude GoStrings.

#[local] Set Warnings "-clear-no-such-hyp".

Module Naming.

(** [runes[i]] for an index the loop has checked to be in range. *)
Definition rune_at (runes : list ascii) (i : nat) : ascii :=
  nth i runes "000"%char.

(** ** toSnakeCase *)

(** What the iteration at index [i] with rune [r] writes to the builder. *)
Definition snake_write (runes : list ascii) (i : nat) (r : ascii) : list ascii :=
  if i =? 0 then [r]
  else if is_underscore r then [r]
  else if is_upper r then
    (if negb (is_underscore (rune_at runes (i - 1))) && is_lower (rune_at runes (i - 1))
     then ["_"%char]
     else if negb (is_underscore (rune_at runes (i - 1)))
             && (i + 1 <? length runes) && is_lower (rune_at runes (i + 1))
     then ["_"%char]
     else []) ++ [r]
  else [r].

Definition toSnakeCase (s : string) : string :=
  let runes := chars s in
  let result := concat (imap (snake_write runes) runes) in
  ToLower (of_chars result).

(** [runes[i]] as Go evaluates it: a panic when the index is out of
    range. *)
Definition rune_index (runes : list ascii) (i : nat) : outcome ascii :=
  match runes !! i with
  | Some r => Ok r
  | None => Panic "index out of range"
  end.

(** The iteration at index [i] with the index expressions checked:
    [runes[i-1]] is read when [r] is an upper-case letter at an index
    after the first, [runes[i+1]] only behind the test [i+1 <
    len(runes)]. *)
Definition snake_write_checked (runes : list ascii) (i : nat) (r : ascii)
    : outcome (list ascii) :=
  if i =? 0 then Ok [r]
  else if is_underscore r then Ok [r]
  else if is_upper r then
    prev ← rune_index runes (i - 1);
    if negb (is_underscore prev) && is_lower prev then Ok ["_"%char; r]
    else if negb (is_underscore prev) && (i + 1 <? length runes) then
      next ← rune_index runes (i + 1);
      Ok ((if is_lower next then ["_"%char] else []) ++ [r])
    else Ok [r]
  else Ok [r].

Definition toSnakeCase_checked (s : string) : outcome string :=
  let runes := chars s in
  result ← foldl (fun acc ir => out ← acc;
                                w ← snake_write_checked runes ir.1 ir.2;
                                mret (out ++ w))
                 (mret []) (imap pair runes);
  Ok (ToLower (of_chars result)).

(** The reference: whether an underscore goes before [r], given the
    character before it and the characters after it. *)
Definition snake_boundary (prev r : ascii) (rest : list ascii) : bool :=
  is_upper r && negb (is_underscore prev) &&
  (is_lower prev || match rest with next :: _ => is_lower next | [] => false end).

Fixpoint snake_rec (prev : ascii) (rs : list ascii) : list ascii :=
  match rs with
  | [] => []
  | r :: rest =>
      (if snake_boundary prev r rest then ["_"%char; r] else [r]) ++ snake_rec r rest
  end.

Definition snake_ref (s : string) : string :=
  match chars s with
  | [] => ""
  | r :: rest => ToLower (of_chars (r :: snake_rec r rest))
  end.

(** ** toURLPath *)

(** What the iteration at byte index [i] with rune [r] appends. *)
Definition url_write (i : nat) (r : ascii) : list ascii :=
  (if (0 <? i) && is_upper r then ["-"%char] else [])
  ++ [byte_of (code r + code "a"%char - code "A"%char + 1)].

Definition toURLPath (s : string) : string :=
  of_chars (concat (imap url_write (chars s))).

(** The reference: every character shifted by 33, a dash before each
    upper-case character but the first. *)
Definition url_shift (r : ascii) : ascii := byte_of (code r + 33).

Fixpoint url_rec (rs : list ascii) : list ascii :=
  match rs with
  | [] => []
  | r :: rest => (if is_upper r then ["-"%char; url_shift r] else [url_shift r]) ++ url_rec rest
  end.

Definition url_ref (s : string) : string :=
  match chars s with
  | [] => ""
  | r :: rest => of_chars (url_shift r :: url_rec rest)
  end.

(** The lower-casing the comment of [toURLPath] announces. *)
Definition url_intended (s : string) : string :=
  match chars s with
  | [] => ""
  | r :: rest =>
      of_chars (lower_rune r ::
                flat_map (fun c => if is_upper c then ["-"%char; lower_rune c] else [c]) rest)
  end.

(** ** The loop and the reference agree *)

Section equivalence.
Implicit Types (pre rest rs : list ascii) (prev r : ascii).

Lemma rune_at_app_r pre rs i :
  rune_at (pre ++ rs) (length pre + i) = rune_at rs i.
Proof. unfold rune_at. rewrite app_nth2 by lia. f_equal. lia. Qed.

Lemma rune_at_last pre prev rs :
  rune_at ((pre ++ [prev]) ++ rs) (length (pre ++ [prev]) - 1) = prev.
Proof.
  unfold rune_at. rewrite length_app. simpl.
  rewrite <- app_assoc. rewrite app_nth2 by lia.
  replace (length pre + 1 - 1 - length pre) with 0 by lia. done.
Qed.

(** One iteration, at a position after the first, is the reference's
    choice. *)
Lemma snake_write_boundary pre prev r rest :
  snake_write ((pre ++ [prev]) ++ r :: rest) (length (pre ++ [prev])) r
  = if snake_boundary prev r rest then ["_"%char; r] else [r].
Proof.
  unfold snake_write, snake_boundary.
  assert ((length (pre ++ [prev]) =? 0) = false) as ->.
  { apply Nat.eqb_neq. rewrite length_app. simpl. lia. }
  rewrite rune_at_last.
  replace (length (pre ++ [prev]) + 1) with (length (pre ++ [prev]) + 1 + 0) by lia.
  rewrite <- Nat.add_assoc, rune_at_app_r.
  assert ((length (pre ++ [prev]) + (1 + 0) <? length ((pre ++ [prev]) ++ r :: rest))
          = bool_decide (rest <> [])) as ->.
  { rewrite (length_app _ (r :: rest)). simpl.
    destruct rest; simpl; [apply Nat.ltb_ge|apply Nat.ltb_lt]; lia. }
  destruct (is_underscore r) eqn:Hu.
  { destruct (is_upper r) eqn:Hup; [|done].
    apply is_upper_not_underscore in Hup. congruence. }
  destruct (is_upper r); [|done]. simpl.
  destruct (is_underscore prev); simpl; [done|].
  destruct (is_lower prev); simpl; [done|].
  destruct rest as [|next rest]; simpl; [done|].
  unfold rune_at; simpl. by destruct (is_lower next).
Qed.

Lemma snake_loop_rec pre prev rs :
  concat (imap (fun j => snake_write ((pre ++ [prev]) ++ rs) (length (pre ++ [prev]) + j)) rs)
  = snake_rec prev rs.
Proof.
  revert pre prev. induction rs as [|r rest IH]; intros pre prev; [done|].
  rewrite imap_cons. simpl concat. rewrite Nat.add_0_r, snake_write_boundary.
  simpl. f_equal.
  specialize (IH (pre ++ [prev]) r).
  rewrite <- IH. f_equal. apply imap_ext. intros j x _. simpl.
  rewrite <- !app_assoc. simpl. f_equal.
  rewrite !length_app. simpl. lia.
Qed.

(** The loop of [toSnakeCase] computes the recursive reference. *)
Lemma toSnakeCase_snake_ref s : toSnakeCase s = snake_ref s.
Proof.
  unfold toSnakeCase, snake_ref. destruct (chars s) as [|r rest]; [done|].
  rewrite imap_cons. simpl concat. f_equal. f_equal.
  change (snake_write (r :: rest) 0 r) with [r]. simpl. f_equal.
  rewrite <- (snake_loop_rec [] r rest). f_equal.
Qed.

Lemma url_write_shift i r :
  url_write i r = (if (0 <? i) && is_upper r then ["-"%char] else []) ++ [url_shift r].
Proof.
  unfold url_write, url_shift. do 3 f_equal.
  change (code "a"%char) with 97. change (code "A"%char) with 65. lia.
Qed.

Lemma url_loop_rec k rs :
  concat (imap (fun j => url_write (S (k + j))) rs) = url_rec rs.
Proof.
  revert k. induction rs as [|r rest IH]; intros k; [done|].
  rewrite imap_cons. simpl concat. rewrite url_write_shift. simpl.
  rewrite <- (IH (S k)).
  assert (imap ((fun j => url_write (S (k + j))) ∘ S) rest
          = imap (fun j => url_write (S (S k + j))) rest) as ->.
  { apply imap_ext. intros j x _. simpl. by rewrite Nat.add_succ_r. }
  by destruct (is_upper r).
Qed.

End equivalence.

(** The loop of [toURLPath] computes the recursive reference. *)
Lemma toURLPath_url_ref s : toURLPath s = url_ref s.
Proof.
  unfold toURLPath, url_ref. destruct (chars s) as [|r rest]; [done|].
  rewrite imap_cons, url_write_shift. simpl. do 2 f_equal.
  apply (url_loop_rec 0).
Qed.

(** ** The characters of a URL path *)

Lemma url_rec_In c rs :
  In c (url_rec rs) -> c = "-"%char \/ exists r, In r rs /\ c = url_shift r.
Proof.
  induction rs as [|r rest IH]; [done|]. simpl. rewrite in_app_iff.
  intros [Hc|Hc].
  - destruct (is_upper r); simpl in Hc; naive_solver.
  - destruct (IH Hc) as [?|(r' & ? & ?)]; naive_solver.
Qed.

Lemma url_rec_shift r rs : In r rs -> In (url_shift r) (url_rec rs).
Proof.
  induction rs as [|r' rest IH]; [done|]. simpl. rewrite in_app_iff.
  intros [->|Hr]; [left|right; by apply IH].
  destruct (is_upper r); simpl; tauto.
Qed.

Lemma chars_toURLPath s :
  chars (toURLPath s)
  = match chars s with [] => [] | r :: rest => url_shift r :: url_rec rest end.
Proof.
  rewrite toURLPath_url_ref. unfold url_ref.
  destruct (chars s); [done|]. by rewrite chars_of_chars.
Qed.

Lemma url_shift_open r : url_shift r = "{"%char <-> r = "Z"%char.
Proof.
  split; [|by intros ->].
  destruct r as [[] [] [] [] [] [] [] []]; vm_compute; intros [=]; reflexivity.
Qed.

Lemma url_shift_close r : url_shift r = "}"%char <-> r = "092"%char.
Proof.
  split; [|by intros ->].
  destruct r as [[] [] [] [] [] [] [] []]; vm_compute; intros [=]; reflexivity.
Qed.

Lemma toURLPath_open s : In "{"%char (chars (toURLPath s)) <-> In "Z"%char (chars s).
Proof.
  rewrite chars_toURLPath. destruct (chars s) as [|r rest]; [done|]. simpl.
  rewrite url_shift_open. split.
  - intros [?|[[=]|(r' & ? & ?%eq_sym%url_shift_open)]%url_rec_In]; subst; auto.
  - intros [->|Hin]; [by left|right].
    change "{"%char with (url_shift "Z"). by apply url_rec_shift.
Qed.

Lemma toURLPath_close s : In "}"%char (chars (toURLPath s)) -> In "092"%char (chars s).
Proof.
  rewrite chars_toURLPath. destruct (chars s) as [|r rest]; [done|]. simpl.
  rewrite url_shift_close.
  intros [?|[[=]|(r' & ? & ?%eq_sym%url_shift_close)]%url_rec_In]; subst; auto.
Qed.

(** ** Properties of the reference of [toSnakeCase] *)

Definition not_underscore (c : ascii) : bool := negb (is_underscore c).

(** Two underscores next to each other. *)
Fixpoint adjacent_underscores (l : list ascii) : bool :=
  match l with
  | [] => false
  | a :: t =>
      match t with
      | [] => false
      | b :: _ => (is_underscore a && is_underscore b) || adjacent_underscores t
      end
  end.

Section snake_rec_facts.
Implicit Types (rs : list ascii) (prev r : ascii).

Lemma snake_boundary_upper prev r rest :
  snake_boundary prev r rest = true -> is_upper r = true /\ is_underscore prev = false.
Proof. unfold snake_boundary. intros H. by destruct_bools. Qed.

Lemma snake_rec_erase prev rs :
  List.filter not_underscore (snake_rec prev rs) = List.filter not_underscore rs.
Proof.
  revert prev. induction rs as [|r rest IH]; intros prev; [done|].
  simpl. destruct (snake_boundary prev r rest); simpl; by rewrite IH.
Qed.

Lemma snake_rec_length prev rs :
  length rs <= length (snake_rec prev rs) <= 2 * length rs.
Proof.
  revert prev. induction rs as [|r rest IH]; intros prev; simpl; [lia|].
  specialize (IH r). destruct (snake_boundary prev r rest); simpl; lia.
Qed.

Lemma snake_rec_no_upper prev rs :
  Forall (fun c => is_upper c = false) rs -> snake_rec prev rs = rs.
Proof.
  revert prev. induction rs as [|r rest IH]; intros prev; [done|].
  intros [Hr Hrest]%Forall_cons. simpl. unfold snake_boundary.
  rewrite Hr. simpl. by rewrite IH.
Qed.

Lemma adjacent_underscores_cons a b t :
  adjacent_underscores (a :: b :: t)
  = (is_underscore a && is_underscore b) || adjacent_underscores (b :: t).
Proof. reflexivity. Qed.

Lemma snake_rec_adjacent prev rs :
  adjacent_underscores (prev :: snake_rec prev rs) = adjacent_underscores (prev :: rs).
Proof.
  revert prev. induction rs as [|r rest IH]; intros prev; [done|].
  cbn [snake_rec]. destruct (snake_boundary prev r rest) eqn:Hb; cbn [app].
  - apply snake_boundary_upper in Hb as [Hup Hprev].
    rewrite !adjacent_underscores_cons, IH, Hprev.
    by rewrite (is_upper_not_underscore r Hup), andb_false_r.
  - by rewrite !adjacent_underscores_cons, IH.
Qed.

Lemma adjacent_underscores_fmap l :
  adjacent_underscores (lower_rune <$> l) = adjacent_underscores l.
Proof.
  induction l as [|a [|b t] IH]; [done..|].
  change (lower_rune <$> a :: b :: t) with (lower_rune a :: lower_rune b :: (lower_rune <$> t)).
  rewrite !adjacent_underscores_cons, !lower_rune_underscore. f_equal. exact IH.
Qed.

Lemma filter_not_underscore_fmap l :
  List.filter not_underscore (lower_rune <$> l)
  = lower_rune <$> List.filter not_underscore l.
Proof.
  induction l as [|a l IH]; [done|]. csimpl.
  assert (not_underscore (lower_rune a) = not_underscore a) as ->
    by (unfold not_underscore; by rewrite lower_rune_underscore).
  destruct (not_underscore a); csimpl; by rewrite IH.
Qed.

End snake_rec_facts.

Lemma fmap_lower_rune_id l :
  Forall (fun c => is_upper c = false) l -> lower_rune <$> l = l.
Proof. induction 1 as [|c l Hc _ IH]; csimpl; [done|]. by rewrite lower_rune_id, IH. Qed.

Lemma chars_snake_ref r rest :
  chars (snake_ref (of_chars (r :: rest))) = lower_rune <$> (r :: snake_rec r rest).
Proof. unfold snake_ref. by rewrite chars_of_chars, ToLower_chars, chars_of_chars. Qed.

Lemma chars_toSnakeCase s :
  chars (toSnakeCase s)
  = match chars s with
    | [] => []
    | r :: rest => lower_rune <$> (r :: snake_rec r rest)
    end.
Proof.
  rewrite toSnakeCase_snake_ref. unfold snake_ref.
  destruct (chars s) as [|r rest]; [done|]. by rewrite ToLower_chars, chars_of_chars.
Qed.

(** ** What [toSnakeCase] guarantees *)

(** The conversion table of the parser's tests:
    UserName, ID, Product and HTTPServer become user_name, id, product
    and http_server. *)
Theorem toSnakeCase_table :
  toSnakeCase "UserName" = "user_name" /\ toSnakeCase "ID" = "id" /\
  toSnakeCase "Product" = "product" /\ toSnakeCase "HTTPServer" = "http_server".
Proof. by vm_compute. Qed.

(** ** The index expressions are in range *)

Lemma rune_index_at runes i r : runes !! i = Some r -> rune_index runes i = Ok (rune_at runes i).
Proof.
  intros Hi. unfold rune_index, rune_at. rewrite Hi. f_equal.
  by rewrite nth_lookup, Hi.
Qed.

(** One iteration of the loop, at an index of the slice, passes its
    checks and writes what the unchecked iteration writes. *)
Lemma snake_write_in_range runes i r :
  runes !! i = Some r -> snake_write_checked runes i r = Ok (snake_write runes i r).
Proof.
  intros Hi. unfold snake_write_checked, snake_write.
  destruct (i =? 0) eqn:H0; [done|]. apply Nat.eqb_neq in H0.
  destruct (is_underscore r); [done|]. destruct (is_upper r); [|done].
  apply lookup_lt_Some in Hi as Hlt.
  destruct (lookup_lt_is_Some_2 runes (i - 1) ltac:(lia)) as [prev Hprev].
  rewrite (rune_index_at runes (i - 1) prev Hprev). cbn [mbind outcome_bind].
  destruct (negb (is_underscore (rune_at runes (i - 1))) && is_lower (rune_at runes (i - 1)));
    [done|].
  destruct (negb (is_underscore (rune_at runes (i - 1)))); cbn [andb]; [|done].
  destruct (i + 1 <? length runes) eqn:Hnext; cbn [andb]; [|done].
  apply Nat.ltb_lt in Hnext.
  destruct (lookup_lt_is_Some_2 runes (i + 1) Hnext) as [next Hn].
  rewrite (rune_index_at runes (i + 1) next Hn). cbn [mbind outcome_bind].
  by destruct (is_lower (rune_at runes (i + 1))).
Qed.

Lemma snake_loop_in_range runes (l : list (nat * ascii)) out :
  Forall (fun ir => runes !! ir.1 = Some ir.2) l ->
  foldl (fun acc ir => out ← acc; w ← snake_write_checked runes ir.1 ir.2; mret (out ++ w))
        (Ok out) l
  = Ok (out ++ concat ((fun ir => snake_write runes ir.1 ir.2) <$> l)).
Proof.
  intros Hall. revert out. induction Hall as [|[i r] l Hi _ IH]; intros out.
  { cbn. by rewrite app_nil_r. }
  cbn [foldl mbind outcome_bind fst snd]. rewrite (snake_write_in_range runes i r Hi).
  cbn [mbind outcome_bind mret outcome_ret]. rewrite IH. f_equal. csimpl.
  by rewrite app_assoc.
Qed.

(** C38. The bounds checks of [toSnakeCase] never fail: the loop
    with Go's check at every index expression returns, for every
    string, and returns what the loop without the checks returns. *)
Theorem toSnakeCase_in_range s : toSnakeCase_checked s = Ok (toSnakeCase s).
Proof.
  unfold toSnakeCase_checked, toSnakeCase.
  change (mret []) with (@Ok (list ascii) []).
  rewrite snake_loop_in_range.
  - cbn [mbind outcome_bind app]. do 3 f_equal. by rewrite fmap_imap.
  - apply Forall_forall. by intros [i r] (j & x & [= -> ->] & Hx)%elem_of_lookup_imap_1.
Qed.

(** C8. The indexed loop of [toSnakeCase] and the
    recursive reference, which inserts an underscore before an upper-case
    character exactly when the previous character is not an underscore
    and the previous or the next character is lower-case, give the same
    string. *)
Theorem toSnakeCase_reference s : toSnakeCase s = snake_ref s.
Proof. apply toSnakeCase_snake_ref. Qed.

(** [toSnakeCase] only inserts underscores and
    lower-cases: with the underscores removed, its result is the
    lower-cased input with the underscores removed. *)
Theorem toSnakeCase_erase s :
  List.filter not_underscore (chars (toSnakeCase s))
  = lower_rune <$> List.filter not_underscore (chars s).
Proof.
  rewrite chars_toSnakeCase. destruct (chars s) as [|r rest]; [done|].
  rewrite filter_not_underscore_fmap. f_equal. simpl.
  by rewrite snake_rec_erase.
Qed.

(** The result of [toSnakeCase] holds no
    upper-case letter. *)
Theorem toSnakeCase_no_upper s :
  Forall (fun c => is_upper c = false) (chars (toSnakeCase s)).
Proof. unfold toSnakeCase. apply ToLower_no_upper. Qed.

(** A name without upper-case letters is returned
    unchanged. *)
Theorem toSnakeCase_fixed s :
  Forall (fun c => is_upper c = false) (chars s) -> toSnakeCase s = s.
Proof.
  intros H. apply chars_inj. rewrite chars_toSnakeCase.
  destruct (chars s) as [|r rest]; [done|].
  rewrite snake_rec_no_upper by by apply Forall_cons in H as [_ ?].
  by apply fmap_lower_rune_id.
Qed.

Lemma toSnakeCase_fixed_witness : toSnakeCase "user_name" = "user_name".
Proof. apply toSnakeCase_fixed. by vm_compute; repeat constructor. Defined.

(** Converting twice is converting once. *)
Theorem toSnakeCase_idempotent s : toSnakeCase (toSnakeCase s) = toSnakeCase s.
Proof.
  apply chars_inj. rewrite (chars_toSnakeCase (toSnakeCase s)).
  pose proof (ToLower_no_upper (of_chars (concat (imap (snake_write (chars s)) (chars s))))) as H.
  change (ToLower _) with (toSnakeCase s) in H.
  destruct (chars (toSnakeCase s)) as [|r rest]; [done|].
  rewrite snake_rec_no_upper by by apply Forall_cons in H as [_ ?].
  by apply fmap_lower_rune_id.
Qed.

(** The result is at least as long as the name
    and less than twice as long: at most one underscore goes before each
    character after the first. *)
Theorem toSnakeCase_length s :
  String.length s <= String.length (toSnakeCase s) <= 2 * String.length s - 1
  \/ s = "".
Proof.
  rewrite <- !chars_length, chars_toSnakeCase.
  destruct (chars s) as [|r rest] eqn:E.
  - right. by apply chars_inj.
  - left. rewrite length_fmap. simpl.
    pose proof (snake_rec_length r rest). lia.
Qed.

(** No underscore is inserted next to an
    underscore: the result has two adjacent underscores exactly when the
    name has. *)
Theorem toSnakeCase_adjacent s :
  adjacent_underscores (chars (toSnakeCase s)) = adjacent_underscores (chars s).
Proof.
  rewrite chars_toSnakeCase. destruct (chars s) as [|r rest]; [done|].
  by rewrite adjacent_underscores_fmap, snake_rec_adjacent.
Qed.

(** Nothing is inserted before the first
    character: the result starts with the lower-cased first character of
    the name. *)
Theorem toSnakeCase_first c s :
  exists t, toSnakeCase (String c s) = String (lower_rune c) t.
Proof.
  rewrite toSnakeCase_snake_ref. unfold snake_ref. simpl. eauto.
Qed.

(** An upper-case character that follows a
    digit and precedes a lower-case character gets an underscore, although
    the character before it is not upper-case: the second rule of the
    loop tests only that the previous character is no underscore. *)
Theorem toSnakeCase_after_digit :
  toSnakeCase "A1Bc" = "a1_bc" /\
  snake_boundary "1"%char "B"%char ["c"%char] = true /\
  is_upper "1"%char = false.
Proof. by vm_compute. Qed.

(** ** What [toURLPath] computes *)

Lemma url_shift_not_lower c : url_shift c <> lower_rune c.
Proof. by destruct c as [[] [] [] [] [] [] [] []]. Qed.

(** The loop of [toURLPath] and the recursive
    reference give the same string: every character moved up by 33, a
    dash before each upper-case character after the first. *)
Theorem toURLPath_reference s : toURLPath s = url_ref s.
Proof. apply toURLPath_url_ref. Qed.

(** C24. The segment [toURLPath] derives from a name
    starts with the first character moved up by 33 code points, which is
    never the lower-cased first character: no name is mapped to its
    lower-case form. *)
Theorem toURLPath_first c s :
  exists t, toURLPath (String c s) = String (url_shift c) t /\
            url_shift c <> lower_rune c /\
            toURLPath (String c s) <> url_intended (String c s).
Proof.
  rewrite toURLPath_url_ref. unfold url_ref, url_intended. simpl.
  eexists. split; [done|]. split; [apply url_shift_not_lower|].
  intros [= H _]. by apply url_shift_not_lower in H.
Qed.

(** The documented route of the entity User is
    /user; the segment computed for it is the four bytes 118, 148, 134
    and 147. *)
Theorem toURLPath_user :
  code <$> chars (toURLPath "User") = [118; 148; 134; 147] /\
  url_intended "User" = "user" /\ url_intended "ProductItem" = "product-item".
Proof. by vm_compute. Qed.

(** The segment has one character for each
    character of the name and one dash for each upper-case character after
    the first. *)
Theorem toURLPath_length c s :
  String.length (toURLPath (String c s))
  = S (String.length s + length (List.filter is_upper (chars s))).
Proof.
  rewrite toURLPath_url_ref. unfold url_ref. simpl. f_equal.
  rewrite <- !chars_length, chars_of_chars.
  induction (chars s) as [|r rest IH]; [done|]. simpl.
  destruct (is_upper r); simpl; rewrite IH; lia.
Qed.

End Naming.
