(* ===== verification/Reflect.v ===== *)
(** * Reflect: the fragment of Go's [reflect] the sources consult

    The parser inspects the dynamic type of the value it is given
    ([reflect.TypeOf], [Kind], [Elem], [String], [Name], [NumField],
    [Field], [FieldByName]) and the tags of its fields
    ([StructTag.Get]); the handlers allocate a value of a type
    ([reflect.New]).  This file models those operations.  It is the
    environment of the repository's code: the panics are the ones the
    reflect package documents (a method of a nil [Type], [FieldByName] or
    [NumField] of a type that is no struct, [Elem] of a type that has
    none).

    A struct tag is kept as the key/value pairs of its conventional
    form, in the order they are written; [Tag_Get] returns the value of
    the first pair with the key, as [StructTag.Get] does.  Struct types
    are declared types with a package and a name; embedded fields are
    not promoted.

    Values keep their machine representation: a [float64] is a
    primitive IEEE 754 binary64 number, and an integer is a [Z] within
    the range of its type on a 64-bit platform ([in_range]), with the
    wrap-around of Go's arithmetic written out ([wrap_int],
    [wrap_uint]).  [has_type] says when a value has the shape and the
    range its type asks for. *)

From Corelib Require Import PrimFloat.
From Stdlib Require Import Ascii String ZArith Lia.
From stdpp Require Import base tactics option list strings.
From S2P Require Import Prelude GoStrings.

#[local] Set Warnings "-clear-no-such-hyp".

(** ** Types *)

Inductive Kind : Type :=
| KInvalid | KBool | KInt | KInt64 | KUint | KFloat64 | KString
| KStruct | KPtr | KSlice | KInterface.

#[global] Instance Kind_eq_dec : EqDecision Kind.
Proof. solve_decision. Defined.

(** The predeclared types the sources declare fields of. *)
Inductive Basic : Type :=
| BBool | BInt | BInt64 | BUint | BFloat64 | BString.

#[global] Instance Basic_eq_dec : EqDecision Basic.
Proof. solve_decision. Defined.

Definition basic_kind (b : Basic) : Kind :=
  match b with
  | BBool => KBool
  | BInt => KInt
  | BInt64 => KInt64
  | BUint => KUint
  | BFloat64 => KFloat64
  | BString => KString
  end.

Abbreviation StructTag := (list (string * string)).

Definition Tag_Get (tag : StructTag) (key : string) : string :=
  match List.find (fun kv => bool_decide (kv.1 = key)) tag with
  | Some kv => kv.2
  | None => ""
  end.

(** [reflect.StructField], with the type of the field as a parameter so
    that types can hold fields. *)
Record StructFieldOf (T : Type) : Type := mkStructField {
  sfName : string;
  sfPkgPath : string;
  sfType : T;
  sfTag : StructTag;
  sfIndex : list nat;
}.

Arguments mkStructField {T} _ _ _ _ _.
Arguments sfName {T} _.
Arguments sfPkgPath {T} _.
Arguments sfType {T} _.
Arguments sfTag {T} _.
Arguments sfIndex {T} _.

#[warning="-register-all"]
Inductive GoType : Type :=
| TBasic (b : Basic)
| TDefined (pkg name : string) (underlying : Basic)
| TStruct (pkg name : string) (fields : list (StructFieldOf GoType))
| TPtr (elem : GoType)
| TSlice (elem : GoType).

Abbreviation StructField := (StructFieldOf GoType).

Definition kind_name (k : Kind) : string :=
  match k with
  | KInvalid => "invalid"
  | KBool => "bool"
  | KInt => "int"
  | KInt64 => "int64"
  | KUint => "uint"
  | KFloat64 => "float64"
  | KString => "string"
  | KStruct => "struct"
  | KPtr => "ptr"
  | KSlice => "slice"
  | KInterface => "interface"
  end.

(** [t.Kind()] *)
Definition type_Kind (t : GoType) : Kind :=
  match t with
  | TBasic b => basic_kind b
  | TDefined _ _ b => basic_kind b
  | TStruct _ _ _ => KStruct
  | TPtr _ => KPtr
  | TSlice _ => KSlice
  end.

(** [t.Elem()] *)
Definition type_Elem (t : GoType) : outcome GoType :=
  match t with
  | TPtr e => Ok e
  | TSlice e => Ok e
  | _ => Panic "reflect: Elem of invalid type"
  end.

(** Identity of types, as [==] on [reflect.Type] decides it: the types
    agree in package, name and declaration, so two declarations that
    differ are two types even under one name. *)
Fixpoint type_eqb (t u : GoType) : bool :=
  match t, u with
  | TBasic a, TBasic b => bool_decide (a = b)
  | TDefined p n a, TDefined q m b =>
      bool_decide (p = q) && bool_decide (n = m) && bool_decide (a = b)
  | TStruct p n fs, TStruct q m gs =>
      bool_decide (p = q) && bool_decide (n = m) &&
      (fix fields_eqb (fs gs : list (StructFieldOf GoType)) : bool :=
         match fs, gs with
         | [], [] => true
         | f :: fs, g :: gs =>
             bool_decide (sfName f = sfName g) && bool_decide (sfPkgPath f = sfPkgPath g) &&
             type_eqb (sfType f) (sfType g) && bool_decide (sfTag f = sfTag g) &&
             bool_decide (sfIndex f = sfIndex g) && fields_eqb fs gs
         | _, _ => false
         end) fs gs
  | TPtr e, TPtr f => type_eqb e f
  | TSlice e, TSlice f => type_eqb e f
  | _, _ => false
  end.

(** [t.String()]: the package name and the type name of a declared type. *)
Fixpoint type_String (t : GoType) : string :=
  match t with
  | TBasic b => kind_name (basic_kind b)
  | TDefined pkg name _ => pkg +:+ "." +:+ name
  | TStruct pkg name _ => pkg +:+ "." +:+ name
  | TPtr e => "*" +:+ type_String e
  | TSlice e => "[]" +:+ type_String e
  end.

(** [t.Name()]: empty for a type that is not declared. *)
Definition type_Name (t : GoType) : string :=
  match t with
  | TBasic b => kind_name (basic_kind b)
  | TDefined _ name _ => name
  | TStruct _ name _ => name
  | TPtr _ => ""
  | TSlice _ => ""
  end.

Definition struct_fields (t : GoType) : option (list StructField) :=
  match t with
  | TStruct _ _ fields => Some fields
  | _ => None
  end.

(** [t.NumField()] *)
Definition type_NumField (t : GoType) : outcome nat :=
  match struct_fields t with
  | Some fields => Ok (length fields)
  | None => Panic "reflect: NumField of non-struct type"
  end.

(** [t.Field(i)] *)
Definition type_Field (t : GoType) (i : nat) : outcome StructField :=
  match struct_fields t with
  | Some fields =>
      match fields !! i with
      | Some sf => Ok sf
      | None => Panic "reflect: Field index out of bounds"
      end
  | None => Panic "reflect: Field of non-struct type"
  end.

(** [t.FieldByName(name)]: the field and whether it was found. *)
Definition type_FieldByName (t : GoType) (name : string) : outcome (option StructField) :=
  match struct_fields t with
  | Some fields => Ok (List.find (fun sf => bool_decide (sfName sf = name)) fields)
  | None => Panic "reflect: FieldByName of non-struct type"
  end.

(** ** Values *)

#[warning="-register-all"]
Inductive GoValue : Type :=
| VBool (b : bool)
| VInt (n : Z)
| VString (s : string)
| VStruct (fields : list GoValue)
| VPtr (target : option GoValue)
| VSlice (elems : list GoValue)
| VFloat (x : float).

(** ** Machine integers *)

(** [int] and [uint] are 64 bits wide. *)
Definition int_min : Z := (- 2 ^ 63)%Z.
Definition int_max : Z := (2 ^ 63 - 1)%Z.
Definition uint_max : Z := (2 ^ 64 - 1)%Z.

(** The value an [int] (or [int64]) operation leaves: the result modulo
    2^64, read in two's complement. *)
Definition wrap_int (n : Z) : Z := ((n + 2 ^ 63) mod 2 ^ 64 - 2 ^ 63)%Z.

(** The value a [uint] operation leaves. *)
Definition wrap_uint (n : Z) : Z := (n mod 2 ^ 64)%Z.

(** The integers of a predeclared integer type. *)
Definition in_range (b : Basic) (n : Z) : bool :=
  match b with
  | BInt | BInt64 => (int_min <=? n)%Z && (n <=? int_max)%Z
  | BUint => (0 <=? n)%Z && (n <=? uint_max)%Z
  | _ => false
  end.

(** The underlying predeclared type of a type that has one. *)
Definition basic_of (t : GoType) : option Basic :=
  match t with
  | TBasic b | TDefined _ _ b => Some b
  | _ => None
  end.

(** An interface value: nil, or a value with its dynamic type. *)
Abbreviation any := (option (GoType * GoValue)).

(** [reflect.TypeOf(x)]: nil for the nil interface. *)
Definition TypeOf (x : any) : option GoType := fst <$> x.

(** The zero value of a type; the fields of a struct are zeroed in
    order.  The fuel bounds the nesting of struct types. *)
Fixpoint zero_value (fuel : nat) (t : GoType) : GoValue :=
  match t with
  | TBasic BBool | TDefined _ _ BBool => VBool false
  | TBasic BString | TDefined _ _ BString => VString ""
  | TBasic BFloat64 | TDefined _ _ BFloat64 => VFloat 0
  | TBasic _ | TDefined _ _ _ => VInt 0
  | TStruct _ _ fields =>
      match fuel with
      | 0 => VStruct []
      | S fuel' => VStruct ((fun sf => zero_value fuel' (sfType sf)) <$> fields)
      end
  | TPtr _ => VPtr None
  | TSlice _ => VSlice []
  end.

(** The nesting depth of a type, enough fuel for [zero_value]. *)
Fixpoint type_depth (t : GoType) : nat :=
  match t with
  | TStruct _ _ fields =>
      S (foldr (fun sf acc => Nat.max (type_depth (sfType sf)) acc) 0 fields)
  | TPtr e => S (type_depth e)
  | TSlice e => S (type_depth e)
  | _ => 0
  end.

(** [reflect.New(t).Interface()]: a pointer to a fresh zero value. *)
Definition reflect_New (t : GoType) : any :=
  Some (TPtr t, VPtr (Some (zero_value (type_depth t) t))).

(** [&T{}] for a struct type [T]. *)
Definition pointer_to_zero (t : GoType) : any := reflect_New t.

(** [T{}]: the zero value of [T] as an interface value. *)
Definition zero_of (t : GoType) : any := Some (t, zero_value (type_depth t) t).

(** ** Fields of values *)

(** The position of the field of a struct type with the name. *)
Definition field_index (t : GoType) (name : string) : option nat :=
  fields ← struct_fields t;
  fst <$> list_find (fun sf => sfName sf = name) fields.

(** The struct a value is or points to, with its type. *)
Definition pointee (x : any) : option (GoType * GoValue) :=
  match x with
  | Some (TPtr t, VPtr (Some v)) => Some (t, v)
  | Some (TPtr _, _) => None
  | Some (t, v) => Some (t, v)
  | None => None
  end.

(** [v.FieldByName(name)] on a struct or a pointer to one; [None] is
    the invalid value. *)
Definition get_field (x : any) (name : string) : option GoValue :=
  '(t, v) ← pointee x;
  i ← field_index t name;
  match v with
  | VStruct vs => vs !! i
  | _ => None
  end.

(** The pointer [x] after [x.name = w]. *)
Definition set_field (x : any) (name : string) (w : GoValue) : option any :=
  match x with
  | Some (TPtr t, VPtr (Some (VStruct vs))) =>
      i ← field_index t name;
      if i <? length vs then Some (Some (TPtr t, VPtr (Some (VStruct (<[i := w]> vs)))))
      else None
  | _ => None
  end.

(** ** Composite literals and selectors *)

(** [&T{name: value, ...}]: a pointer to the zero value of [T] with the
    listed fields set, in the order written. *)
Definition composite (t : GoType) (inits : list (string * GoValue)) : any :=
  foldl (fun x init => default x (set_field x init.1 init.2)) (reflect_New t) inits.

(** [x.name] read at the type of the field; the zero value of that type
    where [x] has no such field. *)
Definition field_string (x : any) (name : string) : string :=
  if get_field x name is Some (VString s) then s else "".

Definition field_int (x : any) (name : string) : Z :=
  if get_field x name is Some (VInt n) then n else 0%Z.

Definition field_float (x : any) (name : string) : float :=
  if get_field x name is Some (VFloat f) then f else 0%float.

(** [x.name] for a field of type [*string]: [None] is the nil pointer. *)
Definition field_string_ptr (x : any) (name : string) : option string :=
  if get_field x name is Some (VPtr (Some (VString s))) then Some s else None.

(** [x.name] as an interface value, with the declared type of the
    field as its dynamic type. *)
Definition field_any (x : any) (name : string) : any :=
  '(t, _) ← pointee x;
  fields ← struct_fields t;
  '(_, sf) ← list_find (fun sf => sfName sf = name) fields;
  v ← get_field x name;
  Some (sfType sf, v).

(** [x.name] for a field of slice type. *)
Definition field_slice (x : any) (name : string) : list GoValue :=
  if get_field x name is Some (VSlice vs) then vs else [].

(** ** Well-typed values *)

(** A value has the shape of its type: an integer is in the range of
    its type, a struct value has one field value per declared field,
    each of the shape of the field's type.  The fuel bounds the nesting
    of the value. *)
Fixpoint has_type (fuel : nat) (t : GoType) (v : GoValue) : bool :=
  match fuel with
  | 0 => false
  | S fuel' =>
      match t, v with
      | TBasic BBool, VBool _ | TDefined _ _ BBool, VBool _ => true
      | TBasic BString, VString _ | TDefined _ _ BString, VString _ => true
      | TBasic BFloat64, VFloat _ | TDefined _ _ BFloat64, VFloat _ => true
      | TBasic b, VInt n | TDefined _ _ b, VInt n => in_range b n
      | TStruct _ _ fields, VStruct vs =>
          bool_decide (length fields = length vs)
          && forallb (fun p => has_type fuel' (sfType p.1) p.2) (zip fields vs)
      | TPtr _, VPtr None => true
      | TPtr e, VPtr (Some x) => has_type fuel' e x
      | TSlice e, VSlice vs => forallb (has_type fuel' e) vs
      | _, _ => false
      end
  end.

(** An interface value is well typed when it is nil or its value has
    its dynamic type. *)
Definition well_typed (v : any) : Prop :=
  match v with
  | Some (t, x) => exists fuel, has_type fuel t x = true
  | None => True
  end.

(** ** Facts *)

(** Induction on types that reaches the types of the fields. *)
Lemma GoType_fields_ind (P : GoType -> Prop) :
  (forall b, P (TBasic b)) ->
  (forall pkg name b, P (TDefined pkg name b)) ->
  (forall pkg name fields, Forall (fun sf => P (sfType sf)) fields -> P (TStruct pkg name fields)) ->
  (forall e, P e -> P (TPtr e)) ->
  (forall e, P e -> P (TSlice e)) ->
  forall t, P t.
Proof.
  intros Hb Hd Hs Hp Hl. fix IH 1. intros [b|pkg name b|pkg name fields|e|e].
  - apply Hb.
  - apply Hd.
  - apply Hs. induction fields as [|[? ? ty ? ?] fields IHf]; constructor; [apply IH|exact IHf].
  - apply Hp, IH.
  - apply Hl, IH.
Qed.

Lemma type_eqb_eq t u : type_eqb t u = true <-> t = u.
Proof.
  revert u. induction t as [a|p n a|p n fs IH|e IH|e IH] using GoType_fields_ind;
    intros [b|q m b|q m gs|f|f]; simpl; try (split; [done|congruence]).
  - rewrite bool_decide_eq_true. split; congruence.
  - rewrite !andb_true_iff, !bool_decide_eq_true. split; [intros [[-> ->] ->]; done|].
    by intros [= -> -> ->].
  - rewrite !andb_true_iff, !bool_decide_eq_true.
    enough (forall gs, (fix fields_eqb (fs gs : list (StructFieldOf GoType)) : bool :=
         match fs, gs with
         | [], [] => true
         | f :: fs, g :: gs =>
             bool_decide (sfName f = sfName g) && bool_decide (sfPkgPath f = sfPkgPath g) &&
             type_eqb (sfType f) (sfType g) && bool_decide (sfTag f = sfTag g) &&
             bool_decide (sfIndex f = sfIndex g) && fields_eqb fs gs
         | _, _ => false
         end) fs gs = true <-> fs = gs) as ->
      by (split; [intros [[-> ->] ->]; done|by intros [= -> -> ->]]).
    clear gs. induction IH as [|[? ? ty ? ?] fs Hty _ IHfs]; intros [|[? ? uy ? ?] gs];
      try (split; [done|congruence]).
    simpl in *. rewrite !andb_true_iff, !bool_decide_eq_true, Hty, IHfs.
    split; [intros [[[[[-> ->] ->] ->] ->] ->]; done|by intros [= -> -> -> -> -> ->]].
  - rewrite IH. split; congruence.
  - rewrite IH. split; congruence.
Qed.

#[global] Instance GoType_eq_dec : EqDecision GoType.
Proof.
  intros t u. destruct (type_eqb t u) eqn:E; [left|right].
  - by apply type_eqb_eq.
  - intros Heq%type_eqb_eq. congruence.
Defined.

Lemma type_eqb_refl t : type_eqb t t = true.
Proof. by apply type_eqb_eq. Qed.

Lemma Tag_Get_nil key : Tag_Get [] key = "".
Proof. reflexivity. Qed.

Lemma Tag_Get_cons k v tag key :
  Tag_Get ((k, v) :: tag) key = if bool_decide (k = key) then v else Tag_Get tag key.
Proof. unfold Tag_Get. simpl. by case_bool_decide. Qed.

Lemma Tag_Get_missing tag key :
  (forall kv, In kv tag -> kv.1 <> key) -> Tag_Get tag key = "".
Proof.
  intros H. unfold Tag_Get.
  assert (List.find (fun kv => bool_decide (kv.1 = key)) tag = None) as ->; [|done].
  apply find_none_iff. intros kv Hin. apply bool_decide_eq_false. auto.
Qed.

Lemma type_Kind_struct t :
  type_Kind t = KStruct <-> exists pkg name fields, t = TStruct pkg name fields.
Proof.
  destruct t as [b|? ? b| | |]; simpl; split; try done; eauto;
    try (by destruct b); by intros (? & ? & ? & ?).
Qed.

Lemma type_Kind_ptr t : type_Kind t = KPtr <-> exists e, t = TPtr e.
Proof.
  destruct t as [b|? ? b| | |]; simpl; split; try done; eauto;
    try (by destruct b); by intros (? & ?).
Qed.

Lemma struct_fields_Kind t :
  is_Some (struct_fields t) <-> type_Kind t = KStruct.
Proof.
  rewrite type_Kind_struct. destruct t; simpl; split; try done; eauto;
    try (by intros [? ?]); by intros (? & ? & ? & ?).
Qed.

Lemma struct_fields_Some t fields :
  struct_fields t = Some fields <-> exists pkg name, t = TStruct pkg name fields.
Proof. destruct t; simpl; naive_solver. Qed.

Lemma type_NumField_Ok t n :
  type_NumField t = Ok n <-> exists fields, struct_fields t = Some fields /\ n = length fields.
Proof. unfold type_NumField. destruct (struct_fields t); naive_solver. Qed.

Lemma type_Field_Ok t i sf :
  type_Field t i = Ok sf <-> exists fields, struct_fields t = Some fields /\ fields !! i = Some sf.
Proof.
  unfold type_Field. destruct (struct_fields t) as [fields|]; [|naive_solver].
  destruct (fields !! i) eqn:E; naive_solver.
Qed.

Lemma TypeOf_reflect_New t : TypeOf (reflect_New t) = Some (TPtr t).
Proof. reflexivity. Qed.

Lemma type_String_ptr t : type_String (TPtr t) = "*" +:+ type_String t.
Proof. reflexivity. Qed.

Lemma get_set_field x name w x' : set_field x name w = Some x' -> get_field x' name = Some w.
Proof.
  destruct x as [[[] [| | | |[[| | |vs| | |]|]| |]]|]; try done. simpl.
  destruct (field_index _ name) as [i|] eqn:Hi; [|done]. simpl.
  destruct (Nat.ltb_spec i (length vs)); [|done]. intros [= <-].
  unfold get_field. simpl. rewrite Hi. simpl. by apply list_lookup_insert_eq.
Qed.

(** ** Machine integers: ranges *)

Lemma wrap_int_range n : in_range BInt (wrap_int n) = true.
Proof.
  unfold in_range, wrap_int, int_min, int_max.
  pose proof (Z.mod_pos_bound (n + 2 ^ 63) (2 ^ 64)). apply andb_true_iff. split; lia.
Qed.

Lemma wrap_int_id n : in_range BInt n = true -> wrap_int n = n.
Proof.
  unfold in_range, wrap_int, int_min, int_max. intros [? ?]%andb_true_iff.
  rewrite Z.mod_small; lia.
Qed.

Lemma wrap_uint_range n : in_range BUint (wrap_uint n) = true.
Proof.
  unfold in_range, wrap_uint, uint_max.
  pose proof (Z.mod_pos_bound n (2 ^ 64)). apply andb_true_iff. split; lia.
Qed.

Lemma wrap_uint_id n : in_range BUint n = true -> wrap_uint n = n.
Proof.
  unfold in_range, wrap_uint, uint_max. intros [? ?]%andb_true_iff.
  rewrite Z.mod_small; lia.
Qed.

(** ** Typing: the equations of [has_type] and what they give *)

Definition field_typed (fuel : nat) (sf : StructField) (v : GoValue) : Prop :=
  has_type fuel (sfType sf) v = true.

Lemma forallb_zip_Forall2 {A B} (P : A * B -> bool) (l : list A) (k : list B) :
  length l = length k ->
  forallb P (zip l k) = true <-> Forall2 (fun a b => P (a, b) = true) l k.
Proof.
  revert k. induction l as [|a l IH]; intros [|b k] Hl; simpl in *; try done.
  rewrite andb_true_iff, IH by lia. split.
  - intros [? ?]. by constructor.
  - by intros [? ?]%Forall2_cons.
Qed.

Lemma has_type_struct_iff fuel pkg name fields vs :
  has_type (S fuel) (TStruct pkg name fields) (VStruct vs) = true
  <-> Forall2 (field_typed fuel) fields vs.
Proof.
  cbn [has_type]. rewrite andb_true_iff, bool_decide_eq_true. split.
  - intros [Hl Hall]. by apply (forallb_zip_Forall2 (fun p => has_type fuel (sfType p.1) p.2)).
  - intros Hall. pose proof (Forall2_length _ _ _ Hall) as Hl. split; [done|].
    by apply (forallb_zip_Forall2 (fun p => has_type fuel (sfType p.1) p.2)).
Qed.

Lemma has_type_slice_iff fuel e vs :
  has_type (S fuel) (TSlice e) (VSlice vs) = true
  <-> Forall (fun v => has_type fuel e v = true) vs.
Proof. cbn [has_type]. rewrite forallb_forall, Forall_forall. by setoid_rewrite list_elem_of_In. Qed.

Lemma has_type_ptr_Some fuel e y :
  has_type (S fuel) (TPtr e) (VPtr (Some y)) = has_type fuel e y.
Proof. reflexivity. Qed.

Lemma has_type_ptr fuel e x : has_type fuel (TPtr e) x = true ->
  x = VPtr None \/ exists y fuel', x = VPtr (Some y) /\ fuel = S fuel' /\ has_type fuel' e y = true.
Proof.
  destruct fuel as [|fuel]; [done|].
  destruct x as [| | | |[y|]| |]; try done; simpl; intros H; [right; by exists y, fuel|by left].
Qed.

Lemma has_type_struct fuel pkg name fields x :
  has_type fuel (TStruct pkg name fields) x = true ->
  exists vs fuel', x = VStruct vs /\ fuel = S fuel' /\ Forall2 (field_typed fuel') fields vs.
Proof.
  destruct fuel as [|fuel]; [done|]. destruct x as [| | |vs| | |]; try done.
  intros H%has_type_struct_iff. eauto.
Qed.

(** More fuel never hurts. *)
Lemma has_type_mono fuel fuel' t v :
  fuel <= fuel' -> has_type fuel t v = true -> has_type fuel' t v = true.
Proof.
  revert fuel' t v. induction fuel as [|fuel IH]; intros [|fuel'] t v Hle; try done; [lia|].
  assert (Hle' : fuel <= fuel') by lia.
  destruct t as [b|? ? b|pkg name fields|e|e], v as [| | |vs|[x|]|vs|];
    try done; try (by destruct b).
  - rewrite !has_type_struct_iff. intros H. eapply Forall2_impl; [exact H|].
    intros sf x. by apply IH.
  - cbn [has_type]. by apply IH.
  - rewrite !has_type_slice_iff. intros H. eapply Forall_impl; [exact H|].
    intros x. by apply IH.
Qed.

Lemma type_depth_field fields sf :
  sf ∈ fields ->
  type_depth (sfType sf) <= foldr (fun sf acc => Nat.max (type_depth (sfType sf)) acc) 0 fields.
Proof. induction 1; simpl; lia. Qed.

(** The zero value of a type has the type, with the fuel of its depth. *)
Lemma zero_value_has_type fuel t :
  type_depth t <= fuel -> has_type (S fuel) t (zero_value fuel t) = true.
Proof.
  revert t. induction fuel as [|fuel IH]; intros t Hd.
  - destruct t as [[]|? ? []| | |]; simpl in *; try done; lia.
  - destruct t as [[]|? ? []|pkg name fields|e|e]; try done.
    cbn [zero_value]. apply has_type_struct_iff. apply Forall2_fmap_r, Forall_Forall2_diag.
    apply Forall_forall. intros sf Hsf. apply IH.
    pose proof (type_depth_field fields sf Hsf). simpl in Hd. lia.
Qed.

Lemma reflect_New_well_typed t : well_typed (reflect_New t).
Proof.
  exists (S (S (type_depth t))). rewrite has_type_ptr_Some. by apply zero_value_has_type.
Qed.

(** ** Typing of field access *)

(** The declared type of the field [name] of the struct [x] is or
    points to. *)
Definition field_type (x : any) (name : string) : option GoType :=
  '(t, _) ← pointee x;
  fields ← struct_fields t;
  '(_, sf) ← list_find (fun sf => sfName sf = name) fields;
  Some (sfType sf).

Lemma field_index_type t fields name i :
  struct_fields t = Some fields -> field_index t name = Some i ->
  exists sf, fields !! i = Some sf /\
             list_find (fun sf => sfName sf = name) fields = Some (i, sf).
Proof.
  unfold field_index. intros ->. simpl.
  destruct (list_find _ fields) as [[j sf]|] eqn:Hf; [|done]. intros [= ->].
  exists sf. split; [|done]. by apply list_find_Some in Hf as (? & _).
Qed.

(** Assigning a value of the field's type to a field of a well-typed
    struct leaves a well-typed struct. *)
Lemma set_field_well_typed x name w x' ft :
  well_typed x -> field_type x name = Some ft -> well_typed (Some (ft, w)) ->
  set_field x name w = Some x' -> well_typed x'.
Proof.
  destruct x as [[[] [| | | |[[| | |vs| | |]|]| |]]|]; try done.
  intros [fuel Ht] Hft [fuelw Hw]. simpl.
  destruct (field_index elem name) as [i|] eqn:Hi; [|done]. simpl.
  destruct (Nat.ltb_spec i (length vs)); [|done]. intros [= <-].
  apply has_type_ptr in Ht as [?|(y & fuel1 & [= <-] & -> & Ht)]; [done|].
  destruct elem as [| |pkg tname fields| |]; try (by destruct fuel1).
  apply has_type_struct in Ht as (? & fuel2 & [= <-] & -> & Hall).
  destruct (field_index_type (TStruct pkg tname fields) fields name i eq_refl Hi)
    as (sf & Hsf & Hfind).
  unfold field_type in Hft. simpl in Hft. rewrite Hfind in Hft. simpl in Hft.
  injection Hft as <-.
  exists (S (S (fuel2 `max` fuelw))). rewrite has_type_ptr_Some. apply has_type_struct_iff.
  rewrite <- (list_insert_id fields i sf) by done. apply Forall2_insert.
  - eapply Forall2_impl; [done|]. intros ? ?. apply has_type_mono. lia.
  - revert Hw. apply has_type_mono. lia.
Qed.

(** A field read from a well-typed struct has the field's type. *)
Lemma get_field_well_typed x name v ft :
  well_typed x -> field_type x name = Some ft -> get_field x name = Some v ->
  well_typed (Some (ft, v)).
Proof.
  unfold get_field, field_type. destruct (pointee x) as [[t y]|] eqn:Hp; [|done]. simpl.
  intros Hx Hft Hv.
  assert (exists fuel, has_type fuel t y = true) as [fuel Ht].
  { destruct x as [[tx vx]|]; [|done]. destruct Hx as [fuel Hx].
    destruct tx; simpl in Hp; try (injection Hp as <- <-; by eauto).
    destruct vx as [| | | |[z|]| |]; try done. injection Hp as <- <-.
    apply has_type_ptr in Hx as [?|(? & fuel' & [= <-] & _ & ?)]; [done|by eauto]. }
  destruct (struct_fields t) as [fields|] eqn:Hsf; [|done].
  apply struct_fields_Some in Hsf as (pkg & tname & ->).
  apply has_type_struct in Ht as (vs & fuel' & -> & _ & Hall). simpl in *.
  unfold field_index in Hv. simpl in Hv.
  destruct (list_find _ fields) as [[i sf]|] eqn:Hfind; [|done]. simpl in *.
  injection Hft as <-. apply list_find_Some in Hfind as (Hi & _).
  exists fuel'. exact (Forall2_lookup_lr _ fields vs i sf v Hall Hi Hv).
Qed.

Lemma set_field_Some t vs name w i :
  field_index t name = Some i -> i < length vs ->
  set_field (Some (TPtr t, VPtr (Some (VStruct vs)))) name w
  = Some (Some (TPtr t, VPtr (Some (VStruct (<[i := w]> vs))))).
Proof.
  intros Hi Hlt. simpl. rewrite Hi. simpl. by destruct (Nat.ltb_spec i (length vs)); [|lia].
Qed.

(** A well-typed pointer to a struct points to one value per field. *)
Lemma well_typed_struct_ptr pkg name fields v :
  well_typed (Some (TPtr (TStruct pkg name fields), VPtr (Some v))) ->
  exists vs, v = VStruct vs /\ length vs = length fields.
Proof.
  intros [fuel Ht]. apply has_type_ptr in Ht as [?|(y & f1 & [= <-] & -> & Ht)]; [done|].
  apply has_type_struct in Ht as (vs & f2 & -> & -> & Hall).
  exists vs. split; [done|]. symmetry. by eapply Forall2_length.
Qed.
