(* ===== verification/Testing.v ===== *)
(** * Testing: the state of a test

    The test functions of the repository (src/unnamed/part_004,
    src/example_main.go) take a [*testing.T] and report through it.
    This file models what they use of package testing: a [T] holds the
    failure flag and the log; [Log] and [Logf] append to the log;
    [Errorf] logs and marks the test failed; [Fatal] and [Fatalf] log,
    mark the test failed and stop the test function ([FailNow] ends the
    goroutine).

    A test body is a function of the state of its [T] to the new state
    and, when the function ran to its end, its result ([Test]); [None]
    is a test stopped by [FailNow].  A log entry keeps the format and
    the arguments as they are passed; their rendering is package fmt's.
    A test passes when it leaves the flag unset.  A panic in a test
    function ends it as failed ([or_panic]).

    The standard logger of a program has the same shape, and [main] of
    the example program is written in the same monad: [log.Println] is
    [Log], and [log.Fatal] is [Fatal], which ends the process with a
    failure status.

    [passing m Q] is the specification of a test that passes: on a [T]
    without a failure it runs to its end, leaves the flag unset and
    returns a value of [Q].  It has a rule for each construct of the
    monad, the loops included, and [pass_step] applies the rule of the
    head of a test. *)

From Corelib Require Import PrimFloat.
From Stdlib Require Import Ascii String ZArith.
From stdpp Require Import base tactics option list strings.
From S2P Require Import Prelude Reflect.

Module Testing.

(** An argument of a logging call. *)
Inductive Arg : Type :=
| AString (s : string)
| AInt (n : Z)
| AFloat (x : float)
| AError (e : error)
| AValue (v : any).

(** A log entry: the arguments of [Log] / [Fatal], or the format and
    the arguments of [Logf] / [Errorf] / [Fatalf]. *)
Inductive Entry : Type :=
| Plain (args : list Arg)
| Formatted (format : string) (args : list Arg).

Record T : Type := mkT {
  failed : bool;
  output : list Entry;
}.

(** The [T] a test function is started with. *)
Definition new_T : T := mkT false [].

Definition Test (A : Type) : Type := T -> T * option A.

#[global] Instance Test_ret : MRet Test := fun A a t => (t, Some a).
#[global] Instance Test_bind : MBind Test := fun A B f m t =>
  match m t with
  | (t', Some a) => f a t'
  | (t', None) => (t', None)
  end.

(** ** The methods of [T] *)

Definition log_entry (e : Entry) : Test unit :=
  fun t => (mkT (failed t) (output t ++ [e]), Some tt).

(** [t.Fail()] *)
Definition Fail : Test unit := fun t => (mkT true (output t), Some tt).

(** [t.FailNow()]: the test function does not continue. *)
Definition FailNow {A} : Test A := fun t => (mkT true (output t), None).

(** [t.Log(args...)] *)
Definition Log (args : list Arg) : Test unit := log_entry (Plain args).

(** [t.Logf(format, args...)] *)
Definition Logf (format : string) (args : list Arg) : Test unit :=
  log_entry (Formatted format args).

(** [t.Errorf(format, args...)]: [Logf] followed by [Fail]. *)
Definition Errorf (format : string) (args : list Arg) : Test unit :=
  _ ← Logf format args; Fail.

(** [t.Fatal(args...)]: [Log] followed by [FailNow]. *)
Definition Fatal {A} (args : list Arg) : Test A :=
  _ ← Log args; FailNow.

(** [t.Fatalf(format, args...)]: [Logf] followed by [FailNow]. *)
Definition Fatalf {A} (format : string) (args : list Arg) : Test A :=
  _ ← Logf format args; FailNow.

(** A call that may panic, made by the test function: a panic is
    reported and ends the test as failed. *)
Definition or_panic {A} (m : outcome A) : Test A :=
  match m with
  | Ok a => mret a
  | Panic msg => Fatal [AString "panic: "; AString msg]
  end.

(** [if cond { body }] for a body without a result. *)
Definition when (cond : bool) (body : Test unit) : Test unit :=
  if cond then body else mret tt.

(** One iteration per element, in order, as [for _, x := range xs]. *)
Fixpoint for_each {A} (xs : list A) (body : A -> Test unit) : Test unit :=
  match xs with
  | [] => mret tt
  | x :: rest => _ ← body x; for_each rest body
  end.

(** A loop that carries a value from one iteration to the next, as
    [for _, x := range xs] over variables declared before the loop. *)
Fixpoint for_fold {A S} (xs : list A) (body : S -> A -> Test S) (s : S) : Test S :=
  match xs with
  | [] => mret s
  | x :: rest => s ← body s x; for_fold rest body s
  end.

(** ** Running a test *)

(** The state a test function leaves. *)
Definition run {A} (m : Test A) : T := (m new_T).1.

(** The test passes: the flag is unset when the function is over. *)
Definition passes {A} (m : Test A) : bool := negb (failed (run m)).

(** The test function ran to its end. *)
Definition completes {A} (m : Test A) : bool :=
  if (m new_T).2 is Some _ then true else false.

(** ** Laws *)

Section laws.
Context {A B C : Type}.
Implicit Types (m : Test A) (f : A -> Test B) (g : B -> Test C) (t : T).

Lemma Test_bind_ret_l (a : A) f t : (mret a ≫= f) t = f a t.
Proof. reflexivity. Qed.

Lemma Test_bind_ret_r m t : (m ≫= mret) t = m t.
Proof. unfold mbind, Test_bind. by destruct (m t) as [t' [a|]]. Qed.

Lemma Test_bind_assoc m f g t : ((m ≫= f) ≫= g) t = (m ≫= fun a => f a ≫= g) t.
Proof. unfold mbind, Test_bind. by destruct (m t) as [t' [a|]]. Qed.

Lemma Test_bind_Some m f t t' a :
  m t = (t', Some a) -> (m ≫= f) t = f a t'.
Proof. unfold mbind, Test_bind. by intros ->. Qed.

Lemma Test_bind_None m f t t' :
  m t = (t', None) -> (m ≫= f) t = (t', None).
Proof. unfold mbind, Test_bind. by intros ->. Qed.

End laws.

(** A body keeps the failure flag when it never unsets it, and keeps
    the log when it only appends. *)
Definition monotone {A} (m : Test A) : Prop :=
  forall t, (failed t = true -> failed (m t).1 = true) /\ output t `prefix_of` output (m t).1.

Lemma monotone_ret {A} (a : A) : monotone (mret a).
Proof. intros t. by split. Qed.

Lemma monotone_bind {A B} (m : Test A) (f : A -> Test B) :
  monotone m -> (forall a, monotone (f a)) -> monotone (m ≫= f).
Proof.
  intros Hm Hf t. unfold mbind, Test_bind. destruct (Hm t) as [Hm1 Hm2].
  destruct (m t) as [t' [a|]]; simpl in *; [|done].
  destruct (Hf a t') as [Hf1 Hf2]. split; [auto|by etrans].
Qed.

Lemma monotone_log_entry e : monotone (log_entry e).
Proof. intros t. split; [done|]. by apply prefix_app_r. Qed.

Lemma monotone_Fail : monotone Fail.
Proof. intros t. by split. Qed.

Lemma monotone_FailNow {A} : monotone (FailNow (A:=A)).
Proof. intros t. by split. Qed.

Lemma monotone_when cond body : monotone body -> monotone (when cond body).
Proof. destruct cond; [done|]. intros _. apply monotone_ret. Qed.

Lemma monotone_for_each {A} (xs : list A) body :
  (forall x, monotone (body x)) -> monotone (for_each xs body).
Proof.
  intros Hb. induction xs as [|x xs IH]; [apply monotone_ret|].
  apply monotone_bind; auto.
Qed.

Lemma monotone_for_fold {A S} (xs : list A) (body : S -> A -> Test S) s :
  (forall s x, monotone (body s x)) -> monotone (for_fold xs body s).
Proof.
  intros Hb. revert s. induction xs as [|x xs IH]; intros s; [apply monotone_ret|].
  apply monotone_bind; auto.
Qed.

#[export] Hint Resolve monotone_ret monotone_bind monotone_log_entry monotone_Fail
  monotone_FailNow monotone_when monotone_for_each monotone_for_fold : goblar.

Lemma monotone_Logf format args : monotone (Logf format args).
Proof. apply monotone_log_entry. Qed.

Lemma monotone_Log args : monotone (Log args).
Proof. apply monotone_log_entry. Qed.

Lemma monotone_Errorf format args : monotone (Errorf format args).
Proof. apply monotone_bind; [apply monotone_log_entry|intros; apply monotone_Fail]. Qed.

Lemma monotone_Fatal {A} args : monotone (Fatal (A:=A) args).
Proof. apply monotone_bind; [apply monotone_log_entry|intros; apply monotone_FailNow]. Qed.

Lemma monotone_Fatalf {A} format args : monotone (Fatalf (A:=A) format args).
Proof. apply monotone_bind; [apply monotone_log_entry|intros; apply monotone_FailNow]. Qed.

Lemma monotone_or_panic {A} (m : outcome A) : monotone (or_panic m).
Proof. destruct m; [apply monotone_ret|apply monotone_Fatal]. Qed.

#[export] Hint Resolve monotone_Logf monotone_Log monotone_Errorf monotone_Fatal
  monotone_Fatalf monotone_or_panic : goblar.

(** A test stopped by [FailNow] has failed. *)
Lemma FailNow_failed {A} t : failed (FailNow (A:=A) t).1 = true /\ (FailNow (A:=A) t).2 = None.
Proof. done. Qed.

(** [Errorf] fails the test and lets it continue; [Fatalf] fails it and
    stops it; both log one entry. *)
Theorem Errorf_Fatalf format args t :
  Errorf format args t = (mkT true (output t ++ [Formatted format args]), Some tt) /\
  Fatalf (A:=unit) format args t = (mkT true (output t ++ [Formatted format args]), None).
Proof. done. Qed.

(** ** Tests that pass *)

(** [passing m Q]: on a [T] that has not failed, [m] runs to its end,
    leaves the flag unset and returns a value of [Q]. *)
Definition passing {A} (m : Test A) (Q : A -> Prop) : Prop :=
  forall t, failed t = false ->
    exists t' a, m t = (t', Some a) /\ failed t' = false /\ Q a.

Section passing.
Context {A B : Type}.
Implicit Types (m : Test A) (f : A -> Test B) (Q : A -> Prop) (R : B -> Prop).

Lemma passing_ret (a : A) Q : Q a -> passing (mret a) Q.
Proof. intros Ha t Ht. by exists t, a. Qed.

Lemma passing_bind m f Q R :
  passing m Q -> (forall a, Q a -> passing (f a) R) -> passing (m ≫= f) R.
Proof.
  intros Hm Hf t Ht. destruct (Hm t Ht) as (t1 & a & Em & Ht1 & Ha).
  rewrite (Test_bind_Some _ _ _ _ _ Em). by apply Hf.
Qed.

Lemma passing_consequence m Q (Q' : A -> Prop) :
  passing m Q -> (forall a, Q a -> Q' a) -> passing m Q'.
Proof. intros Hm HQ t Ht. destruct (Hm t Ht) as (t1 & a & ? & ? & ?). eauto 6. Qed.

Lemma passing_or_panic (a : A) Q : Q a -> passing (or_panic (Ok a)) Q.
Proof. apply passing_ret. Qed.

(** A test that passes is passed and complete. *)
Lemma passing_passes m Q : passing m Q -> passes m = true /\ completes m = true.
Proof.
  intros Hm. destruct (Hm new_T eq_refl) as (t & a & Em & Ht & _).
  unfold passes, completes, run. rewrite Em. simpl. by rewrite Ht.
Qed.

End passing.

(** A loop passes when its body takes the invariant of the value it
    carries from one iteration to the next. *)
Lemma passing_for_fold_from {A X} (xs : list X) (body : A -> X -> Test A)
    (I : nat -> A -> Prop) n s :
  I n s ->
  (forall i s x, xs !! i = Some x -> I (n + i) s -> passing (body s x) (I (S (n + i)))) ->
  passing (for_fold xs body s) (I (n + length xs)).
Proof.
  revert n s. induction xs as [|x xs IH]; intros n s Hs Hb.
  { apply passing_ret. by rewrite Nat.add_0_r. }
  apply (passing_bind _ _ (I (S n))).
  - specialize (Hb 0 s x eq_refl). rewrite Nat.add_0_r in Hb. by apply Hb.
  - intros s' Hs'. simpl length. rewrite Nat.add_succ_r. apply (IH (S n)); [done|].
    intros i s2 y Hy. specialize (Hb (S i) s2 y Hy). by rewrite Nat.add_succ_r in Hb.
Qed.

Lemma passing_for_fold {A X} (xs : list X) (body : A -> X -> Test A)
    (I : nat -> A -> Prop) s :
  I 0 s ->
  (forall i s x, xs !! i = Some x -> I i s -> passing (body s x) (I (S i))) ->
  passing (for_fold xs body s) (I (length xs)).
Proof. intros Hs Hb. by apply (passing_for_fold_from xs body I 0). Qed.

Lemma passing_log_entry e : passing (log_entry e) (fun _ => True).
Proof. intros t Ht. by eexists _, tt. Qed.

Lemma passing_Log args : passing (Log args) (fun _ => True).
Proof. apply passing_log_entry. Qed.

Lemma passing_Logf format args : passing (Logf format args) (fun _ => True).
Proof. apply passing_log_entry. Qed.

(** A guard that does not fire passes; one that fires passes when its
    body does. *)
Lemma passing_when cond body :
  (cond = true -> passing body (fun _ => True)) -> passing (when cond body) (fun _ => True).
Proof. destruct cond; [auto|]. intros _. by apply passing_ret. Qed.

Lemma passing_for_each {X} (xs : list X) body :
  (forall x, x ∈ xs -> passing (body x) (fun _ => True)) ->
  passing (for_each xs body) (fun _ => True).
Proof.
  induction xs as [|x xs IH]; intros Hb; [by apply passing_ret|].
  apply (passing_bind _ _ (fun _ => True)); [apply Hb; left|].
  intros _ _. apply IH. intros y Hy. apply Hb. by right.
Qed.

Lemma passing_skip (cond : bool) body (Q : unit -> Prop) :
  cond = false -> Q tt -> passing (when cond body) Q.
Proof. intros ->. apply passing_ret. Qed.

(** A test that reports an error or stops does not pass. *)
Lemma Errorf_not_passing format args Q : ~ passing (Errorf format args) Q.
Proof. intros Hm. by destruct (Hm new_T eq_refl) as (t & [] & [= <-] & ? & _). Qed.

Lemma FailNow_not_passing {A} (Q : A -> Prop) : ~ passing FailNow Q.
Proof. intros Hm. by destruct (Hm new_T eq_refl) as (t & a & ? & _). Qed.

(** The rules in the form a test is walked through: the head of a
    sequence is a call that returned, a guard that does not fire or a
    log entry, and the rest of the test passes. *)
Section walk.
Context {A B : Type}.
Implicit Types (f : A -> Test B) (g : unit -> Test B) (R : B -> Prop).

Lemma passing_bind_ret (a : A) f R : passing (f a) R -> passing (mret a ≫= f) R.
Proof. intros Hf t Ht. exact (Hf t Ht). Qed.

Lemma passing_bind_Ok (a : A) f R : passing (f a) R -> passing (or_panic (Ok a) ≫= f) R.
Proof. apply passing_bind_ret. Qed.

Lemma passing_guard (cond : bool) body g R :
  cond = false -> passing (g tt) R -> passing (when cond body ≫= g) R.
Proof. intros -> Hg t Ht. exact (Hg t Ht). Qed.

Lemma passing_logged e g R : passing (g tt) R -> passing (log_entry e ≫= g) R.
Proof. intros Hg t Ht. exact (Hg (mkT (failed t) (output t ++ [e])) Ht). Qed.

End walk.

(** A guard does not fire: by evaluation, or by a hypothesis on what
    it compares. *)
Ltac guard_off :=
  first [ vm_compute; reflexivity
        | apply bool_decide_eq_false_2; first [done | by intros ?] ].

(** One step through a test whose head is decided by evaluation. *)
Ltac pass_step :=
  cbv beta iota zeta;
  lazymatch goal with
  | |- passing (mret _) _ => apply passing_ret
  | |- passing (when _ _ ≫= _) _ => apply passing_guard; [guard_off|]
  | |- passing (when _ _) _ => apply passing_skip; [guard_off|]
  | |- passing (or_panic (Ok _) ≫= _) _ => apply passing_bind_Ok
  | |- passing (or_panic ?m ≫= _) _ =>
      let r := eval vm_compute in m in change m with r; apply passing_bind_Ok
  | |- passing (mret _ ≫= _) _ => apply passing_bind_ret
  | |- passing (Log _ ≫= _) _ => apply passing_logged
  | |- passing (Logf _ _ ≫= _) _ => apply passing_logged
  end.

#[export] Hint Resolve passing_Log passing_Logf passing_log_entry : goblar.

End Testing.
