(* ===== verification/Entities.v ===== *)
(** * Entities: the struct types the repository declares

    The entity types of src/example_main.go, as values of [GoType]: the
    two entities of the example program (package main), the five of the
    integration test package with relations and timestamps, and the five
    of the plain test package.  Each field keeps its name, its type and
    its tag as written; a tag is the list of its key/value pairs.  They
    are the concrete inputs on which the parser, the router and the
    application are evaluated.  The file also holds the one method of
    these types that computes: [CalculateTotals] of the test package's
    Product, with [AfterFind], which calls it.

    [time.Time] is a struct of package time with three unexported
    fields; only their being unexported matters to the parser.

    Prices are [float64] values and are added with IEEE 754 addition,
    from left to right as the loop does; quantities are [int]s and
    their sum wraps at 64 bits. *)

From Corelib Require Import PrimFloat.
From Stdlib Require Import Ascii String ZArith Lia.
From stdpp Require Import base tactics option list strings.
From S2P Require Import Prelude Reflect.

#[local] Set Warnings "-inexact-float".

Module Entities.

(** A field row: name, type, tag.  [fields_of] numbers the rows in
    declaration order, as the compiler does. *)
Definition fields_of (rows : list (string * GoType * StructTag)) : list StructField :=
  imap (fun i '(name, ty, tag) => mkStructField name "" ty tag [i]) rows.

Definition pk_tag : StructTag := [("gorm", "primaryKey"); ("go-blar", "pk")].

Definition time_Time : GoType :=
  TStruct "time" "Time"
    [ mkStructField "wall" "time" (TBasic BUint) [] [0];
      mkStructField "ext" "time" (TBasic BInt64) [] [1];
      mkStructField "loc" "time" (TPtr (TStruct "time" "Location" [])) [] [2] ].

(** ** Package main *)

Module MainPkg.

Definition Product : GoType :=
  TStruct "main" "Product" (fields_of
    [ ("ID", TBasic BUint, pk_tag);
      ("Name", TBasic BString, []);
      ("Price", TBasic BFloat64, []);
      ("Quantity", TBasic BInt, [("go-blar", "readonly")]);
      ("Secret", TBasic BString, [("go-blar", "hidden")]) ]).

Definition User : GoType :=
  TStruct "main" "User" (fields_of
    [ ("ID", TBasic BUint, pk_tag);
      ("Name", TBasic BString, []);
      ("Email", TBasic BString, []) ]).

End MainPkg.

(** ** The integration test package *)

Module TestPkg.

Definition User : GoType :=
  TStruct "test" "User" (fields_of
    [ ("ID", TBasic BUint, pk_tag);
      ("Name", TBasic BString, []);
      ("Email", TBasic BString, []);
      ("Password", TBasic BString, []) ]).

Definition ProductItem : GoType :=
  TStruct "test" "ProductItem" (fields_of
    [ ("ID", TBasic BUint, pk_tag);
      ("ProductID", TBasic BUint, []);
      ("Name", TBasic BString, []);
      ("PricePerUnit", TBasic BFloat64, []);
      ("Quantity", TBasic BInt, []);
      ("TotalPrice", TBasic BFloat64, []);
      ("CreatedAt", time_Time, []);
      ("UpdatedAt", time_Time, []) ]).

Definition Tag : GoType :=
  TStruct "test" "Tag" (fields_of
    [ ("ID", TBasic BUint, pk_tag);
      ("Label", TBasic BString, []);
      ("Color", TPtr (TBasic BString), []);
      ("CreatedAt", time_Time, []);
      ("UpdatedAt", time_Time, []) ]).

Definition Product : GoType :=
  TStruct "test" "Product" (fields_of
    [ ("ID", TBasic BUint, pk_tag);
      ("Name", TBasic BString, []);
      ("Description", TBasic BString, []);
      ("UserID", TBasic BUint, []);
      ("ProductItems", TSlice ProductItem, []);
      ("Tags", TSlice Tag,
        [("gorm", "many2many:product_to_price;foreignKey:ID;joinForeignKey:ProductID;references:ID;joinReferences:TagID")]);
      ("TotalPrice", TBasic BFloat64, [("gorm", "-")]);
      ("TotalItem", TBasic BInt, [("gorm", "-")]);
      ("CreatedAt", time_Time, []);
      ("UpdatedAt", time_Time, []) ]).

Definition ProductToPrice : GoType :=
  TStruct "test" "ProductToPrice" (fields_of
    [ ("ProductID", TBasic BUint, [("gorm", "primaryKey")]);
      ("TagID", TBasic BUint, [("gorm", "primaryKey")]) ]).

End TestPkg.

(** ** The plain test package *)

Module PlainPkg.

Definition User : GoType := TestPkg.User.

Definition Product : GoType :=
  TStruct "test" "Product" (fields_of
    [ ("ID", TBasic BUint, pk_tag);
      ("Name", TBasic BString, []);
      ("Description", TBasic BString, []);
      ("UserID", TBasic BUint, []) ]).

Definition ProductItem : GoType :=
  TStruct "test" "ProductItem" (fields_of
    [ ("ID", TBasic BUint, pk_tag);
      ("ProductID", TBasic BUint, []);
      ("Name", TBasic BString, []);
      ("PricePerUnit", TBasic BFloat64, []);
      ("Quantity", TBasic BInt, []);
      ("TotalPrice", TBasic BFloat64, []) ]).

Definition Tag : GoType :=
  TStruct "test" "Tag" (fields_of
    [ ("ID", TBasic BUint, pk_tag);
      ("Label", TBasic BString, []);
      ("Color", TBasic BString, []) ]).

Definition ProductToPrice : GoType := TestPkg.ProductToPrice.

End PlainPkg.

(** [&T{}]: a pointer to a zero value of the type. *)
Definition new_of (t : GoType) : any := reflect_New t.

(** ** The computed fields of the test package's Product *)

(** [item.name] for a field of type [int] or [float64] of a value of
    struct type [t]. *)
Definition int_field (t : GoType) (name : string) (v : GoValue) : Z :=
  match get_field (Some (t, v)) name with
  | Some (VInt n) => n
  | _ => 0%Z
  end.

Definition float_field (t : GoType) (name : string) (v : GoValue) : float :=
  match get_field (Some (t, v)) name with
  | Some (VFloat x) => x
  | _ => 0%float
  end.

(** [p.ProductItems] *)
Definition product_items (p : any) : list GoValue :=
  match get_field p "ProductItems" with
  | Some (VSlice items) => items
  | _ => []
  end.

(** One iteration of the loop of [CalculateTotals] on the pair of
    [p.TotalPrice] and [p.TotalItem]. *)
Definition add_item (totals : float * Z) (item : GoValue) : float * Z :=
  ((totals.1 + float_field TestPkg.ProductItem "TotalPrice" item)%float,
   wrap_int (totals.2 + int_field TestPkg.ProductItem "Quantity" item)).

(** [p.CalculateTotals()]; the receiver is dereferenced, so a nil
    receiver panics. *)
Definition CalculateTotals (p : any) : outcome any :=
  let totals := foldl add_item (0%float, 0%Z) (product_items p) in
  match p ← set_field p "TotalPrice" (VFloat totals.1);
        set_field p "TotalItem" (VInt totals.2) with
  | Some p => Ok p
  | None => Panic "invalid memory address or nil pointer dereference"
  end.

(** [Product.AfterFind] *)
Definition AfterFind (p : any) : outcome (any * error) :=
  p ← CalculateTotals p; Ok (p, nil_error).

(** ** Values of the test package *)

(** A product item with a quantity and a total price, the other fields
    zero. *)
Definition item_value (quantity : Z) (total : float) : GoValue :=
  VStruct [VInt 0; VInt 0; VString ""; VFloat 0; VInt quantity; VFloat total;
           zero_value 2 time_Time; zero_value 2 time_Time].

Definition items_value (items : list (Z * float)) : list GoValue :=
  (fun it => item_value it.1 it.2) <$> items.

(** A product of the test package with the given items and stored
    totals. *)
Definition product_with (items : list (Z * float)) (price : float) (count : Z) : any :=
  Some (TPtr TestPkg.Product,
        VPtr (Some (VStruct [VInt 0; VString ""; VString ""; VInt 0;
                             VSlice (items_value items);
                             VSlice []; VFloat price; VInt count;
                             zero_value 2 time_Time; zero_value 2 time_Time]))).

(** The sums the loop computes: the prices from left to right in
    floating point, the quantities as integers. *)
Definition sum_prices (items : list (Z * float)) : float :=
  foldl (fun acc it => (acc + it.2)%float) 0%float items.

Definition sum_quantities (items : list (Z * float)) : Z :=
  foldr Z.add 0%Z (fst <$> items).

Lemma add_item_value a b q t :
  add_item (a, b) (item_value q t) = ((a + t)%float, wrap_int (b + q)).
Proof. reflexivity. Qed.

Lemma wrap_int_add a b : wrap_int (wrap_int a + b) = wrap_int (a + b).
Proof.
  unfold wrap_int. f_equal.
  replace ((a + 2 ^ 63) mod 2 ^ 64 - 2 ^ 63 + b + 2 ^ 63)%Z
    with ((a + 2 ^ 63) mod 2 ^ 64 + b)%Z by lia.
  rewrite Zplus_mod_idemp_l. f_equal. lia.
Qed.

Lemma foldl_add_item items a b :
  foldl add_item (a, wrap_int b) (items_value items)
  = (foldl (fun acc it => (acc + it.2)%float) a items,
     wrap_int (b + sum_quantities items)).
Proof.
  unfold items_value, sum_quantities.
  revert a b. induction items as [|[q t] items IH]; intros a b; csimpl.
  - by rewrite Z.add_0_r.
  - rewrite add_item_value, wrap_int_add, IH. do 2 f_equal. lia.
Qed.

(** [CalculateTotals] stores the floating-point sum of the items' total
    prices, taken from left to right, and the sum of their quantities
    modulo 2^64, whatever totals were stored before. *)
Theorem CalculateTotals_sums items price count :
  CalculateTotals (product_with items price count)
  = Ok (product_with items (sum_prices items) (wrap_int (sum_quantities items))).
Proof.
  unfold CalculateTotals.
  change (product_items (product_with items price count)) with (items_value items).
  change (0%float, 0%Z) with (0%float, wrap_int 0).
  rewrite foldl_add_item. reflexivity.
Qed.

(** C29. The stored quantity is the sum of the quantities when that sum
    fits an [int]. *)
Theorem CalculateTotals_no_overflow items price count :
  (int_min <= sum_quantities items <= int_max)%Z ->
  CalculateTotals (product_with items price count)
  = Ok (product_with items (sum_prices items) (sum_quantities items)).
Proof.
  intros [? ?]. rewrite CalculateTotals_sums, wrap_int_id; [done|].
  unfold in_range. apply andb_true_iff. split; lia.
Qed.

(** [AfterFind] never fails on a product, and computing the totals
    twice is computing them once. *)
Theorem AfterFind_idempotent items price count :
  exists p, AfterFind (product_with items price count) = Ok (p, nil_error) /\
            AfterFind p = Ok (p, nil_error).
Proof.
  unfold AfterFind. rewrite CalculateTotals_sums. eexists. split; [done|].
  by rewrite CalculateTotals_sums.
Qed.

Lemma add_items_range items totals :
  in_range BInt totals.2 = true -> in_range BInt (foldl add_item totals items).2 = true.
Proof.
  revert totals. induction items as [|it items IH]; intros totals Hb; simpl; [done|].
  apply IH, wrap_int_range.
Qed.

(** C28. [CalculateTotals] keeps a well-typed product well typed: it
    returns, and the totals it stores are a [float64] and an integer in
    the range of [int]. *)
Theorem CalculateTotals_well_typed v :
  well_typed (Some (TPtr TestPkg.Product, VPtr (Some v))) ->
  exists p, CalculateTotals (Some (TPtr TestPkg.Product, VPtr (Some v))) = Ok p /\
            well_typed p.
Proof.
  intros Hwt. destruct (well_typed_struct_ptr _ _ _ _ Hwt) as (vs & -> & Hl).
  change (length vs = 10) in Hl. unfold CalculateTotals.
  set (totals := foldl add_item _ _).
  rewrite (set_field_Some _ vs "TotalPrice" _ 6) by (done || lia). cbn [mbind option_bind].
  rewrite (set_field_Some _ _ "TotalItem" _ 7) by (done || rewrite length_insert; lia).
  eexists. split; [done|].
  eapply (set_field_well_typed
            (Some (TPtr TestPkg.Product, VPtr (Some (VStruct (<[6 := VFloat totals.1]> vs)))))
            "TotalItem" (VInt totals.2) _ (TBasic BInt));
    [|reflexivity| |apply set_field_Some; [reflexivity|rewrite length_insert; lia]].
  - eapply (set_field_well_typed _ "TotalPrice" (VFloat totals.1) _ (TBasic BFloat64));
      [exact Hwt|reflexivity|by exists 1|apply set_field_Some; [reflexivity|lia]].
  - exists 1. apply (add_items_range _ (0%float, 0%Z)). done.
Qed.

(** A nil receiver panics. *)
Theorem CalculateTotals_nil :
  CalculateTotals (Some (TPtr TestPkg.Product, VPtr None))
  = Panic "invalid memory address or nil pointer dereference".
Proof. reflexivity. Qed.

(** Floating-point addition is not associative: the total of the same
    items depends on their order in the slice. *)
Theorem CalculateTotals_order :
  sum_prices [(1%Z, 0.1%float); (1%Z, 0.2%float); (1%Z, 0.3%float)]
  <> sum_prices [(1%Z, 0.3%float); (1%Z, 0.2%float); (1%Z, 0.1%float)].
Proof.
  intros H.
  assert (E : PrimFloat.eqb
                (sum_prices [(1%Z, 0.1%float); (1%Z, 0.2%float); (1%Z, 0.3%float)])
                (sum_prices [(1%Z, 0.3%float); (1%Z, 0.2%float); (1%Z, 0.1%float)]) = true)
    by (rewrite <- H; vm_compute; reflexivity).
  vm_compute in E. discriminate.
Qed.

Lemma CalculateTotals_no_overflow_witness :
  CalculateTotals (product_with [(5%Z, 499.95%float); (3%Z, 599.97%float)] 1 1)
  = Ok (product_with [(5%Z, 499.95%float); (3%Z, 599.97%float)]
          (sum_prices [(5%Z, 499.95%float); (3%Z, 599.97%float)])
          (sum_quantities [(5%Z, 499.95%float); (3%Z, 599.97%float)])).
Proof.
  apply (CalculateTotals_no_overflow [(5%Z, 499.95%float); (3%Z, 599.97%float)] 1 1).
  vm_compute. split; discriminate.
Defined.

Lemma CalculateTotals_well_typed_witness :
  exists p,
    CalculateTotals
      (Some (TPtr TestPkg.Product, VPtr (Some (zero_value 3 TestPkg.Product)))) = Ok p /\
    well_typed p.
Proof.
  apply (CalculateTotals_well_typed (zero_value 3 TestPkg.Product)).
  exists 4. reflexivity.
Defined.

End Entities.
