(* ===== verification/Util.v ===== *)
(** * Util: field access by path

    The package util of src/example_main.go (lines 1151-1191):
    [DeepFieldByName] follows a dot-separated path through the fields of
    a struct value, dereferencing pointers on the way, and
    [IsZeroValue] tests a value for its zero value.

    A [reflect.Value] is a value with its type, or invalid ([None]).
    The reflect calls of the code are modelled with their panics
    ([Elem] of a value that is no pointer, [FieldByName] of a value
    that is no struct, [IsZero] of the invalid value), so that the
    guards of the code are what keeps [DeepFieldByName] from
    panicking.  A nil slice and an empty slice are one value.  The
    typing of values ([has_type], [well_typed]) is that of [Reflect]. *)

From Corelib Require Import PrimFloat.
From Stdlib Require Import Ascii String ZArith Lia.
From stdpp Require Import base tactics option list strings.
From S2P Require Import Prelude GoStrings Reflect Entities.

#[local] Set Warnings "-clear-no-such-hyp".

Module Util.

(** ** Values of reflect *)

Abbreviation Value := (option (GoType * GoValue)).

(** [reflect.ValueOf(v)] *)
Definition ValueOf (v : any) : Value := v.

(** [v.Kind()] *)
Definition value_Kind (v : Value) : Kind :=
  match v with
  | Some (t, _) => type_Kind t
  | None => KInvalid
  end.

(** [v.IsValid()] *)
Definition IsValid (v : Value) : bool := bool_decide (value_Kind v <> KInvalid).

(** [v.Elem()]: the pointee, invalid for a nil pointer. *)
Definition value_Elem (v : Value) : outcome Value :=
  match v with
  | Some (TPtr t, VPtr (Some x)) => Ok (Some (t, x))
  | Some (TPtr _, _) => Ok None
  | _ => Panic "reflect: call of reflect.Value.Elem on a value that is no pointer"
  end.

(** [v.FieldByName(name)]: invalid when the struct has no such field. *)
Definition value_FieldByName (v : Value) (name : string) : outcome Value :=
  match v with
  | Some (TStruct pkg tname fields, VStruct vs) =>
      Ok (match list_find (fun sf => sfName sf = name) fields with
          | Some (i, sf) => x ← vs !! i; Some (sfType sf, x)
          | None => None
          end)
  | _ => Panic "reflect: call of reflect.Value.FieldByName on a value that is no struct"
  end.

(** ** DeepFieldByName *)

(** The loop over the parts of the path, from the value [val]. *)
Fixpoint deep_loop (parts : list string) (val : Value) : outcome Value :=
  match parts with
  | [] => Ok val
  | part :: rest =>
      if bool_decide (value_Kind val <> KStruct) then Ok None
      else
        field ← value_FieldByName val part;
        if negb (IsValid field) then Ok None
        else
          field ← (if bool_decide (value_Kind field = KPtr) then value_Elem field
                   else Ok field);
          deep_loop rest field
  end.

Definition DeepFieldByName (v : any) (fieldPath : string) : outcome Value :=
  let parts := Split fieldPath "."%char in
  let val := ValueOf v in
  val ← (if bool_decide (value_Kind val = KPtr) then value_Elem val else Ok val);
  deep_loop parts val.

(** ** IsZeroValue *)

(** [v.IsZero()] on a valid value; a float is compared with zero by
    [==], so both zeros are zero and no NaN is. *)
Fixpoint is_zero (v : GoValue) : bool :=
  match v with
  | VBool b => negb b
  | VInt n => bool_decide (n = 0%Z)
  | VString s => bool_decide (s = "")
  | VStruct vs => forallb is_zero vs
  | VPtr p => if p is None then true else false
  | VSlice vs => if vs is [] then true else false
  | VFloat x => PrimFloat.eqb x 0
  end.

Definition IsZeroValue (v : Value) : outcome bool :=
  match v with
  | Some (_, x) => Ok (is_zero x)
  | None => Panic "reflect: call of reflect.Value.IsZero on zero Value"
  end.

(** ** Theorems *)

Section deep.
Implicit Types (v val : Value) (parts : list string).

(** The kind of a well-typed value decides its shape. *)
Lemma value_Elem_Ok v :
  well_typed v -> value_Kind v = KPtr ->
  exists r, value_Elem v = Ok r /\ well_typed r.
Proof.
  destruct v as [[t x]|]; [|done]. simpl. intros [fuel Ht] [e ->]%type_Kind_ptr.
  apply has_type_ptr in Ht as [->|(y & fuel' & -> & _ & Hy)]; simpl.
  - by exists None.
  - eexists. split; [done|]. simpl. eauto.
Qed.

Lemma value_FieldByName_Ok v name :
  well_typed v -> value_Kind v = KStruct ->
  exists r, value_FieldByName v name = Ok r /\ well_typed r.
Proof.
  destruct v as [[t x]|]; [|done]. simpl.
  intros [fuel Ht] (pkg & tname & fields & ->)%type_Kind_struct.
  apply has_type_struct in Ht as (vs & fuel' & -> & _ & Hall). simpl.
  eexists. split; [done|].
  destruct (list_find _ fields) as [[i sf]|] eqn:Hfind; [|done].
  apply list_find_Some in Hfind as (Hi & _ & _).
  destruct (vs !! i) as [y|] eqn:Hy; [|done]. simpl.
  exists fuel'. exact (Forall2_lookup_lr _ fields vs i sf y Hall Hi Hy).
Qed.

Lemma deep_loop_Ok parts val :
  well_typed val -> exists r, deep_loop parts val = Ok r /\ well_typed r.
Proof.
  revert val. induction parts as [|part rest IH]; intros val Hwt; simpl; [eauto|].
  case_bool_decide as Hk; [by exists None|].
  destruct (value_FieldByName_Ok val part Hwt Hk) as (field & -> & Hf).
  cbn [mbind outcome_bind]. destruct (IsValid field); simpl; [|by exists None].
  case_bool_decide as Hp.
  - destruct (value_Elem_Ok field Hf Hp) as (r & -> & Hr). cbn [mbind outcome_bind]. auto.
  - cbn [mbind outcome_bind]. auto.
Qed.

(** [DeepFieldByName] does not panic on a well-typed value: its guards
    cover every reflect call it makes. *)
Theorem DeepFieldByName_total (v : any) fieldPath :
  well_typed v -> exists r, DeepFieldByName v fieldPath = Ok r /\ well_typed r.
Proof.
  intros Hwt. unfold DeepFieldByName, ValueOf. case_bool_decide as Hp.
  - destruct (value_Elem_Ok v Hwt Hp) as (r & -> & Hr). cbn [mbind outcome_bind].
    by apply deep_loop_Ok.
  - cbn [mbind outcome_bind]. by apply deep_loop_Ok.
Qed.

Lemma deep_loop_invalid parts : parts <> [] -> deep_loop parts None = Ok None.
Proof. by destruct parts. Qed.

Lemma deep_loop_app parts1 parts2 val :
  parts2 <> [] ->
  deep_loop (parts1 ++ parts2) val = (r ← deep_loop parts1 val; deep_loop parts2 r).
Proof.
  intros Hne. revert val. induction parts1 as [|part rest IH]; intros val; simpl; [done|].
  case_bool_decide; [cbn [mbind outcome_bind]; by rewrite deep_loop_invalid|].
  destruct (value_FieldByName val part) as [field|]; [|done]. cbn [mbind outcome_bind].
  destruct (IsValid field); cbn [negb mbind outcome_bind]; [|by rewrite deep_loop_invalid].
  destruct (if bool_decide (value_Kind field = KPtr) then _ else _) as [f|]; [|done].
  cbn [mbind outcome_bind]. apply IH.
Qed.

(** A path is followed part by part: looking up a.b is looking up b
    in what a gives, when that is no pointer (a pointer to a pointer is
    dereferenced once by the loop and once more by a fresh call). *)
Theorem DeepFieldByName_path (v : any) a b r :
  DeepFieldByName v a = Ok r -> value_Kind r <> KPtr ->
  DeepFieldByName v (a +:+ String "."%char b) = DeepFieldByName r b.
Proof.
  unfold DeepFieldByName, ValueOf. intros Ha Hk. rewrite Split_app_sep.
  destruct (if bool_decide (value_Kind v = KPtr) then _ else _) as [val|]; [|done].
  cbn [mbind outcome_bind] in *.
  rewrite deep_loop_app by apply Split_nonempty. rewrite Ha. cbn [mbind outcome_bind].
  by rewrite (bool_decide_eq_false_2 _ Hk).
Qed.

End deep.

(** The zero value of a type is its zero value. *)
Theorem zero_value_IsZero fuel t : is_zero (zero_value fuel t) = true.
Proof.
  revert t. induction fuel as [|fuel IH]; intros t.
  - destruct t as [[]|? ? []| | |]; done.
  - destruct t as [[]|? ? []|pkg name fields| |]; try done. simpl.
    apply forallb_forall. intros x (sf & -> & _)%list_elem_of_In%list_elem_of_fmap.
    apply IH.
Qed.

(** The fields of the example program's Product, by path. *)
Theorem DeepFieldByName_product :
  let p : any := Some (TPtr Entities.MainPkg.Product,
                       VPtr (Some (VStruct [VInt 7; VString "pen"; VFloat 3; VInt 0; VString ""]))) in
  DeepFieldByName p "Name" = Ok (Some (TBasic BString, VString "pen")) /\
  DeepFieldByName p "ID" = Ok (Some (TBasic BUint, VInt 7)) /\
  DeepFieldByName p "Name.First" = Ok None /\
  DeepFieldByName p "Missing" = Ok None /\
  DeepFieldByName None "Name" = Ok None /\
  (IsZeroValue <$> DeepFieldByName p "Secret") = Ok (Ok true) /\
  (IsZeroValue <$> DeepFieldByName p "Missing")
    = Ok (Panic "reflect: call of reflect.Value.IsZero on zero Value").
Proof. vm_compute. repeat split. Qed.

Lemma DeepFieldByName_total_witness :
  exists r, DeepFieldByName (reflect_New Entities.MainPkg.Product) "Name" = Ok r /\ well_typed r.
Proof.
  apply (DeepFieldByName_total (reflect_New Entities.MainPkg.Product) "Name").
  exists 3. reflexivity.
Defined.

Lemma DeepFieldByName_path_witness :
  DeepFieldByName (reflect_New Entities.TestPkg.ProductItem) ("CreatedAt" +:+ String "."%char "ext")
  = DeepFieldByName (Some (Entities.time_Time, VStruct [VInt 0; VInt 0; VPtr None])) "ext".
Proof.
  apply (DeepFieldByName_path (reflect_New Entities.TestPkg.ProductItem) "CreatedAt" "ext").
  - vm_compute. reflexivity.
  - vm_compute. discriminate.
Defined.

End Util.
