(* ===== verification/Meta.v ===== *)
(** * Meta: the metadata model

    The descriptors of src/unnamed/part_002 (package meta): a field
    ([FieldMeta]) with its relation descriptors ([ForeignKey],
    [ManyToMany]), a nested struct ([NestedMeta]), an aggregate
    ([AggregateMeta]) and an entity ([EntityMeta]) with its two lookup
    methods.  A Go pointer field that may be nil is an [option]; the
    slices of pointers are lists of descriptors.  The projections carry
    the initials of their record, since Go reuses the field names
    [Name], [Type] and [Index] in several structs.

    A descriptor is a value: [emPKField] holds the field descriptor
    itself, where the source holds the pointer it has also appended to
    [Fields].  The sources never write through either pointer once
    [Parse] has returned, so the sharing cannot be observed in them; a
    caller that mutates a field descriptor through one of the two is
    outside the model. *)

From Stdlib Require Import Ascii String.
From stdpp Require Import base tactics option list strings.
From S2P Require Import Prelude GoStrings Reflect.

Module Meta.

Record ForeignKey : Type := mkForeignKey {
  fkTableName : string;
  fkFieldName : string;
}.

Record ManyToMany : Type := mkManyToMany {
  m2mTableName : string;
  m2mFieldName : string;
}.

Record FieldMeta : Type := mkFieldMeta {
  fmName : string;
  fmType : GoType;
  fmIndex : list nat;
  fmIsPK : bool;
  fmFK : option ForeignKey;
  fmNested : bool;
  fmM2M : option ManyToMany;
  fmList : bool;
  fmHidden : bool;
  fmReadOnly : bool;
}.

Record NestedMeta : Type := mkNestedMeta {
  nmName : string;
  nmType : GoType;
  nmIndex : list nat;
}.

Record AggregateMeta : Type := mkAggregateMeta {
  amName : string;
  amType : string;
  amField : string;
}.

Record EntityMeta : Type := mkEntityMeta {
  emType : GoType;
  emName : string;
  emTableName : string;
  emPKField : option FieldMeta;
  emFields : list FieldMeta;
  emNested : list NestedMeta;
  emAggregates : list AggregateMeta;
}.

(** ** Field updates, one per assignment the parser makes *)

Definition set_IsPK (fm : FieldMeta) (b : bool) : FieldMeta :=
  mkFieldMeta (fmName fm) (fmType fm) (fmIndex fm) b (fmFK fm) (fmNested fm)
    (fmM2M fm) (fmList fm) (fmHidden fm) (fmReadOnly fm).

Definition set_FK (fm : FieldMeta) (fk : option ForeignKey) : FieldMeta :=
  mkFieldMeta (fmName fm) (fmType fm) (fmIndex fm) (fmIsPK fm) fk (fmNested fm)
    (fmM2M fm) (fmList fm) (fmHidden fm) (fmReadOnly fm).

Definition set_Nested (fm : FieldMeta) (b : bool) : FieldMeta :=
  mkFieldMeta (fmName fm) (fmType fm) (fmIndex fm) (fmIsPK fm) (fmFK fm) b
    (fmM2M fm) (fmList fm) (fmHidden fm) (fmReadOnly fm).

Definition set_M2M (fm : FieldMeta) (m : option ManyToMany) : FieldMeta :=
  mkFieldMeta (fmName fm) (fmType fm) (fmIndex fm) (fmIsPK fm) (fmFK fm) (fmNested fm)
    m (fmList fm) (fmHidden fm) (fmReadOnly fm).

Definition set_List (fm : FieldMeta) (b : bool) : FieldMeta :=
  mkFieldMeta (fmName fm) (fmType fm) (fmIndex fm) (fmIsPK fm) (fmFK fm) (fmNested fm)
    (fmM2M fm) b (fmHidden fm) (fmReadOnly fm).

Definition set_Hidden (fm : FieldMeta) (b : bool) : FieldMeta :=
  mkFieldMeta (fmName fm) (fmType fm) (fmIndex fm) (fmIsPK fm) (fmFK fm) (fmNested fm)
    (fmM2M fm) (fmList fm) b (fmReadOnly fm).

Definition set_ReadOnly (fm : FieldMeta) (b : bool) : FieldMeta :=
  mkFieldMeta (fmName fm) (fmType fm) (fmIndex fm) (fmIsPK fm) (fmFK fm) (fmNested fm)
    (fmM2M fm) (fmList fm) (fmHidden fm) b.

Definition set_TableName (em : EntityMeta) (name : string) : EntityMeta :=
  mkEntityMeta (emType em) (emName em) name (emPKField em) (emFields em)
    (emNested em) (emAggregates em).

Definition set_PKField (em : EntityMeta) (pk : option FieldMeta) : EntityMeta :=
  mkEntityMeta (emType em) (emName em) (emTableName em) pk (emFields em)
    (emNested em) (emAggregates em).

Definition set_Fields (em : EntityMeta) (fields : list FieldMeta) : EntityMeta :=
  mkEntityMeta (emType em) (emName em) (emTableName em) (emPKField em) fields
    (emNested em) (emAggregates em).

(** ** Lookups *)

(** [GetFieldByName]: the first field with the name, nil when there is
    none. *)
Definition GetFieldByName (em : EntityMeta) (name : string) : option FieldMeta :=
  List.find (fun f => bool_decide (fmName f = name)) (emFields em).

(** [GetAggregateByName]: the first aggregate with the name. *)
Definition GetAggregateByName (em : EntityMeta) (name : string) : option AggregateMeta :=
  List.find (fun a => bool_decide (amName a = name)) (emAggregates em).

(** ** Facts about the lookups *)

Section lookups.
Implicit Types (em : EntityMeta) (f : FieldMeta) (name : string).

Lemma GetFieldByName_found em name f :
  GetFieldByName em name = Some f -> In f (emFields em) /\ fmName f = name.
Proof.
  intros [? ?]%find_Some_In. split; [done|]. by destruct_bools.
Qed.

Lemma GetFieldByName_none em name :
  GetFieldByName em name = None <-> forall f, In f (emFields em) -> fmName f <> name.
Proof.
  unfold GetFieldByName. rewrite find_none_iff.
  split; intros H f Hin; specialize (H f Hin).
  - by apply bool_decide_eq_false in H.
  - by apply bool_decide_eq_false.
Qed.

Lemma GetFieldByName_split em name pre f post :
  emFields em = pre ++ f :: post ->
  fmName f = name ->
  (forall g, In g pre -> fmName g <> name) ->
  GetFieldByName em name = Some f.
Proof.
  intros E Hf Hpre. unfold GetFieldByName. rewrite E, find_app.
  assert (List.find (fun f0 => bool_decide (fmName f0 = name)) pre = None) as ->.
  { apply find_none_iff. intros g Hg. apply bool_decide_eq_false. auto. }
  simpl. by rewrite bool_decide_true.
Qed.

Lemma GetAggregateByName_nil em name :
  emAggregates em = [] -> GetAggregateByName em name = None.
Proof. unfold GetAggregateByName. by intros ->. Qed.

End lookups.

(** [GetFieldByName] returns nil exactly when
    no field has the name, and otherwise the first field of the sequence
    that has it: every field before it has another name. *)
Theorem GetFieldByName_first em name :
  match GetFieldByName em name with
  | None => forall f, In f (emFields em) -> fmName f <> name
  | Some f =>
      fmName f = name /\
      exists pre post, emFields em = pre ++ f :: post /\
                       forall g, In g pre -> fmName g <> name
  end.
Proof.
  destruct (GetFieldByName em name) as [f|] eqn:E.
  - split; [by eapply GetFieldByName_found|].
    unfold GetFieldByName in E. revert E.
    induction (emFields em) as [|g l IH]; simpl; [done|].
    case_bool_decide as Hg.
    + intros [= ->]. exists [], l. split; [done|]. by intros ? [].
    + intros (pre & post & -> & Hpre)%IH. exists (g :: pre), post.
      split; [done|]. intros h [<-|?]; auto.
  - by apply GetFieldByName_none.
Qed.

End Meta.
