(* ===== verification/Parse.v ===== *)
(** * Parse: the metadata parser and its registry

    src/internal/meta/parse.go: [Parse] resolves the dynamic type of its
    argument, answers from the package-level [registry] when the type's
    printed name is a key of it, and otherwise builds an [EntityMeta]
    from the struct's fields ([parseField], [parseGormTag]), stores it
    and returns it.  [ClearRegistry] replaces the registry by an empty
    map.

    The package state is a [Store]: the descriptors allocated so far
    ([heap], a pointer is an index into it) and the [registry] from
    printed type names to pointers.  [Parse] returns a pointer, so that
    "the same instance" is equality of pointers; it returns an
    [outcome], since the reflect calls it makes panic on a nil type and
    on a type that is no struct. *)

From Stdlib Require Import Ascii String.
From stdpp Require Import base tactics option list strings gmap.
From S2P Require Import Prelude GoStrings Naming Reflect Entities Meta.

#[local] Set Warnings "-clear-no-such-hyp".

Module Parse.
Import Naming.Naming Meta.Meta.

(** ** State *)

(** A [*EntityMeta]: the address of a descriptor. *)
Abbreviation ptr := nat.

Record Store : Type := mkStore {
  heap : list EntityMeta;
  registry : gmap string ptr;
}.

(** The state of the package when the program starts. *)
Definition init : Store := mkStore [] ∅.

(** [*p] *)
Definition deref (st : Store) (p : ptr) : option EntityMeta := heap st !! p.

(** ** parseGormTag *)

(** The loop of [parseGormTag] over the parts of the tag. *)
Fixpoint gorm_table (parts : list string) : string :=
  match parts with
  | [] => ""
  | part :: rest =>
      let part := TrimSpace part in
      if HasPrefix part "table:" then TrimPrefix part "table:" else gorm_table rest
  end.

Definition parseGormTag (tag : string) : string :=
  if bool_decide (tag = "") then ""
  else gorm_table (Split tag ";"%char).

(** ** parseField *)

(** One iteration of the loop over the parts of the go-blar tag: the
    [switch] on the trimmed part.  The aggregate descriptors of the
    count and sum cases are built and dropped, as in the source. *)
Definition apply_part (fm : FieldMeta) (part : string) : FieldMeta :=
  let part := TrimSpace part in
  if bool_decide (part = "pk") then set_IsPK fm true
  else if bool_decide (part = "nested") then set_Nested fm true
  else if bool_decide (part = "list") then set_List fm true
  else if bool_decide (part = "hidden") then set_Hidden fm true
  else if bool_decide (part = "readonly") then set_ReadOnly fm true
  else if HasPrefix part "fk:" then
    let fkTable := TrimPrefix part "fk:" in
    set_FK fm (Some (mkForeignKey fkTable ""))
  else if HasPrefix part "m2m:" then
    let m2mTable := TrimPrefix part "m2m:" in
    set_M2M fm (Some (mkManyToMany m2mTable ""))
  else if HasPrefix part "count:" then
    let fieldPath := TrimPrefix part "count:" in
    let meta := mkAggregateMeta (fmName fm) "count" fieldPath in
    fm
  else if HasPrefix part "sum:" then
    let fieldPath := TrimPrefix part "sum:" in
    let meta := mkAggregateMeta (fmName fm) "sum" fieldPath in
    fm
  else fm.

(** [parseField] returns a pointer to a fresh descriptor: never nil. *)
Definition parseField (sf : StructField) : option FieldMeta :=
  let blarTag := Tag_Get (sfTag sf) "go-blar" in
  let gormTag := Tag_Get (sfTag sf) "gorm" in
  let fm := mkFieldMeta (sfName sf) (sfType sf) (sfIndex sf)
              false None false None false false false in
  let fm := if bool_decide (blarTag <> "")
            then foldl apply_part fm (Split blarTag ";"%char)
            else fm in
  let fm := if Contains gormTag "primaryKey" then set_IsPK fm true else fm in
  Some fm.

(** ** Parse *)

(** The descriptor [Parse] starts from. *)
Definition new_meta (t : GoType) : EntityMeta :=
  mkEntityMeta t (type_Name t) (toSnakeCase (type_Name t) +:+ "s") None [] [] [].

(** The table name read from a field named gorm, when the struct has
    one and its gorm tag names a table. *)
Definition table_override (t : GoType) (meta : EntityMeta) : outcome EntityMeta :=
  found ← type_FieldByName t "gorm";
  mret match found with
       | Some gormTag =>
           let tableName := parseGormTag (Tag_Get (sfTag gormTag) "gorm") in
           if bool_decide (tableName <> "") then set_TableName meta tableName else meta
       | None => meta
       end.

(** The body of the loop over the fields, for the field [sf]. *)
Definition field_step (meta : EntityMeta) (sf : StructField) : EntityMeta :=
  if bool_decide (sfPkgPath sf <> "") then meta
  else match parseField sf with
       | Some fm =>
           let meta := set_Fields meta (emFields meta ++ [fm]) in
           if fmIsPK fm then set_PKField meta (Some fm) else meta
       | None => meta
       end.

(** The loop [for i := 0; i < t.NumField(); i++]. *)
Definition parse_fields (t : GoType) (meta : EntityMeta) : outcome EntityMeta :=
  n ← type_NumField t;
  foldl (fun acc i => meta ← acc; sf ← type_Field t i; mret (field_step meta sf))
        (mret meta) (seq 0 n).

(** The type whose metadata is asked for: the pointee of a pointer. *)
Definition resolve (entity : any) : outcome GoType :=
  match TypeOf entity with
  | None => Panic "invalid memory address or nil pointer dereference"
  | Some t => if bool_decide (type_Kind t = KPtr) then type_Elem t else Ok t
  end.

Definition Parse (entity : any) (st : Store) : outcome ((ptr * error) * Store) :=
  t ← resolve entity;
  let key := type_String t in
  match registry st !! key with
  | Some meta => Ok ((meta, nil_error), st)
  | None =>
      meta ← table_override t (new_meta t);
      meta ← parse_fields t meta;
      let p := length (heap st) in
      Ok ((p, nil_error), mkStore (heap st ++ [meta]) (<[key := p]> (registry st)))
  end.

Definition ClearRegistry (st : Store) : Store := mkStore (heap st) ∅.

(** ** The reference description of a struct type *)

(** The descriptor of a struct type as a function of its declaration:
    what [Parse] builds on a miss, without the index loop. *)
Definition describe_fields (fields : list StructField) (meta : EntityMeta) : EntityMeta :=
  foldl field_step meta fields.

Definition override_table (fields : list StructField) (meta : EntityMeta) : EntityMeta :=
  match List.find (fun sf => bool_decide (sfName sf = "gorm")) fields with
  | Some gormTag =>
      let tableName := parseGormTag (Tag_Get (sfTag gormTag) "gorm") in
      if bool_decide (tableName <> "") then set_TableName meta tableName else meta
  | None => meta
  end.

Definition describe (pkg name : string) (fields : list StructField) : EntityMeta :=
  describe_fields fields (override_table fields (new_meta (TStruct pkg name fields))).

(** The exported fields, the ones the loop does not skip. *)
Definition exported (sf : StructField) : bool := bool_decide (sfPkgPath sf = "").

(** The descriptors of the exported fields, in declaration order. *)
Definition field_metas (fields : list StructField) : list FieldMeta :=
  omap parseField (List.filter exported fields).

(** ** The field loop *)

Section field_loop.
Implicit Types (sf : StructField) (fields : list StructField) (meta : EntityMeta).

Lemma parseField_Some sf : exists fm, parseField sf = Some fm.
Proof. unfold parseField. eauto. Qed.

Lemma field_step_skip meta sf : exported sf = false -> field_step meta sf = meta.
Proof.
  unfold exported, field_step. intros H. destruct_bools.
  by rewrite bool_decide_true.
Qed.

Lemma field_step_exported meta sf fm :
  exported sf = true -> parseField sf = Some fm ->
  field_step meta sf =
    let meta' := set_Fields meta (emFields meta ++ [fm]) in
    if fmIsPK fm then set_PKField meta' (Some fm) else meta'.
Proof.
  unfold exported, field_step. intros H ->. destruct_bools.
  by rewrite bool_decide_false by (by intros ?).
Qed.

Lemma field_metas_snoc fields sf :
  field_metas (fields ++ [sf])
  = field_metas fields ++ (if exported sf then option_list (parseField sf) else []).
Proof.
  unfold field_metas. rewrite List.filter_app, omap_app. simpl.
  destruct (exported sf); simpl; [|done]. by destruct (parseField sf).
Qed.

Lemma type_Field_struct pkg name fields i sf :
  fields !! i = Some sf -> type_Field (TStruct pkg name fields) i = Ok sf.
Proof. unfold type_Field. simpl. by intros ->. Qed.

(** The loop by index visits the fields in declaration order. *)
Lemma parse_fields_loop pkg name fields pre rest meta :
  fields = pre ++ rest ->
  foldl (fun acc i => m ← acc; sf ← type_Field (TStruct pkg name fields) i;
                      mret (field_step m sf))
        (Ok meta) (seq (length pre) (length rest))
  = Ok (foldl field_step meta rest).
Proof.
  revert pre meta. induction rest as [|sf rest IH]; intros pre meta E; [done|].
  cbn [length seq foldl].
  rewrite (type_Field_struct _ _ _ _ sf) by (subst; by apply list_lookup_middle).
  specialize (IH (pre ++ [sf]) (field_step meta sf)).
  rewrite length_app, Nat.add_1_r in IH.
  apply IH. by rewrite <- app_assoc.
Qed.

Lemma parse_fields_struct pkg name fields meta :
  parse_fields (TStruct pkg name fields) meta = Ok (describe_fields fields meta).
Proof.
  unfold parse_fields. simpl. apply (parse_fields_loop pkg name fields []). done.
Qed.

Lemma table_override_struct pkg name fields meta :
  table_override (TStruct pkg name fields) meta = Ok (override_table fields meta).
Proof. reflexivity. Qed.

Lemma override_table_frame fields meta :
  let m := override_table fields meta in
  emType m = emType meta /\ emName m = emName meta /\
  emPKField m = emPKField meta /\ emFields m = emFields meta /\
  emNested m = emNested meta /\ emAggregates m = emAggregates meta.
Proof.
  unfold override_table. destruct (List.find _ fields); simpl; [|done].
  by case_bool_decide.
Qed.

(** What the loop leaves alone. *)
Lemma describe_fields_frame fields meta :
  let m := describe_fields fields meta in
  emType m = emType meta /\ emName m = emName meta /\
  emTableName m = emTableName meta /\ emNested m = emNested meta /\
  emAggregates m = emAggregates meta.
Proof.
  unfold describe_fields. revert meta.
  induction fields as [|sf fields IH]; intros meta; [done|]. simpl.
  destruct (IH (field_step meta sf)) as (-> & -> & -> & -> & ->).
  unfold field_step. case_bool_decide; [done|].
  destruct (parseField sf) as [fm|]; [|done]. by destruct (fmIsPK fm).
Qed.

Lemma describe_fields_Fields fields meta :
  emFields (describe_fields fields meta) = emFields meta ++ field_metas fields.
Proof.
  unfold describe_fields. induction fields as [|sf fields IH] using rev_ind.
  - simpl. by rewrite app_nil_r.
  - rewrite foldl_snoc, field_metas_snoc.
    destruct (exported sf) eqn:Hex.
    + destruct (parseField_Some sf) as [fm Hfm].
      rewrite (field_step_exported _ _ fm) by done. rewrite Hfm. simpl.
      destruct (fmIsPK fm); simpl; by rewrite IH, app_assoc.
    + rewrite field_step_skip by done. by rewrite app_nil_r.
Qed.

Lemma describe_fields_PKField fields meta :
  emPKField (describe_fields fields meta)
  = match last (List.filter fmIsPK (field_metas fields)) with
    | Some fm => Some fm
    | None => emPKField meta
    end.
Proof.
  unfold describe_fields. induction fields as [|sf fields IH] using rev_ind; [done|].
  rewrite foldl_snoc, field_metas_snoc.
  destruct (exported sf) eqn:Hex.
  - destruct (parseField_Some sf) as [fm Hfm].
    rewrite (field_step_exported _ _ fm) by done. rewrite Hfm. simpl.
    rewrite last_filter_snoc. by destruct (fmIsPK fm).
  - rewrite field_step_skip by done. by rewrite app_nil_r.
Qed.

End field_loop.

(** ** The branches of [Parse] *)

Section parse_cases.
Implicit Types (e : any) (st : Store) (t : GoType) (p : ptr).

Lemma type_String_struct pkg name fields :
  type_String (TStruct pkg name fields) = pkg +:+ "." +:+ name.
Proof. reflexivity. Qed.

Lemma Parse_unresolved e st msg : resolve e = Panic msg -> Parse e st = Panic msg.
Proof. unfold Parse. by intros ->. Qed.

Lemma Parse_hit e st t p :
  resolve e = Ok t -> registry st !! type_String t = Some p ->
  Parse e st = Ok ((p, nil_error), st).
Proof. unfold Parse. intros -> H. cbn [mbind outcome_bind]. by rewrite H. Qed.

Lemma Parse_miss e st pkg name fields :
  resolve e = Ok (TStruct pkg name fields) ->
  registry st !! type_String (TStruct pkg name fields) = None ->
  Parse e st
  = Ok ((length (heap st), nil_error),
        mkStore (heap st ++ [describe pkg name fields])
                (<[type_String (TStruct pkg name fields) := length (heap st)]> (registry st))).
Proof.
  unfold Parse. intros -> H. cbn [mbind outcome_bind]. rewrite H.
  rewrite table_override_struct. cbn [mbind outcome_bind].
  by rewrite parse_fields_struct.
Qed.

Lemma Parse_no_struct e st t :
  resolve e = Ok t -> struct_fields t = None ->
  registry st !! type_String t = None ->
  Parse e st = Panic "reflect: FieldByName of non-struct type".
Proof.
  unfold Parse. intros -> Hf H. cbn [mbind outcome_bind]. rewrite H.
  unfold table_override, type_FieldByName. by rewrite Hf.
Qed.

(** A pointer to a struct is always parsed, from the cache or afresh. *)
Lemma Parse_struct pkg name fields v st :
  exists p st',
    Parse (Some (TPtr (TStruct pkg name fields), v)) st = Ok ((p, nil_error), st').
Proof.
  destruct (registry st !! type_String (TStruct pkg name fields)) as [p|] eqn:Hq.
  - exists p, st. by apply (Parse_hit _ _ (TStruct pkg name fields)).
  - eexists _, _. by apply Parse_miss.
Qed.

(** Every way [Parse] returns. *)
Lemma Parse_Ok_inv e st p err st' :
  Parse e st = Ok ((p, err), st') ->
  exists t, resolve e = Ok t /\ err = nil_error /\
    ((registry st !! type_String t = Some p /\ st' = st) \/
     (registry st !! type_String t = None /\
      exists pkg name fields,
        t = TStruct pkg name fields /\ p = length (heap st) /\
        st' = mkStore (heap st ++ [describe pkg name fields])
                      (<[type_String t := p]> (registry st)))).
Proof.
  intros H. destruct (resolve e) as [t|msg] eqn:Hr.
  2: { by rewrite (Parse_unresolved _ _ msg) in H. }
  exists t. split; [done|].
  destruct (registry st !! type_String t) as [q|] eqn:Hq.
  - rewrite (Parse_hit _ _ t q) in H by done. injection H as <- <- <-. auto.
  - destruct (struct_fields t) as [fields|] eqn:Hf.
    + apply struct_fields_Some in Hf as (pkg & name & ->).
      rewrite (Parse_miss _ _ pkg name fields) in H by done.
      injection H as <- <- <-. split; [done|]. right. split; [done|].
      by exists pkg, name, fields.
    + by rewrite (Parse_no_struct _ _ t) in H.
Qed.

Lemma resolve_Ok_inv e t :
  resolve e = Ok t ->
  exists t0 v, e = Some (t0, v) /\
    ((t0 = TPtr t) \/ (t0 = t /\ type_Kind t <> KPtr)).
Proof.
  unfold resolve. destruct e as [[t0 v]|]; simpl; [|done].
  case_bool_decide as Hk; intros H; exists t0, v; split; try done.
  - apply type_Kind_ptr in Hk as [e' ->]. simpl in H. injection H as ->. by left.
  - injection H as ->. by right.
Qed.

End parse_cases.

(** ** The invariant of the store *)

(** A cached descriptor is the description of a declared struct type
    whose printed name is the key it is cached under. *)
Definition described (key : string) (m : EntityMeta) : Prop :=
  exists pkg name fields,
    m = describe pkg name fields /\ key = type_String (TStruct pkg name fields).

Definition wf_store (st : Store) : Prop :=
  forall key p, registry st !! key = Some p ->
    exists m, deref st p = Some m /\ described key m.

(** The operations of the package, and the states they reach.  A panic
    of [Parse] happens before any assignment, so it leaves the store as
    it was. *)
Inductive op : Type :=
| OpParse (entity : any)
| OpClearRegistry.

Definition run_op (o : op) (st : Store) : Store :=
  match o with
  | OpParse entity =>
      match Parse entity st with
      | Ok (_, st') => st'
      | Panic _ => st
      end
  | OpClearRegistry => ClearRegistry st
  end.

Inductive reachable : Store -> Prop :=
| reachable_init : reachable init
| reachable_step st o : reachable st -> reachable (run_op o st).

Section invariant.
Implicit Types (e : any) (st : Store) (p : ptr).

Lemma describe_emType pkg name fields :
  emType (describe pkg name fields) = TStruct pkg name fields.
Proof.
  unfold describe.
  destruct (describe_fields_frame fields
              (override_table fields (new_meta (TStruct pkg name fields)))) as (-> & _).
  by destruct (override_table_frame fields (new_meta (TStruct pkg name fields))) as (-> & _).
Qed.

Lemma described_key key m : described key m -> type_String (emType m) = key.
Proof. intros (pkg & name & fields & -> & ->). by rewrite describe_emType. Qed.

Lemma wf_store_init : wf_store init.
Proof. intros key p H. by destruct (lookup_empty_Some (M:=gmap string) key p). Qed.

Lemma wf_store_ClearRegistry st : wf_store (ClearRegistry st).
Proof. intros key p H. by destruct (lookup_empty_Some (M:=gmap string) key p). Qed.

Lemma wf_store_in_bounds st key p :
  wf_store st -> registry st !! key = Some p -> p < length (heap st).
Proof.
  intros Hwf H. destruct (Hwf key p H) as (m & Hm & _).
  by apply lookup_lt_Some in Hm.
Qed.

Lemma wf_store_Parse e st p err st' :
  wf_store st -> Parse e st = Ok ((p, err), st') -> wf_store st'.
Proof.
  intros Hwf (t & Hr & -> & [[Hhit ->]|(Hmiss & pkg & name & fields & -> & -> & ->)])%Parse_Ok_inv;
    [done|].
  intros key q Hq. unfold deref. simpl in *.
  destruct (decide (key = pkg +:+ "." +:+ name)) as [->|Hne].
  - rewrite lookup_insert_eq in Hq. injection Hq as <-.
    exists (describe pkg name fields). split.
    + by rewrite lookup_app_r, Nat.sub_diag.
    + by exists pkg, name, fields.
  - rewrite lookup_insert_ne in Hq by done.
    destruct (Hwf key q Hq) as (m & Hm & Hd). exists m. split; [|done].
    by apply lookup_app_l_Some.
Qed.

Lemma wf_store_run_op o st : wf_store st -> wf_store (run_op o st).
Proof.
  intros Hwf. destruct o as [e|]; simpl; [|apply wf_store_ClearRegistry].
  destruct (Parse e st) as [[[p err] st']|msg] eqn:E; [|done].
  by eapply wf_store_Parse.
Qed.

Lemma reachable_wf st : reachable st -> wf_store st.
Proof. induction 1; auto using wf_store_init, wf_store_run_op. Qed.

(** The heap only grows, and a descriptor never changes. *)
Lemma run_op_heap_prefix o st : heap st `prefix_of` heap (run_op o st).
Proof.
  destruct o as [e|]; simpl; [|done].
  destruct (Parse e st) as [[[p err] st']|msg] eqn:E; [|done].
  apply Parse_Ok_inv in E
    as (t & _ & _ & [[_ ->]|(_ & pkg & name & fields & _ & _ & ->)]); [done|].
  simpl. by apply prefix_app_r.
Qed.

End invariant.

(** ** The registry as a map of descriptions *)

(** The abstract state: the description cached under each key. *)
Definition abs (st : Store) : gmap string EntityMeta :=
  omap (deref st) (registry st).

(** What a call promises on the abstract state: the cached description
    of the key, or the description of the struct type, which it caches;
    nothing for a type that is no struct and has no cached key. *)
Definition spec_Parse (t : GoType) (m : gmap string EntityMeta)
  : option (EntityMeta * gmap string EntityMeta) :=
  match m !! type_String t with
  | Some d => Some (d, m)
  | None =>
      match t with
      | TStruct pkg name fields =>
          Some (describe pkg name fields, <[type_String t := describe pkg name fields]> m)
      | _ => None
      end
  end.

Section refinement.
Implicit Types (e : any) (st : Store) (p : ptr).

Lemma abs_lookup st key : abs st !! key = registry st !! key ≫= deref st.
Proof. unfold abs. by rewrite lookup_omap. Qed.

Lemma abs_lookup_wf st key p :
  wf_store st -> registry st !! key = Some p ->
  exists m, abs st !! key = Some m /\ deref st p = Some m.
Proof.
  intros Hwf H. destruct (Hwf key p H) as (m & Hm & _).
  exists m. by rewrite abs_lookup, H.
Qed.

Lemma abs_alloc st key d :
  wf_store st ->
  abs (mkStore (heap st ++ [d]) (<[key := length (heap st)]> (registry st)))
  = <[key := d]> (abs st).
Proof.
  intros Hwf. apply map_eq. intros k. rewrite abs_lookup. simpl.
  destruct (decide (k = key)) as [->|Hne].
  - rewrite !lookup_insert_eq. simpl. unfold deref. simpl.
    by rewrite lookup_app_r, Nat.sub_diag.
  - rewrite !lookup_insert_ne by done. rewrite abs_lookup.
    destruct (registry st !! k) as [q|] eqn:Hq; [|done]. simpl. unfold deref. simpl.
    apply lookup_app_l. by eapply wf_store_in_bounds.
Qed.

End refinement.

(** ** Flags of a parsed field *)

Section flags.
Implicit Types (fm : FieldMeta) (part : string) (parts : list string).

Definition part_is (word : string) (part : string) : bool :=
  bool_decide (TrimSpace part = word).

(** Case analysis on the [switch] of [apply_part]. *)
Ltac apply_part_cases :=
  unfold apply_part, part_is;
  repeat (case_bool_decide; simpl);
  repeat (case_match; simpl);
  rewrite ?orb_true_r, ?orb_false_r; try done; congruence.

Lemma apply_part_IsPK fm part :
  fmIsPK (apply_part fm part) = fmIsPK fm || part_is "pk" part.
Proof. apply_part_cases. Qed.

Lemma apply_part_Nested fm part :
  fmNested (apply_part fm part) = fmNested fm || part_is "nested" part.
Proof. apply_part_cases. Qed.

Lemma apply_part_List fm part :
  fmList (apply_part fm part) = fmList fm || part_is "list" part.
Proof. apply_part_cases. Qed.

Lemma apply_part_Hidden fm part :
  fmHidden (apply_part fm part) = fmHidden fm || part_is "hidden" part.
Proof. apply_part_cases. Qed.

Lemma apply_part_ReadOnly fm part :
  fmReadOnly (apply_part fm part) = fmReadOnly fm || part_is "readonly" part.
Proof. apply_part_cases. Qed.

Lemma foldl_apply_part_flag (proj : FieldMeta -> bool) word :
  (forall fm part, proj (apply_part fm part) = proj fm || part_is word part) ->
  forall parts fm,
    proj (foldl apply_part fm parts) = proj fm || existsb (part_is word) parts.
Proof.
  intros Hstep parts. induction parts as [|part parts IH]; intros fm; simpl.
  - by rewrite orb_false_r.
  - by rewrite IH, Hstep, orb_assoc.
Qed.

Lemma apply_part_name fm part :
  fmName (apply_part fm part) = fmName fm /\
  fmType (apply_part fm part) = fmType fm /\
  fmIndex (apply_part fm part) = fmIndex fm.
Proof. unfold apply_part. by repeat (case_match; simpl). Qed.

End flags.

(** ** The cache *)

(** After a call that returns, the key of the resolved type is cached
    with the returned pointer. *)
Lemma Parse_cached e st p err st' :
  Parse e st = Ok ((p, err), st') ->
  exists t, resolve e = Ok t /\ registry st' !! type_String t = Some p.
Proof.
  intros (t & Hr & _ & [[Hhit ->]|(_ & pkg & name & fields & -> & -> & ->)])%Parse_Ok_inv;
    eexists; (split; [done|]); [done|].
  simpl. by rewrite lookup_insert_eq.
Qed.

Lemma describe_emName pkg name fields : emName (describe pkg name fields) = name.
Proof.
  unfold describe.
  destruct (describe_fields_frame fields
              (override_table fields (new_meta (TStruct pkg name fields)))) as (_ & -> & _).
  by destruct (override_table_frame fields (new_meta (TStruct pkg name fields))) as (_ & -> & _).
Qed.

(** A call that returns keeps what is cached. *)
Lemma Parse_keeps e st p err st' key q :
  Parse e st = Ok ((p, err), st') ->
  registry st !! key = Some q -> registry st' !! key = Some q.
Proof.
  intros (t & _ & _ & [[_ ->]|(Hmiss & pkg & name & fields & -> & -> & ->)])%Parse_Ok_inv Hq;
    [done|].
  simpl in *. rewrite lookup_insert_ne; [done|]. intros Heq. rewrite <- Heq in Hq. congruence.
Qed.

(** What a call that returns leaves, on a store that satisfies the
    invariant. *)
Lemma Parse_returns e st p err st' :
  wf_store st -> Parse e st = Ok ((p, err), st') ->
  err = nil_error /\ wf_store st' /\ heap st `prefix_of` heap st' /\
  exists t m, resolve e = Ok t /\ registry st' !! type_String t = Some p /\
              deref st' p = Some m /\ described (type_String t) m.
Proof.
  intros Hwf HP. pose proof (wf_store_Parse _ _ _ _ _ Hwf HP) as Hwf'.
  pose proof (run_op_heap_prefix (OpParse e) st) as Hpre. simpl in Hpre. rewrite HP in Hpre.
  destruct (Parse_cached _ _ _ _ _ HP) as (t & Hr & Hc).
  destruct (Hwf' _ _ Hc) as (m & Hm & Hd).
  apply Parse_Ok_inv in HP as (_ & _ & -> & _). eauto 10.
Qed.

(** C1. Two calls of [Parse] on the same value with
    no reset between them return the same pointer, and the second call
    leaves the store as the first left it. *)
Theorem Parse_same_instance e st p err st' :
  Parse e st = Ok ((p, err), st') ->
  Parse e st' = Ok ((p, nil_error), st').
Proof. intros (t & Hr & Hp)%Parse_cached. by apply (Parse_hit _ _ t). Qed.

(** C34. The cache is keyed by the printed name of
    the type: once a struct type is parsed, a value of any other type
    with the same package and type name gets the pointer of the first,
    whatever its fields. *)
Theorem Parse_key_collision pkg name fields1 fields2 v1 v2 st p err st' :
  Parse (Some (TStruct pkg name fields1, v1)) st = Ok ((p, err), st') ->
  Parse (Some (TStruct pkg name fields2, v2)) st' = Ok ((p, nil_error), st').
Proof.
  intros (t & Hr & Hp)%Parse_cached. injection Hr as <-.
  by apply (Parse_hit _ _ (TStruct pkg name fields2)).
Qed.

(** The error [Parse] returns is always nil. *)
Theorem Parse_error_nil e st p err st' :
  Parse e st = Ok ((p, err), st') -> err = nil_error.
Proof. by intros (t & _ & -> & _)%Parse_Ok_inv. Qed.

(** C6. [Parse] panics exactly on the nil interface
    and on a value whose type, after one dereference, is no struct and
    whose printed name is no key of the registry; it has no path that
    reports such a value as an error: the error of every call that
    returns is nil. *)
Theorem Parse_panics_iff e st :
  ((exists msg, Parse e st = Panic msg) <->
   e = None \/
   exists t, resolve e = Ok t /\ struct_fields t = None /\
             registry st !! type_String t = None) /\
  (forall p err st', Parse e st = Ok ((p, err), st') -> err = nil_error).
Proof.
  split; [|intros p err st'; apply Parse_error_nil]. split.
  - intros [msg H]. destruct e as [[t0 v]|]; [right|by left].
    destruct (resolve (Some (t0, v))) as [t|msg'] eqn:Hr.
    + exists t. split; [done|].
      destruct (registry st !! type_String t) as [q|] eqn:Hq.
      { by rewrite (Parse_hit _ _ t q) in H. }
      destruct (struct_fields t) as [fields|] eqn:Hf; [|done].
      apply struct_fields_Some in Hf as (pkg & name & ->).
      by rewrite (Parse_miss _ _ pkg name fields) in H.
    + unfold resolve in Hr. simpl in Hr. case_bool_decide as Hk; [|done].
      apply type_Kind_ptr in Hk as [e' ->]. done.
  - intros [->|(t & Hr & Hf & Hq)]; [by eexists|].
    eexists. by apply (Parse_no_struct _ _ t).
Qed.

(** ** The descriptor of a struct type *)

(** C2. On a miss, [Parse] of a value of a struct type,
    or of a pointer to it, allocates one descriptor, the description of
    the type, caches its address under the printed name of the type and
    returns that address; every descriptor allocated before is
    unchanged. *)
Theorem Parse_describes v pkg name fields st :
  registry st !! type_String (TStruct pkg name fields) = None ->
  let t := TStruct pkg name fields in
  forall e, e = Some (t, v) \/ e = Some (TPtr t, v) ->
  exists st',
    Parse e st = Ok ((length (heap st), nil_error), st') /\
    deref st' (length (heap st)) = Some (describe pkg name fields) /\
    registry st' = <[type_String t := length (heap st)]> (registry st) /\
    forall p, p < length (heap st) -> deref st' p = deref st p.
Proof.
  intros Hmiss t e He. eexists. split; [|split; [|split]].
  - apply Parse_miss; [|done]. by destruct He as [->| ->].
  - unfold deref. simpl. by rewrite lookup_app_r, Nat.sub_diag.
  - done.
  - intros p Hp. unfold deref. simpl. by apply lookup_app_l.
Qed.

(** The fields of a descriptor are the parsed
    exported fields of the struct, in declaration order; the name and the
    type are those of the struct. *)
Theorem describe_Fields pkg name fields :
  emFields (describe pkg name fields) = field_metas fields /\
  emName (describe pkg name fields) = name /\
  emType (describe pkg name fields) = TStruct pkg name fields.
Proof.
  split; [|split; [|apply describe_emType]].
  - unfold describe. rewrite describe_fields_Fields.
    by destruct (override_table_frame fields (new_meta (TStruct pkg name fields)))
      as (_ & _ & _ & -> & _).
  - unfold describe.
    destruct (describe_fields_frame fields
                (override_table fields (new_meta (TStruct pkg name fields))))
      as (_ & -> & _).
    by destruct (override_table_frame fields (new_meta (TStruct pkg name fields)))
      as (_ & -> & _).
Qed.

(** C3. The primary-key reference of a descriptor is
    the last exported field marked as primary key, and nil when no field
    is marked: a later marked field overwrites an earlier one. *)
Theorem describe_PKField pkg name fields :
  emPKField (describe pkg name fields)
  = last (List.filter fmIsPK (field_metas fields)).
Proof.
  unfold describe. rewrite describe_fields_PKField.
  destruct (override_table_frame fields (new_meta (TStruct pkg name fields)))
    as (_ & _ & -> & _).
  by destruct (last _).
Qed.

(** C36. No descriptor [Parse] builds has an
    aggregate or a nested descriptor, whatever the tags of the struct
    declare, so [GetAggregateByName] finds nothing in it. *)
Theorem describe_no_aggregates pkg name fields agg :
  emAggregates (describe pkg name fields) = [] /\
  emNested (describe pkg name fields) = [] /\
  GetAggregateByName (describe pkg name fields) agg = None.
Proof.
  assert (emAggregates (describe pkg name fields) = [] /\
          emNested (describe pkg name fields) = []) as [Ha Hn].
  { unfold describe.
    destruct (describe_fields_frame fields
                (override_table fields (new_meta (TStruct pkg name fields))))
      as (_ & _ & _ & -> & ->).
    by destruct (override_table_frame fields (new_meta (TStruct pkg name fields)))
      as (_ & _ & _ & _ & -> & ->). }
  split; [done|]. split; [done|]. by apply GetAggregateByName_nil.
Qed.

(** C35. The table name of a descriptor is the
    snake-case form of the struct's name followed by s, unless the struct
    has a field named gorm whose gorm tag has a part that starts with
    table: and names a table, which then is the table name. *)
Theorem describe_TableName pkg name fields :
  emTableName (describe pkg name fields)
  = match List.find (fun sf => bool_decide (sfName sf = "gorm")) fields with
    | Some sf =>
        if bool_decide (parseGormTag (Tag_Get (sfTag sf) "gorm") <> "")
        then parseGormTag (Tag_Get (sfTag sf) "gorm")
        else toSnakeCase name +:+ "s"
    | None => toSnakeCase name +:+ "s"
    end.
Proof.
  unfold describe.
  destruct (describe_fields_frame fields
              (override_table fields (new_meta (TStruct pkg name fields))))
    as (_ & _ & -> & _).
  unfold override_table. destruct (List.find _ fields); [|done].
  simpl. by case_bool_decide.
Qed.

(** C37. The loop of [Parse] over the field
    indices of a struct type does not panic and computes the fold of the
    loop body over the fields in declaration order. *)
Theorem parse_fields_loop_equiv pkg name fields meta :
  parse_fields (TStruct pkg name fields) meta = Ok (foldl field_step meta fields).
Proof. apply parse_fields_struct. Qed.

(** ** The registry *)

(** C4. On a store that satisfies the invariant, [Parse]
    implements the abstract registry of descriptions: it returns a
    pointer to the description [spec_Parse] returns and leaves a store
    whose abstraction is the map [spec_Parse] leaves, and it panics
    exactly when [spec_Parse] has no answer. *)
Theorem Parse_refines e t st :
  wf_store st -> resolve e = Ok t ->
  match Parse e st with
  | Ok ((p, err), st') =>
      exists d, deref st' p = Some d /\ spec_Parse t (abs st) = Some (d, abs st')
  | Panic _ => spec_Parse t (abs st) = None
  end.
Proof.
  intros Hwf Hr. unfold spec_Parse.
  destruct (registry st !! type_String t) as [q|] eqn:Hq.
  - rewrite (Parse_hit _ _ t q) by done.
    destruct (abs_lookup_wf st _ q Hwf Hq) as (m & -> & Hm). eauto.
  - rewrite abs_lookup, Hq. simpl.
    destruct (struct_fields t) as [fields|] eqn:Hf.
    + apply struct_fields_Some in Hf as (pkg & name & ->).
      rewrite (Parse_miss _ _ pkg name fields) by done.
      exists (describe pkg name fields). split.
      * unfold deref. simpl. by rewrite lookup_app_r, Nat.sub_diag.
      * by rewrite abs_alloc.
    + rewrite (Parse_no_struct _ _ t) by done. by destruct t.
Qed.

(** C5. In every state the package reaches by calls
    of [Parse] and [ClearRegistry], each key of the registry is the
    printed name of a struct type and points to the description of a
    struct type with that name, and no two keys share a pointer. *)
Theorem registry_invariant st :
  reachable st ->
  (forall key p, registry st !! key = Some p ->
     exists pkg name fields,
       deref st p = Some (describe pkg name fields) /\
       key = type_String (TStruct pkg name fields)) /\
  (forall k1 k2 p,
     registry st !! k1 = Some p -> registry st !! k2 = Some p -> k1 = k2).
Proof.
  intros Hwf%reachable_wf. split.
  - intros key p (m & Hm & pkg & name & fields & -> & ->)%Hwf. eauto.
  - intros k1 k2 p (m1 & Hm1 & Hd1)%Hwf (m2 & Hm2 & Hd2)%Hwf.
    apply described_key in Hd1, Hd2. congruence.
Qed.

(** After [ClearRegistry], a call of [Parse]
    that returns allocates a new descriptor: its pointer is none of the
    pointers handed out before, and those still point to their
    descriptors. *)
Theorem ClearRegistry_fresh e st p err st' q :
  Parse e (ClearRegistry st) = Ok ((p, err), st') ->
  q < length (heap st) ->
  p = length (heap st) /\ p <> q /\ deref st' q = deref st q.
Proof.
  intros (t & _ & _ & [[Hhit _]|(_ & pkg & name & fields & _ & -> & ->)])%Parse_Ok_inv Hq.
  - by destruct (lookup_empty_Some (M:=gmap string) (type_String t) p).
  - simpl. split; [done|]. split; [lia|]. unfold deref. simpl. by apply lookup_app_l.
Qed.

(** ** Tags *)

(** The parts of the go-blar tag of a field. *)
Definition blar_parts (sf : StructField) : list string :=
  Split (Tag_Get (sfTag sf) "go-blar") ";"%char.

Lemma parseField_unfold sf :
  parseField sf
  = Some (let fm := foldl apply_part
                      (mkFieldMeta (sfName sf) (sfType sf) (sfIndex sf)
                         false None false None false false false) (blar_parts sf) in
          if Contains (Tag_Get (sfTag sf) "gorm") "primaryKey"
          then set_IsPK fm true else fm).
Proof.
  unfold parseField, blar_parts. case_bool_decide as H; [done|]. by rewrite H.
Qed.

(** C7. The descriptor of a field carries the field's
    name, type and index; it is a primary key exactly when a part of the
    go-blar tag is pk or the gorm tag contains primaryKey, and it is
    nested, a list, hidden or read-only exactly when a part of the
    go-blar tag is the word of that flag. *)
Theorem parseField_flags sf fm :
  parseField sf = Some fm ->
  fmName fm = sfName sf /\ fmType fm = sfType sf /\ fmIndex fm = sfIndex sf /\
  fmIsPK fm = existsb (part_is "pk") (blar_parts sf)
              || Contains (Tag_Get (sfTag sf) "gorm") "primaryKey" /\
  fmNested fm = existsb (part_is "nested") (blar_parts sf) /\
  fmList fm = existsb (part_is "list") (blar_parts sf) /\
  fmHidden fm = existsb (part_is "hidden") (blar_parts sf) /\
  fmReadOnly fm = existsb (part_is "readonly") (blar_parts sf).
Proof.
  rewrite parseField_unfold. intros [= <-].
  set (base := mkFieldMeta _ _ _ _ _ _ _ _ _ _).
  pose proof (foldl_apply_part_flag fmIsPK "pk" apply_part_IsPK (blar_parts sf) base) as Hpk.
  pose proof (foldl_apply_part_flag fmNested "nested" apply_part_Nested (blar_parts sf) base) as Hn.
  pose proof (foldl_apply_part_flag fmList "list" apply_part_List (blar_parts sf) base) as Hl.
  pose proof (foldl_apply_part_flag fmHidden "hidden" apply_part_Hidden (blar_parts sf) base) as Hh.
  pose proof (foldl_apply_part_flag fmReadOnly "readonly" apply_part_ReadOnly (blar_parts sf) base) as Hr.
  assert (Hname : forall parts fm0,
    fmName (foldl apply_part fm0 parts) = fmName fm0 /\
    fmType (foldl apply_part fm0 parts) = fmType fm0 /\
    fmIndex (foldl apply_part fm0 parts) = fmIndex fm0).
  { induction parts as [|part parts IH]; intros fm0; [done|]. simpl.
    destruct (IH (apply_part fm0 part)) as (-> & -> & ->). apply apply_part_name. }
  destruct (Hname (blar_parts sf) base) as (Hn1 & Hn2 & Hn3).
  destruct (Contains (Tag_Get (sfTag sf) "gorm") "primaryKey"); simpl;
    rewrite ?Hpk, ?Hn, ?Hl, ?Hh, ?Hr, ?Hn1, ?Hn2, ?Hn3, ?orb_true_r, ?orb_false_r; done.
Qed.

(** A field whose only tag is a go-blar
    tag with one of the five flag words has exactly that flag set, and no
    relation descriptor. *)
Theorem parseField_single_fragment sf word :
  sfTag sf = [("go-blar", word)] ->
  In word ["pk"; "nested"; "list"; "hidden"; "readonly"] ->
  parseField sf
  = Some (mkFieldMeta (sfName sf) (sfType sf) (sfIndex sf)
            (bool_decide (word = "pk")) None (bool_decide (word = "nested")) None
            (bool_decide (word = "list")) (bool_decide (word = "hidden"))
            (bool_decide (word = "readonly"))).
Proof.
  intros Htag Hword. unfold parseField. rewrite Htag.
  simpl in Hword. destruct Hword as [<-|[<-|[<-|[<-|[<-|[]]]]]]; reflexivity.
Qed.

(** [parseGormTag] returns what follows
    table: in the first part of the tag that, trimmed, starts with
    table:, and the empty string when no part does. *)
Theorem parseGormTag_first_table tag :
  parseGormTag tag
  = match List.find (fun part => HasPrefix (TrimSpace part) "table:")
                    (Split tag ";"%char) with
    | Some part => TrimPrefix (TrimSpace part) "table:"
    | None => ""
    end.
Proof.
  unfold parseGormTag. case_bool_decide as H; [by subst|].
  induction (Split tag ";"%char) as [|part parts IH]; simpl; [done|].
  by destruct (HasPrefix (TrimSpace part) "table:").
Qed.

Import Entities.Entities.

(** ** A parse after a reset *)

Section cleared.
Context (pkg name : string) (fields : list StructField) (st : Store).

(** The store a parse of the struct leaves after [ClearRegistry]: the
    descriptor at the end of the heap, and its key alone in the
    registry. *)
Definition parsed : Store :=
  mkStore (heap st ++ [describe pkg name fields])
          (<[type_String (TStruct pkg name fields) := length (heap st)]> ∅).

Lemma Parse_cleared :
  Parse (new_of (TStruct pkg name fields)) (ClearRegistry st)
  = Ok ((length (heap st), nil_error), parsed).
Proof. by rewrite (Parse_miss _ _ pkg name fields). Qed.

Lemma deref_parsed : deref parsed (length (heap st)) = Some (describe pkg name fields).
Proof. unfold deref, parsed. cbn [heap]. by rewrite lookup_app_r, Nat.sub_diag by done. Qed.

(** A second parse hits the key, and so does a parse of any other
    struct type with the package and the name. *)
Lemma Parse_parsed fields' :
  Parse (new_of (TStruct pkg name fields')) parsed = Ok ((length (heap st), nil_error), parsed).
Proof.
  apply (Parse_hit _ _ (TStruct pkg name fields')); [done|].
  unfold parsed. cbn [registry]. apply lookup_insert_eq.
Qed.

Lemma parsed_prefix : heap st `prefix_of` heap parsed.
Proof. by apply prefix_app_r. Qed.

End cleared.

(** ** Keys and names *)

(** A package path or a type name as the compiler prints it has no
    dot in it. *)
Fixpoint dotless (s : string) : bool :=
  match s with
  | EmptyString => true
  | String c s => negb (c =? ".")%char && dotless s
  end.

Lemma dotless_app s u : dotless (s +:+ String "."%char u) = false.
Proof. induction s as [|c s IH]; [done|]. simpl. by rewrite IH, andb_false_r. Qed.

(** A key of two dotless parts splits in one way. *)
Lemma dotted_unique pkg name pkg' name' :
  dotless pkg = true -> dotless name = true ->
  pkg +:+ "." +:+ name = pkg' +:+ "." +:+ name' -> pkg' = pkg /\ name' = name.
Proof.
  revert pkg'. induction pkg as [|c pkg IH]; intros [|c' pkg'] Hp Hn; simpl in *.
  - by intros [= ->].
  - intros [= <- ->]. by rewrite dotless_app in Hn.
  - intros [= -> _]. done.
  - apply andb_prop in Hp as [_ Hp]. intros [= -> Heq].
    by destruct (IH pkg' Hp Hn Heq) as [-> ->].
Qed.

(** Under the key of a struct type whose package and name are dotless,
    the cached descriptor has the name of the type. *)
Lemma described_name pkg name fields m :
  dotless pkg = true -> dotless name = true ->
  described (type_String (TStruct pkg name fields)) m -> emName m = name.
Proof.
  intros Hp Hn (pkg' & name' & fields' & -> & Heq). rewrite describe_emName.
  by destruct (dotted_unique pkg name pkg' name' Hp Hn Heq) as [_ ->].
Qed.

(** ** The entities of the example program *)

(** [&Product{}] and [&User{}] of package main. *)
Definition product : any := new_of MainPkg.Product.
Definition user : any := new_of MainPkg.User.

(** The store after [Parse(&Product{})] on a starting program. *)
Definition st_product : Store := run_op (OpParse product) init.

(** The store after [Parse(&Product{})] and [Parse(&User{})]. *)
Definition st_main : Store := run_op (OpParse user) st_product.

Definition names_where (f : FieldMeta -> bool) (m : EntityMeta) : list string :=
  fmName <$> List.filter f (emFields m).

Definition field_names : EntityMeta -> list string := names_where (fun _ => true).

(** The field ID of the example entities and its descriptor. *)
Definition sf_ID : StructField := mkStructField "ID" "" (TBasic BUint) pk_tag [0].
Definition fm_ID : FieldMeta :=
  mkFieldMeta "ID" (TBasic BUint) [0] true None false None false false false.

(** The example program's entities: Product is
    described with table products, fields ID, Name, Price, Quantity and
    Secret in that order, primary key ID, Quantity read-only and Secret
    hidden; User with table users, fields ID, Name, Email and primary
    key ID; the registry holds both under main.Product and main.User. *)
Theorem Parse_main_entities :
  (emTableName <$> deref st_main 0) = Some "products" /\
  (field_names <$> deref st_main 0) = Some ["ID"; "Name"; "Price"; "Quantity"; "Secret"] /\
  (fmap (M:=option) fmName (deref st_main 0 ≫= emPKField)) = Some "ID" /\
  (names_where fmReadOnly <$> deref st_main 0) = Some ["Quantity"] /\
  (names_where fmHidden <$> deref st_main 0) = Some ["Secret"] /\
  (emTableName <$> deref st_main 1) = Some "users" /\
  (field_names <$> deref st_main 1) = Some ["ID"; "Name"; "Email"] /\
  registry st_main !! "main.Product" = Some 0 /\
  registry st_main !! "main.User" = Some 1.
Proof. vm_compute. repeat split. Qed.

(** A struct with two fields tagged as primary key
    in gorm (the join table ProductToPrice of the test package) gets the
    second, TagID, as its primary key. *)
Theorem Parse_two_keys :
  fmName <$> emPKField (describe "test" "ProductToPrice"
                          (default [] (struct_fields TestPkg.ProductToPrice)))
  = Some "TagID".
Proof. vm_compute. reflexivity. Qed.

Lemma Parse_same_instance_witness :
  Parse product st_product = Ok ((0, nil_error), st_product).
Proof. apply (Parse_same_instance product init 0 nil_error). vm_compute. reflexivity. Defined.

Lemma Parse_key_collision_witness :
  Parse (Some (PlainPkg.Product, zero_value 3 PlainPkg.Product))
        (run_op (OpParse (Some (TestPkg.Product, zero_value 3 TestPkg.Product))) init)
  = Ok ((0, nil_error),
        run_op (OpParse (Some (TestPkg.Product, zero_value 3 TestPkg.Product))) init).
Proof.
  apply (Parse_key_collision "test" "Product"
           (default [] (struct_fields TestPkg.Product))
           (default [] (struct_fields PlainPkg.Product))
           (zero_value 3 TestPkg.Product) (zero_value 3 PlainPkg.Product)
           init 0 nil_error).
  vm_compute. reflexivity.
Defined.

Lemma Parse_error_nil_witness : @None GoError = nil_error.
Proof.
  apply (Parse_error_nil product init 0 None st_product). vm_compute. reflexivity.
Defined.

Lemma Parse_describes_witness :
  exists st',
    Parse user st_product = Ok ((1, nil_error), st') /\
    deref st' 1 = Some (describe "main" "User" (default [] (struct_fields MainPkg.User))) /\
    registry st' = <["main.User" := 1]> (registry st_product) /\
    forall p, p < 1 -> deref st' p = deref st_product p.
Proof.
  apply (Parse_describes (VPtr (Some (zero_value (type_depth MainPkg.User) MainPkg.User)))
           "main" "User" (default [] (struct_fields MainPkg.User)) st_product).
  - vm_compute. reflexivity.
  - right. reflexivity.
Defined.

Lemma Parse_refines_witness :
  match Parse product init with
  | Ok ((p, err), st') =>
      exists d, deref st' p = Some d /\
                spec_Parse MainPkg.Product (abs init) = Some (d, abs st')
  | Panic _ => spec_Parse MainPkg.Product (abs init) = None
  end.
Proof. apply (Parse_refines product MainPkg.Product init wf_store_init). reflexivity. Defined.

Lemma registry_invariant_witness :
  (forall key p, registry st_main !! key = Some p ->
     exists pkg name fields,
       deref st_main p = Some (describe pkg name fields) /\
       key = type_String (TStruct pkg name fields)) /\
  (forall k1 k2 p,
     registry st_main !! k1 = Some p -> registry st_main !! k2 = Some p -> k1 = k2).
Proof.
  apply (registry_invariant st_main).
  apply reachable_step, reachable_step, reachable_init.
Defined.

Lemma ClearRegistry_fresh_witness :
  2 = length (heap st_main) /\ 2 <> 0 /\
  deref (run_op (OpParse product) (ClearRegistry st_main)) 0 = deref st_main 0.
Proof.
  apply (ClearRegistry_fresh product st_main 2 nil_error
           (run_op (OpParse product) (ClearRegistry st_main)) 0).
  - vm_compute. reflexivity.
  - vm_compute. lia.
Defined.

Lemma parseField_flags_witness :
  fmName fm_ID = sfName sf_ID /\ fmType fm_ID = sfType sf_ID /\
  fmIndex fm_ID = sfIndex sf_ID /\
  fmIsPK fm_ID = existsb (part_is "pk") (blar_parts sf_ID)
                 || Contains (Tag_Get (sfTag sf_ID) "gorm") "primaryKey" /\
  fmNested fm_ID = existsb (part_is "nested") (blar_parts sf_ID) /\
  fmList fm_ID = existsb (part_is "list") (blar_parts sf_ID) /\
  fmHidden fm_ID = existsb (part_is "hidden") (blar_parts sf_ID) /\
  fmReadOnly fm_ID = existsb (part_is "readonly") (blar_parts sf_ID).
Proof. apply (parseField_flags sf_ID fm_ID). vm_compute. reflexivity. Defined.

Lemma parseField_single_fragment_witness :
  parseField (mkStructField "Secret" "" (TBasic BString) [("go-blar", "hidden")] [4])
  = Some (mkFieldMeta "Secret" (TBasic BString) [4]
            false None false None false true false).
Proof.
  apply (parseField_single_fragment
           (mkStructField "Secret" "" (TBasic BString) [("go-blar", "hidden")] [4]) "hidden").
  - reflexivity.
  - simpl. tauto.
Defined.

End Parse.
