(* ===== verification/Race.v ===== *)
(** * Race: concurrent calls of Parse

    The registry of src/internal/meta/parse.go is a package-level map
    with no lock, and [Parse] reads it (line 21) and writes it (line
    63) in two separate statements, with the construction of the
    descriptor between them.  This file models goroutines that call
    [Parse] on the shared store.  A call is cut at its two accesses to
    the map into three atomic steps: the lookup (lines 14-23), the
    construction of the descriptor (lines 26-60), the assignment and
    the return (lines 63-65).  A configuration is the pool of calls
    with the store; a schedule is the sequence of the goroutines that
    step.

    What the scheduler is: every access to the map is atomic and the
    interleaving is sequentially consistent.  That is the code with a
    lock held around each of its two accesses to the map, and it is
    the code as it stands for the pools of calls that have no data
    race, which [DataRace] characterises (the Go memory model gives
    such programs sequential consistency).  For a pool with a data
    race Go promises less: the runtime may abort the process
    ("concurrent map writes") or the map may be corrupted.  A run of
    the scheduler in which no two accesses overlap is still a run Go
    allows, so a failure found here is a failure of the code; what
    holds of every run here holds of the code only for the race-free
    pools.

    The theorems: the three steps of one call are [Parse.Parse]
    ([run_alone_Parse]); two calls that interleave return two
    different pointers for one type, which the written specification
    forbids ([race_two_instances]), and a call that has built its
    descriptor when the registry is cleared caches it after the reset
    ([reset_then_publish]).  Of the scheduler alone, that is of the
    code with a lock around each access: every pointer returned points
    to a descriptor of the caller's type whatever the interleaving, two
    calls that do not interleave return the same pointer, and a
    [ClearRegistry] among the steps keeps the invariant. *)

From Stdlib Require Import Ascii String ZArith Lia.
From stdpp Require Import base tactics option list strings gmap.
From S2P Require Import Prelude Reflect Entities Meta Parse.

#[local] Set Warnings "-clear-no-such-hyp".

Module Race.
Import Meta.Meta Parse.Parse.

(** ** Calls and their steps *)

(** Where a call of [Parse] stands. *)
Inductive Call : Type :=
| Ready (entity : any)            (* called, nothing done *)
| Missed (t : GoType)             (* the key was not in the registry *)
| Built (t : GoType) (p : ptr)    (* the descriptor is built, not yet cached *)
| Returned (p : ptr)
| Panicked (msg : string).

(** The descriptor lines 26-60 build for a type. *)
Definition build (t : GoType) : outcome EntityMeta :=
  meta ← table_override t (new_meta t); parse_fields t meta.

(** One step of a call on the shared store. *)
Definition call_step (c : Call) (st : Store) : Call * Store :=
  match c with
  | Ready entity =>
      match resolve entity with
      | Panic msg => (Panicked msg, st)
      | Ok t =>
          match registry st !! type_String t with
          | Some p => (Returned p, st)
          | None => (Missed t, st)
          end
      end
  | Missed t =>
      match build t with
      | Panic msg => (Panicked msg, st)
      | Ok meta => (Built t (length (heap st)), mkStore (heap st ++ [meta]) (registry st))
      end
  | Built t p => (Returned p, mkStore (heap st) (<[type_String t := p]> (registry st)))
  | Returned _ | Panicked _ => (c, st)
  end.

(** The call is over. *)
Definition finished (c : Call) : bool :=
  match c with
  | Returned _ | Panicked _ => true
  | _ => false
  end.

(** ** Configurations and schedules *)

Record Config : Type := mkConfig {
  calls : list Call;
  store : Store;
}.

(** The goroutines that call [Parse] on the entities, before any step. *)
Definition start (entities : list any) (st : Store) : Config :=
  mkConfig (Ready <$> entities) st.

(** Goroutine [i] makes one step. *)
Definition step (i : nat) (c : Config) : Config :=
  match calls c !! i with
  | Some call =>
      let '(call', st') := call_step call (store c) in
      mkConfig (<[i := call']> (calls c)) st'
  | None => c
  end.

Definition run (schedule : list nat) (c : Config) : Config :=
  foldl (fun c i => step i c) c schedule.

(** The configurations a pool of calls reaches. *)
Inductive reaches (c0 : Config) : Config -> Prop :=
| reaches_refl : reaches c0 c0
| reaches_step c i : reaches c0 c -> reaches c0 (step i c).

(** One call running alone. *)
Definition run_alone (entity : any) (st : Store) : Call * Store :=
  Nat.iter 3 (fun cs => call_step cs.1 cs.2) (Ready entity, st).

(** ** A reset among the calls *)

(** A step of the pool: goroutine [i] steps, or another goroutine
    calls [ClearRegistry], which is one assignment. *)
Definition step_or_reset (a : option nat) (c : Config) : Config :=
  match a with
  | Some i => step i c
  | None => mkConfig (calls c) (ClearRegistry (store c))
  end.

Definition run_resets (schedule : list (option nat)) (c : Config) : Config :=
  foldl (fun c a => step_or_reset a c) c schedule.

(** ** What every interleaving keeps *)

(** What a call holds, for the entity it was called on: the type it
    resolved, and once the descriptor is built a pointer to the
    description of a type of that printed name. *)
Definition call_inv (st : Store) (entity : any) (c : Call) : Prop :=
  match c with
  | Ready e => e = entity
  | Missed t => resolve entity = Ok t
  | Built t p =>
      resolve entity = Ok t /\
      exists m, deref st p = Some m /\ described (type_String t) m
  | Returned p =>
      exists t m, resolve entity = Ok t /\ deref st p = Some m /\
                  described (type_String t) m
  | Panicked _ => True
  end.

Definition config_inv (entities : list any) (c : Config) : Prop :=
  wf_store (store c) /\ Forall2 (call_inv (store c)) entities (calls c).

Section facts.
Implicit Types (c : Config) (st : Store) (call : Call) (schedule : list nat).

Lemma run_snoc schedule i c : run (schedule ++ [i]) c = step i (run schedule c).
Proof. unfold run. by rewrite foldl_app. Qed.

Lemma reaches_run c0 c : reaches c0 c <-> exists schedule, run schedule c0 = c.
Proof.
  split.
  - induction 1 as [|c i _ [schedule <-]]; [by exists []|].
    exists (schedule ++ [i]). apply run_snoc.
  - intros [schedule <-]. induction schedule as [|i schedule IH] using rev_ind.
    + constructor.
    + rewrite run_snoc. by constructor.
Qed.

(** The heap only grows. *)
Lemma call_step_heap call st : heap st `prefix_of` heap (call_step call st).2.
Proof.
  destruct call as [e|t|t p|p|msg]; simpl; try done.
  - destruct (resolve e); [|done]. by destruct (registry st !! _).
  - destruct (build t); [|done]. by apply prefix_app_r.
Qed.

Lemma deref_prefix st st' p m :
  heap st `prefix_of` heap st' -> deref st p = Some m -> deref st' p = Some m.
Proof. unfold deref. intros Hpre Hm. by eapply prefix_lookup_Some. Qed.

Lemma call_inv_prefix st st' entity call :
  heap st `prefix_of` heap st' -> call_inv st entity call -> call_inv st' entity call.
Proof.
  intros Hpre. destruct call as [e|t|t p|p|msg]; simpl; try done.
  - intros (? & m & ? & ?). eauto using deref_prefix.
  - intros (t & m & ? & ? & ?). eauto 10 using deref_prefix.
Qed.

(** What [build] returns is the description of a struct type. *)
Lemma build_described t meta :
  build t = Ok meta -> described (type_String t) meta.
Proof.
  unfold build. destruct (struct_fields t) as [fields|] eqn:Hf.
  - apply struct_fields_Some in Hf as (pkg & name & ->).
    rewrite table_override_struct. cbn [mbind outcome_bind].
    rewrite parse_fields_struct. intros [= <-]. by exists pkg, name, fields.
  - unfold table_override, type_FieldByName. by rewrite Hf.
Qed.

Lemma build_struct pkg name fields :
  build (TStruct pkg name fields) = Ok (describe pkg name fields).
Proof.
  unfold build. rewrite table_override_struct. cbn [mbind outcome_bind].
  by rewrite parse_fields_struct.
Qed.

(** A step of a call keeps the invariant of the store and gives the
    call its own. *)
Lemma call_step_inv st entity call :
  wf_store st -> call_inv st entity call ->
  wf_store (call_step call st).2 /\ call_inv (call_step call st).2 entity (call_step call st).1.
Proof.
  intros Hwf Hc. destruct call as [e|t|t p|p|msg]; simpl in *; try done.
  - subst e. destruct (resolve entity) as [t|] eqn:Hr; [|done].
    destruct (registry st !! type_String t) as [p|] eqn:Hp; simpl; [|done].
    split; [done|]. destruct (Hwf _ _ Hp) as (m & ? & ?). by exists t, m.
  - destruct (build t) as [meta|] eqn:Hb; [|done]. simpl. split.
    + intros key p Hp. destruct (Hwf _ _ Hp) as (m & Hm & ?). exists m. split; [|done].
      unfold deref in *. simpl. by apply lookup_app_l_Some.
    + split; [done|]. exists meta. split; [|by apply build_described].
      unfold deref. simpl. by rewrite lookup_app_r, Nat.sub_diag.
  - destruct Hc as (Hr & m & Hm & Hd). split; [|by exists t, m].
    intros key q. simpl. destruct (decide (key = type_String t)) as [->|Hne].
    + rewrite lookup_insert_eq. intros [= <-]. by exists m.
    + rewrite lookup_insert_ne by done. apply Hwf.
Qed.

Lemma step_inv entities i c : config_inv entities c -> config_inv entities (step i c).
Proof.
  intros [Hwf Hall]. unfold step. destruct (calls c !! i) as [call|] eqn:Hi; [|done].
  destruct (Forall2_lookup_r _ _ _ _ _ Hall Hi) as (entity & He & Hc).
  destruct (call_step_inv _ _ _ Hwf Hc) as [Hwf' Hc'].
  pose proof (call_step_heap call (store c)) as Hpre.
  destruct (call_step call (store c)) as [call' st']. simpl in *. split; [done|].
  rewrite <- (list_insert_id entities i entity) by done.
  apply Forall2_insert; [|done].
  eapply Forall2_impl; [done|]. intros. by eapply call_inv_prefix.
Qed.

Lemma start_inv entities st : wf_store st -> config_inv entities (start entities st).
Proof.
  intros Hwf. split; [done|]. simpl. apply Forall2_fmap_r, Forall_Forall2_diag.
  by apply Forall_forall.
Qed.

(** A step of one goroutine leaves the calls of the others. *)
Lemma step_other i j c : i <> j -> calls (step i c) !! j = calls c !! j.
Proof.
  intros Hne. unfold step. destruct (calls c !! i) as [call|]; [|done].
  destruct (call_step call (store c)). simpl. by rewrite list_lookup_insert_ne.
Qed.

Lemma step_self i c call :
  calls c !! i = Some call ->
  calls (step i c) !! i = Some (call_step call (store c)).1.
Proof.
  intros Hi. unfold step. rewrite Hi. destruct (call_step call (store c)). simpl.
  apply list_lookup_insert_eq. by eapply lookup_lt_Some.
Qed.

(** The three steps of a call alone. *)
Lemma run_alone_unfold entity st :
  run_alone entity st =
    let cs1 := call_step (Ready entity) st in
    let cs2 := call_step cs1.1 cs1.2 in
    call_step cs2.1 cs2.2.
Proof. reflexivity. Qed.

End facts.

(** ** The theorems *)

(** C16. The three steps are the function: a call that runs alone returns
    the pointer [Parse.Parse] returns and leaves the store it leaves,
    and panics where it panics, the store unchanged. *)
Theorem run_alone_Parse entity st :
  match Parse entity st with
  | Ok ((p, err), st') => run_alone entity st = (Returned p, st') /\ err = nil_error
  | Panic msg => run_alone entity st = (Panicked msg, st)
  end.
Proof.
  rewrite run_alone_unfold. unfold Parse. simpl.
  destruct (resolve entity) as [t|msg]; simpl; [|done].
  destruct (registry st !! type_String t) as [p|]; simpl; [done|].
  fold (build t). destruct (build t) as [meta|msg] eqn:Hb; simpl.
  - unfold build in Hb. destruct (table_override t (new_meta t)) as [meta0|]; [|done].
    simpl in *. by rewrite Hb.
  - unfold build in Hb. destruct (table_override t (new_meta t)) as [meta0|]; simpl in *.
    + by rewrite Hb.
    + by injection Hb as ->.
Qed.

(** On the scheduler, that is with a lock around each access of the
    map: whatever the interleaving, the store keeps its invariant and
    every pointer a call returned points to the description of a struct
    type with the printed name of the type the caller asked for. *)
Theorem race_keeps_descriptions entities st c i entity p :
  wf_store st -> reaches (start entities st) c ->
  entities !! i = Some entity -> calls c !! i = Some (Returned p) ->
  wf_store (store c) /\
  exists t m, resolve entity = Ok t /\ deref (store c) p = Some m /\
              described (type_String t) m.
Proof.
  intros Hwf Hreach He Hc.
  assert (config_inv entities c) as [Hwf' Hall].
  { clear Hc. induction Hreach; [by apply start_inv|by apply step_inv]. }
  split; [done|]. by apply (Forall2_lookup_lr _ _ _ _ _ _ Hall He Hc).
Qed.

(** ** Steps of a call on a pointer to a struct *)

Section struct_steps.
Context (pkg name : string) (fields : list StructField).
Implicit Types (v : GoValue) (st : Store) (c : Config).

Let T := TStruct pkg name fields.

Lemma call_step_miss v st :
  registry st !! type_String T = None ->
  call_step (Ready (Some (TPtr T, v))) st = (Missed T, st).
Proof. intros H. unfold call_step. change (resolve _) with (Ok T). cbv beta iota. by rewrite H. Qed.

Lemma call_step_hit v st p :
  registry st !! type_String T = Some p ->
  call_step (Ready (Some (TPtr T, v))) st = (Returned p, st).
Proof. intros H. unfold call_step. change (resolve _) with (Ok T). cbv beta iota. by rewrite H. Qed.

Lemma call_step_build st :
  call_step (Missed T) st
  = (Built T (length (heap st)), mkStore (heap st ++ [describe pkg name fields]) (registry st)).
Proof. unfold call_step, T. by rewrite build_struct. Qed.

End struct_steps.

Lemma call_step_publish t p st :
  call_step (Built t p) st = (Returned p, mkStore (heap st) (<[type_String t := p]> (registry st))).
Proof. reflexivity. Qed.

Lemma call_step_done p st : call_step (Returned p) st = (Returned p, st).
Proof. reflexivity. Qed.

Lemma run_step i schedule c call :
  calls c !! i = Some call ->
  run (i :: schedule) c
  = run schedule (mkConfig (<[i := (call_step call (store c)).1]> (calls c))
                           (call_step call (store c)).2).
Proof. unfold run, step. cbn [foldl]. intros ->. by destruct (call_step _ _). Qed.

(** One step of a schedule on a concrete pool of calls. *)
Ltac sched_step lem :=
  lazymatch goal with
  | |- context [run (?i :: ?s) ?c] =>
      rewrite (run_step i s c _ eq_refl); cbn [calls store];
      rewrite lem; cbn [fst snd calls store heap registry]
  end.

(** C11. Two goroutines that call [Parse] on values of one struct type that
    is not cached yet, their steps alternating: both miss the cache,
    both build a descriptor, and they return two different pointers;
    the registry is left with the second, so the first caller holds a
    descriptor that is not the cached one. *)
Theorem race_two_instances pkg name fields v1 v2 st :
  registry st !! type_String (TStruct pkg name fields) = None ->
  let c := run [0; 1; 0; 1; 0; 1]
             (start [Some (TPtr (TStruct pkg name fields), v1);
                     Some (TPtr (TStruct pkg name fields), v2)] st) in
  calls c = [Returned (length (heap st)); Returned (S (length (heap st)))] /\
  registry (store c) !! type_String (TStruct pkg name fields) = Some (S (length (heap st))) /\
  deref (store c) (length (heap st)) = deref (store c) (S (length (heap st))).
Proof.
  intros Hmiss c. subst c. unfold start.
  sched_step (call_step_miss pkg name fields v1 st Hmiss).
  sched_step (call_step_miss pkg name fields v2 st Hmiss).
  do 2 sched_step call_step_build. do 2 sched_step call_step_publish.
  cbn -[type_String]. rewrite length_app, Nat.add_1_r.
  split; [done|]. split; [by rewrite lookup_insert_eq|].
  unfold deref. cbn [heap]. rewrite <- !app_assoc.
  rewrite (lookup_app_r (heap st) _ (length (heap st))) by lia.
  rewrite (lookup_app_r (heap st) _ (S (length (heap st)))) by lia.
  rewrite Nat.sub_diag.
  by replace (S (length (heap st)) - length (heap st)) with 1 by lia.
Qed.

(** Two goroutines whose calls do not interleave, as under a lock held
    for the whole call: the second finds what the first cached, and
    both return the same pointer. *)
Theorem serial_same_instance pkg name fields v1 v2 st :
  let c := run [0; 0; 0; 1; 1; 1]
             (start [Some (TPtr (TStruct pkg name fields), v1);
                     Some (TPtr (TStruct pkg name fields), v2)] st) in
  exists p, calls c = [Returned p; Returned p] /\
            registry (store c) !! type_String (TStruct pkg name fields) = Some p.
Proof.
  intros c. subst c. unfold start.
  destruct (registry st !! type_String (TStruct pkg name fields)) as [p|] eqn:Hp.
  - sched_step (call_step_hit pkg name fields v1 st p Hp).
    do 2 sched_step call_step_done.
    sched_step (call_step_hit pkg name fields v2 st p Hp).
    do 2 sched_step call_step_done. cbn -[type_String]. eauto.
  - sched_step (call_step_miss pkg name fields v1 st Hp).
    sched_step call_step_build. sched_step call_step_publish.
    pose proof (lookup_insert_eq (registry st) (type_String (TStruct pkg name fields))
                  (length (heap st))) as Hq.
    sched_step (call_step_hit pkg name fields v2
                  (mkStore (heap st ++ [describe pkg name fields]) _) _ Hq).
    do 2 sched_step call_step_done. cbn -[type_String].
    eexists. split; [done|]. by rewrite lookup_insert_eq.
Qed.

(** ** Resets *)

Lemma step_call i c call :
  calls c !! i = Some call ->
  step i c = mkConfig (<[i := (call_step call (store c)).1]> (calls c))
                      (call_step call (store c)).2.
Proof. intros Hi. unfold step. rewrite Hi. by destruct (call_step _ _). Qed.

(** Resets among the steps keep what the interleavings keep: the
    invariant of the store, and a descriptor of the caller's type
    behind every pointer a call holds. *)
Theorem resets_keep_descriptions entities st schedule :
  wf_store st -> config_inv entities (run_resets schedule (start entities st)).
Proof.
  intros Hwf. unfold run_resets.
  induction schedule as [|a schedule IH] using rev_ind; [by apply start_inv|].
  rewrite foldl_snoc. destruct a as [i|]; [by apply step_inv|].
  destruct IH as [_ Hall]. split; [apply wf_store_ClearRegistry|].
  eapply Forall2_impl; [done|]. intros entity call. by apply call_inv_prefix.
Qed.

(** A reset is not the end of what was parsed before it: a call that
    has built its descriptor when the registry is cleared caches it
    afterwards, so the registry that was reset holds a descriptor built
    before the reset. *)
Theorem reset_then_publish pkg name fields v st :
  registry st !! type_String (TStruct pkg name fields) = None ->
  let c := run_resets [Some 0; Some 0; None; Some 0]
             (start [Some (TPtr (TStruct pkg name fields), v)] st) in
  calls c = [Returned (length (heap st))] /\
  registry (store c) = {[ type_String (TStruct pkg name fields) := length (heap st) ]} /\
  deref (store c) (length (heap st)) = Some (describe pkg name fields).
Proof.
  intros Hmiss c. subst c.
  assert (step 0 (start [Some (TPtr (TStruct pkg name fields), v)] st)
          = mkConfig [Missed (TStruct pkg name fields)] st) as H1.
  { rewrite (step_call 0 (start [Some (TPtr (TStruct pkg name fields), v)] st)
               (Ready (Some (TPtr (TStruct pkg name fields), v))) eq_refl).
    cbn [start calls store].
    by rewrite (call_step_miss pkg name fields v st Hmiss). }
  assert (step 0 (mkConfig [Missed (TStruct pkg name fields)] st)
          = mkConfig [Built (TStruct pkg name fields) (length (heap st))]
              (mkStore (heap st ++ [describe pkg name fields]) (registry st))) as H2.
  { rewrite (step_call 0 (mkConfig [Missed (TStruct pkg name fields)] st)
               (Missed (TStruct pkg name fields)) eq_refl).
    cbn [calls store].
    by rewrite (call_step_build pkg name fields). }
  unfold run_resets. cbn [foldl step_or_reset]. rewrite H1, H2.
  cbn [calls store ClearRegistry heap].
  rewrite (step_call 0 (mkConfig [Built (TStruct pkg name fields) (length (heap st))] _)
             (Built (TStruct pkg name fields) (length (heap st))) eq_refl).
  cbn [calls store].
  rewrite call_step_publish. cbn [fst snd heap registry].
  split; [done|]. split; [done|]. unfold deref, ClearRegistry. cbn [heap].
  by rewrite lookup_app_r, Nat.sub_diag.
Qed.

(** ** The entities of the example program *)

Lemma race_keeps_descriptions_witness :
  wf_store (store (run [0; 1; 0; 1; 0; 1] (start [product; product] init))) /\
  exists t m, resolve product = Ok t /\
    deref (store (run [0; 1; 0; 1; 0; 1] (start [product; product] init))) 0 = Some m /\
    described (type_String t) m.
Proof.
  apply (race_keeps_descriptions [product; product] init _ 0 product 0 wf_store_init).
  - apply reaches_run. by exists [0; 1; 0; 1; 0; 1].
  - reflexivity.
  - vm_compute. reflexivity.
Defined.

Lemma race_two_instances_witness :
  let c := run [0; 1; 0; 1; 0; 1] (start [product; product] init) in
  calls c = [Returned 0; Returned 1] /\
  registry (store c) !! "main.Product" = Some 1 /\
  deref (store c) 0 = deref (store c) 1.
Proof.
  apply (race_two_instances "main" "Product"
           (default [] (struct_fields Entities.Entities.MainPkg.Product)) _ _ init).
  reflexivity.
Defined.

End Race.
