(* ===== verification/DataRace.v ===== *)
(** * DataRace: which concurrent calls of Parse are free of data races

    The scheduler of [Race] runs the goroutines as if every access to
    the registry of src/internal/meta/parse.go were atomic and the
    interleaving sequentially consistent.  Go promises that only to
    programs without a data race (the guarantee DRF-SC of the Go memory
    model); a program with a race on a map may be aborted by the
    runtime ("concurrent map writes") or corrupt the map.  [Parse]
    takes no lock and starts no goroutine, so nothing orders the
    accesses of two goroutines: two accesses of the registry by
    different goroutines, of which one is the assignment of line 63,
    are a data race.

    This file adds the accesses to the scheduler: [next_access] is the
    access the next step of a call makes (the lookup of line 21, the
    assignment of line 63), [trace] the accesses of a run, [racy] a
    trace with a data race, [race_free] a pool of calls of which no run
    has one.

    The theorems: a pool is race free exactly when no call that would
    cache a descriptor runs beside another call that reaches the
    registry ([exclusive]); for such a pool every run of the scheduler
    is Go's, every call returns what [Parse.Parse] returns on the store
    at the start, and the store at the end is the one the calls leave
    when they run one after the other.  The pools of
    [Race.race_two_instances] and [Layout.race_order_matters] are not
    race free: their runs are among the behaviours Go allows, and Go
    allows worse. *)

From Stdlib Require Import Ascii String ZArith Lia.
From stdpp Require Import base tactics option list strings gmap.
From S2P Require Import Prelude Reflect Entities Meta Parse Race.

#[local] Set Warnings "-clear-no-such-hyp".

Module DataRace.
Import Meta.Meta Parse.Parse Race.Race.

(** ** Accesses *)

Inductive Access : Type := Read | Write.

#[global] Instance Access_eq_dec : EqDecision Access.
Proof. solve_decision. Defined.

(** The access to the registry the next step of a call makes: the
    lookup when the type of the entity resolves (a nil entity panics
    before it), the assignment once the descriptor is built. *)
Definition next_access (c : Call) : option Access :=
  match c with
  | Ready entity => if resolve entity is Ok _ then Some Read else None
  | Built _ _ => Some Write
  | _ => None
  end.

Definition access_at (i : nat) (c : Config) : option Access :=
  calls c !! i ≫= next_access.

(** The accesses of a run, each with the goroutine that makes it. *)
Fixpoint trace (schedule : list nat) (c : Config) : list (nat * Access) :=
  match schedule with
  | [] => []
  | i :: rest => option_list (pair i <$> access_at i c) ++ trace rest (step i c)
  end.

(** Two accesses by different goroutines, one of them a write. *)
Definition conflict (x y : nat * Access) : bool :=
  negb (bool_decide (x.1 = y.1)) && (bool_decide (x.2 = Write) || bool_decide (y.2 = Write)).

Definition racy (tr : list (nat * Access)) : bool :=
  existsb (fun x => existsb (conflict x) tr) tr.

(** No run of the goroutines that call [Parse] on the entities has a
    data race. *)
Definition race_free (entities : list any) (st : Store) : Prop :=
  forall schedule, racy (trace schedule (start entities st)) = false.

(** ** The calls that reach the registry *)

(** The call looks its key up: the type of the entity resolves. *)
Definition reads_registry (entity : any) : bool :=
  if resolve entity is Ok _ then true else false.

(** The call, run on the store [st], assigns to the registry: the key
    is not cached and the descriptor is built without a panic. *)
Definition writes_registry (st : Store) (entity : any) : bool :=
  match resolve entity with
  | Ok t =>
      match registry st !! type_String t, build t with
      | None, Ok _ => true
      | _, _ => false
      end
  | Panic _ => false
  end.

(** A call that writes has no other call that reads beside it. *)
Definition exclusive (entities : list any) (st : Store) : Prop :=
  forall i j e e', i <> j -> entities !! i = Some e -> entities !! j = Some e' ->
    writes_registry st e = true -> reads_registry e' = false.

Definition exclusiveb (entities : list any) (st : Store) : bool :=
  forallb (fun ie : nat * any =>
    negb (writes_registry st ie.2)
    || forallb (fun je : nat * any => bool_decide (ie.1 = je.1) || negb (reads_registry je.2))
               (imap pair entities))
    (imap pair entities).

(** ** A call on the store it started on *)

(** Where a call of [Parse] on [e] stands after some of its steps,
    when no other call has changed what it sees of the store [st]. *)
Definition on_path (st : Store) (e : any) (c : Call) : Prop :=
  match c with
  | Ready e' => e' = e
  | Missed t => resolve e = Ok t /\ registry st !! type_String t = None
  | Built t p =>
      resolve e = Ok t /\ registry st !! type_String t = None /\
      p = length (heap st) /\ exists meta, build t = Ok meta
  | Returned p => exists err st', Parse e st = Ok ((p, err), st')
  | Panicked msg => Parse e st = Panic msg
  end.

(** The store such a call has left, when it alone has written. *)
Definition left_by (st : Store) (e : any) (c : Call) : Store :=
  match c with
  | Built t p =>
      match build t with
      | Ok meta => mkStore (heap st ++ [meta]) (registry st)
      | Panic _ => st
      end
  | Returned p => run_op (OpParse e) st
  | _ => st
  end.

(** The calls one after the other, in the order of the entities. *)
Definition parse_all (entities : list any) (st : Store) : Store :=
  foldl (fun st e => run_op (OpParse e) st) st entities.

(** ** Traces *)

Section traces.
Implicit Types (tr : list (nat * Access)) (c : Config) (schedule : list nat).

Lemma trace_app s1 s2 c : trace (s1 ++ s2) c = trace s1 c ++ trace s2 (run s1 c).
Proof.
  revert c. induction s1 as [|i s1 IH]; intros c; [done|].
  cbn [app trace]. by rewrite IH, <- app_assoc.
Qed.

Lemma conflict_spec x y :
  conflict x y = true <-> x.1 <> y.1 /\ (x.2 = Write \/ y.2 = Write).
Proof.
  unfold conflict.
  rewrite andb_true_iff, negb_true_iff, orb_true_iff, bool_decide_eq_false, !bool_decide_eq_true.
  done.
Qed.

Lemma racy_spec tr :
  racy tr = true <-> exists x y, In x tr /\ In y tr /\ x.1 <> y.1 /\ (x.2 = Write \/ y.2 = Write).
Proof.
  unfold racy. rewrite existsb_exists. split.
  - intros (x & Hx & (y & Hy & Hc%conflict_spec)%existsb_exists). by exists x, y.
  - intros (x & y & Hx & Hy & Hc). exists x. split; [done|].
    apply existsb_exists. exists y. split; [done|]. by apply conflict_spec.
Qed.

(** A trace of reads has no race, and neither has the trace of one
    goroutine. *)
Lemma racy_reads tr : Forall (fun x => x.2 = Read) tr -> racy tr = false.
Proof.
  rewrite Forall_forall. intros Hr. apply not_true_is_false.
  intros (x & y & Hx%list_elem_of_In & Hy%list_elem_of_In & _ & [Hw|Hw])%racy_spec;
    [rewrite (Hr x Hx) in Hw|rewrite (Hr y Hy) in Hw]; done.
Qed.

Lemma racy_alone w tr : Forall (fun x => x.1 = w) tr -> racy tr = false.
Proof.
  rewrite Forall_forall. intros Hr. apply not_true_is_false.
  intros (x & y & Hx%list_elem_of_In & Hy%list_elem_of_In & Hne & _)%racy_spec.
  by rewrite (Hr x Hx), (Hr y Hy) in Hne.
Qed.

End traces.

(** ** One call *)

Section one_call.
Implicit Types (st s : Store) (e : any) (call : Call).

(** [Parse] on a miss, by the descriptor [build] makes. *)
Lemma Parse_build e st t :
  resolve e = Ok t -> registry st !! type_String t = None ->
  Parse e st
  = meta ← build t;
    Ok ((length (heap st), nil_error),
        mkStore (heap st ++ [meta]) (<[type_String t := length (heap st)]> (registry st))).
Proof.
  intros Hr Hm. unfold Parse, build. rewrite Hr. cbn [mbind outcome_bind]. rewrite Hm.
  by destruct (table_override t (new_meta t)).
Qed.

(** A call that does not write leaves the store as it is. *)
Lemma run_op_quiet e st : writes_registry st e = false -> run_op (OpParse e) st = st.
Proof.
  unfold writes_registry, run_op. destruct (resolve e) as [t|msg] eqn:Hr.
  - destruct (registry st !! type_String t) as [p|] eqn:Hp.
    + by rewrite (Parse_hit e st t p).
    + rewrite (Parse_build e st t) by done. by destruct (build t).
  - by rewrite (Parse_unresolved e st msg).
Qed.

(** A call that does not read panics on every store. *)
Lemma run_op_unresolved e s : reads_registry e = false -> run_op (OpParse e) s = s.
Proof.
  unfold reads_registry, run_op. destruct (resolve e) as [t|msg] eqn:Hr; [done|].
  by rewrite (Parse_unresolved e s msg).
Qed.

Lemma writes_reads st e : writes_registry st e = true -> reads_registry e = true.
Proof. unfold writes_registry, reads_registry. by destruct (resolve e). Qed.

(** A step of a call that alone writes: it stays on the path of
    [Parse], and the store is the one it has left. *)
Lemma on_path_step st e call :
  on_path st e call ->
  on_path st e (call_step call (left_by st e call)).1 /\
  (call_step call (left_by st e call)).2 = left_by st e (call_step call (left_by st e call)).1.
Proof.
  destruct call as [e'|t|t p|p|msg]; cbn [on_path left_by call_step]; try done.
  - intros ->. destruct (resolve e) as [t|msg] eqn:Hr; cbn [fst snd on_path left_by].
    + destruct (registry st !! type_String t) as [p|] eqn:Hp; cbn [fst snd on_path left_by].
      * rewrite (Parse_hit e st t p) by done. unfold run_op. rewrite (Parse_hit e st t p) by done.
        eauto.
      * done.
    + by rewrite (Parse_unresolved e st msg).
  - intros [Hr Hm]. destruct (build t) as [meta|msg] eqn:Hb; cbn [fst snd on_path left_by].
    + rewrite Hb. eauto 10.
    + rewrite (Parse_build e st t), Hb by done. done.
  - intros (Hr & Hm & -> & meta & Hb). rewrite Hb. cbn [fst snd on_path left_by heap registry].
    unfold run_op. rewrite (Parse_build e st t), Hb by done. cbn [mbind outcome_bind]. eauto.
Qed.

(** A call on the path that does not write has left the store as it
    was. *)
Lemma left_by_quiet st e call :
  writes_registry st e = false -> on_path st e call -> left_by st e call = st.
Proof.
  intros Hw. destruct call as [e'|t|t p|p|msg]; cbn [on_path left_by]; try done.
  - intros (Hr & Hm & _ & meta & Hb). unfold writes_registry in Hw. by rewrite Hr, Hm, Hb in Hw.
  - intros _. by apply run_op_quiet.
Qed.

(** A step of a call beside the one that writes: it sees the store of
    the start, or it never looks. *)
Lemma on_path_beside st s e call :
  writes_registry st e = false -> s = st \/ reads_registry e = false ->
  on_path st e call ->
  on_path st e (call_step call s).1 /\ (call_step call s).2 = s.
Proof.
  intros Hw [->|Hr] Hp.
  - destruct (on_path_step st e call Hp) as [Hp' Hs].
    rewrite (left_by_quiet st e call) in * by done.
    by rewrite (left_by_quiet st e _ Hw Hp') in Hs.
  - unfold reads_registry in Hr. destruct (resolve e) as [t|msg] eqn:Hres; [done|].
    destruct call as [e'|t|t p|p|msg']; cbn [on_path call_step] in *; try done.
    + subst e'. rewrite Hres. cbn. by rewrite (Parse_unresolved e st msg).
    + destruct Hp. congruence.
    + destruct Hp. congruence.
Qed.

(** The access of a call on the path. *)
Lemma next_access_write st e call :
  on_path st e call -> next_access call = Some Write -> writes_registry st e = true.
Proof.
  destruct call as [e'|t|t p|p|msg]; cbn [on_path next_access]; try done.
  - intros ->. by destruct (resolve e).
  - intros (Hr & Hm & _ & meta & Hb) _. unfold writes_registry. by rewrite Hr, Hm, Hb.
Qed.

Lemma next_access_reads st e call a :
  on_path st e call -> next_access call = Some a -> reads_registry e = true.
Proof.
  destruct call as [e'|t|t p|p|msg]; cbn [on_path next_access]; try done.
  - intros ->. unfold reads_registry. by destruct (resolve e).
  - intros (Hr & _) _. unfold reads_registry. by rewrite Hr.
Qed.

(** What a call that is over has returned. *)
Lemma on_path_finished st e call :
  on_path st e call -> finished call = true ->
  match Parse e st with
  | Ok ((p, _), _) => call = Returned p
  | Panic msg => call = Panicked msg
  end.
Proof.
  destruct call as [e'|t|t p|p|msg]; cbn [on_path finished]; try done.
  - by intros (err & st' & ->) _.
  - by intros -> _.
Qed.

Lemma left_by_finished st e call :
  on_path st e call -> finished call = true -> left_by st e call = run_op (OpParse e) st.
Proof.
  destruct call as [e'|t|t p|p|msg]; cbn [on_path finished left_by]; try done.
  intros Hp _. unfold run_op. by rewrite Hp.
Qed.

End one_call.

(** ** A pool with at most one call that writes *)

Section pool.
Context (entities : list any) (st : Store) (w : nat).
Implicit Types (c : Config) (schedule : list nat).

(** The goroutines beside [w] do not write, and do not read either
    when [w] writes. *)
Hypothesis beside : forall j e, j <> w -> entities !! j = Some e ->
  writes_registry st e = false /\
  (forall ew, entities !! w = Some ew -> writes_registry st ew = true ->
              reads_registry e = false).

(** Whether [w] writes. *)
Definition writing : bool :=
  match entities !! w with
  | Some ew => writes_registry st ew
  | None => false
  end.

(** The store is the one [w] has left. *)
Definition store_of c : Store :=
  match entities !! w, calls c !! w with
  | Some ew, Some call => left_by st ew call
  | _, _ => st
  end.

Definition pool_inv c : Prop :=
  Forall2 (on_path st) entities (calls c) /\ store c = store_of c.

(** The accesses the pool makes: those of [w] when it writes, reads
    when it does not. *)
Definition tame (x : nat * Access) : Prop :=
  if writing then x.1 = w else x.2 = Read.

Lemma racy_tame tr : Forall tame tr -> racy tr = false.
Proof. unfold tame. destruct writing; [apply racy_alone|apply racy_reads]. Qed.

Lemma pool_inv_start : pool_inv (start entities st).
Proof.
  split.
  - cbn. apply Forall2_fmap_r, Forall_Forall2_diag. by apply Forall_forall.
  - unfold store_of. cbn. rewrite list_lookup_fmap. by destruct (entities !! w).
Qed.

(** What a goroutine beside [w] sees of the store. *)
Lemma beside_store c j e :
  pool_inv c -> j <> w -> entities !! j = Some e ->
  store c = st \/ reads_registry e = false.
Proof.
  intros [Hall ->] Hne He. destruct (beside j e Hne He) as [_ Hr]. unfold store_of.
  destruct (entities !! w) as [ew|] eqn:Hw; [|by left].
  destruct (calls c !! w) as [call|] eqn:Hc; [|by left].
  destruct (writes_registry st ew) eqn:Hwr; [right; eauto|left].
  apply left_by_quiet; [done|]. by apply (Forall2_lookup_lr _ _ _ _ _ _ Hall Hw Hc).
Qed.

Lemma pool_inv_step i c : pool_inv c -> pool_inv (step i c).
Proof.
  intros Hinv. pose proof Hinv as [Hall Hst].
  destruct (calls c !! i) as [call|] eqn:Hi; [|unfold step; by rewrite Hi].
  destruct (Forall2_lookup_r _ _ _ _ _ Hall Hi) as (e & He & Hp).
  rewrite (step_call i c call Hi). unfold pool_inv, store_of. cbn [calls store].
  destruct (decide (i = w)) as [->|Hne].
  - rewrite He, list_lookup_insert_eq by (by eapply lookup_lt_Some).
    assert (store c = left_by st e call) as -> by (unfold store_of in Hst; by rewrite He, Hi in Hst).
    destruct (on_path_step st e call Hp) as [Hp' Hs]. split; [|done].
    rewrite <- (list_insert_id entities w e) by done. by apply Forall2_insert.
  - rewrite list_lookup_insert_ne by done.
    destruct (beside i e Hne He) as [Hq _].
    destruct (on_path_beside st (store c) e call Hq (beside_store c i e Hinv Hne He) Hp)
      as [Hp' ->].
    split; [|done]. rewrite <- (list_insert_id entities i e) by done. by apply Forall2_insert.
Qed.

Lemma access_tame i c a : pool_inv c -> access_at i c = Some a -> tame (i, a).
Proof.
  intros [Hall _]. unfold access_at. destruct (calls c !! i) as [call|] eqn:Hi; [|done].
  cbn. intros Ha. destruct (Forall2_lookup_r _ _ _ _ _ Hall Hi) as (e & He & Hp).
  unfold tame, writing. cbn. destruct (decide (i = w)) as [->|Hne].
  - rewrite He. destruct (writes_registry st e) eqn:Hw; [done|].
    destruct a; [done|]. by rewrite (next_access_write st e call Hp Ha) in Hw.
  - destruct (beside i e Hne He) as [Hq Hr].
    pose proof (next_access_reads st e call a Hp Ha) as Hreads.
    destruct (entities !! w) as [ew|] eqn:Hw.
    + destruct (writes_registry st ew) eqn:Hwr; [by rewrite (Hr ew) in Hreads|].
      destruct a; [done|]. by rewrite (next_access_write st e call Hp Ha) in Hq.
    + destruct a; [done|]. by rewrite (next_access_write st e call Hp Ha) in Hq.
Qed.

(** Every run keeps the invariant, and its accesses are tame. *)
Lemma pool_run schedule c :
  pool_inv c -> pool_inv (run schedule c) /\ Forall tame (trace schedule c).
Proof.
  revert c. induction schedule as [|i schedule IH]; intros c Hinv; [done|].
  destruct (IH (step i c) (pool_inv_step i c Hinv)) as [Hrun Htr]. split; [done|].
  cbn [trace]. apply Forall_app. split; [|done].
  destruct (access_at i c) as [a|] eqn:Ha; [|done]. cbn. constructor; [|done].
  by apply (access_tame i c).
Qed.

(** The calls one after the other leave what [w] leaves. *)
Lemma parse_all_fixed (l : list any) s :
  Forall (fun e => run_op (OpParse e) s = s) l -> parse_all l s = s.
Proof.
  unfold parse_all. induction 1 as [|e l He _ IH]; [done|]. cbn [foldl]. by rewrite He.
Qed.

Lemma parse_all_pool :
  parse_all entities st
  = match entities !! w with
    | Some ew => run_op (OpParse ew) st
    | None => st
    end.
Proof.
  destruct (entities !! w) as [ew|] eqn:Hw.
  - rewrite <- (take_drop_middle entities w ew Hw) at 1. unfold parse_all.
    rewrite foldl_app. cbn [foldl]. fold (parse_all (take w entities) st).
    rewrite parse_all_fixed.
    + apply parse_all_fixed, Forall_lookup_2. intros j e. rewrite lookup_drop. intros He.
      destruct (beside (S w + j) e ltac:(lia) He) as [Hq Hr].
      destruct (writes_registry st ew) eqn:Hwr; [by apply run_op_unresolved, (Hr ew)|].
      rewrite (run_op_quiet ew st Hwr). by apply run_op_quiet.
    + apply Forall_lookup_2. intros j e [He Hj]%lookup_take_Some.
      destruct (beside j e ltac:(lia) He) as [Hq _]. by apply run_op_quiet.
  - apply parse_all_fixed, Forall_lookup_2. intros j e He.
    destruct (beside j e) as [Hq _]; [congruence|done|]. by apply run_op_quiet.
Qed.

(** When every call is over, the store is the one the calls leave
    when they run one after the other. *)
Lemma pool_store c :
  pool_inv c -> Forall (fun call => finished call = true) (calls c) ->
  store c = parse_all entities st.
Proof.
  intros [Hall ->] Hfin. rewrite parse_all_pool. unfold store_of.
  destruct (entities !! w) as [ew|] eqn:Hw; [|done].
  destruct (Forall2_lookup_l _ _ _ _ _ Hall Hw) as (call & Hc & Hp). rewrite Hc.
  apply left_by_finished; [done|]. by apply (Forall_lookup_1 _ _ _ _ Hfin Hc).
Qed.

End pool.

(** ** Race freedom *)

Section race_freedom.
Implicit Types (entities : list any) (st : Store) (schedule : list nat).

Lemma exclusiveb_exclusive entities st :
  exclusiveb entities st = true -> exclusive entities st.
Proof.
  unfold exclusiveb. rewrite forallb_forall. intros Hall i j e e' Hne He He' Hw.
  assert (forall k x, entities !! k = Some x -> In (k, x) (imap pair entities)) as Hin.
  { intros k x Hk. apply list_elem_of_In, elem_of_lookup_imap. eauto. }
  specialize (Hall _ (Hin i e He)). cbn in Hall. rewrite Hw in Hall. cbn in Hall.
  rewrite forallb_forall in Hall. specialize (Hall _ (Hin j e' He')). cbn in Hall.
  rewrite bool_decide_eq_false_2 in Hall by done. by apply negb_true_iff.
Qed.

(** An exclusive pool has a goroutine beside which no other writes. *)
Lemma exclusive_beside entities st :
  exclusive entities st ->
  exists w, forall j e, j <> w -> entities !! j = Some e ->
    writes_registry st e = false /\
    (forall ew, entities !! w = Some ew -> writes_registry st ew = true ->
                reads_registry e = false).
Proof.
  intros Hex.
  destruct (decide (Exists (fun e => writes_registry st e = true) entities)) as [Hw|Hn].
  - apply Exists_exists in Hw as (ew & (w & Hw)%list_elem_of_lookup_1 & Hwr).
    exists w. intros j e Hne He. split.
    + apply not_true_is_false. intros Hj.
      pose proof (Hex j w e ew Hne He Hw Hj) as Hr. by rewrite (writes_reads st ew) in Hr.
    + intros ew' Hw' Hwr'. apply (Hex w j ew' e); auto.
  - exists 0. intros j e Hne He. split.
    + apply not_true_is_false. intros Hj. apply Hn, Exists_exists. exists e.
      split; [by eapply list_elem_of_lookup_2|done].
    + intros ew Hw Hwr. exfalso. apply Hn, Exists_exists. exists ew.
      split; [by eapply list_elem_of_lookup_2|done].
Qed.

(** Every run of an exclusive pool: no race, every call on the path of
    [Parse] from the store at the start, and at the end the store of
    the calls in sequence. *)
Lemma exclusive_run entities st schedule :
  exclusive entities st ->
  let c := run schedule (start entities st) in
  racy (trace schedule (start entities st)) = false /\
  Forall2 (on_path st) entities (calls c) /\
  (Forall (fun call => finished call = true) (calls c) -> store c = parse_all entities st).
Proof.
  intros (w & Hbeside)%exclusive_beside c.
  destruct (pool_run entities st w Hbeside schedule _ (pool_inv_start entities st w Hbeside))
    as [Hinv Htr].
  split; [by eapply racy_tame|]. split; [apply Hinv|]. by eapply pool_store.
Qed.

(** Exclusiveness does not depend on the order of the pool, and
    neither does the store the calls leave one after the other. *)
Lemma exclusive_perm entities entities' st :
  entities' ≡ₚ entities -> exclusive entities st -> exclusive entities' st.
Proof.
  intros (_ & f & Hf & Hlook)%Permutation_inj Hex i j e e' Hne He He' Hw.
  rewrite Hlook in He, He'. apply (Hex (f i) (f j) e e'); [|done..].
  by intros ?%(inj f).
Qed.

Lemma parse_all_writer entities st e :
  exclusive entities st -> e ∈ entities -> writes_registry st e = true ->
  parse_all entities st = run_op (OpParse e) st.
Proof.
  intros Hex (w & Hw)%list_elem_of_lookup_1 Hwr.
  rewrite (parse_all_pool entities st w), Hw; [done|].
  intros j e' Hne He'. split.
  - apply not_true_is_false. intros Hj.
    pose proof (Hex j w e' e Hne He' Hw Hj) as Hr. by rewrite (writes_reads st e) in Hr.
  - intros ew Hw' _. apply (Hex w j ew e'); [done..|congruence].
Qed.

Lemma parse_all_quiet entities st :
  Forall (fun e => writes_registry st e = false) entities -> parse_all entities st = st.
Proof.
  intros Hq. apply parse_all_fixed. eapply Forall_impl; [done|]. intros e. apply run_op_quiet.
Qed.

Lemma parse_all_perm entities entities' st :
  exclusive entities st -> entities' ≡ₚ entities ->
  parse_all entities' st = parse_all entities st.
Proof.
  intros Hex Hperm.
  destruct (decide (Exists (fun e => writes_registry st e = true) entities)) as [Hw|Hn].
  - apply Exists_exists in Hw as (e & He & Hwr).
    rewrite (parse_all_writer entities st e), (parse_all_writer entities' st e); try done.
    + by eapply exclusive_perm.
    + by rewrite Hperm.
  - apply not_Exists_Forall in Hn; [|solve_decision].
    assert (Forall (fun e => writes_registry st e = false) entities) as Hq.
    { eapply Forall_impl; [done|]. intros e. cbn. by destruct (writes_registry st e). }
    rewrite (parse_all_quiet entities st Hq). apply parse_all_quiet. by rewrite Hperm.
Qed.

Lemma trace_In schedule rest k a c :
  access_at k (run schedule c) = Some a -> In (k, a) (trace (schedule ++ k :: rest) c).
Proof.
  intros Ha. rewrite trace_app. apply in_or_app. right. cbn [trace]. rewrite Ha. by left.
Qed.

(** A call that writes beside a call that reads: the run in which the
    first returns before the second starts has a race. *)
Lemma writer_reader_racy entities st i j e e' :
  i <> j -> entities !! i = Some e -> entities !! j = Some e' ->
  writes_registry st e = true -> reads_registry e' = true ->
  racy (trace [i; i; i; j] (start entities st)) = true.
Proof.
  intros Hne He He' Hw Hr. apply racy_spec. exists (i, Write), (j, Read).
  unfold writes_registry in Hw. destruct (resolve e) as [t|] eqn:Hres; [|done].
  destruct (registry st !! type_String t) eqn:Hm; [done|].
  destruct (build t) as [meta|] eqn:Hb; [|done].
  assert (calls (start entities st) !! i = Some (Ready e)) as H0.
  { cbn. by rewrite list_lookup_fmap, He. }
  pose proof (step_self i _ _ H0) as H1. cbn [call_step start store] in H1.
  rewrite Hres, Hm in H1. cbn [fst] in H1.
  pose proof (step_self i _ _ H1) as H2. cbn [call_step] in H2. rewrite Hb in H2.
  cbn [fst] in H2.
  split; [|split; [|split; [done|by left]]].
  - apply (trace_In [i; i] [j]). unfold access_at. cbn [run foldl]. by rewrite H2.
  - apply (trace_In [i; i; i] []). unfold access_at. cbn [run foldl].
    rewrite !step_other by done. cbn. rewrite list_lookup_fmap, He'. cbn.
    unfold reads_registry in Hr. by destruct (resolve e').
Qed.

Lemma exclusive_race_free entities st : exclusive entities st -> race_free entities st.
Proof. intros Hex schedule. by destruct (exclusive_run entities st schedule Hex) as [? _]. Qed.

Lemma race_free_exclusive entities st : race_free entities st -> exclusive entities st.
Proof.
  intros Hfree i j e e' Hne He He' Hw. apply not_true_is_false. intros Hr.
  pose proof (writer_reader_racy entities st i j e e' Hne He He' Hw Hr) as Hracy.
  by rewrite Hfree in Hracy.
Qed.

End race_freedom.

(** ** The theorems *)

(** C12. A pool of concurrent calls of [Parse] is free of data races
    exactly when no call that assigns to the registry has a call that
    looks a key up beside it: either every type that can be described
    is cached already, and the calls only read, or one goroutine alone
    reaches the registry. *)
Theorem race_free_iff entities st : race_free entities st <-> exclusive entities st.
Proof. split; [apply race_free_exclusive|apply exclusive_race_free]. Qed.

(** C14. In a pool without data races every call that is over has returned
    what [Parse.Parse] returns on the store the pool started on, the
    pointer or the panic, whatever the schedule. *)
Theorem race_free_sequential entities st schedule i entity call :
  race_free entities st ->
  entities !! i = Some entity ->
  calls (run schedule (start entities st)) !! i = Some call -> finished call = true ->
  match Parse entity st with
  | Ok ((p, _), _) => call = Returned p
  | Panic msg => call = Panicked msg
  end.
Proof.
  intros Hex%race_free_exclusive He Hc Hfin.
  destruct (exclusive_run entities st schedule Hex) as (_ & Hall & _).
  apply on_path_finished; [|done]. by apply (Forall2_lookup_lr _ _ _ _ _ _ Hall He Hc).
Qed.

(** C15. In a pool without data races the store, once every call is over,
    is the store the calls leave when they run one after the other, in
    the order of the pool or in any other. *)
Theorem race_free_store entities st schedule :
  race_free entities st ->
  Forall (fun call => finished call = true) (calls (run schedule (start entities st))) ->
  forall serial, serial ≡ₚ entities ->
    store (run schedule (start entities st)) = parse_all serial st.
Proof.
  intros Hex%race_free_exclusive Hfin serial Hperm.
  destruct (exclusive_run entities st schedule Hex) as (_ & _ & Hst).
  rewrite Hst by done. symmetry. by apply parse_all_perm.
Qed.

(** ** The entities of the example program *)

(** C13. Two calls on one struct type that is not cached are a data race,
    whatever the store: the pool of [Race.race_two_instances] is not
    race free. *)
Theorem uncached_pair_races pkg name fields v1 v2 st :
  registry st !! type_String (TStruct pkg name fields) = None ->
  ~ race_free [Some (TPtr (TStruct pkg name fields), v1);
               Some (TPtr (TStruct pkg name fields), v2)] st.
Proof.
  intros Hm Hfree%race_free_exclusive.
  assert (writes_registry st (Some (TPtr (TStruct pkg name fields), v1)) = true) as Hw.
  { unfold writes_registry.
    change (resolve _) with (Ok (TStruct pkg name fields)). cbv beta iota.
    by rewrite Hm, build_struct. }
  by specialize (Hfree 0 1 _ (Some (TPtr (TStruct pkg name fields), v2))
                   ltac:(done) eq_refl eq_refl Hw).
Qed.

(** Once Product is cached, calls on products and on a nil entity
    only read: the pool is race free.  On the empty registry, one call
    on a product beside calls on nil entities is race free as well. *)
Lemma cached_pool_race_free : race_free [product; product; None] st_product.
Proof. apply exclusive_race_free, exclusiveb_exclusive. vm_compute. reflexivity. Qed.

Lemma lone_pool_race_free : race_free [None; product; None] init.
Proof. apply exclusive_race_free, exclusiveb_exclusive. vm_compute. reflexivity. Qed.

Lemma uncached_pair_races_witness : ~ race_free [product; product] init.
Proof.
  apply (uncached_pair_races "main" "Product"
           (default [] (struct_fields Entities.Entities.MainPkg.Product)) _ _ init).
  reflexivity.
Defined.

Lemma race_free_sequential_witness :
  match Parse product st_product with
  | Ok ((p, _), _) => Returned 0 = Returned p
  | Panic msg => Returned 0 = Panicked msg
  end.
Proof.
  apply (race_free_sequential [product; product; None] st_product [0; 1; 2; 1; 0] 1 product
           (Returned 0) cached_pool_race_free); [reflexivity| |reflexivity].
  vm_compute. reflexivity.
Defined.

Lemma race_free_store_witness :
  store (run [1; 0; 1; 2; 1] (start [None; product; None] init))
  = parse_all [product; None; None] init.
Proof.
  apply (race_free_store [None; product; None] init [1; 0; 1; 2; 1] lone_pool_race_free).
  - vm_compute. repeat constructor.
  - apply Permutation_swap.
Defined.

End DataRace.
