(* ===== verification/Layout.v ===== *)
(** * Layout: the registry up to the addresses of its descriptors

    [Parse] of src/internal/meta/parse.go returns a pointer, and which
    pointer it is depends on what was parsed before: the heap of
    [Parse.Store] grows by one descriptor at every miss.  What a caller
    reads through the pointer does not depend on it.  This file states
    that with a relation on stores coarser than equality: two stores
    are [similar] when both keep the invariant of the registry and
    cache the same description under the same key, wherever the
    descriptors lie.

    - [Parse], [ClearRegistry] and the operations of the package
      respect the relation ([Proper] instances), so a program of
      operations run from similar stores ends in similar stores and
      answers alike at every call.
    - For the goroutines of the scheduler of [Race], that is for the
      code with a lock around each access of the map, the relation is
      what the interleaving cannot change: when the printed names tell
      the types of the callers apart ([keyed]), every call answers the
      description it would answer alone from the initial store
      ([expected]), under every schedule, and two schedules that let
      every call finish leave similar stores.  Without that hypothesis
      the answer of a call depends on the schedule, lock or no lock
      ([race_order_matters]).  What holds of the code as it stands,
      without a lock, is in [DataRace]. *)

From Stdlib Require Import Ascii String Lia Morphisms.
From stdpp Require Import base tactics option list strings gmap.
From S2P Require Import Prelude Reflect Entities Meta Parse Race.

#[local] Set Warnings "-clear-no-such-hyp".

Module Layout.
Import Entities.Entities Meta.Meta Parse.Parse Race.Race.

(** ** Stores that hold the same registry *)

(** Both stores keep the invariant, and cache the same descriptions. *)
Definition similar (st1 st2 : Store) : Prop :=
  wf_store st1 /\ wf_store st2 /\ abs st1 = abs st2.

(** Two results of [Parse] that a caller cannot tell apart: the same
    panic, or the same error with pointers to equal descriptors in
    similar stores. *)
Inductive alike : relation (outcome ((ptr * error) * Store)) :=
| alike_Ok p1 p2 err st1 st2 :
    deref st1 p1 = deref st2 p2 -> similar st1 st2 ->
    alike (Ok ((p1, err), st1)) (Ok ((p2, err), st2))
| alike_Panic msg : alike (Panic msg) (Panic msg).

(** A program of the package: its operations in order. *)
Definition run_ops (ops : list op) (st : Store) : Store :=
  foldl (fun st o => run_op o st) st ops.

Section similar.
Implicit Types (e : any) (st : Store) (p : ptr) (k : string).

Lemma similar_refl st : wf_store st -> similar st st.
Proof. by intros Hwf. Qed.

#[export] Instance similar_sym : Symmetric similar.
Proof. by intros st1 st2 (? & ? & ?). Qed.

#[export] Instance similar_trans : Transitive similar.
Proof. intros st1 st2 st3 (? & ? & ?) (? & ? & ?). repeat split; [done..|congruence]. Qed.

#[export] Instance similar_per : RelationClasses.PER similar.
Proof. split; apply _. Qed.

(** A key cached in one of two similar stores is cached in the other,
    with an equal descriptor. *)
Lemma similar_hit st1 st2 k p1 :
  similar st1 st2 -> registry st1 !! k = Some p1 ->
  exists p2, registry st2 !! k = Some p2 /\ deref st1 p1 = deref st2 p2.
Proof.
  intros (Hwf1 & _ & Habs) H1.
  destruct (abs_lookup_wf _ _ _ Hwf1 H1) as (m & Hm & ->).
  rewrite Habs, abs_lookup in Hm.
  destruct (registry st2 !! k) as [p2|]; [|done]. by exists p2.
Qed.

Lemma similar_miss st1 st2 k :
  similar st1 st2 -> registry st1 !! k = None -> registry st2 !! k = None.
Proof.
  intros Hs H1. destruct (registry st2 !! k) as [p2|] eqn:H2; [|done].
  symmetry in Hs. destruct (similar_hit _ _ _ _ Hs H2) as (p1 & ? & _). congruence.
Qed.

(** The heap may grow under the registry. *)
Lemma abs_heap_app st d :
  wf_store st -> abs (mkStore (heap st ++ [d]) (registry st)) = abs st.
Proof.
  intros Hwf. apply map_eq. intros k. rewrite !abs_lookup. simpl.
  destruct (registry st !! k) as [q|] eqn:Hq; [|done]. simpl.
  apply lookup_app_l. by eapply wf_store_in_bounds.
Qed.

(** Caching a pointer caches what it points to. *)
Lemma abs_publish st k p m :
  deref st p = Some m ->
  abs (mkStore (heap st) (<[k := p]> (registry st))) = <[k := m]> (abs st).
Proof. intros Hm. unfold abs. simpl. by apply omap_insert_Some. Qed.

End similar.

(** ** The operations respect the relation *)

#[export] Instance Parse_alike : Proper ((=) ==> similar ==> alike) Parse.
Proof.
  intros e ? <- st1 st2 Hs.
  pose proof (wf_store_Parse e st1) as Hwf1'. pose proof (wf_store_Parse e st2) as Hwf2'.
  destruct Hs as (Hwf1 & Hwf2 & Habs). unfold Parse in *.
  destruct (resolve e) as [t|msg]; simpl in *; [|constructor].
  destruct (registry st1 !! type_String t) as [p1|] eqn:H1.
  - destruct (similar_hit st1 st2 _ _ (conj Hwf1 (conj Hwf2 Habs)) H1) as (p2 & -> & Hd).
    by constructor.
  - rewrite (similar_miss st1 st2 _ (conj Hwf1 (conj Hwf2 Habs)) H1) in *.
    destruct (table_override t (new_meta t)) as [meta0|]; simpl in *; [|constructor].
    destruct (parse_fields t meta0) as [meta|]; simpl in *; [|constructor].
    constructor.
    + unfold deref. simpl. by rewrite !lookup_app_r, !Nat.sub_diag.
    + split; [by eapply Hwf1'|]. split; [by eapply Hwf2'|].
      rewrite !abs_alloc by done. by rewrite Habs.
Qed.

#[export] Instance ClearRegistry_similar : Proper (similar ==> similar) ClearRegistry.
Proof. intros st1 st2 _. repeat split; auto using wf_store_ClearRegistry. Qed.

#[export] Instance run_op_similar : Proper ((=) ==> similar ==> similar) run_op.
Proof.
  intros o ? <- st1 st2 Hs. destruct o as [e|]; simpl; [|by apply ClearRegistry_similar].
  by destruct (Parse_alike e e eq_refl st1 st2 Hs).
Qed.

#[export] Instance run_ops_similar : Proper ((=) ==> similar ==> similar) run_ops.
Proof.
  intros ops ? <-. unfold run_ops.
  induction ops as [|o ops IH]; intros st1 st2 Hs; simpl; [done|].
  by apply IH, run_op_similar.
Qed.

(** ** Goroutines on the registry *)

(** The descriptor a call of [Parse] on the entity answers when it runs
    alone from the store: the cached one, or the one it builds. *)
Definition expected (st : Store) (e : any) : outcome EntityMeta :=
  t ← resolve e;
  match abs st !! type_String t with
  | Some m => Ok m
  | None => build t
  end.

(** What a call that is over has answered, read through its pointer. *)
Definition answer (st : Store) (call : Call) : option (outcome EntityMeta) :=
  match call with
  | Returned p => Ok <$> deref st p
  | Panicked msg => Some (Panic msg)
  | _ => None
  end.

(** The printed names tell the types of the callers apart. *)
Definition keyed (entities : list any) : Prop :=
  forall e e' t t', e ∈ entities -> e' ∈ entities ->
    resolve e = Ok t -> resolve e' = Ok t' ->
    type_String t = type_String t' -> t = t'.

(** The types the callers resolve to, and [keyed] decided on
    them. *)
Definition resolved (entities : list any) : list GoType :=
  omap (fun e => match resolve e with Ok t => Some t | Panic _ => None end) entities.

Definition keyedb (entities : list any) : bool :=
  let ts := resolved entities in
  forallb (fun t =>
    forallb (fun t' => implb (String.eqb (type_String t) (type_String t')) (type_eqb t t')) ts)
    ts.

Section race.
Context (entities : list any) (st : Store).
Implicit Types (s : Store) (c : Config) (e : any) (call : Call) (k : string) (m : EntityMeta).

(** What may be cached under a key while the calls run: what was cached
    at the start, or what a caller builds for a key that was not. *)
Definition target k m : Prop :=
  abs st !! k = Some m \/
  (abs st !! k = None /\
   exists e t, e ∈ entities /\ resolve e = Ok t /\ type_String t = k /\ build t = Ok m).

(** What a call holds of the entity it was called on. *)
Definition call_ok s e call : Prop :=
  match call with
  | Ready e' => e' = e
  | Missed t => resolve e = Ok t /\ abs st !! type_String t = None
  | Built t p =>
      resolve e = Ok t /\ abs st !! type_String t = None /\
      exists m, build t = Ok m /\ deref s p = Some m
  | Returned p =>
      exists t m, resolve e = Ok t /\ abs s !! type_String t = Some m /\ deref s p = Some m
  | Panicked msg => expected st e = Panic msg
  end.

(** What every interleaving keeps of the store. *)
Definition store_ok s : Prop :=
  wf_store s /\
  (forall k m, abs s !! k = Some m -> target k m) /\
  (forall k m, abs st !! k = Some m -> abs s !! k = Some m).

Definition race_inv c : Prop :=
  store_ok (store c) /\ Forall2 (call_ok (store c)) entities (calls c).

End race.

(** ** What every interleaving keeps *)

Section race_facts.
Context (entities : list any) (st : Store).
Hypothesis Hwf : wf_store st.
Hypothesis Hkeyed : keyed entities.
Implicit Types (s : Store) (c : Config) (e : any) (call : Call) (k : string) (m : EntityMeta).


(** Under a key that was not cached at the start there is only what
    the caller itself builds. *)
Lemma target_build e t m :
  e ∈ entities -> resolve e = Ok t -> abs st !! type_String t = None ->
  target entities st (type_String t) m -> build t = Ok m.
Proof.
  intros He Hr Hn [Hs|(_ & e' & t' & He' & Hr' & Hk & Hb)]; [congruence|].
  by rewrite (Hkeyed e e' t t' He He' Hr Hr' (eq_sym Hk)).
Qed.

Lemma target_functional k m m' : target entities st k m -> target entities st k m' -> m = m'.
Proof.
  intros [Hs|(Hn & e & t & He & Hr & <- & Hb)] Hm'.
  - destruct Hm' as [Hs'|(Hn' & _)]; congruence.
  - pose proof (target_build e t m' He Hr Hn Hm'). congruence.
Qed.

Lemma expected_miss e t :
  resolve e = Ok t -> abs st !! type_String t = None -> expected st e = build t.
Proof. intros Hr Hn. unfold expected. rewrite Hr. simpl. by rewrite Hn. Qed.

(** What a call holds stays when the heap grows and the cache keeps
    its descriptions. *)
Lemma call_ok_frame s s' e call :
  heap s `prefix_of` heap s' ->
  (forall k m, abs s !! k = Some m -> abs s' !! k = Some m) ->
  call_ok st s e call -> call_ok st s' e call.
Proof.
  intros Hpre Habs. destruct call as [e'|t|t p|p|msg]; simpl; try done.
  - intros (? & ? & m & ? & ?). eauto 10 using deref_prefix.
  - intros (t & m & ? & ? & ?). eauto 10 using deref_prefix.
Qed.

Lemma call_ok_inv s e call : wf_store s -> call_ok st s e call -> call_inv s e call.
Proof.
  intros Hs. destruct call as [e'|t|t p|p|msg]; simpl; try done.
  - by intros [? _].
  - intros (? & _ & m & ? & ?). eauto using build_described.
  - intros (t & m & Hr & Ha & Hd). exists t, m. split; [done|]. split; [done|].
    rewrite abs_lookup in Ha. destruct (registry s !! type_String t) as [q|] eqn:Hq; [|done].
    destruct (Hs _ _ Hq) as (m' & Hm' & ?). simpl in Ha. congruence.
Qed.

(** The store after a step of a call: the invariant holds, the cache
    keeps its descriptions, and the call holds its own. *)
Lemma call_step_ok s e call :
  e ∈ entities -> store_ok entities st s -> call_ok st s e call ->
  store_ok entities st (call_step call s).2 /\
  (forall k m, abs s !! k = Some m -> abs (call_step call s).2 !! k = Some m) /\
  call_ok st (call_step call s).2 e (call_step call s).1.
Proof.
  intros He (Hs & Hup & Hdown) Hc.
  destruct (call_step_inv s e call Hs (call_ok_inv s e call Hs Hc)) as [Hs' _].
  destruct call as [e'|t|t p|p|msg]; simpl in *; try done.
  - subst e'. destruct (resolve e) as [t|msg] eqn:Hr; simpl;
      [|by repeat split; auto; unfold expected; rewrite Hr].
    destruct (registry s !! type_String t) as [p|] eqn:Hp; simpl.
    + split; [done|]. split; [done|].
      destruct (abs_lookup_wf _ _ _ Hs Hp) as (m & ? & ?). by exists t, m.
    + split; [done|]. split; [done|]. split; [done|].
      destruct (abs st !! type_String t) as [m|] eqn:Hm; [|done].
      apply Hdown in Hm. by rewrite abs_lookup, Hp in Hm.
  - destruct Hc as [Hr Hn]. destruct (build t) as [meta|msg] eqn:Hb; simpl.
    + unfold store_ok. rewrite abs_heap_app by done. split; [done|]. split; [done|].
      split; [done|]. split; [done|]. exists meta. split; [done|].
      unfold deref. simpl. by rewrite lookup_app_r, Nat.sub_diag.
    + split; [done|]. split; [done|]. by rewrite (expected_miss e t).
  - destruct Hc as (Hr & Hn & m & Hb & Hd). unfold store_ok.
    rewrite (abs_publish s _ p m Hd) in *.
    assert (forall k m', abs s !! k = Some m' ->
                         <[type_String t := m]> (abs s) !! k = Some m') as Hkeep.
    { intros k m' Hm'. destruct (decide (k = type_String t)) as [->|Hne].
      - rewrite lookup_insert_eq. f_equal. symmetry.
        apply Hup in Hm'. pose proof (target_build e t m' He Hr Hn Hm'). congruence.
      - by rewrite lookup_insert_ne. }
    split; [|split; [done|]].
    + split; [done|]. split; [|by intros k m' Hm'; apply Hkeep, Hdown].
      intros k m'. destruct (decide (k = type_String t)) as [->|Hne].
      * rewrite lookup_insert_eq. intros [= <-]. right. eauto 10.
      * rewrite lookup_insert_ne by done. apply Hup.
    + exists t, m. by rewrite lookup_insert_eq.
Qed.

Lemma race_inv_start : race_inv entities st (start entities st).
Proof.
  split; [by repeat split; auto; left|]. simpl.
  apply Forall2_fmap_r, Forall_Forall2_diag. by apply Forall_forall.
Qed.

Lemma race_inv_step i c : race_inv entities st c -> race_inv entities st (step i c).
Proof.
  intros [Hs Hall]. unfold step. destruct (calls c !! i) as [call|] eqn:Hi; [|done].
  destruct (Forall2_lookup_r _ _ _ _ _ Hall Hi) as (e & He & Hc).
  destruct (call_step_ok _ _ _ (list_elem_of_lookup_2 _ _ _ He) Hs Hc) as (Hs' & Hkeep & Hc').
  pose proof (call_step_heap call (store c)) as Hpre.
  destruct (call_step call (store c)) as [call' s']. simpl in *. split; [done|].
  rewrite <- (list_insert_id entities i e) by done.
  apply Forall2_insert; [|done].
  eapply Forall2_impl; [done|]. intros. by eapply call_ok_frame.
Qed.

Lemma race_inv_reaches c : reaches (start entities st) c -> race_inv entities st c.
Proof. induction 1; auto using race_inv_start, race_inv_step. Qed.

(** A call that is over has answered what it answers alone. *)
Lemma answer_expected s e call :
  e ∈ entities -> store_ok entities st s -> call_ok st s e call -> finished call = true ->
  answer s call = Some (expected st e).
Proof.
  intros He (_ & Hup & _) Hc Hf. destruct call as [e'|t|t p|p|msg]; try done; simpl in *.
  - destruct Hc as (t & m & Hr & Ha & ->). simpl. f_equal.
    destruct (abs st !! type_String t) as [m'|] eqn:Hm.
    + unfold expected. rewrite Hr. simpl. rewrite Hm.
      destruct (Hup _ _ Ha) as [?|[? _]]; congruence.
    + rewrite (expected_miss e t) by done. symmetry. eauto using target_build.
  - by rewrite Hc.
Qed.

(** When every call is over, whatever may be cached is. *)
Lemma finished_cached c k m :
  race_inv entities st c -> Forall (fun call => finished call = true) (calls c) ->
  target entities st k m -> abs (store c) !! k = Some m.
Proof.
  intros [(Hs & Hup & Hdown) Hall] Hfin [Hm|(Hn & e & t & He & Hr & <- & Hb)]; [by auto|].
  apply list_elem_of_lookup_1 in He as [i Hi].
  destruct (Forall2_lookup_l _ _ _ _ _ Hall Hi) as (call & Hcall & Hc).
  pose proof (Forall_lookup_1 _ _ _ _ Hfin Hcall) as Hf.
  pose proof (list_elem_of_lookup_2 _ _ _ Hi) as He.
  destruct call as [e'|t'|t' p|p|msg]; try done; simpl in Hc.
  - destruct Hc as (t' & m' & Hr' & Ha & _). assert (t' = t) as -> by congruence.
    rewrite Ha. f_equal. apply Hup in Ha. pose proof (target_build e t m' He Hr Hn Ha).
    congruence.
  - rewrite (expected_miss e t) in Hc by done. congruence.
Qed.

End race_facts.

(** ** The theorems *)

Lemma keyedb_keyed entities : keyedb entities = true -> keyed entities.
Proof.
  intros H e e' t t' He He' Hr Hr' Hk.
  assert (forall e t, e ∈ entities -> resolve e = Ok t -> In t (resolved entities)) as Hin.
  { intros e0 t0 ? Hr0. apply list_elem_of_In, list_elem_of_omap. exists e0.
    by rewrite Hr0. }
  unfold keyedb in H. rewrite forallb_forall in H.
  specialize (H t (Hin _ _ He Hr)). rewrite forallb_forall in H.
  specialize (H t' (Hin _ _ He' Hr')). rewrite Hk, String.eqb_refl in H.
  by apply type_eqb_eq.
Qed.

Lemma run_ops_app ops ops' st : run_ops (ops ++ ops') st = run_ops ops' (run_ops ops st).
Proof. unfold run_ops. by rewrite foldl_app. Qed.

(** What was parsed before the registry is cleared leaves nothing a
    caller can see: the program goes on as from the initial store. *)
Theorem ClearRegistry_forgets ops ops' st :
  similar (run_ops (ops ++ OpClearRegistry :: ops') st) (run_ops ops' init).
Proof.
  rewrite run_ops_app. change (run_ops (?o :: ops') ?s) with (run_ops ops' (run_op o s)).
  apply run_ops_similar; [done|]. simpl.
  repeat split; auto using wf_store_ClearRegistry, wf_store_init.
Qed.

(** With a lock around each access of the map, the answer of a call
    does not depend on the interleaving: when the
    printed names tell the types of the callers apart, a call that is
    over, under any schedule, has answered what it answers when it
    runs alone from the initial store: the cached description of its
    key, or the one it builds, or its panic. *)
Theorem race_deterministic entities st c i e call :
  wf_store st -> keyed entities ->
  reaches (start entities st) c ->
  entities !! i = Some e -> calls c !! i = Some call -> finished call = true ->
  answer (store c) call = Some (expected st e).
Proof.
  intros Hwf Hkeyed Hreach He Hcall Hf.
  destruct (race_inv_reaches entities st Hwf Hkeyed c Hreach) as [Hs Hall].
  eapply answer_expected; eauto using list_elem_of_lookup_2.
  by apply (Forall2_lookup_lr _ _ _ _ _ _ Hall He Hcall).
Qed.

(** With such a lock the registry the calls leave does not depend on
    the interleaving either: two schedules that let every call finish
    leave stores that cache the same descriptions under the same
    keys. *)
Theorem race_confluent entities st c1 c2 :
  wf_store st -> keyed entities ->
  reaches (start entities st) c1 -> reaches (start entities st) c2 ->
  Forall (fun call => finished call = true) (calls c1) ->
  Forall (fun call => finished call = true) (calls c2) ->
  similar (store c1) (store c2).
Proof.
  intros Hwf Hkeyed Hr1 Hr2 Hf1 Hf2.
  pose proof (race_inv_reaches entities st Hwf Hkeyed c1 Hr1) as H1.
  pose proof (race_inv_reaches entities st Hwf Hkeyed c2 Hr2) as H2.
  split; [apply H1|]. split; [apply H2|].
  apply map_eq. intros k. apply option_eq. intros m.
  split; intros Hm; [apply H1 in Hm|apply H2 in Hm]; eauto using finished_cached.
Qed.

(** ** The entities of the programs *)

(** The hypothesis on the printed names is needed.  The two test
    packages declare each a struct Product, printed test.Product, with
    different fields: two goroutines that parse one of each get the
    description of the one that was parsed first, so the answer of a
    call and the registry at the end depend on the schedule. *)
Theorem race_order_matters :
  let entities := [new_of TestPkg.Product; new_of PlainPkg.Product] in
  let c1 := run [0; 0; 0; 1; 1; 1] (start entities init) in
  let c2 := run [1; 1; 1; 0; 0; 0] (start entities init) in
  keyedb entities = false /\
  calls c1 = [Returned 0; Returned 0] /\ calls c2 = [Returned 0; Returned 0] /\
  answer (store c1) (Returned 0) = Some (expected init (new_of TestPkg.Product)) /\
  answer (store c2) (Returned 0) = Some (expected init (new_of PlainPkg.Product)) /\
  answer (store c1) (Returned 0) <> answer (store c2) (Returned 0) /\
  ~ similar (store c1) (store c2).
Proof.
  intros entities c1 c2.
  do 5 (split; [vm_compute; reflexivity|]).
  set (fields := fun a : option (outcome EntityMeta) =>
                   if a is Some (Ok m) then length (emFields m) else 0).
  split.
  - intros H. apply (f_equal fields) in H. vm_compute in H. discriminate.
  - intros (_ & _ & H).
    apply (f_equal (fun m => fields (Ok <$> m !! "test.Product"))) in H.
    vm_compute in H. discriminate.
Qed.

Lemma race_deterministic_witness :
  answer (store (run [0; 2; 1; 0; 2; 1; 0; 2; 1] (start [product; user; product] init)))
         (Returned 1)
  = Some (expected init product).
Proof.
  apply (race_deterministic [product; user; product] init _ 2 product (Returned 1)).
  - apply wf_store_init.
  - apply keyedb_keyed. vm_compute. reflexivity.
  - apply reaches_run. by eexists.
  - reflexivity.
  - vm_compute. reflexivity.
  - reflexivity.
Defined.

Lemma race_confluent_witness :
  similar (store (run [0; 1; 0; 1; 0; 1] (start [product; user] init)))
          (store (run [1; 1; 1; 0; 0; 0] (start [product; user] init))).
Proof.
  apply (race_confluent [product; user] init).
  - apply wf_store_init.
  - apply keyedb_keyed. vm_compute. reflexivity.
  - apply reaches_run. by eexists.
  - apply reaches_run. by eexists.
  - vm_compute. by repeat constructor.
  - vm_compute. by repeat constructor.
Defined.

End Layout.
