(* ===== verification/Hooks.v ===== *)
(** * Hooks: the lifecycle hooks and their dispatch

    src/goblar/hooks.go declares six interfaces of one method each
    ([BeforeCreate], [AfterCreate], [BeforeUpdate], [AfterUpdate],
    [BeforeDelete], [AfterDelete]); src/internal/hooks/hooks.go has one
    dispatcher for each, which asserts the interface on the entity and
    calls the method when the assertion holds.

    A method has a pointer receiver and is passed the context and the
    transaction handle: it is a function of the context, the state
    behind the handle and the entity, to the entity, the state and an
    error ([HookFn]).  The methods a type has are its [MethodSet], a
    class with an instance for each entity type; a type assertion reads
    the entry of the interface's method, and holds when there is one.
    The entities of the dispatcher's tests (src/unnamed/part_004) are
    two instances.

    A [HookFn] is a total function: a method that panics or does not
    return is outside the model, and what the theorems of the handlers
    say of panics is said of the handlers' own code, with hooks that
    return. *)

From Stdlib Require Import Ascii String ZArith.
From stdpp Require Import base tactics option list strings.
From S2P Require Import Prelude.

Module Hooks.

(** The six lifecycle points. *)
Inductive HookName : Type :=
| BeforeCreate | AfterCreate | BeforeUpdate | AfterUpdate | BeforeDelete | AfterDelete.

#[global] Instance HookName_eq_dec : EqDecision HookName.
Proof. solve_decision. Defined.

Section dispatch.
Context {Ctx Tx : Type}.

(** A hook method: [func (e *E) Hook(ctx context.Context, tx *gorm.DB) error]. *)
Definition HookFn (E : Type) : Type := Ctx -> Tx -> E -> E * Tx * error.

(** The hook methods of an entity type; [None] where the type does not
    have the method. *)
Class MethodSet (E : Type) : Type := mkMethodSet {
  mBeforeCreate : option (HookFn E);
  mAfterCreate : option (HookFn E);
  mBeforeUpdate : option (HookFn E);
  mAfterUpdate : option (HookFn E);
  mBeforeDelete : option (HookFn E);
  mAfterDelete : option (HookFn E);
}.

Context {E : Type} `{MethodSet E}.

Definition CallBeforeCreate (ctx : Ctx) (entity : E) (tx : Tx) : E * Tx * error :=
  match mBeforeCreate with
  | Some h => h ctx tx entity
  | None => (entity, tx, nil_error)
  end.

Definition CallAfterCreate (ctx : Ctx) (entity : E) (tx : Tx) : E * Tx * error :=
  match mAfterCreate with
  | Some h => h ctx tx entity
  | None => (entity, tx, nil_error)
  end.

Definition CallBeforeUpdate (ctx : Ctx) (entity : E) (tx : Tx) : E * Tx * error :=
  match mBeforeUpdate with
  | Some h => h ctx tx entity
  | None => (entity, tx, nil_error)
  end.

Definition CallAfterUpdate (ctx : Ctx) (entity : E) (tx : Tx) : E * Tx * error :=
  match mAfterUpdate with
  | Some h => h ctx tx entity
  | None => (entity, tx, nil_error)
  end.

Definition CallBeforeDelete (ctx : Ctx) (entity : E) (tx : Tx) : E * Tx * error :=
  match mBeforeDelete with
  | Some h => h ctx tx entity
  | None => (entity, tx, nil_error)
  end.

Definition CallAfterDelete (ctx : Ctx) (entity : E) (tx : Tx) : E * Tx * error :=
  match mAfterDelete with
  | Some h => h ctx tx entity
  | None => (entity, tx, nil_error)
  end.

(** ** The dispatchers as one function of the lifecycle point *)

Definition method (n : HookName) : option (HookFn E) :=
  match n with
  | BeforeCreate => mBeforeCreate
  | AfterCreate => mAfterCreate
  | BeforeUpdate => mBeforeUpdate
  | AfterUpdate => mAfterUpdate
  | BeforeDelete => mBeforeDelete
  | AfterDelete => mAfterDelete
  end.

Definition Call (n : HookName) : Ctx -> E -> Tx -> E * Tx * error :=
  match n with
  | BeforeCreate => CallBeforeCreate
  | AfterCreate => CallAfterCreate
  | BeforeUpdate => CallBeforeUpdate
  | AfterUpdate => CallAfterUpdate
  | BeforeDelete => CallBeforeDelete
  | AfterDelete => CallAfterDelete
  end.

(** The specification of a dispatch: the method's result when the type
    has the method, and otherwise no effect and no error. *)
Definition dispatch_spec (n : HookName) (ctx : Ctx) (entity : E) (tx : Tx) : E * Tx * error :=
  from_option (fun h => h ctx tx entity) (entity, tx, nil_error) (method n).

Lemma Call_dispatch_spec n ctx entity tx :
  Call n ctx entity tx = dispatch_spec n ctx entity tx.
Proof. by destruct n. Qed.

Lemma Call_implemented n h ctx entity tx :
  method n = Some h -> Call n ctx entity tx = h ctx tx entity.
Proof. rewrite Call_dispatch_spec. unfold dispatch_spec. by intros ->. Qed.

Lemma Call_absent n ctx entity tx :
  method n = None -> Call n ctx entity tx = (entity, tx, nil_error).
Proof. rewrite Call_dispatch_spec. unfold dispatch_spec. by intros ->. Qed.

(** A sequence of dispatches on one entity, stopped by the first error. *)
Fixpoint CallAll (ns : list HookName) (ctx : Ctx) (entity : E) (tx : Tx)
  : E * Tx * error :=
  match ns with
  | [] => (entity, tx, nil_error)
  | n :: rest =>
      match Call n ctx entity tx with
      | (entity', tx', None) => CallAll rest ctx entity' tx'
      | (entity', tx', Some err) => (entity', tx', Some err)
      end
  end.

End dispatch.

Arguments MethodSet {Ctx Tx} E.
Arguments HookFn {Ctx Tx} E.

(** ** Counting invocations *)

(** A method set over a transaction state with a trace: every method
    records the lifecycle point it was called for. *)
Section traced.
Context {Ctx Tx E : Type} (ms : MethodSet (Ctx:=Ctx) (Tx:=Tx) E).

Definition trace_hook (n : HookName) (h : HookFn (Ctx:=Ctx) (Tx:=Tx) E)
  : HookFn (Ctx:=Ctx) (Tx:=Tx * list HookName) E :=
  fun ctx tx entity =>
    let '(entity', tx', err) := h ctx tx.1 entity in
    (entity', (tx', tx.2 ++ [n]), err).

Definition traced : MethodSet (Ctx:=Ctx) (Tx:=Tx * list HookName) E :=
  @mkMethodSet Ctx (Tx * list HookName) E
    (trace_hook BeforeCreate <$> @mBeforeCreate Ctx Tx E ms)
    (trace_hook AfterCreate <$> @mAfterCreate Ctx Tx E ms)
    (trace_hook BeforeUpdate <$> @mBeforeUpdate Ctx Tx E ms)
    (trace_hook AfterUpdate <$> @mAfterUpdate Ctx Tx E ms)
    (trace_hook BeforeDelete <$> @mBeforeDelete Ctx Tx E ms)
    (trace_hook AfterDelete <$> @mAfterDelete Ctx Tx E ms).

Lemma method_traced n :
  method (H:=traced) n = trace_hook n <$> method (H:=ms) n.
Proof. by destruct n. Qed.

End traced.

(** ** The entities of the dispatcher's tests *)

Record MockEntityWithHooks : Type := mkMock {
  mockID : Z;
  mockName : string;
  BeforeCreateCalled : bool;
  AfterCreateCalled : bool;
  BeforeUpdateCalled : bool;
  AfterUpdateCalled : bool;
  BeforeDeleteCalled : bool;
  AfterDeleteCalled : bool;
  ShouldFail : bool;
}.

(** The flag of a lifecycle point. *)
Definition called (n : HookName) (m : MockEntityWithHooks) : bool :=
  match n with
  | BeforeCreate => BeforeCreateCalled m
  | AfterCreate => AfterCreateCalled m
  | BeforeUpdate => BeforeUpdateCalled m
  | AfterUpdate => AfterUpdateCalled m
  | BeforeDelete => BeforeDeleteCalled m
  | AfterDelete => AfterDeleteCalled m
  end.

Definition fail_if (m : MockEntityWithHooks) (msg : string) : error :=
  if ShouldFail m then Some (ErrNew msg) else nil_error.

Section mock.
Context {Ctx Tx : Type}.

Definition Mock_BeforeCreate : HookFn (Ctx:=Ctx) (Tx:=Tx) MockEntityWithHooks :=
  fun ctx tx m =>
    let m := mkMock (mockID m) (mockName m) true (AfterCreateCalled m)
               (BeforeUpdateCalled m) (AfterUpdateCalled m) (BeforeDeleteCalled m)
               (AfterDeleteCalled m) (ShouldFail m) in
    (m, tx, fail_if m "before create failed").

Definition Mock_AfterCreate : HookFn (Ctx:=Ctx) (Tx:=Tx) MockEntityWithHooks :=
  fun ctx tx m =>
    let m := mkMock (mockID m) (mockName m) (BeforeCreateCalled m) true
               (BeforeUpdateCalled m) (AfterUpdateCalled m) (BeforeDeleteCalled m)
               (AfterDeleteCalled m) (ShouldFail m) in
    (m, tx, fail_if m "after create failed").

Definition Mock_BeforeUpdate : HookFn (Ctx:=Ctx) (Tx:=Tx) MockEntityWithHooks :=
  fun ctx tx m =>
    let m := mkMock (mockID m) (mockName m) (BeforeCreateCalled m) (AfterCreateCalled m)
               true (AfterUpdateCalled m) (BeforeDeleteCalled m)
               (AfterDeleteCalled m) (ShouldFail m) in
    (m, tx, fail_if m "before update failed").

Definition Mock_AfterUpdate : HookFn (Ctx:=Ctx) (Tx:=Tx) MockEntityWithHooks :=
  fun ctx tx m =>
    let m := mkMock (mockID m) (mockName m) (BeforeCreateCalled m) (AfterCreateCalled m)
               (BeforeUpdateCalled m) true (BeforeDeleteCalled m)
               (AfterDeleteCalled m) (ShouldFail m) in
    (m, tx, fail_if m "after update failed").

Definition Mock_BeforeDelete : HookFn (Ctx:=Ctx) (Tx:=Tx) MockEntityWithHooks :=
  fun ctx tx m =>
    let m := mkMock (mockID m) (mockName m) (BeforeCreateCalled m) (AfterCreateCalled m)
               (BeforeUpdateCalled m) (AfterUpdateCalled m) true
               (AfterDeleteCalled m) (ShouldFail m) in
    (m, tx, fail_if m "before delete failed").

Definition Mock_AfterDelete : HookFn (Ctx:=Ctx) (Tx:=Tx) MockEntityWithHooks :=
  fun ctx tx m =>
    let m := mkMock (mockID m) (mockName m) (BeforeCreateCalled m) (AfterCreateCalled m)
               (BeforeUpdateCalled m) (AfterUpdateCalled m) (BeforeDeleteCalled m)
               true (ShouldFail m) in
    (m, tx, fail_if m "after delete failed").

#[export] Instance Mock_MethodSet : MethodSet (Ctx:=Ctx) (Tx:=Tx) MockEntityWithHooks :=
  @mkMethodSet Ctx Tx MockEntityWithHooks
    (Some Mock_BeforeCreate) (Some Mock_AfterCreate)
    (Some Mock_BeforeUpdate) (Some Mock_AfterUpdate)
    (Some Mock_BeforeDelete) (Some Mock_AfterDelete).

(** [SimpleEntity] declares no method. *)
Record SimpleEntity : Type := mkSimple {
  simpleID : Z;
  simpleName : string;
}.

#[export] Instance Simple_MethodSet : MethodSet (Ctx:=Ctx) (Tx:=Tx) SimpleEntity :=
  @mkMethodSet Ctx Tx SimpleEntity None None None None None None.

End mock.

Definition all_hooks : list HookName :=
  [BeforeCreate; AfterCreate; BeforeUpdate; AfterUpdate; BeforeDelete; AfterDelete].

(** [&MockEntityWithHooks{}] *)
Definition mock_zero : MockEntityWithHooks :=
  mkMock 0 "" false false false false false false false.

(** ** What a dispatch does *)

Section dispatch_theorems.
Context {Ctx Tx E : Type}.

(** Each of the six dispatchers returns what the
    entity's method returns, with the entity and the transaction state
    as the method leaves them, when the entity's type has the method; it
    returns the entity and the state unchanged and a nil error when the
    type does not have it. *)
Theorem Call_dispatch (ms : MethodSet (Ctx:=Ctx) (Tx:=Tx) E) n ctx entity tx :
  match method (H:=ms) n with
  | Some h => Call (H:=ms) n ctx entity tx = h ctx tx entity
  | None => Call (H:=ms) n ctx entity tx = (entity, tx, nil_error)
  end.
Proof.
  destruct (method n) as [h|] eqn:E0.
  - by apply Call_implemented.
  - by apply Call_absent.
Qed.

(** A dispatch invokes the method of its
    lifecycle point once and no other method: on a method set that
    records every invocation, the record grows by that lifecycle point
    when the type has the method, and not at all otherwise; the entity,
    the state and the error are those of the dispatch without the
    record. *)
Theorem Call_invokes_once (ms : MethodSet (Ctx:=Ctx) (Tx:=Tx) E) n ctx entity tx trace :
  Call (H:=traced ms) n ctx entity (tx, trace)
  = let '(entity', tx', err) := Call (H:=ms) n ctx entity tx in
    (entity', (tx', trace ++ if method (H:=ms) n is Some _ then [n] else []), err).
Proof.
  rewrite !Call_dispatch_spec. unfold dispatch_spec. rewrite method_traced.
  destruct (method n) as [h|]; simpl.
  - unfold trace_hook. simpl. by destruct (h ctx tx entity) as [[? ?] ?].
  - by rewrite app_nil_r.
Qed.

(** C17. A dispatch, in full: when the entity's type has the method of the
    lifecycle point, the dispatcher returns what the method returns,
    with the entity and the transaction as the method leaves them, and
    the method is invoked once and no other method is; when the type
    does not have it, the dispatcher returns nil, invokes nothing and
    leaves the entity and the transaction as they were. *)
Theorem Call_once (ms : MethodSet (Ctx:=Ctx) (Tx:=Tx) E) n ctx entity tx trace :
  Call (H:=ms) n ctx entity tx
  = (if method (H:=ms) n is Some h then h ctx tx entity else (entity, tx, nil_error)) /\
  Call (H:=traced ms) n ctx entity (tx, trace)
  = match method (H:=ms) n with
    | Some h =>
        let '(entity', tx', err) := h ctx tx entity in (entity', (tx', trace ++ [n]), err)
    | None => (entity, (tx, trace), nil_error)
    end.
Proof.
  rewrite !Call_dispatch_spec. unfold dispatch_spec. rewrite method_traced.
  by destruct (method n) as [h|].
Qed.

End dispatch_theorems.

(** ** The test entities *)

Section mock_theorems.
Context {Ctx Tx : Type}.
Implicit Types (ctx : Ctx) (tx : Tx) (m : MockEntityWithHooks).

Lemma Mock_Call n ctx tx m :
  exists m', Call (Ctx:=Ctx) (Tx:=Tx) n ctx m tx
             = (m', tx, if ShouldFail m then Some (ErrNew
                  match n with
                  | BeforeCreate => "before create failed"
                  | AfterCreate => "after create failed"
                  | BeforeUpdate => "before update failed"
                  | AfterUpdate => "after update failed"
                  | BeforeDelete => "before delete failed"
                  | AfterDelete => "after delete failed"
                  end) else nil_error) /\
    called n m' = true /\
    (forall k, k <> n -> called k m' = called k m) /\
    mockID m' = mockID m /\ mockName m' = mockName m /\ ShouldFail m' = ShouldFail m.
Proof.
  destruct n; eexists; (split; [reflexivity|]); simpl;
    (split; [done|]); (split; [|done]); by intros [].
Qed.

(** A dispatch on the test entity sets the flag of
    its lifecycle point and no other flag, leaves the identifier and the
    name, and returns the failure of that lifecycle point exactly when
    the entity is set to fail. *)
Theorem Mock_Call_each n ctx tx m :
  let '(m', tx', err) := Call (Ctx:=Ctx) (Tx:=Tx) n ctx m tx in
  tx' = tx /\ called n m' = true /\
  (forall k, k <> n -> called k m' = called k m) /\
  mockID m' = mockID m /\ mockName m' = mockName m /\
  (err = nil_error <-> ShouldFail m = false).
Proof.
  destruct (Mock_Call n ctx tx m) as (m' & -> & Hc & Hk & Hid & Hname & _).
  repeat (split; [done|]). by destruct (ShouldFail m).
Qed.

(** A sequence of dispatches on a test entity that is not set to fail
    runs to its end: it sets the flags of its lifecycle points and
    keeps the flags that were set. *)
Lemma CallAll_mock ns ctx tx m :
  ShouldFail m = false ->
  exists m', CallAll (Ctx:=Ctx) (Tx:=Tx) ns ctx m tx = (m', tx, nil_error) /\
             (forall n, n ∈ ns -> called n m' = true) /\
             (forall n, called n m = true -> called n m' = true) /\
             ShouldFail m' = false.
Proof.
  revert m. induction ns as [|n ns IH]; intros m Hf.
  { exists m. split; [done|]. split; [by intros n ?%elem_of_nil|done]. }
  destruct (Mock_Call n ctx tx m) as (m1 & Hc & Hn & Hk & _ & _ & Hsf). rewrite Hf in Hc.
  destruct (IH m1) as (m' & Hall & Hin & Hkeep & Hsf'); [congruence|].
  exists m'. cbn [CallAll]. rewrite Hc. split; [done|]. split; [|split; [|done]].
  - intros k [->|Hk']%elem_of_cons; auto.
  - intros k Hck. apply Hkeep. destruct (decide (k = n)) as [->|Hne]; [done|].
    by rewrite Hk.
Qed.

(** Six dispatches in sequence on one test entity
    that is not set to fail return no error and leave all six flags set. *)
Theorem Mock_all_hooks ctx tx m :
  ShouldFail m = false ->
  exists m', CallAll (Ctx:=Ctx) (Tx:=Tx) all_hooks ctx m tx = (m', tx, nil_error) /\
             forall n, called n m' = true.
Proof.
  intros Hf. destruct (CallAll_mock all_hooks ctx tx m Hf) as (m' & Hall & Hin & _).
  exists m'. split; [done|]. intros n. apply Hin, list_elem_of_In.
  destruct n; simpl; tauto.
Qed.

(** On a test entity set to fail, a sequence of
    dispatches stops at the first: it returns that dispatch's error and
    only that dispatch's flag is newly set. *)
Theorem Mock_first_failure n rest ctx tx m :
  ShouldFail m = true ->
  exists m' msg,
    CallAll (Ctx:=Ctx) (Tx:=Tx) (n :: rest) ctx m tx = (m', tx, Some (ErrNew msg)) /\
    called n m' = true /\ forall k, k <> n -> called k m' = called k m.
Proof.
  intros Hf. destruct (Mock_Call n ctx tx m) as (m' & Hcall & Hc & Hk & _).
  rewrite Hf in Hcall. exists m'. eexists. simpl. rewrite Hcall. eauto.
Qed.

(** An entity whose type has none of the six
    methods goes through every dispatcher unchanged, with a nil error. *)
Theorem Simple_no_hooks ns ctx tx (e : SimpleEntity) :
  CallAll (Ctx:=Ctx) (Tx:=Tx) ns ctx e tx = (e, tx, nil_error).
Proof.
  induction ns as [|n ns IH]; [done|]. simpl.
  rewrite Call_absent by by destruct n. done.
Qed.

End mock_theorems.

Lemma Mock_all_hooks_witness :
  exists m', CallAll (Ctx:=unit) (Tx:=unit) all_hooks tt mock_zero tt = (m', tt, nil_error) /\
             forall n, called n m' = true.
Proof. apply Mock_all_hooks. reflexivity. Defined.

Lemma Mock_first_failure_witness :
  exists m' msg,
    CallAll (Ctx:=unit) (Tx:=unit) all_hooks tt
      (mkMock 0 "" false false false false false false true) tt
    = (m', tt, Some (ErrNew msg)) /\
    called BeforeCreate m' = true /\
    forall k, k <> BeforeCreate ->
      called k m' = called k (mkMock 0 "" false false false false false false true).
Proof. apply Mock_first_failure. reflexivity. Defined.

End Hooks.
