(* ===== verification/Repo.v ===== *)
(** * Repo: the generic repository and the storage driver it is given

    src/unnamed/part_003 (package repo): a [Repository] holds a database
    handle, which may be nil, and the entity's metadata; each of its six
    operations returns [gorm.ErrInvalidDB] when the handle is nil and
    otherwise makes one call of the driver and returns what the driver
    returns.  The same file carries [ComputeAggregates], which does
    nothing.

    The driver is outside the repository.  It appears here as the class
    [Driver] of the calls the sources make on a [*gorm.DB], each a
    function of the context, its arguments and the state of the
    database; [DriverLaws] states what the repository's round trips need
    of it; [Table] is an in-memory table with an auto-increment key that
    satisfies the laws, so the laws are not vacuous.

    The laws are assumptions about the environment: the create-then-read
    theorem of [Server] holds relative to them.  Keys are integers,
    where the source passes the id as [any].  The table is an example
    instance only: its [table_Updates] replaces the row, where gorm's
    [Updates] of a struct writes the non-zero fields; the theorems about
    updates use the contract [Gorm.spec_Updates], which leaves open what
    the row becomes. *)

From Stdlib Require Import Ascii String ZArith Lia.
From stdpp Require Import base tactics option list strings gmap.
From S2P Require Import Prelude Reflect Meta Parse.

#[local] Set Warnings "-clear-no-such-hyp".

Module Repo.
Import Meta.Meta.

(** ** The driver *)

(** The calls of the sources on the database handle.  [Ctx] is the
    context, [DB] the state of the database, [E] the entity type; keys
    are integers. *)
Class Driver (Ctx DB E : Type) : Type := mkDriver {
  (** [var entity T] *)
  drv_zero : E;
  (** [db.WithContext(ctx).Create(entity)] *)
  drv_Create : Ctx -> E -> DB -> E * DB * error;
  (** [db.WithContext(ctx).First(&entity, id)] *)
  drv_First : Ctx -> E -> Z -> DB -> E * error;
  (** [db.WithContext(ctx).Find(&entities)] *)
  drv_Find : Ctx -> DB -> list E * error;
  (** [db.WithContext(ctx).Save(entity)] *)
  drv_Save : Ctx -> E -> DB -> E * DB * error;
  (** [db.WithContext(ctx).Delete(&entity, id)] *)
  drv_Delete : Ctx -> Z -> DB -> DB * error;
  (** [db.WithContext(ctx).Model(new(T)).Count(&count)] *)
  drv_Count : Ctx -> DB -> Z * error;
  (** [db.WithContext(ctx).Model(entity).Where("id = ?", id).Updates(entity)] *)
  drv_Updates : Ctx -> Z -> E -> DB -> E * DB * error;
}.

(** What the round trips of the repository need of a driver, for the
    primary key [pk] of the entity and an invariant [inv] of the
    database that the writes preserve. *)
Class DriverLaws (Ctx DB E : Type) `{Driver Ctx DB E}
    (pk : E -> Z) (inv : DB -> Prop) : Prop := {
  law_Create_inv ctx e db e' db' err :
    inv db -> drv_Create ctx e db = (e', db', err) -> inv db';
  law_Save_inv ctx e db e' db' err :
    inv db -> drv_Save ctx e db = (e', db', err) -> inv db';
  law_Delete_inv ctx id db db' err :
    inv db -> drv_Delete ctx id db = (db', err) -> inv db';
  law_Create_key ctx e db e' db' :
    inv db -> drv_Create ctx e db = (e', db', nil_error) -> pk e' <> 0%Z;
  law_Create_First ctx ctx' e db e' db' dest :
    inv db -> drv_Create ctx e db = (e', db', nil_error) ->
    drv_First ctx' dest (pk e') db' = (e', nil_error);
  law_Save_First ctx ctx' e db e' db' dest :
    inv db -> drv_Save ctx e db = (e', db', nil_error) -> pk e' <> 0%Z ->
    drv_First ctx' dest (pk e') db' = (e', nil_error);
  law_Delete_First ctx ctx' id db db' dest :
    inv db -> drv_Delete ctx id db = (db', nil_error) ->
    drv_First ctx' dest id db' = (dest, Some ErrRecordNotFound);
}.

(** ** The repository *)

Section repository.
Context {Ctx DB E Conn : Type} `{Driver Ctx DB E}.

Record Repository : Type := mkRepository {
  db : option Conn;
  meta : Parse.Parse.ptr;
}.

Definition New (db : option Conn) (meta : Parse.Parse.ptr) : Repository :=
  mkRepository db meta.

Definition Create (r : Repository) (ctx : Ctx) (entity : E) (st : DB) : E * DB * error :=
  if bool_decide (db r = None) then (entity, st, Some ErrInvalidDB)
  else drv_Create ctx entity st.

Definition GetByID (r : Repository) (ctx : Ctx) (id : Z) (st : DB) : option E * error :=
  if bool_decide (db r = None) then (None, Some ErrInvalidDB)
  else
    let entity := drv_zero in
    let '(entity, err) := drv_First ctx entity id st in
    match err with
    | Some e => (None, Some e)
    | None => (Some entity, nil_error)
    end.

Definition GetAll (r : Repository) (ctx : Ctx) (st : DB) : option (list E) * error :=
  if bool_decide (db r = None) then (None, Some ErrInvalidDB)
  else
    let '(entities, err) := drv_Find ctx st in
    match err with
    | Some e => (None, Some e)
    | None => (Some entities, nil_error)
    end.

Definition Update (r : Repository) (ctx : Ctx) (entity : E) (st : DB) : E * DB * error :=
  if bool_decide (db r = None) then (entity, st, Some ErrInvalidDB)
  else drv_Save ctx entity st.

Definition Delete (r : Repository) (ctx : Ctx) (id : Z) (st : DB) : DB * error :=
  if bool_decide (db r = None) then (st, Some ErrInvalidDB)
  else drv_Delete ctx id st.

Definition Count (r : Repository) (ctx : Ctx) (st : DB) : Z * error :=
  if bool_decide (db r = None) then (0%Z, Some ErrInvalidDB)
  else drv_Count ctx st.

(** [ComputeAggregates]: a stub that reports success. *)
Definition ComputeAggregates (st : DB) (entity : E) (aggregates : list AggregateMeta) : error :=
  nil_error.

End repository.

Arguments Repository : clear implicits.

(** ** An in-memory table *)

(** One table with an auto-increment integer key.  [Create] stores the
    entity under the next key when its key is zero and under its own key
    when that key is free; [Save] overwrites or inserts; [Delete] of an
    absent key succeeds; [Updates] of an absent key changes nothing and
    succeeds, and of a present key replaces the row by the entity with
    that key.  An entity whose key cannot be set is refused. *)
Section table.
Context {E : Type} (pk : E -> Z) (set_pk : Z -> E -> E) (zero : E).

Record Table : Type := mkTable {
  rows : gmap Z E;
  next_id : Z;
}.

Definition empty_table : Table := mkTable ∅ 1.

Definition table_insert (id : Z) (e : E) (t : Table) : Table :=
  mkTable (<[id := e]> (rows t)) (Z.max (next_id t) (id + 1)).

Definition table_Create (e : E) (t : Table) : E * Table * error :=
  if bool_decide (pk e = 0%Z) then
    let e' := set_pk (next_id t) e in
    if bool_decide (pk e' = next_id t)
    then (e', table_insert (next_id t) e' t, nil_error)
    else (e, t, Some (ErrNew "primary key cannot be set"))
  else
    match rows t !! pk e with
    | Some _ => (e, t, Some (ErrNew "UNIQUE constraint failed"))
    | None => (e, table_insert (pk e) e t, nil_error)
    end.

Definition table_First (dest : E) (id : Z) (t : Table) : E * error :=
  match rows t !! id with
  | Some e => (e, nil_error)
  | None => (dest, Some ErrRecordNotFound)
  end.

Definition table_Find (t : Table) : list E * error :=
  ((map_to_list (rows t)).*2, nil_error).

Definition table_Save (e : E) (t : Table) : E * Table * error :=
  if bool_decide (pk e = 0%Z) then table_Create e t
  else (e, table_insert (pk e) e t, nil_error).

Definition table_Delete (id : Z) (t : Table) : Table * error :=
  (mkTable (delete id (rows t)) (next_id t), nil_error).

Definition table_Count (t : Table) : Z * error :=
  (Z.of_nat (size (rows t)), nil_error).

Definition table_Updates (id : Z) (e : E) (t : Table) : E * Table * error :=
  match rows t !! id with
  | Some _ =>
      if bool_decide (pk (set_pk id e) = id)
      then (e, mkTable (<[id := set_pk id e]> (rows t)) (next_id t), nil_error)
      else (e, t, Some (ErrNew "primary key cannot be set"))
  | None => (e, t, nil_error)
  end.

#[export] Instance Table_Driver : Driver unit Table E :=
  mkDriver unit Table E zero
    (fun _ => table_Create)
    (fun _ => table_First)
    (fun _ => table_Find)
    (fun _ => table_Save)
    (fun _ => table_Delete)
    (fun _ => table_Count)
    (fun _ => table_Updates).

(** The next key is positive; the keys in use are not zero, are below
    the next key and are the keys of their rows. *)
Definition wf_table (t : Table) : Prop :=
  (0 < next_id t)%Z /\
  forall id e, rows t !! id = Some e -> id <> 0%Z /\ (id < next_id t)%Z /\ pk e = id.

Lemma wf_empty_table : wf_table empty_table.
Proof. split; [done|]. intros id e. cbn. by rewrite lookup_empty. Qed.

Lemma wf_table_insert id e t :
  wf_table t -> id <> 0%Z -> pk e = id -> wf_table (table_insert id e t).
Proof.
  intros [Hn Hr] Hid Hpk. split; simpl; [lia|]. intros k x.
  destruct (decide (k = id)) as [->|Hne].
  - rewrite lookup_insert_eq. intros [= <-]. repeat split; [done|lia|done].
  - rewrite lookup_insert_ne by done. intros (? & ? & ?)%Hr. repeat split; [done|lia|done].
Qed.

Lemma wf_table_Create e t e' t' err :
  wf_table t -> table_Create e t = (e', t', err) -> wf_table t'.
Proof.
  intros Hwf. unfold table_Create. case_bool_decide as Hz.
  - case_bool_decide as Hk; intros [= <- <- <-]; [|done].
    apply wf_table_insert; [done| |done]. destruct Hwf. lia.
  - destruct (rows t !! pk e); intros [= <- <- <-]; [done|]. by apply wf_table_insert.
Qed.

Lemma wf_table_Save e t e' t' err :
  wf_table t -> table_Save e t = (e', t', err) -> wf_table t'.
Proof.
  intros Hwf. unfold table_Save. case_bool_decide as Hz.
  - by apply wf_table_Create.
  - intros [= <- <- <-]. by apply wf_table_insert.
Qed.

Lemma wf_table_Delete id t t' err :
  wf_table t -> table_Delete id t = (t', err) -> wf_table t'.
Proof.
  intros [Hn Hr] [= <- <-]. split; [done|]. simpl. intros k x.
  destruct (decide (k = id)) as [->|Hne].
  - by rewrite lookup_delete_eq.
  - rewrite lookup_delete_ne by done. apply Hr.
Qed.

Lemma table_Create_key e t e' t' :
  wf_table t -> table_Create e t = (e', t', nil_error) ->
  pk e' <> 0%Z /\ rows t' !! pk e' = Some e'.
Proof.
  intros [Hn _]. unfold table_Create. case_bool_decide as Hz.
  - case_bool_decide as Hk; intros [= <- <-]. rewrite Hk. simpl. rewrite lookup_insert_eq.
    split; [lia|done].
  - destruct (rows t !! pk e); intros [= <- <-]. simpl. by rewrite lookup_insert_eq.
Qed.

#[export] Instance Table_DriverLaws : DriverLaws unit Table E pk wf_table.
Proof.
  split; simpl.
  - intros _. apply wf_table_Create.
  - intros _. apply wf_table_Save.
  - intros _. apply wf_table_Delete.
  - intros _ e t e' t' Hwf Hc. by destruct (table_Create_key e t e' t' Hwf Hc).
  - intros _ _ e t e' t' dest Hwf Hc. unfold table_First.
    by destruct (table_Create_key e t e' t' Hwf Hc) as [_ ->].
  - intros _ _ e t e' t' dest Hwf Hs Hk. unfold table_First, table_Save in *.
    case_bool_decide as Hz.
    + by destruct (table_Create_key e t e' t' Hwf Hs) as [_ ->].
    + injection Hs as <- <-. simpl. by rewrite lookup_insert_eq.
  - intros _ _ id t t' dest Hwf [= <-]. unfold table_First. simpl.
    by rewrite lookup_delete_eq.
Qed.

End table.

Arguments Table : clear implicits.

(** ** Theorems of the repository *)

Section repository_theorems.
Context {Ctx DB E Conn : Type} `{Driver Ctx DB E}.
Implicit Types (r : Repository Conn) (ctx : Ctx) (st : DB) (e : E) (id : Z).

Lemma GetByID_driver r ctx id st :
  db r <> None ->
  GetByID r ctx id st =
    match (drv_First ctx drv_zero id st).2 with
    | Some err => (None, Some err)
    | None => (Some (drv_First ctx drv_zero id st).1, nil_error)
    end.
Proof.
  intros Hdb. unfold GetByID. rewrite bool_decide_eq_false_2 by done.
  by destruct (drv_First ctx drv_zero id st) as [? []].
Qed.

(** C10. Repository without a database: when the
    handle is nil, every one of the six operations returns
    [gorm.ErrInvalidDB], the reads return nil (zero for the count), and
    the database and the given entity are as they were: the driver is
    not called. *)
Theorem Repository_without_db r ctx e id st :
  db r = None ->
  Create r ctx e st = (e, st, Some ErrInvalidDB) /\
  GetByID r ctx id st = (None, Some ErrInvalidDB) /\
  GetAll r ctx st = (None, Some ErrInvalidDB) /\
  Update r ctx e st = (e, st, Some ErrInvalidDB) /\
  Delete r ctx id st = (st, Some ErrInvalidDB) /\
  Count r ctx st = (0%Z, Some ErrInvalidDB).
Proof.
  intros Hdb. unfold Create, GetByID, GetAll, Update, Delete, Count.
  by rewrite !bool_decide_eq_true_2.
Qed.

(** Pass-through: with a database handle,
    Create, Update, Delete and Count return exactly what the driver's
    Create, Save, Delete and Count return, error included. *)
Theorem Repository_pass_through r ctx e id st :
  db r <> None ->
  Create r ctx e st = drv_Create ctx e st /\
  Update r ctx e st = drv_Save ctx e st /\
  Delete r ctx id st = drv_Delete ctx id st /\
  Count r ctx st = drv_Count ctx st.
Proof.
  intros Hdb. unfold Create, Update, Delete, Count.
  by rewrite !bool_decide_eq_false_2.
Qed.

(** GetByID and GetAll return either a result
    and no error, or no result and an error, never both and never
    neither. *)
Theorem GetByID_exclusive r ctx id st :
  ((GetByID r ctx id st).1 = None <-> (GetByID r ctx id st).2 <> None) /\
  ((GetAll r ctx st).1 = None <-> (GetAll r ctx st).2 <> None).
Proof.
  unfold GetByID, GetAll. case_bool_decide; [done|].
  destruct (drv_First ctx drv_zero id st) as [? []], (drv_Find ctx st) as [? []];
    naive_solver.
Qed.

Section laws.
Context (pk : E -> Z) (inv : DB -> Prop) `{!DriverLaws Ctx DB E pk inv}.

(** Create then read: on a driver that
    keeps the laws, a Create that succeeds leaves an entity with a
    non-zero key, and GetByID of that key then returns the entity as
    Create left it, with no error. *)
Theorem Repository_create_get r ctx e st e' st' :
  db r <> None -> inv st ->
  Create r ctx e st = (e', st', nil_error) ->
  pk e' <> 0%Z /\ inv st' /\ GetByID r ctx (pk e') st' = (Some e', nil_error).
Proof.
  intros Hdb Hinv. unfold Create. rewrite bool_decide_eq_false_2 by done. intros Hc.
  split; [by eapply law_Create_key|]. split; [by eapply law_Create_inv|].
  rewrite GetByID_driver by done. by erewrite law_Create_First.
Qed.

(** Update then read: an Update that
    succeeds on an entity with a non-zero key is seen by GetByID of that
    key. *)
Theorem Repository_update_get r ctx e st e' st' :
  db r <> None -> inv st -> pk e' <> 0%Z ->
  Update r ctx e st = (e', st', nil_error) ->
  inv st' /\ GetByID r ctx (pk e') st' = (Some e', nil_error).
Proof.
  intros Hdb Hinv Hk. unfold Update. rewrite bool_decide_eq_false_2 by done. intros Hs.
  split; [by eapply law_Save_inv|].
  rewrite GetByID_driver by done. by erewrite law_Save_First.
Qed.

(** Delete then read: after a Delete that
    succeeds, GetByID of the same key returns nil and the driver's
    record-not-found error. *)
Theorem Repository_delete_get r ctx id st st' :
  db r <> None -> inv st ->
  Delete r ctx id st = (st', nil_error) ->
  inv st' /\ GetByID r ctx id st' = (None, Some ErrRecordNotFound).
Proof.
  intros Hdb Hinv. unfold Delete. rewrite bool_decide_eq_false_2 by done. intros Hd.
  split; [by eapply law_Delete_inv|].
  rewrite GetByID_driver by done. by erewrite law_Delete_First.
Qed.

End laws.
End repository_theorems.

(** ** The repository over the in-memory table *)

Section table_theorems.
Context {E Conn : Type} (pk : E -> Z) (set_pk : Z -> E -> E) (zero : E).
Implicit Types (r : Repository Conn) (t : Table E).

#[local] Existing Instance Table_Driver.

Lemma Delete_table r id t :
  db r <> None ->
  @Delete unit (Table E) E Conn (Table_Driver pk set_pk zero) r tt id t =
    (mkTable (delete id (rows t)) (next_id t), nil_error).
Proof. intros Hdb. unfold Delete. by rewrite bool_decide_eq_false_2. Qed.

(** Delete of an absent key on the
    in-memory table: the repository returns no error and the rows are
    unchanged, so a second Delete of the same key is as quiet as the
    first. *)
Theorem Delete_absent_succeeds r id t :
  db r <> None -> rows t !! id = None ->
  @Delete unit (Table E) E Conn (Table_Driver pk set_pk zero) r tt id t = (t, nil_error).
Proof.
  intros Hdb Hid. rewrite Delete_table by done. destruct t as [rs n]. simpl in *.
  by rewrite delete_id.
Qed.

(** On the in-memory table the count is the number
    of entities GetAll returns. *)
Theorem Count_GetAll r t :
  db r <> None ->
  exists es,
    @GetAll unit (Table E) E Conn (Table_Driver pk set_pk zero) r tt t = (Some es, nil_error) /\
    @Count unit (Table E) E Conn (Table_Driver pk set_pk zero) r tt t =
      (Z.of_nat (length es), nil_error).
Proof.
  intros Hdb. unfold GetAll, Count. rewrite !bool_decide_eq_false_2 by done.
  eexists. split; [done|]. simpl. unfold table_Count.
  by rewrite length_fmap, length_map_to_list.
Qed.

End table_theorems.

(** ** Witnesses: rows are pairs of a key and a name *)

Definition row_driver : Driver unit (Table (Z * string)) (Z * string) :=
  Table_Driver fst (fun id e => (id, e.2)) (0%Z, "").

Definition row_laws : DriverLaws unit (Table (Z * string)) (Z * string) fst (wf_table fst) :=
  Table_DriverLaws fst (fun id e => (id, e.2)) (0%Z, "").

Definition row_repo (conn : option unit) : Repository unit := New conn 0.

Definition one_row : Table (Z * string) := table_insert 1%Z (1%Z, "pen") empty_table.

Lemma wf_one_row : wf_table fst one_row.
Proof. apply wf_table_insert; [apply wf_empty_table|done|done]. Qed.

Lemma Repository_without_db_witness :
  @Create _ _ _ _ row_driver (row_repo None) tt (0%Z, "pen") empty_table
    = ((0%Z, "pen"), empty_table, Some ErrInvalidDB).
Proof.
  exact (proj1 (@Repository_without_db _ _ _ _ row_driver (row_repo None) tt
                  (0%Z, "pen") 0%Z empty_table eq_refl)).
Defined.

Lemma Repository_pass_through_witness :
  @Create _ _ _ _ row_driver (row_repo (Some tt)) tt (0%Z, "pen") empty_table
    = ((1%Z, "pen"), one_row, nil_error).
Proof.
  rewrite (proj1 (@Repository_pass_through _ _ _ _ row_driver (row_repo (Some tt)) tt
                    (0%Z, "pen") 0%Z empty_table ltac:(done))).
  reflexivity.
Defined.

Lemma Repository_create_get_witness :
  @GetByID _ _ _ _ row_driver (row_repo (Some tt)) tt 1%Z one_row
    = (Some (1%Z, "pen"), nil_error).
Proof.
  exact (proj2 (proj2 (@Repository_create_get _ _ _ _ row_driver fst (wf_table fst) row_laws
    (row_repo (Some tt)) tt (0%Z, "pen") empty_table (1%Z, "pen") one_row
    ltac:(done) (wf_empty_table fst) eq_refl))).
Defined.

Lemma Repository_update_get_witness :
  @GetByID _ _ _ _ row_driver (row_repo (Some tt)) tt 1%Z
     (table_insert 1%Z (1%Z, "ink") one_row)
    = (Some (1%Z, "ink"), nil_error).
Proof.
  exact (proj2 (@Repository_update_get _ _ _ _ row_driver fst (wf_table fst) row_laws
    (row_repo (Some tt)) tt (1%Z, "ink") one_row (1%Z, "ink")
    (table_insert 1%Z (1%Z, "ink") one_row)
    ltac:(done) wf_one_row ltac:(done) eq_refl)).
Defined.

Lemma Repository_delete_get_witness :
  @GetByID _ _ _ _ row_driver (row_repo (Some tt)) tt 1%Z
     (mkTable (delete 1%Z (rows one_row)) (next_id one_row))
    = (None, Some ErrRecordNotFound).
Proof.
  exact (proj2 (@Repository_delete_get _ _ _ _ row_driver fst (wf_table fst) row_laws
    (row_repo (Some tt)) tt 1%Z one_row _ ltac:(done) wf_one_row eq_refl)).
Defined.

Lemma Delete_absent_succeeds_witness :
  @Delete _ _ _ _ row_driver (row_repo (Some tt)) tt 7%Z one_row = (one_row, nil_error).
Proof.
  exact (@Delete_absent_succeeds _ unit fst (fun id e => (id, e.2)) (0%Z, "")
           (row_repo (Some tt)) 7%Z one_row ltac:(done) eq_refl).
Defined.

Lemma Count_GetAll_witness :
  exists es,
    @GetAll _ _ _ _ row_driver (row_repo (Some tt)) tt one_row = (Some es, nil_error) /\
    @Count _ _ _ _ row_driver (row_repo (Some tt)) tt one_row = (Z.of_nat (length es), nil_error).
Proof.
  exact (@Count_GetAll _ unit fst (fun id e => (id, e.2)) (0%Z, "")
           (row_repo (Some tt)) one_row ltac:(done)).
Defined.

End Repo.
