(* ===== verification/Router.v ===== *)
(** * Router: the router wrapper and the registration of entity routes

    src/internal/hooks/hooks.go, lines 57-124 (package http): [Router]
    embeds a [*chi.Mux] and keeps a list of middlewares;
    [AddMiddleware] appends to the list, [ApplyMiddleware] hands the
    list to the mux from the last to the first, and
    [RegisterEntityRoutes] registers the five REST routes of an entity
    under the path [toURLPath] derives from its name.

    The mux is the environment.  [Mux] keeps what the sources can
    observe of a [chi.Mux]: the middlewares in the order they were
    given to [Use] and the routes registered, with these behaviours of
    chi: [Use] panics once a route is registered; registering a pattern
    that does not begin with a slash, or in which a brace is left open,
    panics; a route registered twice for the same method and pattern is
    replaced.  A pattern segment of the form {name} matches one
    non-empty path segment.  A request is routed in three ways
    ([Mux_route]): to the handler registered for its method on a
    pattern that matches its path ([Mux_find]); to the method-not-allowed
    handler when patterns match the path but none of them for the
    method ([Mux_allowed] are the methods chi collects for the Allow
    header), or when the method is none of the nine chi knows; to the
    not-found handler otherwise.

    Outside the model: patterns with a star (a catch-all at the end of
    a pattern, a panic elsewhere), parameters with a regular expression
    ({name:regexp}) and the panic on a parameter name used twice in one
    pattern.  None of them occurs in a pattern [RegisterEntityRoutes]
    builds from a Go identifier.

    The handlers are behind the class [HandlerSet]: the router needs
    only that each of the five handler constructors gives a handler for
    a descriptor. *)

From Stdlib Require Import Ascii String.
From stdpp Require Import base tactics option list strings.
From S2P Require Import Prelude GoStrings Naming Reflect Entities Meta Parse.

#[local] Set Warnings "-clear-no-such-hyp".

Module Router.
Import Naming.Naming Meta.Meta.

(** ** The mux *)

(** The methods of chi's methodMap, and any other method a request can
    carry. *)
Inductive Method : Type :=
  | MConnect | MDelete | MGet | MHead | MOptions | MPatch | MPost | MPut | MTrace
  | MOther (name : string).

#[global] Instance Method_eq_dec : EqDecision Method.
Proof. solve_decision. Defined.

(** Whether chi's methodMap has the method. *)
Definition known (method : Method) : bool :=
  match method with MOther _ => false | _ => true end.

Definition method_name (method : Method) : string :=
  match method with
  | MConnect => "CONNECT" | MDelete => "DELETE" | MGet => "GET" | MHead => "HEAD"
  | MOptions => "OPTIONS" | MPatch => "PATCH" | MPost => "POST" | MPut => "PUT"
  | MTrace => "TRACE" | MOther name => name
  end.

(** The number of braces left open after the characters [cs]: the
    count chi keeps when it scans for the closing delimiter of a
    parameter. *)
Fixpoint brace_depth (depth : nat) (cs : list ascii) : nat :=
  match cs with
  | [] => depth
  | c :: rest =>
      if bool_decide (c = "{"%char) then brace_depth (S depth) rest
      else if bool_decide (c = "}"%char) then brace_depth (pred depth) rest
      else brace_depth depth rest
  end.

(** Whether every brace opened in the pattern is closed. *)
Definition braces_closed (pattern : string) : bool :=
  bool_decide (brace_depth 0 (chars pattern) = 0).

(** A pattern segment {name}, and the name. *)
Definition param_of (seg : string) : option string :=
  match chars seg with
  | "{"%char :: rest =>
      match reverse rest with
      | "}"%char :: eman => Some (of_chars (reverse eman))
      | _ => None
      end
  | _ => None
  end.

(** The parameters a path binds when it matches the segments of a
    pattern. *)
Fixpoint match_segments (pattern path : list string) : option (list (string * string)) :=
  match pattern, path with
  | [], [] => Some []
  | p :: pattern, s :: path =>
      match param_of p with
      | Some key =>
          if bool_decide (s = "") then None
          else params ← match_segments pattern path; Some ((key, s) :: params)
      | None =>
          if bool_decide (p = s) then match_segments pattern path else None
      end
  | _, _ => None
  end.

Definition match_pattern (pattern path : string) : option (list (string * string)) :=
  match_segments (Split pattern "/"%char) (Split path "/"%char).

Section mux.
Context {M H : Type}.

Record Route : Type := mkRoute {
  routeMethod : Method;
  routePattern : string;
  routeHandler : H;
}.

Record Mux : Type := mkMux {
  muxMiddlewares : list M;
  muxRoutes : list Route;
}.

Definition NewMux : Mux := mkMux [] [].

Definition Mux_Use (m : M) (mx : Mux) : outcome Mux :=
  match muxRoutes mx with
  | [] => Ok (mkMux (muxMiddlewares mx ++ [m]) [])
  | _ => Panic "chi: all middlewares must be defined before routes on a mux"
  end.

Definition same_route (method : Method) (pattern : string) (r : Route) : bool :=
  bool_decide (routeMethod r = method) && bool_decide (routePattern r = pattern).

Definition Mux_Handle (method : Method) (pattern : string) (h : H) (mx : Mux) : outcome Mux :=
  if negb (known method) then
    Panic ("chi: '" +:+ method_name method +:+ "' http method is not supported.")
  else if negb (HasPrefix pattern "/") then
    Panic "chi: routing pattern must begin with '/'"
  else if negb (braces_closed pattern) then
    Panic "chi: route param closing delimiter '}' is missing"
  else
    Ok (mkMux (muxMiddlewares mx)
          (List.filter (fun r => negb (same_route method pattern r)) (muxRoutes mx)
           ++ [mkRoute method pattern h])).

(** The handler registered for the method on a pattern that matches
    the path, and the parameters of the path: what chi's FindRoute
    returns. *)
Definition Mux_find (method : Method) (path : string) (mx : Mux)
    : option (H * list (string * string)) :=
  r ← List.find (fun r => bool_decide (routeMethod r = method)
                          && bool_decide (is_Some (match_pattern (routePattern r) path)))
                (muxRoutes mx);
  params ← match_pattern (routePattern r) path;
  Some (routeHandler r, params).

(** The methods registered on the patterns that match the path: what
    chi's FindRoute leaves in the routing context (methodsAllowed) when
    it reaches a route that has no handler for the method. *)
Definition Mux_allowed (path : string) (mx : Mux) : list Method :=
  routeMethod <$>
    List.filter (fun r => bool_decide (is_Some (match_pattern (routePattern r) path)))
                (muxRoutes mx).

(** The three ways chi's routeHTTP ends: the handler of a route, the
    method-not-allowed handler, the not-found handler. *)
Inductive Routing : Type :=
  | ToHandler (h : H) (params : list (string * string))
  | ToMethodNotAllowed (allowed : list Method)
  | ToNotFound.

Definition Mux_route (method : Method) (path : string) (mx : Mux) : Routing :=
  if negb (known method) then ToMethodNotAllowed []
  else match Mux_find method path mx with
       | Some (h, params) => ToHandler h params
       | None =>
           match Mux_allowed path mx with
           | [] => ToNotFound
           | allowed => ToMethodNotAllowed allowed
           end
       end.

(** ** The router *)

Record Router : Type := mkRouter {
  rMux : Mux;
  middlewares : list M;
}.

Definition New : Router := mkRouter NewMux [].

Definition AddMiddleware (m : M) (r : Router) : Router :=
  mkRouter (rMux r) (middlewares r ++ [m]).

(** The body of the loop of [ApplyMiddleware] at index [i]:
    [r.Use(r.middlewares[i])]. *)
Definition use_at (r : Router) (i : nat) : outcome Router :=
  match middlewares r !! i with
  | Some m => mx ← Mux_Use m (rMux r); mret (mkRouter mx (middlewares r))
  | None => Panic "index out of range"
  end.

(** [for i := len(r.middlewares) - 1; i >= 0; i--]. *)
Definition ApplyMiddleware (r : Router) : outcome Router :=
  foldl (fun acc i => r ← acc; use_at r i) (mret r)
        (reverse (seq 0 (length (middlewares r)))).

End mux.

Arguments Route : clear implicits.
Arguments Mux : clear implicits.
Arguments Routing : clear implicits.
Arguments Router : clear implicits.

(** ** Route registration *)

(** The five handler constructors of [*Handlers]. *)
Class HandlerSet (Hs H : Type) : Type := mkHandlerSet {
  hs_Create : Hs -> EntityMeta -> H;
  hs_List : Hs -> EntityMeta -> H;
  hs_Get : Hs -> EntityMeta -> H;
  hs_Update : Hs -> EntityMeta -> H;
  hs_Delete : Hs -> EntityMeta -> H;
}.

Section routes.
Context {M Hs H : Type} `{HandlerSet Hs H}.

Definition route (method : Method) (pattern : string) (h : H) (router : Router M H)
    : outcome (Router M H) :=
  mx ← Mux_Handle method pattern h (rMux router);
  mret (mkRouter mx (middlewares router)).

Definition RegisterEntityRoutes (router : Router M H) (meta : EntityMeta) (handlers : Hs)
    : outcome (Router M H) :=
  let resourceName := toURLPath (emName meta) in
  router ← route MPost ("/" +:+ resourceName) (hs_Create handlers meta) router;
  router ← route MGet ("/" +:+ resourceName) (hs_List handlers meta) router;
  router ← route MGet ("/" +:+ resourceName +:+ "/{id}") (hs_Get handlers meta) router;
  router ← route MPut ("/" +:+ resourceName +:+ "/{id}") (hs_Update handlers meta) router;
  route MDelete ("/" +:+ resourceName +:+ "/{id}") (hs_Delete handlers meta) router.

(** The paths under which the routes can be registered: no brace of
    the path is left open. *)
Definition path_ok (resourceName : string) : bool := braces_closed resourceName.

(** Whether registering the route [e] replaces the route [r]. *)
Definition replaces (e r : Route H) : bool :=
  same_route (routeMethod e) (routePattern e) r.

(** The routes of an entity, in the order they are registered. *)
Definition entity_routes (meta : EntityMeta) (handlers : Hs) : list (Route H) :=
  let resourceName := toURLPath (emName meta) in
  [ mkRoute MPost ("/" +:+ resourceName) (hs_Create handlers meta);
    mkRoute MGet ("/" +:+ resourceName) (hs_List handlers meta);
    mkRoute MGet ("/" +:+ resourceName +:+ "/{id}") (hs_Get handlers meta);
    mkRoute MPut ("/" +:+ resourceName +:+ "/{id}") (hs_Update handlers meta);
    mkRoute MDelete ("/" +:+ resourceName +:+ "/{id}") (hs_Delete handlers meta) ].

(** The routes left after the entity routes [es] are registered over
    the routes [old]. *)
Definition with_routes (es old : list (Route H)) : list (Route H) :=
  List.filter (fun r => negb (existsb (fun e => replaces e r) es)) old ++ es.

End routes.

(** ** Braces *)

Section braces.
Implicit Types (cs : list ascii) (d : nat).

Lemma brace_depth_app d cs1 cs2 :
  brace_depth d (cs1 ++ cs2) = brace_depth (brace_depth d cs1) cs2.
Proof. revert d. induction cs1 as [|c cs1 IH]; intros d; simpl; [done|]. by repeat case_bool_decide. Qed.

Lemma brace_depth_no_open cs : ~ In "{"%char cs -> brace_depth 0 cs = 0.
Proof.
  induction cs as [|c cs IH]; simpl; [done|]. intros Hn.
  repeat case_bool_decide; subst; tauto.
Qed.

Lemma brace_depth_no_close d cs : ~ In "}"%char cs -> d <= brace_depth d cs.
Proof.
  revert d. induction cs as [|c cs IH]; intros d Hn; simpl in *; [done|].
  repeat case_bool_decide; subst; [|tauto|].
  - etrans; [|apply IH]; [lia|tauto].
  - apply IH. tauto.
Qed.

Lemma brace_depth_open d cs :
  In "{"%char cs -> ~ In "}"%char cs -> d < brace_depth d cs.
Proof.
  revert d. induction cs as [|c cs IH]; intros d Hin Hn; simpl in *; [done|].
  repeat case_bool_decide; subst.
  - apply (brace_depth_no_close (S d)). tauto.
  - tauto.
  - apply IH; [|tauto]. destruct Hin; [congruence|done].
Qed.

Lemma braces_closed_slash p : braces_closed ("/" +:+ p) = braces_closed p.
Proof. done. Qed.

Lemma braces_closed_id p : braces_closed ("/" +:+ p +:+ "/{id}") = braces_closed p.
Proof.
  unfold braces_closed. simpl. rewrite chars_app, brace_depth_app. simpl.
  by destruct (brace_depth 0 (chars p)).
Qed.

End braces.

(** ** The middlewares *)

Section middleware_theorems.
Context {M H : Type}.
Implicit Types (r : Router M H) (ms mws : list M).

Lemma use_loop ms mws (ixs : list nat) :
  foldl (fun acc i => r ← acc; use_at r i) (Ok (mkRouter (mkMux mws []) ms)) ixs
  = if forallb (fun i => i <? length ms) ixs
    then Ok (mkRouter (mkMux (mws ++ omap (ms !!.) ixs) (@nil (Route H))) ms)
    else Panic "index out of range".
Proof.
  revert mws. induction ixs as [|i ixs IH]; intros mws; simpl; [by rewrite app_nil_r|].
  unfold use_at at 2. simpl. destruct (ms !! i) as [m|] eqn:Hi; simpl.
  - apply lookup_lt_Some in Hi as Hlt. apply Nat.ltb_lt in Hlt as ->. simpl.
    rewrite IH. by rewrite <- app_assoc.
  - apply lookup_ge_None in Hi. apply Nat.ltb_ge in Hi as ->. simpl.
    apply foldl_bind_Panic.
Qed.

Lemma omap_lookup_seq pre ms :
  omap ((pre ++ ms) !!.) (seq (length pre) (length ms)) = ms.
Proof.
  revert pre. induction ms as [|m ms IH]; intros pre; [done|]. simpl.
  rewrite lookup_app_r, Nat.sub_diag by done. simpl. f_equal.
  specialize (IH (pre ++ [m])). rewrite <- app_assoc, length_app in IH. simpl in IH.
  by rewrite Nat.add_1_r in IH.
Qed.

Lemma omap_reverse {A B} (f : A -> option B) (l : list A) :
  omap f (reverse l) = reverse (omap f l).
Proof.
  induction l as [|x l IH]; [done|]. rewrite reverse_cons, omap_app, IH. simpl.
  destruct (f x); simpl; [by rewrite reverse_cons|by rewrite app_nil_r].
Qed.

Lemma ApplyMiddleware_no_routes ms mws :
  ApplyMiddleware (mkRouter (mkMux mws (@nil (Route H))) ms)
  = Ok (mkRouter (mkMux (mws ++ reverse ms) []) ms).
Proof.
  unfold ApplyMiddleware. simpl. rewrite use_loop.
  assert (forallb (fun i => i <? length ms) (reverse (seq 0 (length ms))) = true) as ->.
  { apply forallb_forall. intros i Hi%list_elem_of_In%elem_of_reverse%elem_of_seq. apply Nat.ltb_lt. lia. }
  pose proof (omap_lookup_seq [] ms) as Hs. simpl in Hs.
  by rewrite omap_reverse, Hs.
Qed.

(** On a router with no route registered,
    [ApplyMiddleware] does not panic and gives the mux the middlewares
    of the router from the last added to the first, after those the mux
    already has; the list of the router is unchanged, so a second call
    gives them to the mux again. *)
Theorem ApplyMiddleware_reverse r :
  muxRoutes (rMux r) = [] ->
  ApplyMiddleware r
  = Ok (mkRouter (mkMux (muxMiddlewares (rMux r) ++ reverse (middlewares r)) [])
                 (middlewares r)).
Proof.
  destruct r as [[mws rs] ms]. simpl. intros ->. apply ApplyMiddleware_no_routes.
Qed.

(** Once a route is registered,
    [ApplyMiddleware] panics if the router has a middleware, and does
    nothing if it has none. *)
Theorem ApplyMiddleware_after_routes r :
  muxRoutes (rMux r) <> [] ->
  ApplyMiddleware r
  = if bool_decide (middlewares r = [])
    then Ok r
    else Panic "chi: all middlewares must be defined before routes on a mux".
Proof.
  destruct r as [[mws rs] ms]. simpl. intros Hrs. unfold ApplyMiddleware. simpl.
  destruct ms as [|m ms _] using rev_ind; [done|].
  rewrite bool_decide_eq_false_2 by (by destruct ms).
  rewrite length_app. simpl. rewrite Nat.add_1_r, seq_S, reverse_app. simpl.
  unfold use_at at 2. simpl. rewrite lookup_app_r, Nat.sub_diag by done. simpl.
  unfold Mux_Use. simpl. destruct rs; [done|]. apply foldl_bind_Panic.
Qed.

Lemma foldl_AddMiddleware (mx : Mux M H) pre ms :
  foldl (fun r m => AddMiddleware m r) (mkRouter mx pre) ms = mkRouter mx (pre ++ ms).
Proof.
  revert pre. induction ms as [|m ms IH]; intros pre; simpl; [by rewrite app_nil_r|].
  unfold AddMiddleware at 2. simpl. by rewrite IH, <- app_assoc.
Qed.

(** Middlewares added one by one to a new
    router and then applied reach the mux in the reverse of the order in
    which they were added. *)
Theorem AddMiddleware_order ms :
  ApplyMiddleware (foldl (fun r m => AddMiddleware m r) (@New M H) ms)
  = Ok (mkRouter (mkMux (reverse ms) []) ms).
Proof.
  unfold New. rewrite foldl_AddMiddleware. apply ApplyMiddleware_no_routes.
Qed.

End middleware_theorems.

(** ** The routes *)

Section route_theorems.
Context {M Hs H : Type} `{HandlerSet Hs H}.
Implicit Types (router : Router M H) (meta : EntityMeta) (hs : Hs).
Implicit Types (e r : Route H) (es old : list (Route H)).

Definition route_key (r : Route H) : Method * string := (routeMethod r, routePattern r).

(** What one registration leaves of the routes. *)
Definition handle_routes old e : list (Route H) :=
  List.filter (fun r => negb (replaces e r)) old ++ [e].

Lemma replaces_key e r : replaces e r = true <-> route_key r = route_key e.
Proof.
  unfold replaces, same_route, route_key. rewrite andb_true_iff, !bool_decide_eq_true.
  split; [by intros [-> ->]|by intros [= -> ->]].
Qed.

Lemma existsb_replaces_fresh es e :
  route_key e ∉ route_key <$> es -> existsb (fun e' => replaces e' e) es = false.
Proof.
  intros Hn. apply not_true_is_false. intros (e' & Hin & Hr%replaces_key)%existsb_exists.
  apply Hn. rewrite Hr. apply list_elem_of_fmap_2. by apply list_elem_of_In.
Qed.

Lemma register_all old es :
  NoDup (route_key <$> es) -> foldl handle_routes old es = with_routes es old.
Proof.
  unfold with_routes. revert old.
  induction es as [|e es IH]; intros old; [by rewrite app_nil_r, filter_true|].
  csimpl. intros [Hfresh Hnd]%NoDup_cons. rewrite IH by done. unfold handle_routes.
  rewrite List.filter_app, filter_filter_andb. simpl.
  rewrite existsb_replaces_fresh by done. simpl. rewrite <- app_assoc. simpl.
  f_equal. apply filter_ext. intros r. by rewrite negb_orb.
Qed.

Lemma route_Ok method pattern h router :
  known method = true ->
  HasPrefix pattern "/" = true -> braces_closed pattern = true ->
  route method pattern h router
  = Ok (mkRouter (mkMux (muxMiddlewares (rMux router))
                    (handle_routes (muxRoutes (rMux router)) (mkRoute method pattern h)))
                 (middlewares router)).
Proof. intros Hk Hp Hb. unfold route, Mux_Handle. by rewrite Hk, Hp, Hb. Qed.

Lemma route_open method pattern h router :
  known method = true ->
  HasPrefix pattern "/" = true -> braces_closed pattern = false ->
  route method pattern h router = Panic "chi: route param closing delimiter '}' is missing".
Proof. intros Hk Hp Hb. unfold route, Mux_Handle. by rewrite Hk, Hp, Hb. Qed.

Lemma entity_routes_NoDup meta hs : NoDup (route_key <$> entity_routes meta hs).
Proof.
  assert ("/" +:+ toURLPath (emName meta) <> "/" +:+ toURLPath (emName meta) +:+ "/{id}") as Hne.
  { intros Heq%(f_equal String.length). rewrite !string_length_app in Heq. simpl in Heq. lia. }
  unfold entity_routes, route_key. csimpl. simpl in Hne.
  repeat (apply NoDup_cons_2;
          [rewrite ?not_elem_of_cons; repeat split; (congruence || apply not_elem_of_nil)|]).
  apply NoDup_nil_2.
Qed.

Lemma RegisterEntityRoutes_char router meta hs :
  RegisterEntityRoutes router meta hs
  = if path_ok (toURLPath (emName meta))
    then Ok (mkRouter (mkMux (muxMiddlewares (rMux router))
                         (with_routes (entity_routes meta hs) (muxRoutes (rMux router))))
                      (middlewares router))
    else Panic "chi: route param closing delimiter '}' is missing".
Proof.
  unfold RegisterEntityRoutes, path_ok.
  destruct (braces_closed (toURLPath (emName meta))) eqn:Hok.
  - rewrite <- register_all by apply entity_routes_NoDup.
    repeat (rewrite route_Ok
              by (done || apply (HasPrefix_app "/")
                  || by rewrite ?braces_closed_id, ?braces_closed_slash);
            cbn [mbind outcome_bind rMux muxRoutes muxMiddlewares middlewares]).
    done.
  - rewrite route_open; [done|done|apply (HasPrefix_app "/")|by rewrite braces_closed_slash].
Qed.

Lemma path_ok_no_Z name : ~ In "Z"%char (chars name) -> path_ok (toURLPath name) = true.
Proof.
  intros Hz. apply bool_decide_eq_true, brace_depth_no_open. by rewrite toURLPath_open.
Qed.

Lemma path_ok_Z name :
  In "Z"%char (chars name) -> ~ In "092"%char (chars name) ->
  path_ok (toURLPath name) = false.
Proof.
  intros Hz Hb. apply bool_decide_eq_false.
  pose proof (brace_depth_open 0 (chars (toURLPath name))) as Hd.
  rewrite toURLPath_open in Hd. specialize (Hd Hz).
  assert (~ In "}"%char (chars (toURLPath name))) as Hc by (by intros ?%toURLPath_close).
  specialize (Hd Hc). lia.
Qed.

(** C23. [RegisterEntityRoutes] either
    panics at the first registration, when the path derived from the
    entity's name leaves a brace open, or leaves the router with the
    five routes of the entity (POST and GET on the path, GET, PUT and
    DELETE on the path followed by /{id}, each with the handler of the
    descriptor) after the routes it had, less those of the same method
    and pattern; the middlewares are untouched. *)
Theorem RegisterEntityRoutes_five router meta hs :
  RegisterEntityRoutes router meta hs
  = if path_ok (toURLPath (emName meta))
    then Ok (mkRouter (mkMux (muxMiddlewares (rMux router))
                         (with_routes (entity_routes meta hs) (muxRoutes (rMux router))))
                      (middlewares router))
    else Panic "chi: route param closing delimiter '}' is missing".
Proof. apply RegisterEntityRoutes_char. Qed.

(** For an entity whose name has no
    upper-case Z, route registration does not panic and a router
    without routes gets exactly the five routes of the entity. *)
Theorem RegisterEntityRoutes_no_Z meta hs (ms : list M) :
  ~ In "Z"%char (chars (emName meta)) ->
  RegisterEntityRoutes (mkRouter NewMux ms) meta hs
  = Ok (mkRouter (mkMux [] (entity_routes meta hs)) ms).
Proof. intros Hz. by rewrite RegisterEntityRoutes_char, path_ok_no_Z. Qed.

(** C40. For an entity whose name has an
    upper-case Z and no backslash, as every Go identifier with a Z, the
    path has an open brace and route registration panics. *)
Theorem RegisterEntityRoutes_Z_panics router meta hs :
  In "Z"%char (chars (emName meta)) -> ~ In "092"%char (chars (emName meta)) ->
  RegisterEntityRoutes router meta hs
  = Panic "chi: route param closing delimiter '}' is missing".
Proof. intros Hz Hb. by rewrite RegisterEntityRoutes_char, path_ok_Z. Qed.

End route_theorems.

(** ** The routes of the example program *)

(** A handler named by its kind and the entity it serves. *)
Inductive Endpoint : Type := EpCreate | EpList | EpGet | EpUpdate | EpDelete.

#[export] Instance Endpoint_HandlerSet : HandlerSet unit (Endpoint * string) :=
  mkHandlerSet unit (Endpoint * string)
    (fun _ meta => (EpCreate, emName meta))
    (fun _ meta => (EpList, emName meta))
    (fun _ meta => (EpGet, emName meta))
    (fun _ meta => (EpUpdate, emName meta))
    (fun _ meta => (EpDelete, emName meta)).

Definition user_meta : EntityMeta :=
  Parse.Parse.describe "main" "User" (default [] (struct_fields Entities.MainPkg.User)).

Definition zone_meta : EntityMeta := Parse.Parse.describe "main" "Zone" [].

(** The router of the example program after the routes of User are
    registered. *)
Definition user_router : Router nat (Endpoint * string) :=
  mkRouter (mkMux [] (entity_routes user_meta tt)) [].

(** The routes of User in the example program: the
    path is the one [toURLPath] derives, a GET on that path followed by
    /42 reaches the get handler of User with the parameter id bound to
    42, a POST on the path reaches the create handler, and the paths
    /user and /user/42 the documentation lists reach no handler. *)
Theorem Mux_find_user :
  RegisterEntityRoutes (@New nat (Endpoint * string)) user_meta tt = Ok user_router /\
  Mux_find MGet ("/" +:+ toURLPath "User" +:+ "/42") (rMux user_router)
    = Some ((EpGet, "User"), [("id", "42")]) /\
  Mux_find MPost ("/" +:+ toURLPath "User") (rMux user_router) = Some ((EpCreate, "User"), []) /\
  Mux_find MDelete ("/" +:+ toURLPath "User" +:+ "/42") (rMux user_router)
    = Some ((EpDelete, "User"), [("id", "42")]) /\
  Mux_find MGet "/user/42" (rMux user_router) = None /\
  Mux_find MPost "/user" (rMux user_router) = None.
Proof. vm_compute. repeat split. Qed.

Lemma ApplyMiddleware_reverse_witness :
  ApplyMiddleware (mkRouter (mkMux [0] (@nil (Route (Endpoint * string)))) [1; 2; 3])
  = Ok (mkRouter (mkMux [0; 3; 2; 1] []) [1; 2; 3]).
Proof.
  exact (ApplyMiddleware_reverse
           (mkRouter (mkMux [0] (@nil (Route (Endpoint * string)))) [1; 2; 3]) eq_refl).
Defined.

Lemma ApplyMiddleware_after_routes_witness :
  ApplyMiddleware (mkRouter (rMux user_router) [1; 2])
  = Panic "chi: all middlewares must be defined before routes on a mux".
Proof.
  exact (ApplyMiddleware_after_routes (mkRouter (rMux user_router) [1; 2]) ltac:(done)).
Defined.

Lemma RegisterEntityRoutes_no_Z_witness :
  RegisterEntityRoutes (mkRouter NewMux [7]) user_meta tt
  = Ok (mkRouter (mkMux [] (entity_routes user_meta tt)) [7]).
Proof.
  apply (RegisterEntityRoutes_no_Z user_meta tt [7]).
  vm_compute. intros [?|[?|[?|[?|[]]]]]; discriminate.
Defined.

Lemma RegisterEntityRoutes_Z_panics_witness :
  RegisterEntityRoutes user_router zone_meta tt
  = Panic "chi: route param closing delimiter '}' is missing".
Proof.
  apply (RegisterEntityRoutes_Z_panics user_router zone_meta tt).
  - vm_compute. tauto.
  - vm_compute. intros [?|[?|[?|[?|[]]]]]; discriminate.
Defined.

End Router.
