(* ===== verification/Routes.v ===== *)
(** * Routes: the documented routes and the registered ones

    src/example_main.go lists, in three comments headed "Generated
    Routes" (lines 67-79, 955-985 and 1120-1150), the routes the
    application is said to serve for its entities.  This file holds the
    three tables as data and compares them with what
    [Router.RegisterEntityRoutes] registers for the same entities, in
    the order the programs pass them to [Register], and with what the
    mux then answers to a request on a documented path.

    The handlers are named by their kind and their entity
    ([Router.Endpoint]), so a route says which handler of which entity
    it reaches. *)

From Stdlib Require Import Ascii String ZArith.
From stdpp Require Import base tactics option list strings.
From S2P Require Import Prelude GoStrings Naming Reflect Entities Meta Parse Router.

Module Routes.
Import Naming.Naming Meta.Meta Router.Router.

(** A documented route: the method and the pattern of one line. *)
Abbreviation Line := (Method * string)%type.

(** The five lines documented for a resource path. *)
Definition lines_of (path : string) : list Line :=
  [ (MPost, path); (MGet, path); (MGet, path +:+ "/{id}");
    (MPut, path +:+ "/{id}"); (MDelete, path +:+ "/{id}") ].

(** The table of the example program (package main). *)
Definition documented_main : list Line :=
  lines_of "/product" ++ lines_of "/user".

(** The table of the first test file. *)
Definition documented_test : list Line :=
  lines_of "/user" ++ lines_of "/product" ++ lines_of "/productitem" ++
  lines_of "/tag" ++ lines_of "/productToprice".

(** The table of the second test file: the same paths. *)
Definition documented_plain : list Line :=
  lines_of "/user" ++ lines_of "/product" ++ lines_of "/productitem" ++
  lines_of "/tag" ++ lines_of "/productToprice".

(** The descriptor [Parse] builds for a struct type. *)
Definition meta_of (t : GoType) : EntityMeta :=
  match t with
  | TStruct pkg name fields => Parse.Parse.describe pkg name fields
  | _ => Parse.Parse.describe "" "" []
  end.

(** The entities of the three programs, as they are registered. *)
Definition main_entities : list GoType :=
  [Entities.MainPkg.Product; Entities.MainPkg.User].

Definition test_entities : list GoType :=
  [Entities.TestPkg.User; Entities.TestPkg.Product; Entities.TestPkg.ProductItem;
   Entities.TestPkg.Tag; Entities.TestPkg.ProductToPrice].

Definition plain_entities : list GoType :=
  [Entities.PlainPkg.User; Entities.PlainPkg.Product; Entities.PlainPkg.ProductItem;
   Entities.PlainPkg.Tag; Entities.PlainPkg.ProductToPrice].

(** [RegisterEntityRoutes] for each entity in turn, on a new router. *)
Definition register_all (entities : list GoType) : outcome (Router unit (Endpoint * string)) :=
  foldl (fun acc t => router ← acc; RegisterEntityRoutes router (meta_of t) tt)
        (Ok New) entities.

(** The lines of the routes a router holds. *)
Definition registered (router : Router unit (Endpoint * string)) : list Line :=
  (fun r => (routeMethod r, routePattern r)) <$> muxRoutes (rMux router).

(** The path of a request on a documented line, for the id 1. *)
Definition request_path (line : Line) : string :=
  match Split line.2 "{"%char with
  | [path] => path
  | prefix :: _ => prefix +:+ "1"
  | [] => ""
  end.

(** Whether the router has a handler for a request on the line. *)
Definition serves (router : Router unit (Endpoint * string)) (line : Line) : bool :=
  bool_decide (is_Some (Mux_find line.1 (request_path line) (rMux router))).

(** The table the comment of [toURLPath] describes: the entity name in
    kebab case. *)
Definition intended (entities : list GoType) : list Line :=
  entities ≫= fun t => lines_of ("/" +:+ url_intended (emName (meta_of t))).

(** The table [toURLPath] gives. *)
Definition generated (entities : list GoType) : list Line :=
  entities ≫= fun t => lines_of ("/" +:+ toURLPath (emName (meta_of t))).

(** A documented line is neither registered nor served. *)
Definition unserved (router : Router unit (Endpoint * string)) (line : Line) : bool :=
  negb (bool_decide (line ∈ registered router)) && negb (serves router line).

(** What a program's table is set against: the router its entities
    give, with as many routes as the table has lines. *)
Definition table_unserved (entities : list GoType) (documented : list Line) : Prop :=
  exists router, register_all entities = Ok router /\
    length (registered router) = length documented /\
    Forall (fun line => (line ∉ registered router) /\ serves router line = false) documented.

(** ** Theorems *)

(** What is registered is the table [toURLPath] gives, five routes an
    entity, for each of the three programs. *)
Theorem register_all_generated :
  Forall (fun entities =>
            exists router, register_all entities = Ok router /\
                           registered router = generated entities)
         [main_entities; test_entities; plain_entities].
Proof. repeat constructor; eexists; (split; [vm_compute; reflexivity|reflexivity]). Qed.

Lemma unserved_spec router documented :
  forallb (unserved router) documented = true ->
  Forall (fun line => (line ∉ registered router) /\ serves router line = false) documented.
Proof.
  intros Hall. apply Forall_forall. intros line Hl%list_elem_of_In.
  apply (proj1 (forallb_forall _ _) Hall) in Hl.
  apply andb_prop in Hl as [Hr%negb_true_iff%bool_decide_eq_false_1 Hs%negb_true_iff].
  done.
Qed.

(** No documented route is registered, and a request on a documented
    path reaches no handler: the router answers 404 to each of the
    sixty documented lines. *)
Theorem documented_routes_unserved :
  table_unserved main_entities documented_main /\
  table_unserved test_entities documented_test /\
  table_unserved plain_entities documented_plain.
Proof.
  repeat split;
    (eexists; split; [vm_compute; reflexivity|]; split; [reflexivity|]);
    apply unserved_spec; vm_compute; reflexivity.
Qed.

(** The documented table of package main is the kebab-case table the
    comment of [toURLPath] describes; the tables of the test files are
    not: they write productitem and productToprice for product-item
    and product-to-price. *)
Theorem documented_routes_intended :
  documented_main = intended main_entities /\
  documented_test <> intended test_entities /\
  documented_plain <> intended plain_entities /\
  (MPost, "/product-item") ∈ intended test_entities /\
  (MPost, "/product-to-price") ∈ intended test_entities.
Proof.
  split; [reflexivity|]. split; [vm_compute; discriminate|].
  split; [vm_compute; discriminate|].
  split; apply list_elem_of_In; vm_compute; tauto.
Qed.

End Routes.
