(* ===== verification/Handlers.v ===== *)
(** * Handlers: the five CRUD handlers

    src/internal/http/handlers.go: [Handlers] holds the database handle;
    [CreateHandler], [ListHandler], [GetHandler], [UpdateHandler] and
    [DeleteHandler] each return the handler of one route of an entity.
    A handler reads the request, calls the hooks and the database in a
    fixed order and writes one response; every failure ends the handler
    with an error response.

    A handler is a function of the request and the state of the
    database to a response and a state ([Handler]); it panics when the
    database is reached through a nil handle.  The entity is a value of
    the entity's dynamic type ([any]), made by [makeEntityInstance] from
    the descriptor.  The database is a [Repo.Driver] over such values,
    the hooks the [Hooks.MethodSet] of the dynamic values, the JSON
    decoder of the request body a [Codec]; the response keeps the status
    code, the headers set and the value encoded.  The handlers call the
    database directly: the repository of Repo.v is not used by them,
    and of the descriptor they read the type alone
    ([handlers_ignore_flags]). *)

From Corelib Require Import PrimFloat.
From Stdlib Require Import Ascii String ZArith Lia.
From stdpp Require Import base tactics option list strings.
From S2P Require Import Prelude GoStrings Reflect Entities Meta Parse Hooks Repo Router.

#[local] Set Warnings "-clear-no-such-hyp".

Module Handlers.
Import Meta.Meta Hooks.Hooks Repo.Repo.

(** ** Requests and responses *)

Definition StatusOK : nat := 200.
Definition StatusCreated : nat := 201.
Definition StatusNoContent : nat := 204.
Definition StatusBadRequest : nat := 400.
Definition StatusNotFound : nat := 404.
Definition StatusInternalServerError : nat := 500.

Inductive Body : Type :=
| BodyNone
| BodyText (text : string)
| BodyJSON (v : any).

Record Response : Type := mkResponse {
  status : nat;
  header : list (string * string);
  body : Body;
}.

(** [http.Error(w, msg, code)] on a response not yet written. *)
Definition http_Error (msg : string) (code : nat) : Response :=
  mkResponse code
    [("Content-Type", "text/plain; charset=utf-8"); ("X-Content-Type-Options", "nosniff")]
    (BodyText (msg +:+ String "010"%char "")).

(** [w.Header().Set("Content-Type", "application/json")], the status
    and [json.NewEncoder(w).Encode(v)]. *)
Definition write_json (code : nat) (v : any) : Response :=
  mkResponse code [("Content-Type", "application/json")] (BodyJSON v).

(** [json.NewDecoder(r.Body).Decode(entity)]: the entity after the
    decoding and the decoder's error. *)
Class Codec : Type := mkCodec {
  json_Decode : string -> any -> any * error;
}.

Section handlers.
Context {Ctx DB Conn : Type}.
Context `{Driver Ctx DB any} `{MethodSet (Ctx:=Ctx) (Tx:=DB) any} `{Codec}.

Record Request : Type := mkRequest {
  rContext : Ctx;
  rBody : string;
  rParams : list (string * string);
}.

(** [chi.URLParam(r, key)]: the empty string when the route has no such
    parameter. *)
Definition URLParam (r : Request) (key : string) : string := Tag_Get (rParams r) key.

Definition Handler : Type := Request -> DB -> outcome (Response * DB).

Record Handlers : Type := mkHandlers {
  db : option Conn;
}.

Definition NewHandlers (db : option Conn) : Handlers := mkHandlers db.

(** [h.db.WithContext(ctx)]: a nil handle is dereferenced. *)
Definition WithContext (h : Handlers) : outcome Conn :=
  match db h with
  | Some conn => Ok conn
  | None => Panic "invalid memory address or nil pointer dereference"
  end.

Definition makeEntityInstance (entityMeta : EntityMeta) : any :=
  reflect_New (emType entityMeta).

Definition makeEntitySlice (entityMeta : EntityMeta) : any :=
  let sliceType := TSlice (emType entityMeta) in
  reflect_New sliceType.

(** The destination of [Find] after the rows are stored in it. *)
Definition fill_slice (entities : any) (found : list any) : any :=
  match entities with
  | Some (t, VPtr (Some (VSlice _))) =>
      Some (t, VPtr (Some (VSlice (omap (fun e : any =>
                                          match e with
                                          | Some (_, VPtr (Some v)) => Some v
                                          | _ => None
                                          end) found))))
  | _ => entities
  end.

Definition CreateHandler (h : Handlers) (entityMeta : EntityMeta) : Handler :=
  fun r st =>
    let ctx := rContext r in
    let entity := makeEntityInstance entityMeta in
    let '(entity, err) := json_Decode (rBody r) entity in
    if err is Some _ then Ok (http_Error "Invalid request body" StatusBadRequest, st)
    else
      let '(entity, st, err) := CallBeforeCreate ctx entity st in
      if err is Some err then Ok (http_Error (error_message err) StatusInternalServerError, st)
      else
        _ ← WithContext h;
        let '(entity, st, err) := drv_Create ctx entity st in
        if err is Some err then Ok (http_Error (error_message err) StatusInternalServerError, st)
        else
          let '(entity, st, err) := CallAfterCreate ctx entity st in
          if err is Some err then Ok (http_Error (error_message err) StatusInternalServerError, st)
          else Ok (write_json StatusCreated entity, st).

Definition ListHandler (h : Handlers) (entityMeta : EntityMeta) : Handler :=
  fun r st =>
    let ctx := rContext r in
    let entities := makeEntitySlice entityMeta in
    _ ← WithContext h;
    let '(found, err) := drv_Find ctx st in
    if err is Some err then Ok (http_Error (error_message err) StatusInternalServerError, st)
    else Ok (write_json StatusOK (fill_slice entities found), st).

Definition GetHandler (h : Handlers) (entityMeta : EntityMeta) : Handler :=
  fun r st =>
    let ctx := rContext r in
    let idStr := URLParam r "id" in
    match ParseInt idStr with
    | None => Ok (http_Error "Invalid ID" StatusBadRequest, st)
    | Some id =>
        let entity := makeEntityInstance entityMeta in
        _ ← WithContext h;
        let '(entity, err) := drv_First ctx entity id st in
        if err is Some err then
          if bool_decide (err = ErrRecordNotFound)
          then Ok (http_Error "Not found" StatusNotFound, st)
          else Ok (http_Error (error_message err) StatusInternalServerError, st)
        else Ok (write_json StatusOK entity, st)
    end.

Definition UpdateHandler (h : Handlers) (entityMeta : EntityMeta) : Handler :=
  fun r st =>
    let ctx := rContext r in
    let idStr := URLParam r "id" in
    match ParseInt idStr with
    | None => Ok (http_Error "Invalid ID" StatusBadRequest, st)
    | Some id =>
        let entity := makeEntityInstance entityMeta in
        let '(entity, err) := json_Decode (rBody r) entity in
        if err is Some _ then Ok (http_Error "Invalid request body" StatusBadRequest, st)
        else
          let '(entity, st, err) := CallBeforeUpdate ctx entity st in
          if err is Some err then Ok (http_Error (error_message err) StatusInternalServerError, st)
          else
            _ ← WithContext h;
            let '(entity, st, err) := drv_Updates ctx id entity st in
            if err is Some err then Ok (http_Error (error_message err) StatusInternalServerError, st)
            else
              let '(entity, st, err) := CallAfterUpdate ctx entity st in
              if err is Some err then Ok (http_Error (error_message err) StatusInternalServerError, st)
              else Ok (write_json StatusOK entity, st)
    end.

Definition DeleteHandler (h : Handlers) (entityMeta : EntityMeta) : Handler :=
  fun r st =>
    let ctx := rContext r in
    let idStr := URLParam r "id" in
    match ParseInt idStr with
    | None => Ok (http_Error "Invalid ID" StatusBadRequest, st)
    | Some id =>
        let entity := makeEntityInstance entityMeta in
        _ ← WithContext h;
        let '(entity, err) := drv_First ctx entity id st in
        if err is Some err then
          if bool_decide (err = ErrRecordNotFound)
          then Ok (http_Error "Not found" StatusNotFound, st)
          else Ok (http_Error (error_message err) StatusInternalServerError, st)
        else
          let '(entity, st, err) := CallBeforeDelete ctx entity st in
          if err is Some err then Ok (http_Error (error_message err) StatusInternalServerError, st)
          else
            let '(st, err) := drv_Delete ctx id st in
            if err is Some err then Ok (http_Error (error_message err) StatusInternalServerError, st)
            else
              let '(entity, st, err) := CallAfterDelete ctx entity st in
              if err is Some err then Ok (http_Error (error_message err) StatusInternalServerError, st)
              else Ok (mkResponse StatusNoContent [] BodyNone, st)
    end.

(** The handlers are what the router registers. *)
#[export] Instance Handlers_HandlerSet : Router.Router.HandlerSet Handlers Handler :=
  Router.Router.mkHandlerSet Handlers Handler
    CreateHandler ListHandler GetHandler UpdateHandler DeleteHandler.

End handlers.

Arguments Request : clear implicits.
Arguments Handlers : clear implicits.
Arguments Handler : clear implicits.

(** Split a handler's run into the cases of its calls. *)
Ltac handler_cases :=
  unfold WithContext; cbn [mbind outcome_bind];
  repeat (case_match; cbn [mbind outcome_bind] in *; simplify_eq).

(** ** What every handler answers *)

Section handler_theorems.
Context {Ctx DB Conn : Type}.
Context `{Driver Ctx DB any} `{MethodSet (Ctx:=Ctx) (Tx:=DB) any} `{Codec}.
Implicit Types (h : Handlers Conn) (meta : EntityMeta) (r : Request Ctx) (st : DB).

(** The status a run answers with; a panic in the case of a nil
    handle. *)
Definition answers (codes : list nat) h (run : outcome (Response * DB)) : Prop :=
  match run with
  | Ok (resp, _) => In (status resp) codes
  | Panic _ => db h = None
  end.

(** C19. The statuses of the five handlers:
    create answers 201, 400 or 500; list 200 or 500; get 200, 400, 404
    or 500; update 200, 400 or 500, never 404; delete 204, 400, 404 or
    500; and a handler panics only when its database handle is nil. *)
Theorem handlers_status_codes h meta r st :
  answers [201; 400; 500] h (CreateHandler h meta r st) /\
  answers [200; 500] h (ListHandler h meta r st) /\
  answers [200; 400; 404; 500] h (GetHandler h meta r st) /\
  answers [200; 400; 500] h (UpdateHandler h meta r st) /\
  answers [204; 400; 404; 500] h (DeleteHandler h meta r st).
Proof.
  unfold answers, CreateHandler, ListHandler, GetHandler, UpdateHandler, DeleteHandler.
  repeat split; handler_cases; simpl; tauto.
Qed.

(** An id parameter that is no decimal int64, or
    a route without the parameter, makes get, update and delete answer
    400 with the text Invalid ID; the database is not reached and no
    hook runs, whatever the handle. *)
Theorem handlers_bad_id h meta r st :
  ParseInt (URLParam r "id") = None ->
  GetHandler h meta r st = Ok (http_Error "Invalid ID" StatusBadRequest, st) /\
  UpdateHandler h meta r st = Ok (http_Error "Invalid ID" StatusBadRequest, st) /\
  DeleteHandler h meta r st = Ok (http_Error "Invalid ID" StatusBadRequest, st).
Proof. intros Hid. unfold GetHandler, UpdateHandler, DeleteHandler. by rewrite Hid. Qed.

(** A body the decoder refuses makes create
    answer 400 with the text Invalid request body, and update too when
    the id is valid; the state is untouched. *)
Theorem handlers_bad_body h meta r st e err id :
  json_Decode (rBody r) (makeEntityInstance meta) = (e, Some err) ->
  ParseInt (URLParam r "id") = Some id ->
  CreateHandler h meta r st = Ok (http_Error "Invalid request body" StatusBadRequest, st) /\
  UpdateHandler h meta r st = Ok (http_Error "Invalid request body" StatusBadRequest, st).
Proof. intros Hd Hid. unfold CreateHandler, UpdateHandler. by rewrite Hd, Hid. Qed.

(** C20. A failing before-hook aborts the
    operation: create, whatever the path of the request, and update,
    on a path with an id that parses, answer 500 with the hook's
    message and leave the state the hook left, without a call of the
    database. *)
Theorem before_hook_aborts h meta r st e :
  json_Decode (rBody r) (makeEntityInstance meta) = (e, nil_error) ->
  (forall e1 st1 err, CallBeforeCreate (rContext r) e st = (e1, st1, Some err) ->
     CreateHandler h meta r st
     = Ok (http_Error (error_message err) StatusInternalServerError, st1)) /\
  (forall id e1 st1 err, ParseInt (URLParam r "id") = Some id ->
     CallBeforeUpdate (rContext r) e st = (e1, st1, Some err) ->
     UpdateHandler h meta r st
     = Ok (http_Error (error_message err) StatusInternalServerError, st1)).
Proof.
  intros Hd. unfold CreateHandler, UpdateHandler. rewrite Hd.
  split; [by intros e1 st1 err ->|by intros id e1 st1 err -> ->].
Qed.

(** Delete reads the row first;
    when the row is found and the before-delete hook fails, delete
    answers 500 with the hook's message and the row is not deleted. *)
Theorem DeleteHandler_before_hook_aborts h meta r st id e e1 st1 err :
  db h <> None ->
  ParseInt (URLParam r "id") = Some id ->
  drv_First (rContext r) (makeEntityInstance meta) id st = (e, nil_error) ->
  CallBeforeDelete (rContext r) e st = (e1, st1, Some err) ->
  DeleteHandler h meta r st
  = Ok (http_Error (error_message err) StatusInternalServerError, st1).
Proof.
  intros Hdb Hid Hf Hb. unfold DeleteHandler, WithContext. rewrite Hid.
  destruct (db h); [|done]. cbn [mbind outcome_bind]. by rewrite Hf, Hb.
Qed.

(** When the body decodes, both hooks
    succeed and the database stores the entity, create answers 201 with
    the entity as the after-create hook left it, in the state that hook
    left: the hooks and the database run in the order before-hook,
    database, after-hook, each on the result of the one before. *)
Theorem CreateHandler_created h meta r st e e1 st1 e2 st2 e3 st3 :
  db h <> None ->
  json_Decode (rBody r) (makeEntityInstance meta) = (e, nil_error) ->
  CallBeforeCreate (rContext r) e st = (e1, st1, nil_error) ->
  drv_Create (rContext r) e1 st1 = (e2, st2, nil_error) ->
  CallAfterCreate (rContext r) e2 st2 = (e3, st3, nil_error) ->
  CreateHandler h meta r st = Ok (write_json StatusCreated e3, st3).
Proof.
  intros Hdb Hd Hb Hc Ha. unfold CreateHandler, WithContext. rewrite Hd, Hb.
  destruct (db h); [|done]. cbn [mbind outcome_bind]. by rewrite Hc, Ha.
Qed.

(** Get answers 404 exactly when the
    database's error is the record-not-found error itself; an error that
    wraps it is answered with 500. *)
Theorem GetHandler_not_found h meta r st id e err :
  db h <> None ->
  ParseInt (URLParam r "id") = Some id ->
  drv_First (rContext r) (makeEntityInstance meta) id st = (e, Some err) ->
  GetHandler h meta r st
  = Ok (if bool_decide (err = ErrRecordNotFound)
        then http_Error "Not found" StatusNotFound
        else http_Error (error_message err) StatusInternalServerError, st).
Proof.
  intros Hdb Hid Hf. unfold GetHandler, WithContext. rewrite Hid.
  destruct (db h); [|done]. cbn [mbind outcome_bind]. rewrite Hf. by case_bool_decide.
Qed.

(** C39. The handlers read a descriptor only through its type: two
    descriptors of one type, whatever their fields and the flags on
    them say, give the same five handlers.  The flags hidden and
    readonly that the parser records are therefore without effect on
    what is decoded, stored and answered. *)
Theorem handlers_ignore_flags h meta meta' :
  emType meta = emType meta' ->
  CreateHandler h meta = CreateHandler h meta' /\
  ListHandler h meta = ListHandler h meta' /\
  GetHandler h meta = GetHandler h meta' /\
  UpdateHandler h meta = UpdateHandler h meta' /\
  DeleteHandler h meta = DeleteHandler h meta'.
Proof.
  intros Ht.
  unfold CreateHandler, ListHandler, GetHandler, UpdateHandler, DeleteHandler,
    makeEntityInstance, makeEntitySlice.
  by rewrite Ht.
Qed.

(** ** Inversion of the successful runs *)

Lemma GetHandler_found h meta r st id e :
  db h <> None ->
  ParseInt (URLParam r "id") = Some id ->
  drv_First (rContext r) (makeEntityInstance meta) id st = (e, nil_error) ->
  GetHandler h meta r st = Ok (write_json StatusOK e, st).
Proof.
  intros Hdb Hid Hf. unfold GetHandler, WithContext. rewrite Hid.
  destruct (db h); [|done]. cbn [mbind outcome_bind]. by rewrite Hf.
Qed.

Lemma CreateHandler_created_inv h meta r st resp st' :
  CreateHandler h meta r st = Ok (resp, st') -> status resp = StatusCreated ->
  exists e e1 st1 e2 st2 e3,
    json_Decode (rBody r) (makeEntityInstance meta) = (e, nil_error) /\
    CallBeforeCreate (rContext r) e st = (e1, st1, nil_error) /\
    drv_Create (rContext r) e1 st1 = (e2, st2, nil_error) /\
    CallAfterCreate (rContext r) e2 st2 = (e3, st', nil_error) /\
    resp = write_json StatusCreated e3.
Proof.
  unfold CreateHandler. handler_cases; intros [= <- <-]; try done.
  intros _. by repeat eexists.
Qed.

Lemma DeleteHandler_deleted_inv h meta r st resp st' :
  DeleteHandler h meta r st = Ok (resp, st') -> status resp = StatusNoContent ->
  exists id e e1 st1 st2 e3,
    ParseInt (URLParam r "id") = Some id /\
    drv_First (rContext r) (makeEntityInstance meta) id st = (e, nil_error) /\
    CallBeforeDelete (rContext r) e st = (e1, st1, nil_error) /\
    drv_Delete (rContext r) id st1 = (st2, nil_error) /\
    CallAfterDelete (rContext r) e1 st2 = (e3, st', nil_error).
Proof.
  unfold DeleteHandler. handler_cases; intros [= <- <-]; try done.
  intros _. by repeat eexists.
Qed.

(** ** Round trips through a lawful database *)

Section round_trips.
Context (pk : any -> Z) (inv : DB -> Prop) `{!DriverLaws Ctx DB any pk inv}.

(** The hooks of the entity type leave the database as it is. *)
Hypothesis hooks_keep_db : forall n ctx e st, (Call n ctx e st).1.2 = st.

Lemma hook_state n ctx e st e' st' err : Call n ctx e st = (e', st', err) -> st' = st.
Proof. intros Hc. by rewrite <- (hooks_keep_db n ctx e st), Hc. Qed.

(** Create then get: when create answers 201,
    the database holds an entity with a non-zero key, the body of the
    answer is that entity as the after-create hook left it, and a get of
    that key answers 200 with the stored entity. *)
Theorem create_then_get h meta r st resp st' :
  db h <> None -> inv st ->
  CreateHandler h meta r st = Ok (resp, st') -> status resp = StatusCreated ->
  exists e, pk e <> 0%Z /\ inv st' /\
    body resp = BodyJSON (CallAfterCreate (rContext r) e st').1.1 /\
    forall r', ParseInt (URLParam r' "id") = Some (pk e) ->
      GetHandler h meta r' st' = Ok (write_json StatusOK e, st').
Proof.
  intros Hdb Hinv Hrun Hst.
  destruct (CreateHandler_created_inv _ _ _ _ _ _ Hrun Hst)
    as (e & e1 & st1 & e2 & st2 & e3 & _ & Hb & Hc & Ha & ->).
  apply (hook_state BeforeCreate) in Hb as ->.
  pose proof (hook_state AfterCreate _ _ _ _ _ _ Ha) as ->.
  exists e2. split; [by eapply law_Create_key|]. split; [by eapply law_Create_inv|].
  split; [by rewrite Ha|]. intros r' Hid.
  apply (GetHandler_found _ _ _ _ (pk e2)); [done..|]. by eapply law_Create_First.
Qed.

(** Delete then get: when delete answers 204, a
    get of the same id answers 404. *)
Theorem delete_then_get h meta r st resp st' :
  db h <> None -> inv st ->
  DeleteHandler h meta r st = Ok (resp, st') -> status resp = StatusNoContent ->
  GetHandler h meta r st' = Ok (http_Error "Not found" StatusNotFound, st').
Proof.
  intros Hdb Hinv Hrun Hst.
  destruct (DeleteHandler_deleted_inv _ _ _ _ _ _ Hrun Hst)
    as (id & e & e1 & st1 & st2 & e3 & Hid & _ & Hb & Hd & Ha).
  apply (hook_state BeforeDelete) in Hb as ->.
  apply (hook_state AfterDelete) in Ha as ->.
  unfold GetHandler, WithContext. rewrite Hid. destruct (db h); [|done].
  cbn [mbind outcome_bind].
  rewrite (law_Delete_First _ (rContext r) _ _ _ (makeEntityInstance meta) Hinv Hd).
  by rewrite bool_decide_eq_true_2.
Qed.

End round_trips.

End handler_theorems.

(** ** The example program's Product through the handlers *)

(** The key of an entity value is its field ID. *)
Definition pk_any (e : any) : Z :=
  match get_field e "ID" with
  | Some (VInt n) => n
  | _ => 0%Z
  end.

Definition set_pk_any (id : Z) (e : any) : any := default e (set_field e "ID" (VInt id)).

(** The database of the examples: one in-memory table of entity
    values. *)
#[export] Instance any_driver : Driver unit (Table any) any :=
  Table_Driver pk_any set_pk_any None.

#[export] Instance any_laws : DriverLaws unit (Table any) any pk_any (wf_table pk_any) :=
  Table_DriverLaws pk_any set_pk_any None.

(** [Product.BeforeCreate] of the example program: a negative price is
    refused ([p.Price < 0] on [float64]: a NaN and a negative zero
    pass). *)
Definition Product_BeforeCreate : HookFn (Ctx:=unit) (Tx:=Table any) any :=
  fun ctx tx p =>
    match get_field p "Price" with
    | Some (VFloat price) =>
        if (price <? 0)%float then (p, tx, Some ErrInvalidData) else (p, tx, nil_error)
    | _ => (p, tx, nil_error)
    end.

(** [Product.AfterCreate]: writes a log line and returns nil. *)
Definition Product_AfterCreate : HookFn (Ctx:=unit) (Tx:=Table any) any :=
  fun ctx tx p => (p, tx, nil_error).

#[export] Instance Product_MethodSet : MethodSet (Ctx:=unit) (Tx:=Table any) any :=
  @mkMethodSet unit (Table any) any
    (Some Product_BeforeCreate) (Some Product_AfterCreate) None None None None.

(** A method set whose before-delete hook always fails, for the
    examples of an aborted delete. *)
Definition locked_methods : MethodSet (Ctx:=unit) (Tx:=Table any) any :=
  @mkMethodSet unit (Table any) any None None None None
    (Some (fun ctx tx e => (e, tx, Some (ErrNew "locked")))) None.

(** The decoder of the examples, in place of encoding/json: the body
    is a list of field=value pairs separated by semicolons; a pair sets
    a string, an integer or a float field of the entity from a string
    or a decimal integer, and anything else is an error, as is an empty
    body.  [float_of_Z] is the conversion of an integer to a float,
    exact up to 2^53. *)
Fixpoint float_of_pos (p : positive) : float :=
  match p with
  | xH => 1
  | xO p => 2 * float_of_pos p
  | xI p => 2 * float_of_pos p + 1
  end%float.

Definition float_of_Z (n : Z) : float :=
  match n with
  | Z0 => 0
  | Zpos p => float_of_pos p
  | Zneg p => - float_of_pos p
  end%float.

Definition decode_pair (e : option any) (part : string) : option any :=
  e ← e;
  match Split part "="%char with
  | [k; v] =>
      match get_field e k with
      | Some (VString _) => set_field e k (VString v)
      | Some (VInt _) => n ← ParseInt v; set_field e k (VInt n)
      | Some (VFloat _) => n ← ParseInt v; set_field e k (VFloat (float_of_Z n))
      | _ => None
      end
  | _ => None
  end.

#[export] Instance pairs_Codec : Codec :=
  mkCodec (fun body e =>
    if bool_decide (body = "") then (e, Some (ErrNew "EOF"))
    else match foldl decode_pair (Some e) (Split body ";"%char) with
         | Some e' => (e', nil_error)
         | None => (e, Some (ErrNew "invalid character"))
         end).

Definition product_meta : EntityMeta :=
  Parse.Parse.describe "main" "Product" (default [] (struct_fields Entities.MainPkg.Product)).

Definition handlers : Handlers unit := NewHandlers (Some tt).

Definition request (body : string) (id : string) : Request unit :=
  mkRequest tt body [("id", id)].

(** A product value with the given key, name and price. *)
Definition product_value (id : Z) (name : string) (price : float) : any :=
  Some (TPtr Entities.MainPkg.Product,
        VPtr (Some (VStruct [VInt id; VString name; VFloat price; VInt 0; VString ""]))).

(** The table after a pen at price 3 is created in the empty table. *)
Definition pen_table : Table any :=
  table_insert 1%Z (product_value 1 "pen" 3) empty_table.

Lemma Product_hooks_keep_db n ctx e st :
  (Call (H:=Product_MethodSet) n ctx e st).1.2 = st.
Proof.
  destruct n; try done. cbn. unfold Product_BeforeCreate.
  repeat case_match; done.
Qed.

Lemma wf_pen_table : wf_table pk_any pen_table.
Proof. apply wf_table_insert; [apply wf_empty_table|done|done]. Qed.

(** The example program's Product served from
    an in-memory table: a POST with a name and a price answers 201 with
    the product under key 1; a GET of 1 then answers 200 with it; a POST
    with a negative price answers 500 with the text of
    gorm.ErrInvalidData and stores nothing; a PUT on the absent key 9
    answers 200 and changes nothing; a DELETE of 1 answers 204 and
    empties the table; a GET of the absent key 9 answers 404, and of the
    id abc 400. *)
Theorem Product_requests :
  CreateHandler handlers product_meta (request "Name=pen;Price=3" "") empty_table
    = Ok (write_json StatusCreated (product_value 1 "pen" 3), pen_table) /\
  GetHandler handlers product_meta (request "" "1") pen_table
    = Ok (write_json StatusOK (product_value 1 "pen" 3), pen_table) /\
  CreateHandler handlers product_meta (request "Name=pen;Price=-3" "") empty_table
    = Ok (http_Error "unsupported data" StatusInternalServerError, empty_table) /\
  UpdateHandler handlers product_meta (request "Name=ink" "9") pen_table
    = Ok (write_json StatusOK (product_value 0 "ink" 0), pen_table) /\
  DeleteHandler handlers product_meta (request "" "1") pen_table
    = Ok (mkResponse StatusNoContent [] BodyNone, mkTable ∅ 2) /\
  GetHandler handlers product_meta (request "" "9") pen_table
    = Ok (http_Error "Not found" StatusNotFound, pen_table) /\
  GetHandler handlers product_meta (request "" "abc") pen_table
    = Ok (http_Error "Invalid ID" StatusBadRequest, pen_table).
Proof. vm_compute. repeat split. Qed.

(** The flags of the example program's Product at work: its descriptor
    marks Quantity as read-only and Secret as hidden, and yet a POST
    that sets both stores them and answers with them, a GET of the row
    answers with the secret, and a PUT overwrites the quantity. *)
Definition stocked_value (id quantity : Z) (secret : string) : any :=
  Some (TPtr Entities.MainPkg.Product,
        VPtr (Some (VStruct [VInt id; VString "pen"; VFloat 3; VInt quantity; VString secret]))).

Theorem Product_flags_unenforced :
  fmReadOnly <$> GetFieldByName product_meta "Quantity" = Some true /\
  fmHidden <$> GetFieldByName product_meta "Secret" = Some true /\
  CreateHandler handlers product_meta
      (request "Name=pen;Price=3;Quantity=7;Secret=key" "") empty_table
    = Ok (write_json StatusCreated (stocked_value 1 7 "key"),
          table_insert 1%Z (stocked_value 1 7 "key") empty_table) /\
  GetHandler handlers product_meta (request "" "1")
      (table_insert 1%Z (stocked_value 1 7 "key") empty_table)
    = Ok (write_json StatusOK (stocked_value 1 7 "key"),
          table_insert 1%Z (stocked_value 1 7 "key") empty_table) /\
  (ur ← UpdateHandler handlers product_meta (request "Name=pen;Price=3;Quantity=9;Secret=key" "1")
         (table_insert 1%Z (stocked_value 1 7 "key") empty_table);
   GetHandler handlers product_meta (request "" "1") ur.2)
    = Ok (write_json StatusOK (stocked_value 1 9 "key"),
          table_insert 1%Z (stocked_value 1 9 "key") empty_table).
Proof. vm_compute. repeat split. Qed.

(** Update of an absent row: on the
    in-memory table, for an entity type without update hooks, a PUT on a
    key that has no row answers 200 with the decoded body and leaves the
    table as it was; it does not answer 404. *)
Theorem UpdateHandler_missing_row `{Codec} (ms : MethodSet (Ctx:=unit) (Tx:=Table any) any)
    (h : Handlers unit) meta (r : Request unit) (t : Table any) id e :
  db h <> None ->
  @mBeforeUpdate _ _ _ ms = None -> @mAfterUpdate _ _ _ ms = None ->
  ParseInt (URLParam r "id") = Some id ->
  json_Decode (rBody r) (makeEntityInstance meta) = (e, nil_error) ->
  rows t !! id = None ->
  UpdateHandler (H0:=ms) h meta r t = Ok (write_json StatusOK e, t).
Proof.
  intros Hdb Hb Ha Hid Hd Hrow. unfold UpdateHandler, WithContext.
  rewrite Hid, Hd. unfold CallBeforeUpdate, CallAfterUpdate. rewrite Hb, Ha.
  destruct (db h); [|done]. cbn. unfold table_Updates. by rewrite Hrow.
Qed.

(** The descriptor of Product and the same descriptor without its
    fields, which has no flag at all, give the same handlers. *)
Lemma handlers_ignore_flags_witness :
  CreateHandler handlers product_meta = CreateHandler handlers (set_Fields product_meta []) /\
  ListHandler handlers product_meta = ListHandler handlers (set_Fields product_meta []) /\
  GetHandler handlers product_meta = GetHandler handlers (set_Fields product_meta []) /\
  UpdateHandler handlers product_meta = UpdateHandler handlers (set_Fields product_meta []) /\
  DeleteHandler handlers product_meta = DeleteHandler handlers (set_Fields product_meta []).
Proof. apply handlers_ignore_flags. reflexivity. Defined.

Lemma handlers_bad_id_witness :
  GetHandler handlers product_meta (request "" "abc") pen_table
    = Ok (http_Error "Invalid ID" StatusBadRequest, pen_table) /\
  UpdateHandler handlers product_meta (request "" "abc") pen_table
    = Ok (http_Error "Invalid ID" StatusBadRequest, pen_table) /\
  DeleteHandler handlers product_meta (request "" "abc") pen_table
    = Ok (http_Error "Invalid ID" StatusBadRequest, pen_table).
Proof. apply handlers_bad_id. vm_compute. reflexivity. Defined.

Lemma handlers_bad_body_witness :
  CreateHandler handlers product_meta (request "" "1") pen_table
    = Ok (http_Error "Invalid request body" StatusBadRequest, pen_table) /\
  UpdateHandler handlers product_meta (request "" "1") pen_table
    = Ok (http_Error "Invalid request body" StatusBadRequest, pen_table).
Proof.
  apply (handlers_bad_body handlers product_meta (request "" "1") pen_table
           (makeEntityInstance product_meta) (ErrNew "EOF") 1%Z);
    vm_compute; reflexivity.
Defined.

Lemma before_hook_aborts_witness :
  CreateHandler handlers product_meta (mkRequest tt "Name=pen;Price=-3" []) empty_table
    = Ok (http_Error "unsupported data" StatusInternalServerError, empty_table).
Proof.
  apply (proj1 (before_hook_aborts (H:=any_driver) (H0:=Product_MethodSet)
                  (H1:=pairs_Codec) handlers product_meta
                  (mkRequest tt "Name=pen;Price=-3" []) empty_table
                  (product_value 0 "pen" (-3))
                  ltac:(vm_compute; reflexivity))
           (product_value 0 "pen" (-3)) empty_table ErrInvalidData).
  vm_compute. reflexivity.
Defined.

Lemma DeleteHandler_before_hook_aborts_witness :
  DeleteHandler (H0:=locked_methods) handlers product_meta (request "" "1") pen_table
    = Ok (http_Error "locked" StatusInternalServerError, pen_table).
Proof.
  apply (DeleteHandler_before_hook_aborts (H0:=locked_methods) handlers product_meta
           (request "" "1") pen_table 1%Z (product_value 1 "pen" 3)
           (product_value 1 "pen" 3) pen_table (ErrNew "locked"));
    [done|vm_compute; reflexivity..].
Defined.

Lemma CreateHandler_created_witness :
  CreateHandler handlers product_meta (request "Name=pen;Price=3" "") empty_table
    = Ok (write_json StatusCreated (product_value 1 "pen" 3), pen_table).
Proof.
  apply (CreateHandler_created handlers product_meta (request "Name=pen;Price=3" "")
           empty_table (product_value 0 "pen" 3) (product_value 0 "pen" 3) empty_table
           (product_value 1 "pen" 3) pen_table);
    [done|vm_compute; reflexivity..].
Defined.

Lemma GetHandler_not_found_witness :
  GetHandler handlers product_meta (request "" "9") pen_table
    = Ok (http_Error "Not found" StatusNotFound, pen_table).
Proof.
  apply (GetHandler_not_found handlers product_meta (request "" "9") pen_table 9%Z
           (makeEntityInstance product_meta) ErrRecordNotFound);
    [done|vm_compute; reflexivity..].
Defined.

Lemma create_then_get_witness :
  exists e, pk_any e <> 0%Z /\ wf_table pk_any pen_table /\
    body (write_json StatusCreated (product_value 1 "pen" 3))
      = BodyJSON (CallAfterCreate tt e pen_table).1.1 /\
    forall r', ParseInt (URLParam r' "id") = Some (pk_any e) ->
      GetHandler handlers product_meta r' pen_table = Ok (write_json StatusOK e, pen_table).
Proof.
  apply (create_then_get pk_any (wf_table pk_any) Product_hooks_keep_db
           handlers product_meta (request "Name=pen;Price=3" "") empty_table);
    [done|apply wf_empty_table|vm_compute; reflexivity|reflexivity].
Defined.

Lemma delete_then_get_witness :
  GetHandler handlers product_meta (request "" "1") (mkTable ∅ 2)
    = Ok (http_Error "Not found" StatusNotFound, mkTable ∅ 2).
Proof.
  apply (delete_then_get pk_any (wf_table pk_any) Product_hooks_keep_db
           handlers product_meta (request "" "1") pen_table
           (mkResponse StatusNoContent [] BodyNone));
    [done|apply wf_pen_table|vm_compute; reflexivity|reflexivity].
Defined.

Lemma UpdateHandler_missing_row_witness :
  UpdateHandler handlers product_meta (request "Name=ink" "9") pen_table
    = Ok (write_json StatusOK (product_value 0 "ink" 0), pen_table).
Proof.
  apply (UpdateHandler_missing_row Product_MethodSet handlers product_meta
           (request "Name=ink" "9") pen_table 9%Z);
    [done|reflexivity|reflexivity|vm_compute; reflexivity..].
Defined.

End Handlers.
