(* ===== verification/App.v ===== *)
(** * App: the application, its options and its entry point

    src/goblar/app.go ([App], [New], [Register], [Start]),
    src/goblar/run.go ([Run]) and src/unnamed/part_001 ([config],
    [Option], [WithDB], [WithAddress], [WithMiddleware], [newConfig],
    [apply]).

    An option is a function on the configuration.  [Register] runs over
    the models with three pieces of state: the application (its
    registry of descriptors by entity name), the package state of the
    parser ([Parse.Store]) and the database, which [AutoMigrate]
    changes; it stops at the first error and it panics where [Parse]
    does.  [Start] hands a server value to [ListenAndServe], which is
    the environment: a function of the server to the error it ends
    with. *)

From Stdlib Require Import Ascii String ZArith Lia.
From stdpp Require Import base tactics option list strings gmap.
From S2P Require Import Prelude GoStrings Reflect Testing Entities Meta Parse.

#[local] Set Warnings "-clear-no-such-hyp".

Module App.
Import Meta.Meta Parse.Parse Testing.Testing.

(** [db.AutoMigrate(model)] on the state of the database. *)
Class Migrator (DB : Type) : Type := mkMigrator {
  AutoMigrate : any -> DB -> DB * error;
}.

Section app.
Context {Conn DB M H : Type} `{Migrator DB}.

(** ** Options *)

Record config : Type := mkConfig {
  cfg_db : option Conn;
  addr : string;
  middleware : list M;
}.

Definition Option : Type := config -> config.

Definition WithDB (db : option Conn) : Option :=
  fun c => mkConfig db (addr c) (middleware c).

Definition WithAddress (addr : string) : Option :=
  fun c => mkConfig (cfg_db c) addr (middleware c).

Definition WithMiddleware (m : M) : Option :=
  fun c => mkConfig (cfg_db c) (addr c) (middleware c ++ [m]).

Definition newConfig : config := mkConfig None ":8080" [].

Definition apply (c : config) (opts : list Option) : config :=
  foldl (fun c opt => opt c) c opts.

(** ** The application *)

Record App : Type := mkApp {
  db : option Conn;
  router : option H;
  cfg : config;
  registry : gmap string ptr;
}.

Definition New (opts : list Option) : App :=
  let cfg := apply newConfig opts in
  mkApp (cfg_db cfg) None cfg ∅.

(** [%T] of a model. *)
Definition type_of_model (model : any) : string :=
  match TypeOf model with
  | Some t => type_String t
  | None => "<nil>"
  end.

(** The loop of [Register] over the models. *)
Fixpoint register_models (models : list any) (a : App) (st : Store) (dbst : DB)
    : outcome (error * App * Store * DB) :=
  match models with
  | [] => Ok (nil_error, a, st, dbst)
  | model :: rest =>
      '(entityMeta, err, st) ← Parse model st;
      if err is Some err then
        Ok (Some (ErrWrap ("failed to parse model " +:+ type_of_model model) err), a, st, dbst)
      else
        let '(dbst, err) := AutoMigrate model dbst in
        if err is Some err then
          Ok (Some (ErrWrap ("failed to migrate model " +:+ type_of_model model) err),
              a, st, dbst)
        else
          match deref st entityMeta with
          | None => Panic "invalid memory address or nil pointer dereference"
          | Some meta =>
              let a := mkApp (db a) (router a) (cfg a)
                             (<[emName meta := entityMeta]> (registry a)) in
              register_models rest a st dbst
          end
  end.

Definition Register (models : list any) (a : App) (st : Store) (dbst : DB)
    : outcome (error * App * Store * DB) :=
  if bool_decide (db a = None) then
    Ok (Some (ErrNew "database not configured: use WithDB option"), a, st, dbst)
  else register_models models a st dbst.

(** ** Start and Run *)

Record Server : Type := mkServer {
  Addr : string;
  srvHandler : option H;
}.

Context (ListenAndServe : Server -> error).

Definition Start (a : App) : App * error :=
  let a := if bool_decide (addr (cfg a) = "")
           then mkApp (db a) (router a)
                      (mkConfig (cfg_db (cfg a)) ":8080" (middleware (cfg a))) (registry a)
           else a in
  let server := mkServer (addr (cfg a)) (router a) in
  (a, ListenAndServe server).

Definition Run (models : list any) (st : Store) (dbst : DB)
    : outcome (error * Store * DB) :=
  let app := New [] in
  '(err, app, st, dbst) ← Register models app st dbst;
  if err is Some err then Ok (Some err, st, dbst)
  else Ok ((Start app).2, st, dbst).

End app.

Arguments config : clear implicits.
Arguments Option : clear implicits.
Arguments App : clear implicits.
Arguments Server : clear implicits.

(** ** Options *)

Section option_theorems.
Context {Conn M : Type}.
Implicit Types (c : config Conn M) (opts : list (Option Conn M)) (ms : list M).

Lemma apply_snoc c opts opt : apply c (opts ++ [opt]) = opt (apply c opts).
Proof. unfold apply. by rewrite foldl_snoc. Qed.

(** Options are applied in the order given: the
    last [WithDB] and the last [WithAddress] win, and every
    [WithMiddleware] appends its middleware, so the middlewares of the
    configuration are in the order of the options; with no option the
    address is :8080 and there is no database. *)
Theorem apply_options c opts (db : option Conn) a ms :
  cfg_db (apply c (opts ++ [WithDB db])) = db /\
  addr (apply c (opts ++ [WithAddress a])) = a /\
  middleware (apply c (WithMiddleware <$> ms)) = middleware c ++ ms /\
  apply newConfig [] = mkConfig (@None Conn) ":8080" (@nil M).
Proof.
  rewrite !apply_snoc. repeat split.
  revert c. induction ms as [|m ms IH]; intros c; csimpl; [by rewrite app_nil_r|].
  unfold apply in *. rewrite IH. simpl. by rewrite <- app_assoc.
Qed.

End option_theorems.

(** ** Registration *)

Section app_theorems.
Context {Conn DB M H : Type} `{Migrator DB}.
Implicit Types (a : App Conn M H) (st : Store) (dbst : DB) (models : list any).

(** The descriptor of each model is cached by the parser and the
    application's registry has, under the name of that descriptor, a
    descriptor of that name. *)
Definition registered a st (model : any) : Prop :=
  exists t p m, resolve model = Ok t /\
    Parse.registry st !! type_String t = Some p /\ deref st p = Some m /\
    described (type_String t) m /\
    exists q m', registry a !! emName m = Some q /\ deref st q = Some m' /\
                 emName m' = emName m.

Lemma registered_mono a st a' st' model :
  registered a st model ->
  heap st `prefix_of` heap st' ->
  (forall key p, Parse.registry st !! key = Some p -> Parse.registry st' !! key = Some p) ->
  (forall name q, registry a !! name = Some q ->
     exists q' m', registry a' !! name = Some q' /\
                   ((q' = q) \/ (deref st' q' = Some m' /\ emName m' = name))) ->
  registered a' st' model.
Proof.
  intros (t & p & m & Hr & Hp & Hm & Hd & q & m' & Hq & Hm' & Hn) Hpre Hkeep Hreg.
  assert (forall i x, deref st i = Some x -> deref st' i = Some x) as Hderef.
  { intros i x Hi. unfold deref in *. by eapply prefix_lookup_Some. }
  exists t, p, m. repeat split; auto.
  destruct (Hreg _ _ Hq) as (q' & m'' & Hq' & [->|[? ?]]); eauto 10.
Qed.

(** Registration changes nothing of the application but its registry. *)
Lemma register_models_frame models a st dbst err a' st' dbst' :
  register_models models a st dbst = Ok (err, a', st', dbst') ->
  db a' = db a /\ router a' = router a /\ cfg a' = cfg a.
Proof.
  revert a st dbst. induction models as [|model rest IH]; intros a st dbst; simpl.
  { by intros [= <- <- <- <-]. }
  destruct (Parse model st) as [[[p [perr|]] st1]|]; [by intros [= <- <- <- <-]| |done].
  cbn [mbind outcome_bind].
  destruct (AutoMigrate model dbst) as [dbst1 [merr|]]; [by intros [= <- <- <- <-]|].
  destruct (deref st1 p); [|done]. by intros (-> & -> & ->)%IH.
Qed.

Lemma register_models_inv models a st dbst err a' st' dbst' :
  wf_store st ->
  register_models models a st dbst = Ok (err, a', st', dbst') ->
  wf_store st' /\ heap st `prefix_of` heap st' /\
  (forall key p, Parse.registry st !! key = Some p -> Parse.registry st' !! key = Some p) /\
  (forall name q, registry a !! name = Some q ->
     exists q' m', registry a' !! name = Some q' /\
                   ((q' = q) \/ (deref st' q' = Some m' /\ emName m' = name))) /\
  (err = nil_error -> Forall (registered a' st') models).
Proof.
  revert a st dbst. induction models as [|model rest IH]; intros a st dbst Hwf; simpl.
  { intros [= <- <- <- <-]. do 3 (split; [done|]). split; [|done].
    intros name q Hq. exists q, (new_meta (TBasic BBool)). auto. }
  destruct (Parse model st) as [[[p perr] st1]|] eqn:HP; [|done]. cbn [mbind outcome_bind].
  destruct (Parse_returns _ _ _ _ _ Hwf HP) as (-> & Hwf1 & Hpre1 & t & m & Hr & Hc & Hm & Hd).
  destruct (AutoMigrate model dbst) as [dbst1 [merr|]] eqn:HA.
  { intros [= <- <- <- <-]. split; [done|]. split; [done|].
    split; [eauto using Parse_keeps|]. split; [|done].
    intros name q Hq. exists q, m. eauto. }
  rewrite Hm. intros Hrest.
  destruct (IH _ _ _ Hwf1 Hrest) as (Hwf' & Hpre' & Hkeep & Hreg & Hall).
  simpl in *. repeat split; [done|by etrans|..].
  - eauto using Parse_keeps.
  - intros name q Hq. destruct (decide (name = emName m)) as [->|Hne].
    + destruct (Hreg (emName m) p) as (q' & m' & Hq' & Hcase); [by rewrite lookup_insert_eq|].
      destruct Hcase as [->|[? ?]]; [exists p, m|exists q', m']; (split; [done|right]);
        [|done].
      split; [|done]. unfold deref in *. by eapply prefix_lookup_Some.
    + apply Hreg. by rewrite lookup_insert_ne.
  - intros Herr. constructor; [|by apply Hall].
    apply (registered_mono (mkApp (db a) (router a) (cfg a) (<[emName m := p]> (registry a))) st1);
      [|done..].
    exists t, p, m. repeat split; auto. exists p, m. simpl. by rewrite lookup_insert_eq.
Qed.

(** C25. When [Register] returns nil on a store
    that satisfies the parser's invariant, every model has its
    descriptor cached by the parser under the printed name of its type,
    and the application's registry has a descriptor of the same entity
    name under that name; the store still satisfies the invariant and
    the database handle, the router and the configuration of the
    application are unchanged. *)
Theorem Register_registers models a st dbst a' st' dbst' :
  wf_store st ->
  Register models a st dbst = Ok (nil_error, a', st', dbst') ->
  Forall (registered a' st') models /\ wf_store st' /\
  db a' = db a /\ router a' = router a /\ cfg a' = cfg a.
Proof.
  intros Hwf. unfold Register. case_bool_decide; [done|]. intros Hreg.
  destruct (register_models_frame _ _ _ _ _ _ _ _ Hreg) as (? & ? & ?).
  apply register_models_inv in Hreg as (? & _ & _ & _ & Hall); auto.
Qed.

(** Without a database, [Register] returns
    the error database not configured, whatever the models: no model is
    parsed, so even a nil model does not panic, and nothing changes. *)
Theorem Register_without_db models a st dbst :
  db a = None ->
  Register models a st dbst
  = Ok (Some (ErrNew "database not configured: use WithDB option"), a, st, dbst).
Proof. intros Hdb. unfold Register. by rewrite bool_decide_eq_true_2. Qed.

Lemma register_models_errors models a st dbst err a' st' dbst' :
  register_models models a st dbst = Ok (Some err, a', st', dbst') ->
  exists model inner, In model models /\
    err = ErrWrap ("failed to migrate model " +:+ type_of_model model) inner.
Proof.
  revert a st dbst. induction models as [|model rest IH]; intros a st dbst; simpl; [done|].
  destruct (Parse model st) as [[[p perr] st1]|] eqn:HP; [|done]. cbn [mbind outcome_bind].
  apply Parse_Ok_inv in HP as (_ & _ & -> & _).
  destruct (AutoMigrate model dbst) as [dbst1 [merr|]].
  { intros [= <- <- <- <-]. eauto. }
  destruct (deref st1 p); [|done]. intros (model' & inner & ? & ?)%IH. eauto.
Qed.

(** The errors of [Register]: database not
    configured, or the error of a migration wrapped with the model's
    type; the parse error the code wraps never occurs, since [Parse]
    reports nothing as an error. *)
Theorem Register_errors models a st dbst err a' st' dbst' :
  Register models a st dbst = Ok (Some err, a', st', dbst') ->
  err = ErrNew "database not configured: use WithDB option" \/
  exists model inner, In model models /\
    err = ErrWrap ("failed to migrate model " +:+ type_of_model model) inner.
Proof.
  unfold Register. case_bool_decide; [intros [= <- <- <- <-]; by left|].
  intros ?%register_models_errors. by right.
Qed.

(** A model the parser accepts: a pointer to a struct. *)
Definition struct_model (model : any) : Prop :=
  exists pkg name fields v, model = Some (TPtr (TStruct pkg name fields), v).

Lemma register_models_succeeds models a st dbst :
  wf_store st -> Forall struct_model models ->
  (forall model dbst, (AutoMigrate model dbst).2 = nil_error) ->
  exists a' st' dbst', register_models models a st dbst = Ok (nil_error, a', st', dbst').
Proof.
  intros Hwf Hall Hmig. revert a st dbst Hwf.
  induction Hall as [|model rest (pkg & name & fields & v & ->) _ IH];
    intros a st dbst Hwf; simpl; [eauto|].
  destruct (Parse_struct pkg name fields v st) as (p & st1 & HP). rewrite HP.
  cbn [mbind outcome_bind].
  destruct (Parse_returns _ _ _ _ _ Hwf HP) as (_ & Hwf1 & _ & t & m & _ & _ & Hm & _).
  specialize (Hmig (Some (TPtr (TStruct pkg name fields), v)) dbst).
  destruct (AutoMigrate _ dbst) as [dbst1 merr]. simpl in Hmig. subst merr.
  rewrite Hm. by apply IH.
Qed.

(** One turn of the loop on a pointer to a struct whose package and
    name are dotless, when its migration succeeds: the descriptor goes
    into the application's registry under the name of the type. *)
Lemma register_models_struct pkg name fields v rest a st dbst :
  wf_store st -> dotless pkg = true -> dotless name = true ->
  (AutoMigrate (Some (TPtr (TStruct pkg name fields), v)) dbst).2 = nil_error ->
  exists p st1,
    wf_store st1 /\ heap st `prefix_of` heap st1 /\
    register_models (Some (TPtr (TStruct pkg name fields), v) :: rest) a st dbst
    = register_models rest
        (mkApp (db a) (router a) (cfg a) (<[name := p]> (registry a))) st1
        (AutoMigrate (Some (TPtr (TStruct pkg name fields), v)) dbst).1.
Proof.
  intros Hwf Hp Hn Hmig. simpl.
  destruct (Parse_struct pkg name fields v st) as (p & st1 & HP). rewrite HP.
  cbn [mbind outcome_bind].
  destruct (Parse_returns _ _ _ _ _ Hwf HP) as (_ & Hwf1 & Hpre & t & m & [= <-] & _ & Hm & Hd).
  destruct (AutoMigrate _ dbst) as [dbst1 merr]. simpl in Hmig. subst merr.
  rewrite Hm, (described_name pkg name fields m Hp Hn Hd). by exists p, st1.
Qed.

(** [Register] returns, without an error and without a panic, when the
    application has a database, every model is a pointer to a struct
    and no migration fails. *)
Theorem Register_succeeds models a st dbst :
  db a <> None -> wf_store st -> Forall struct_model models ->
  (forall model dbst, (AutoMigrate model dbst).2 = nil_error) ->
  exists a' st' dbst', Register models a st dbst = Ok (nil_error, a', st', dbst').
Proof.
  intros Hdb Hwf Hall Hmig. unfold Register. rewrite bool_decide_eq_false_2 by done.
  by apply register_models_succeeds.
Qed.

(** ** Start and Run *)

Section start.
Context (ListenAndServe : Server H -> error).

(** C26. [Run] builds its application with no option,
    so it has no database: whatever the models, [Run] returns the error
    database not configured, parses nothing, changes nothing and never
    reaches [Start]. *)
Theorem Run_never_starts models st dbst :
  Run (Conn:=Conn) (M:=M) ListenAndServe models st dbst
  = Ok (Some (ErrNew "database not configured: use WithDB option"), st, dbst).
Proof. reflexivity. Qed.

(** C27. [Start] after [New] and [Register]:
    the server is given a nil handler, whatever was registered, and the
    address of the configuration, or :8080 when that is empty; [Start]
    returns what [ListenAndServe] returns. *)
Theorem Start_serves_no_routes opts models st dbst err a' st' dbst'
    (Hreg : Register models (New opts) st dbst = Ok (err, a', st', dbst')) :
  (Start ListenAndServe a').2
  = ListenAndServe
      (mkServer (if bool_decide (addr (apply newConfig opts) = "") then ":8080"
                 else addr (apply newConfig opts)) None).
Proof.
  assert (router a' = None /\ cfg a' = apply newConfig opts) as [Hr Hc].
  { revert Hreg. unfold Register. case_bool_decide; [by intros [= <- <- <- <-]|].
    by intros (_ & -> & ->)%register_models_frame. }
  unfold Start. rewrite Hc. case_bool_decide; simpl; by rewrite ?Hr, ?Hc.
Qed.

End start.

End app_theorems.

(** ** The example program *)

(** A database that records the types migrated, and one that refuses
    every migration. *)
Definition log_Migrator : Migrator (list string) :=
  mkMigrator (list string) (fun model db => (db ++ [type_of_model model], nil_error)).

Definition failing_Migrator : Migrator (list string) :=
  mkMigrator (list string) (fun model db => (db, Some (ErrNew "no such table"))).

Section example.
Context (gorm_Open : string -> option unit * error).
Context (ListenAndServe : Server unit -> error).

(** [main] of src/example_main.go.  The process is a [Test]: its log
    is the standard logger's and [log.Fatal] ends it with a failure
    status.  [gorm.Open] is the environment; the state of the parser
    and of the database are passed in and returned. *)
Definition main (st : Store) (dbst : list string) : Test (Store * list string) :=
  let '(db, err) := gorm_Open "app.db" in
  _ ← when (bool_decide (err <> nil_error)) (Fatal [AError err]);
  let app := New (M:=unit) (H:=unit) [WithDB db; WithAddress ":8080"] in
  '(err, app, st, dbst) ← or_panic (Register (H0:=log_Migrator) [product; user] app st dbst);
  _ ← when (bool_decide (err <> nil_error)) (Fatal [AError err]);
  _ ← Log [AString "Starting server on :8080"];
  let '(app, err) := Start ListenAndServe app in
  _ ← when (bool_decide (err <> nil_error)) (Fatal [AError err]);
  mret (st, dbst).

(** The application of the example program after registration. *)
Definition main_app : App unit unit unit :=
  mkApp (Some tt) None (mkConfig (Some tt) ":8080" []) {[ "Product" := 0; "User" := 1 ]}.

(** The example program: registration parses and
    migrates Product and User in that order and leaves the registry
    with the two descriptors under Product and User. *)
Theorem main_registers :
  Register (H0:=log_Migrator) [product; user]
    (New (M:=unit) (H:=unit) [WithDB (Some tt); WithAddress ":8080"]) init []
    = Ok (nil_error, main_app, st_main, ["*main.Product"; "*main.User"]).
Proof. vm_compute. reflexivity. Qed.

Lemma Start_main_app :
  Start ListenAndServe main_app = (main_app, ListenAndServe (mkServer ":8080" None)).
Proof. reflexivity. Qed.

(** When the database opens, the example program registers its two
    models, logs that the server starts and serves on :8080 with a nil
    handler, so with none of the routes the file lists; when the
    server ends with an error the program logs it and exits with a
    failure status. *)
Theorem main_serves err :
  gorm_Open "app.db" = (Some tt, nil_error) ->
  ListenAndServe (mkServer ":8080" None) = Some err ->
  main init [] new_T
  = (mkT true [Plain [AString "Starting server on :8080"]; Plain [AError (Some err)]], None).
Proof.
  intros Hopen Hserve. unfold main. rewrite Hopen.
  unfold mbind, Test_bind at 1. simpl when.
  rewrite main_registers. cbn -[Start st_main main_app].
  rewrite Start_main_app, Hserve. reflexivity.
Qed.

(** When the database does not open, the program logs the error and
    exits before anything is registered. *)
Theorem main_without_database err :
  gorm_Open "app.db" = (None, Some err) ->
  main init [] new_T = (mkT true [Plain [AError (Some err)]], None).
Proof. intros Hopen. unfold main. by rewrite Hopen. Qed.

(** The application's registry is keyed
    by the bare type name and the parser's by the printed name with the
    package: registering the Product of package main and the Product of
    the test package leaves two descriptors in the parser's registry
    and one entry in the application's, the second model's. *)
Theorem Register_name_collision :
  exists a' st' dbst',
    Register (H0:=log_Migrator)
      [Entities.Entities.new_of Entities.Entities.MainPkg.Product;
       Entities.Entities.new_of Entities.Entities.TestPkg.Product]
      (New (M:=unit) (H:=unit) [WithDB (Some tt)]) init []
      = Ok (nil_error, a', st', dbst') /\
    Parse.registry st' = {[ "main.Product" := 0; "test.Product" := 1 ]} /\
    registry a' = {[ "Product" := 1 ]}.
Proof.
  eexists _, _, _. split; [vm_compute; reflexivity|]. split; vm_compute; reflexivity.
Qed.

End example.

Lemma Register_registers_witness :
  Forall (registered main_app st_main) [product; user] /\ wf_store st_main /\
  db main_app = Some tt /\ router main_app = None /\
  cfg main_app = mkConfig (Some tt) ":8080" [].
Proof.
  apply (Register_registers (H0:=log_Migrator) [product; user]
           (New (M:=unit) (H:=unit) [WithDB (Some tt); WithAddress ":8080"]) init []
           main_app st_main ["*main.Product"; "*main.User"] wf_store_init).
  vm_compute. reflexivity.
Defined.

Lemma Register_without_db_witness :
  Register (H0:=log_Migrator) [None] (New (Conn:=unit) (M:=unit) (H:=unit) []) init []
  = Ok (Some (ErrNew "database not configured: use WithDB option"),
        New (Conn:=unit) (M:=unit) (H:=unit) [], init, []).
Proof. apply Register_without_db. reflexivity. Defined.

Lemma Register_errors_witness :
  ErrWrap "failed to migrate model *main.Product" (ErrNew "no such table")
    = ErrNew "database not configured: use WithDB option" \/
  exists model inner, In model [product; user] /\
    ErrWrap "failed to migrate model *main.Product" (ErrNew "no such table")
      = ErrWrap ("failed to migrate model " +:+ type_of_model model) inner.
Proof.
  apply (Register_errors (H0:=failing_Migrator) [product; user]
           (New (M:=unit) (H:=unit) [WithDB (Some tt)]) init [] _
           (New (M:=unit) (H:=unit) [WithDB (Some tt)]) st_product []).
  vm_compute. reflexivity.
Defined.

Lemma Start_serves_no_routes_witness :
  (Start (fun server : Server unit => Some (ErrNew (Addr server))) main_app).2
  = Some (ErrNew ":8080").
Proof.
  apply (Start_serves_no_routes (H0:=log_Migrator)
           (fun server : Server unit => Some (ErrNew (Addr server)))
           [WithDB (Some tt); WithAddress ":8080"] [product; user] init []
           nil_error main_app st_main ["*main.Product"; "*main.User"]).
  vm_compute. reflexivity.
Defined.

End App.
