(* ===== verification/Server.v ===== *)
(** * Server: a request through the router to a handler

    The pieces of src/internal/hooks/hooks.go (router) and
    src/internal/http/handlers.go (handlers) put together as the
    program composes them: [RegisterEntityRoutes] registers the five
    handlers of [*Handlers] on the mux, and the mux serves a request by
    the route that matches its method and path, with the parameters of
    the path, inside the middlewares it was given.  The serving itself
    is chi's: [ServeHTTP] is the mux of [Router] run on a request, the
    first middleware given to [Use] outermost; a request whose path
    matches a pattern that is not registered for its method is answered
    405 with the methods that are ([MethodNotAllowed]), and a request
    whose path matches no pattern 404 ([NotFound]).  The Allow headers
    are those of chi since v5.0.9, in the order of registration; chi
    takes them from a Go map, so their order on the wire is not fixed.
    A server whose handler is nil serves the default mux of net/http,
    which has no route in this program ([serve]).

    A middleware is a function from handlers to handlers, as in Go. *)

From Corelib Require Import PrimFloat.
From Stdlib Require Import Ascii String ZArith Lia.
From stdpp Require Import base tactics option list strings gmap.
From S2P Require Import Prelude GoStrings Naming Reflect Entities Meta Parse Hooks Repo.
From S2P Require Import Router Handlers App.

#[local] Set Warnings "-clear-no-such-hyp".

Module Server.
Import Naming.Naming Meta.Meta Hooks.Hooks Repo.Repo Router.Router Handlers.Handlers.

Definition StatusMethodNotAllowed : nat := 405.

Section serve.
Context {Ctx DB Conn : Type}.
Context `{Driver Ctx DB any} `{MethodSet (Ctx:=Ctx) (Tx:=DB) any} `{Codec}.

Definition Middleware : Type := Handler Ctx DB -> Handler Ctx DB.

(** A request as it arrives. *)
Record Incoming : Type := mkIncoming {
  inMethod : Method;
  inPath : string;
  inContext : Ctx;
  inBody : string;
}.

(** [http.NotFound] *)
Definition NotFound : Handler Ctx DB :=
  fun r st => Ok (http_Error "404 page not found" StatusNotFound, st).

(** The answer of chi's methodNotAllowedHandler: an Allow header for
    each method, the status 405 and no body. *)
Definition not_allowed (allowed : list Method) : Response :=
  mkResponse StatusMethodNotAllowed ((fun m => ("Allow", method_name m)) <$> allowed) BodyNone.

Definition MethodNotAllowed (allowed : list Method) : Handler Ctx DB :=
  fun r st => Ok (not_allowed allowed, st).

(** The handler of the route that matches, on the request with the
    parameters of the path; the method-not-allowed or the not-found
    handler when there is none. *)
Definition routed (mx : Mux Middleware (Handler Ctx DB)) (method : Method) (path : string)
    : Handler Ctx DB :=
  fun r st =>
    match Mux_route method path mx with
    | ToHandler h params => h (mkRequest (rContext r) (rBody r) params) st
    | ToMethodNotAllowed allowed => MethodNotAllowed allowed r st
    | ToNotFound => NotFound r st
    end.

(** [mux.ServeHTTP(w, r)] *)
Definition ServeHTTP (mx : Mux Middleware (Handler Ctx DB)) (i : Incoming) (st : DB)
    : outcome (Response * DB) :=
  foldr (fun m next => m next) (routed mx (inMethod i) (inPath i)) (muxMiddlewares mx)
        (mkRequest (inContext i) (inBody i) []) st.

(** What a server serves: its handler, or the default mux when the
    handler is nil. *)
Definition serve (server : App.App.Server (Mux Middleware (Handler Ctx DB))) (i : Incoming)
    (st : DB) : outcome (Response * DB) :=
  match App.App.srvHandler server with
  | Some mx => ServeHTTP mx i st
  | None => NotFound (mkRequest (inContext i) (inBody i) []) st
  end.

(** A path segment that is taken literally: it has no slash and is no
    parameter. *)
Definition literal_segment (seg : string) : Prop :=
  ~ In "/"%char (chars seg) /\ param_of seg = None.

(** A value of a path parameter: not empty, without a slash. *)
Definition param_value (v : string) : Prop :=
  v <> "" /\ ~ In "/"%char (chars v).

End serve.

Arguments Incoming : clear implicits.

(** ** Matching the patterns of an entity *)

Section matching.
Implicit Types (res id : string).

Lemma Split_resource res :
  ~ In "/"%char (chars res) -> Split ("/" +:+ res) "/"%char = [""; res].
Proof.
  intros Hs. change ("/" +:+ res) with ("" +:+ String "/" res).
  by rewrite Split_app_sep, (Split_no_occurrence res).
Qed.

Lemma Split_resource_id res id :
  ~ In "/"%char (chars res) -> ~ In "/"%char (chars id) ->
  Split ("/" +:+ res +:+ "/" +:+ id) "/"%char = [""; res; id].
Proof.
  intros Hr Hi.
  change ("/" +:+ res +:+ "/" +:+ id) with ("" +:+ String "/" (res +:+ String "/" id)).
  by rewrite !Split_app_sep, (Split_no_occurrence res), (Split_no_occurrence id).
Qed.

Lemma Split_item_pattern res :
  ~ In "/"%char (chars res) -> Split ("/" +:+ res +:+ "/{id}") "/"%char = [""; res; "{id}"].
Proof.
  intros Hr. apply (Split_resource_id res "{id}" Hr).
  vm_compute. intros [?|[?|[?|[?|[]]]]]; discriminate.
Qed.

Lemma match_collection res :
  literal_segment res -> match_pattern ("/" +:+ res) ("/" +:+ res) = Some [].
Proof.
  intros [Hs Hp]. unfold match_pattern. rewrite Split_resource by done.
  cbn [match_segments]. change (param_of "") with (@None string). cbn iota.
  rewrite bool_decide_eq_true_2 by done. rewrite Hp. by rewrite bool_decide_eq_true_2.
Qed.

Lemma match_item res id :
  literal_segment res -> param_value id ->
  match_pattern ("/" +:+ res +:+ "/{id}") ("/" +:+ res +:+ "/" +:+ id) = Some [("id", id)].
Proof.
  intros [Hs Hp] [Hne Hi]. unfold match_pattern.
  rewrite Split_item_pattern, Split_resource_id by done.
  cbn [match_segments]. change (param_of "") with (@None string). cbn iota.
  rewrite bool_decide_eq_true_2 by done. rewrite Hp. rewrite bool_decide_eq_true_2 by done.
  change (param_of "{id}") with (Some "id"). cbn iota.
  by rewrite bool_decide_eq_false_2.
Qed.

Lemma match_collection_item res id :
  literal_segment res -> param_value id ->
  match_pattern ("/" +:+ res) ("/" +:+ res +:+ "/" +:+ id) = None.
Proof.
  intros [Hs Hp] [Hne Hi]. unfold match_pattern.
  rewrite Split_resource, Split_resource_id by done.
  cbn [match_segments]. change (param_of "") with (@None string). cbn iota.
  rewrite bool_decide_eq_true_2 by done. rewrite Hp. by rewrite bool_decide_eq_true_2.
Qed.

Lemma match_item_collection res :
  literal_segment res -> match_pattern ("/" +:+ res +:+ "/{id}") ("/" +:+ res) = None.
Proof.
  intros [Hs Hp]. unfold match_pattern.
  rewrite Split_item_pattern, Split_resource by done.
  cbn [match_segments]. change (param_of "") with (@None string). cbn iota.
  rewrite bool_decide_eq_true_2 by done. rewrite Hp. by rewrite bool_decide_eq_true_2.
Qed.

(** The two patterns of an entity match no other paths. *)
Lemma match_collection_inv res path ps :
  literal_segment res -> match_pattern ("/" +:+ res) path = Some ps ->
  path = "/" +:+ res /\ ps = [].
Proof.
  intros [Hs Hp]. unfold match_pattern. rewrite Split_resource by done.
  rewrite <- (Join_Split path "/") at 2.
  destruct (Split path "/") as [|a [|b [|c l]]]; cbn [match_segments]; try done;
    change (param_of "") with (@None string); cbn iota; rewrite ?Hp;
    repeat case_bool_decide; try done.
  subst. by intros [= <-].
Qed.

Lemma match_item_inv res path ps :
  literal_segment res -> match_pattern ("/" +:+ res +:+ "/{id}") path = Some ps ->
  exists id, param_value id /\ path = "/" +:+ res +:+ "/" +:+ id /\ ps = [("id", id)].
Proof.
  intros [Hs Hp]. unfold match_pattern. rewrite Split_item_pattern by done.
  pose proof (Split_no_sep path "/") as Hsep. pose proof (Join_Split path "/") as Hj.
  destruct (Split path "/") as [|a [|b [|c [|d l]]]]; cbn [match_segments]; try done;
    change (param_of "") with (@None string); change (param_of "{id}") with (Some "id");
    cbn iota; rewrite ?Hp; repeat case_bool_decide; try done.
  subst. intros [= <-]. exists c. split; [|done]. split; [done|].
  by apply Forall_cons in Hsep as [_ [_ [? _]%Forall_cons]%Forall_cons].
Qed.

Lemma url_shift_slash r : url_shift r = "/"%char <-> r = "014"%char.
Proof.
  split; [|by intros ->].
  destruct r as [[] [] [] [] [] [] [] []]; vm_compute; intros [=]; reflexivity.
Qed.

Lemma toURLPath_slash name :
  In "/"%char (chars (toURLPath name)) -> In "014"%char (chars name).
Proof.
  rewrite chars_toURLPath. destruct (chars name) as [|r rest]; [done|]. simpl.
  rewrite url_shift_slash.
  intros [?|[[=]|(r' & ? & ?%eq_sym%url_shift_slash)]%url_rec_In]; subst; auto.
Qed.

(** The path [toURLPath] gives a name is a literal segment unless the
    name has the characters that become a slash or an opening brace. *)
Lemma literal_toURLPath name :
  ~ In "Z"%char (chars name) -> ~ In "014"%char (chars name) ->
  literal_segment (toURLPath name).
Proof.
  intros Hz Hs. split; [by intros ?%toURLPath_slash|].
  unfold param_of. destruct (chars (toURLPath name)) as [|c cs] eqn:Hc; [done|].
  destruct (decide (c = "{"%char)) as [->|Hne].
  - exfalso. apply Hz, toURLPath_open. rewrite Hc. by left.
  - destruct c as [[] [] [] [] [] [] [] []]; done.
Qed.

End matching.

(** ** The routes of an entity *)

Section dispatch.
Context {M Hs H : Type} `{HandlerSet Hs H}.
Implicit Types (meta : EntityMeta) (hs : Hs) (ms : list M).

(** Decide the tests of [Mux_find] on routes whose patterns are
    matched already. *)
Ltac find_route :=
  rewrite ?(bool_decide_eq_true_2 (is_Some (Some _))) by eauto;
  rewrite ?(bool_decide_eq_false_2 (is_Some None)) by apply is_Some_None;
  rewrite ?andb_false_r, ?andb_true_r;
  repeat match goal with
         | |- context [bool_decide (@eq Method ?a ?b)] =>
             let v := eval vm_compute in (bool_decide (a = b)) in
             change (bool_decide (a = b)) with v
         end;
  cbn [mbind option_bind routePattern routeHandler].

(** A request on the path of the entity reaches the create handler by
    POST and the list handler by GET, and nothing by PUT or DELETE. *)
Lemma Mux_find_collection ms meta hs method :
  literal_segment (toURLPath (emName meta)) ->
  Mux_find method ("/" +:+ toURLPath (emName meta)) (mkMux ms (entity_routes meta hs))
  = match method with
    | MPost => Some (hs_Create hs meta, [])
    | MGet => Some (hs_List hs meta, [])
    | _ => None
    end.
Proof.
  intros Hl. unfold Mux_find, entity_routes.
  cbn [muxRoutes List.find routeMethod routePattern routeHandler].
  rewrite !match_collection, !match_item_collection by done.
  destruct method; find_route; by rewrite ?match_collection.
Qed.

Lemma Mux_allowed_collection ms meta hs :
  literal_segment (toURLPath (emName meta)) ->
  Mux_allowed ("/" +:+ toURLPath (emName meta)) (mkMux ms (entity_routes meta hs))
  = [MPost; MGet].
Proof.
  intros Hl. unfold Mux_allowed, entity_routes.
  cbn [muxRoutes List.filter routeMethod routePattern routeHandler].
  rewrite !match_collection, !match_item_collection by done. by find_route.
Qed.

(** A request on the path of the entity followed by an id reaches the
    get, update and delete handlers with the id as parameter, and
    nothing by POST. *)
Lemma Mux_find_item ms meta hs method id :
  literal_segment (toURLPath (emName meta)) -> param_value id ->
  Mux_find method ("/" +:+ toURLPath (emName meta) +:+ "/" +:+ id)
           (mkMux ms (entity_routes meta hs))
  = match method with
    | MGet => Some (hs_Get hs meta, [("id", id)])
    | MPut => Some (hs_Update hs meta, [("id", id)])
    | MDelete => Some (hs_Delete hs meta, [("id", id)])
    | _ => None
    end.
Proof.
  intros Hl Hid. unfold Mux_find, entity_routes.
  cbn [muxRoutes List.find routeMethod routePattern routeHandler].
  rewrite !match_collection_item, !match_item by done.
  destruct method; find_route; by rewrite ?match_item.
Qed.

Lemma Mux_allowed_item ms meta hs id :
  literal_segment (toURLPath (emName meta)) -> param_value id ->
  Mux_allowed ("/" +:+ toURLPath (emName meta) +:+ "/" +:+ id)
              (mkMux ms (entity_routes meta hs))
  = [MGet; MPut; MDelete].
Proof.
  intros Hl Hid. unfold Mux_allowed, entity_routes.
  cbn [muxRoutes List.filter routeMethod routePattern routeHandler].
  rewrite !match_collection_item, !match_item by done. by find_route.
Qed.

(** How the mux with the routes of an entity routes a request on the
    path of the entity, and on the path followed by an id. *)
Lemma Mux_route_collection ms meta hs method :
  literal_segment (toURLPath (emName meta)) ->
  Mux_route method ("/" +:+ toURLPath (emName meta)) (mkMux ms (entity_routes meta hs))
  = match method with
    | MPost => ToHandler (hs_Create hs meta) []
    | MGet => ToHandler (hs_List hs meta) []
    | MOther _ => ToMethodNotAllowed []
    | _ => ToMethodNotAllowed [MPost; MGet]
    end.
Proof.
  intros Hl. unfold Mux_route.
  rewrite Mux_find_collection, Mux_allowed_collection by done. by destruct method.
Qed.

Lemma Mux_route_item ms meta hs method id :
  literal_segment (toURLPath (emName meta)) -> param_value id ->
  Mux_route method ("/" +:+ toURLPath (emName meta) +:+ "/" +:+ id)
            (mkMux ms (entity_routes meta hs))
  = match method with
    | MGet => ToHandler (hs_Get hs meta) [("id", id)]
    | MPut => ToHandler (hs_Update hs meta) [("id", id)]
    | MDelete => ToHandler (hs_Delete hs meta) [("id", id)]
    | MOther _ => ToMethodNotAllowed []
    | _ => ToMethodNotAllowed [MGet; MPut; MDelete]
    end.
Proof.
  intros Hl Hid. unfold Mux_route.
  rewrite Mux_find_item, Mux_allowed_item by done. by destruct method.
Qed.

(** The router that [RegisterEntityRoutes] leaves of a new router. *)
Lemma RegisterEntityRoutes_New meta hs ms router :
  RegisterEntityRoutes (mkRouter NewMux ms) meta hs = Ok router ->
  router = mkRouter (mkMux [] (entity_routes meta hs)) ms.
Proof.
  rewrite RegisterEntityRoutes_char. destruct (path_ok _); [|done]. by intros [= <-].
Qed.

End dispatch.

(** ** Serving *)

Lemma foldr_apply_reverse {A} (ms : list (A -> A)) (base : A) :
  foldr (fun m next => m next) base (reverse ms) = foldl (fun wrapped m => m wrapped) base ms.
Proof.
  revert base. induction ms as [|m ms IH]; intros base; [done|].
  rewrite reverse_cons, foldr_app. apply IH.
Qed.

Section serving.
Context {Ctx DB Conn : Type}.
Context `{Driver Ctx DB any} `{MethodSet (Ctx:=Ctx) (Tx:=DB) any} `{Codec}.
Implicit Types (h : Handlers Conn) (meta : EntityMeta) (st : DB) (ctx : Ctx).
Implicit Types (ms : list (Middleware (Ctx:=Ctx) (DB:=DB))) (i : Incoming Ctx).
Implicit Types (mx : Mux (Middleware (Ctx:=Ctx) (DB:=DB)) (Handler Ctx DB)).
Implicit Types (router applied : Router (Middleware (Ctx:=Ctx) (DB:=DB)) (Handler Ctx DB)).

(** The middlewares of a mux wrap the routing from the first given to
    the last. *)
Lemma ServeHTTP_unfold mx i st :
  ServeHTTP mx i st
  = foldr (fun m next => m next) (routed mx (inMethod i) (inPath i)) (muxMiddlewares mx)
          (mkRequest (inContext i) (inBody i) []) st.
Proof. reflexivity. Qed.

(** The five routes of an entity, served: on a router that has the
    routes of the entity and no middleware, a POST on the path of the
    entity is answered by the create handler and a GET by the list
    handler; a GET, PUT or DELETE on the path followed by an id is
    answered by the get, update or delete handler with that id as the
    parameter id; a PUT on the path and a POST on an id are answered
    405 with the methods the path has, by the mux. *)
Lemma ServeHTTP_entity_routes h meta router ctx body id st :
  let res := toURLPath (emName meta) in
  RegisterEntityRoutes (mkRouter NewMux []) meta h = Ok router ->
  literal_segment res -> param_value id ->
  ServeHTTP (rMux router) (mkIncoming MPost ("/" +:+ res) ctx body) st
    = CreateHandler h meta (mkRequest ctx body []) st /\
  ServeHTTP (rMux router) (mkIncoming MGet ("/" +:+ res) ctx body) st
    = ListHandler h meta (mkRequest ctx body []) st /\
  ServeHTTP (rMux router) (mkIncoming MGet ("/" +:+ res +:+ "/" +:+ id) ctx body) st
    = GetHandler h meta (mkRequest ctx body [("id", id)]) st /\
  ServeHTTP (rMux router) (mkIncoming MPut ("/" +:+ res +:+ "/" +:+ id) ctx body) st
    = UpdateHandler h meta (mkRequest ctx body [("id", id)]) st /\
  ServeHTTP (rMux router) (mkIncoming MDelete ("/" +:+ res +:+ "/" +:+ id) ctx body) st
    = DeleteHandler h meta (mkRequest ctx body [("id", id)]) st /\
  ServeHTTP (rMux router) (mkIncoming MPut ("/" +:+ res) ctx body) st
    = Ok (not_allowed [MPost; MGet], st) /\
  ServeHTTP (rMux router) (mkIncoming MPost ("/" +:+ res +:+ "/" +:+ id) ctx body) st
    = Ok (not_allowed [MGet; MPut; MDelete], st).
Proof.
  intros res Hreg%RegisterEntityRoutes_New Hl Hid. subst router res.
  unfold ServeHTTP, routed. cbn [rMux muxMiddlewares foldr inMethod inPath inContext inBody].
  rewrite !Mux_route_collection, !Mux_route_item by done. done.
Qed.

(** Middlewares added to a new router and applied before the routes
    are registered wrap the routing in the order they were added: each
    wraps what the ones before it wrap, so the last added sees the
    request first. *)
Theorem ServeHTTP_middleware_order ms meta h applied router i st :
  ApplyMiddleware (foldl (fun r m => AddMiddleware m r) New ms) = Ok applied ->
  RegisterEntityRoutes applied meta h = Ok router ->
  ServeHTTP (rMux router) i st
  = foldl (fun handler m => m handler) (routed (rMux router) (inMethod i) (inPath i)) ms
          (mkRequest (inContext i) (inBody i) []) st.
Proof.
  unfold New, NewMux. rewrite foldl_AddMiddleware, ApplyMiddleware_no_routes. intros [= <-].
  rewrite RegisterEntityRoutes_char. destruct (path_ok _); [|done]. intros [= <-].
  rewrite ServeHTTP_unfold. cbn [rMux muxMiddlewares app].
  apply (f_equal (fun wrapped => wrapped _ st)), foldr_apply_reverse.
Qed.

(** An application that [New] made and [Register] filled has no
    router, so the server [Start] builds answers 404 to every
    request, whatever was registered. *)
Theorem registered_app_serves_404 `{App.App.Migrator MDB}
    (opts : list (App.App.Option Conn (Middleware (Ctx:=Ctx) (DB:=DB))))
    models pst dbst err a' pst' dbst' i st :
  App.App.Register (H:=Mux (Middleware (Ctx:=Ctx) (DB:=DB)) (Handler Ctx DB))
    models (App.App.New opts) pst dbst = Ok (err, a', pst', dbst') ->
  serve (App.App.mkServer (App.App.addr (App.App.cfg a')) (App.App.router a')) i st
  = Ok (http_Error "404 page not found" StatusNotFound, st).
Proof.
  intros Hreg. assert (App.App.router a' = None) as ->; [|done].
  revert Hreg. unfold App.App.Register. case_bool_decide; [by intros [= <- <- <- <-]|].
  by intros (_ & -> & _)%App.App.register_models_frame.
Qed.

(** ** A round trip through the server *)

Section round_trip.
Context (pk : any -> Z) (inv : DB -> Prop) `{!DriverLaws Ctx DB any pk inv}.
Hypothesis hooks_keep_db : forall n ctx e st, (Call n ctx e st).1.2 = st.

(** C22. Create then get, through the router: when a POST on the path of an
    entity is answered 201, the database holds the entity under a key
    that is not zero, and a GET on the path followed by a decimal
    writing of that key is answered 200 with the entity. *)
Theorem served_create_then_get h meta router ctx body st resp st' :
  let res := toURLPath (emName meta) in
  RegisterEntityRoutes (mkRouter NewMux []) meta h = Ok router ->
  literal_segment res -> db h <> None -> inv st ->
  ServeHTTP (rMux router) (mkIncoming MPost ("/" +:+ res) ctx body) st = Ok (resp, st') ->
  status resp = StatusCreated ->
  exists e, pk e <> 0%Z /\ inv st' /\
    forall id ctx' body', param_value id -> ParseInt id = Some (pk e) ->
      ServeHTTP (rMux router) (mkIncoming MGet ("/" +:+ res +:+ "/" +:+ id) ctx' body') st'
      = Ok (write_json StatusOK e, st').
Proof.
  intros res Hreg Hl Hdb Hinv Hrun Hst. subst res.
  destruct (ServeHTTP_entity_routes h meta router ctx body "1" st Hreg Hl) as [Hpost _];
    [split; [done|by intros [?|[]]]|].
  rewrite Hpost in Hrun.
  destruct (CreateHandler_created_inv _ _ _ _ _ _ Hrun Hst)
    as (e & e1 & st1 & e2 & st2 & e3 & _ & Hb & Hc & Ha & ->).
  apply (hook_state hooks_keep_db BeforeCreate) in Hb as ->.
  pose proof (hook_state hooks_keep_db AfterCreate _ _ _ _ _ _ Ha) as ->.
  exists e2. split; [by eapply law_Create_key|]. split; [by eapply law_Create_inv|].
  intros id ctx' body' Hid Hparse.
  destruct (ServeHTTP_entity_routes h meta router ctx' body' id st2 Hreg Hl Hid)
    as (_ & _ & -> & _).
  apply (GetHandler_found _ _ _ _ (pk e2)); [done..|]. by eapply law_Create_First.
Qed.

End round_trip.

End serving.

(** ** The example program's Product, served *)

(** The router with the routes of Product. *)
Definition product_router : Router (Middleware (Ctx:=unit) (DB:=Table any))
                                   (Handler unit (Table any)) :=
  mkRouter (mkMux [] (entity_routes product_meta handlers)) [].

(** A middleware that records its name in a header of the answer. *)
Definition stamping (name : string) : Middleware (Ctx:=unit) (DB:=Table any) :=
  fun next r st =>
    '(resp, st) ← next r st;
    Ok (mkResponse (status resp) (header resp ++ [("X-Via", name)]) (body resp), st).

(** A middleware that answers 401 to every request. *)
Definition denying : Middleware (Ctx:=unit) (DB:=Table any) :=
  fun next r st => Ok (http_Error "Unauthorized" 401, st).

Ltac not_in_chars :=
  vm_compute; intros Hin; repeat (destruct Hin as [Hin|Hin]; [discriminate|]); done.

Lemma literal_Product : literal_segment (toURLPath (emName product_meta)).
Proof. apply literal_toURLPath; not_in_chars. Qed.

Lemma Register_Product (ms : list (Middleware (Ctx:=unit) (DB:=Table any))) :
  RegisterEntityRoutes (mkRouter (mkMux ms []) []) product_meta handlers
  = Ok (mkRouter (mkMux ms (entity_routes product_meta handlers)) []).
Proof. rewrite RegisterEntityRoutes_char. reflexivity. Qed.

(** Product through the server: registration gives [product_router]; a
    POST on the derived path stores the pen and a GET on the path
    followed by 1 returns it; the same requests on the documented paths
    /product and /product/1 are answered 404 and store nothing; a
    DELETE on the derived path is answered 405 with the two methods of
    the path; a middleware added last answers before one added first
    is asked. *)
Theorem Product_served :
  RegisterEntityRoutes (mkRouter NewMux []) product_meta handlers = Ok product_router /\
  ServeHTTP (rMux product_router)
    (mkIncoming MPost ("/" +:+ toURLPath "Product") tt "Name=pen;Price=3") empty_table
    = Ok (write_json StatusCreated (product_value 1 "pen" 3), pen_table) /\
  ServeHTTP (rMux product_router)
    (mkIncoming MGet ("/" +:+ toURLPath "Product" +:+ "/1") tt "") pen_table
    = Ok (write_json StatusOK (product_value 1 "pen" 3), pen_table) /\
  ServeHTTP (rMux product_router) (mkIncoming MPost "/product" tt "Name=pen;Price=3")
    empty_table
    = Ok (http_Error "404 page not found" StatusNotFound, empty_table) /\
  ServeHTTP (rMux product_router) (mkIncoming MGet "/product/1" tt "") pen_table
    = Ok (http_Error "404 page not found" StatusNotFound, pen_table) /\
  ServeHTTP (rMux product_router) (mkIncoming MDelete ("/" +:+ toURLPath "Product") tt "")
    pen_table
    = Ok (mkResponse 405 [("Allow", "POST"); ("Allow", "GET")] BodyNone, pen_table) /\
  (r ← ApplyMiddleware (AddMiddleware denying (AddMiddleware (stamping "first") New));
   r ← RegisterEntityRoutes r product_meta handlers;
   ServeHTTP (rMux r) (mkIncoming MGet ("/" +:+ toURLPath "Product" +:+ "/1") tt "")
     pen_table)
    = Ok (http_Error "Unauthorized" 401, pen_table).
Proof.
  split; [apply Register_Product|]. repeat split; vm_compute; reflexivity.
Qed.

Lemma served_create_then_get_witness :
  exists e, pk_any e <> 0%Z /\ wf_table pk_any pen_table /\
    forall id ctx' body', param_value id -> ParseInt id = Some (pk_any e) ->
      ServeHTTP (rMux product_router)
        (mkIncoming MGet ("/" +:+ toURLPath (emName product_meta) +:+ "/" +:+ id) ctx' body')
        pen_table
      = Ok (write_json StatusOK e, pen_table).
Proof.
  apply (served_create_then_get pk_any (wf_table pk_any) Product_hooks_keep_db
           handlers product_meta product_router tt "Name=pen;Price=3" empty_table
           (write_json StatusCreated (product_value 1 "pen" 3)) pen_table).
  - apply Register_Product.
  - apply literal_Product.
  - discriminate.
  - apply wf_empty_table.
  - vm_compute. reflexivity.
  - reflexivity.
Defined.

Lemma ServeHTTP_middleware_order_witness :
  ServeHTTP
    (mkMux [denying; stamping "first"] (entity_routes product_meta handlers))
    (mkIncoming MGet "/" tt "") pen_table
  = foldl (fun handler m => m handler)
      (routed (mkMux [denying; stamping "first"] (entity_routes product_meta handlers))
              MGet "/")
      [stamping "first"; denying] (mkRequest tt "" []) pen_table.
Proof.
  apply (ServeHTTP_middleware_order [stamping "first"; denying] product_meta handlers
           (mkRouter (mkMux [denying; stamping "first"] []) [stamping "first"; denying])
           (mkRouter (mkMux [denying; stamping "first"] (entity_routes product_meta handlers))
                     [stamping "first"; denying])
           (mkIncoming MGet "/" tt "") pen_table).
  - reflexivity.
  - rewrite RegisterEntityRoutes_char. reflexivity.
Defined.

End Server.
