(* ===== verification/Gorm.v ===== *)
(** * Gorm: what the tests ask of the storage driver

    The flow tests of src/example_main.go call gorm directly: they
    create, save, read, list and delete rows of one table and check
    what comes back.  gorm is outside the repository; this file states
    the contract of those calls as the class [GormSpec] over the calls
    of [Repo.Driver] on entity values: the database is, abstractly, a
    finite map from keys to rows ([abs]); [Create] stores the entity
    under a fresh key that is not zero and writes the key and the
    timestamps into it ([stamp]); [Save] of an entity with a key
    overwrites its row; [First] reads a row; [Find] lists the rows in
    some order; [Delete] removes a row; [Count] is the number of
    rows.  Two laws cover the calls of the handlers on entities a
    client sends: [Create] of any entity fails or adds one row under a
    fresh key, and [Updates] under a key fails or rewrites the row of
    that key.  The in-memory table of [Repo] over entity values
    satisfies the contract ([Table_GormSpec]), so the contract is not
    vacuous. *)

From Stdlib Require Import Ascii String ZArith Lia.
From stdpp Require Import base tactics option list strings gmap.
From S2P Require Import Prelude Reflect Meta Parse Hooks Repo Router Handlers.

#[local] Set Warnings "-clear-no-such-hyp".

Module Gorm.
Import Repo.Repo Handlers.Handlers.

(** [e.name = v] on the entity behind a pointer; an entity without the
    field is left as it is. *)
Definition with_field (name : string) (v : GoValue) (e : any) : any :=
  default e (set_field e name v).

(** The entity as the driver returns it from a write: the key and the
    two timestamps set. *)
Definition stamp (id : Z) (created updated : GoValue) (e : any) : any :=
  with_field "UpdatedAt" updated (with_field "CreatedAt" created (with_field "ID" (VInt id) e)).

(** The entity has a field ID that can be assigned. *)
Definition has_key (e : any) : bool :=
  if set_field e "ID" (VInt 0) is Some _ then true else false.

(** The contract, for an invariant [inv] of the database and its
    abstraction [abs] to a map from keys to rows. *)
Class GormSpec (DB : Type) `{Driver unit DB any}
    (inv : DB -> Prop) (abs : DB -> gmap Z any) : Prop := {
  spec_Create e db :
    inv db -> has_key e = true -> field_int e "ID" = 0%Z ->
    exists id created updated db',
      id <> 0%Z /\ abs db !! id = None /\
      drv_Create tt e db = (stamp id created updated e, db', nil_error) /\
      inv db' /\ abs db' = <[id := stamp id created updated e]> (abs db);
  spec_Save e db :
    inv db -> field_int e "ID" <> 0%Z ->
    exists updated db',
      drv_Save tt e db = (with_field "UpdatedAt" updated e, db', nil_error) /\
      inv db' /\
      abs db' = <[field_int e "ID" := with_field "UpdatedAt" updated e]> (abs db);
  spec_First dest id db :
    inv db ->
    drv_First tt dest id db
    = match abs db !! id with
      | Some e => (e, nil_error)
      | None => (dest, Some ErrRecordNotFound)
      end;
  spec_Find db :
    inv db ->
    exists entities, drv_Find tt db = (entities, nil_error) /\
                     entities ≡ₚ (map_to_list (abs db)).*2;
  spec_Delete id db :
    inv db ->
    exists db', drv_Delete tt id db = (db', nil_error) /\
                inv db' /\ abs db' = delete id (abs db);
  spec_Count db :
    inv db -> drv_Count tt db = (Z.of_nat (size (abs db)), nil_error);
  (** [Create] of any entity: it fails and leaves the rows, or stores
      the entity it returns under a non-zero key that was free. *)
  spec_Create_any e db :
    inv db ->
    exists e' db' err,
      drv_Create tt e db = (e', db', err) /\ inv db' /\
      if err is Some _ then abs db' = abs db
      else exists id, id <> 0%Z /\ abs db !! id = None /\ abs db' = <[id := e']> (abs db);
  (** [Updates] under a key: it fails and leaves the rows, or succeeds
      and leaves every other row, rewriting the row of the key when
      there is one and adding none. *)
  spec_Updates id e db :
    inv db ->
    exists db' err,
      drv_Updates tt id e db = (e, db', err) /\ inv db' /\
      if err is Some _ then abs db' = abs db
      else match abs db !! id with
           | Some _ => exists row, abs db' = <[id := row]> (abs db)
           | None => abs db' = abs db
           end;
}.

(** ** Derived laws *)

Section derived.
Context {DB : Type} `{Driver unit DB any}.
Context (inv : DB -> Prop) (abs : DB -> gmap Z any) `{!GormSpec DB inv abs}.

(** [Find] returns as many entities as the table has rows. *)
Lemma spec_Find_length db :
  inv db -> exists entities, drv_Find tt db = (entities, nil_error) /\
                             length entities = size (abs db).
Proof.
  intros (l & -> & Hp)%spec_Find. exists l. split; [done|].
  by rewrite Hp, length_fmap, length_map_to_list.
Qed.

(** A row that was written is read back. *)
Lemma spec_First_insert dest id e m db :
  inv db -> abs db = <[id := e]> m -> drv_First tt dest id db = (e, nil_error).
Proof. intros Hinv Habs. by rewrite spec_First, Habs, lookup_insert_eq. Qed.

End derived.

(** ** Assignments to fields *)

Lemma set_field_is_Some x name w w' :
  is_Some (set_field x name w) -> is_Some (set_field x name w').
Proof.
  destruct x as [[[] [| | | |[[| | |vs| | |]|]| |]]|]; simpl; try by intros [? ?].
  destruct (field_index _ name) as [i|]; simpl; [|by intros [? ?]].
  destruct (i <? length vs); [eauto|by intros [? ?]].
Qed.

Lemma has_key_set e id : has_key e = true -> is_Some (set_field e "ID" (VInt id)).
Proof.
  unfold has_key. destruct (set_field e "ID" (VInt 0)) eqn:E; [|done]. intros _.
  apply (set_field_is_Some e "ID" (VInt 0)). by rewrite E.
Qed.

(** The key written into an entity that has one reads back. *)
Lemma has_key_with_field e id :
  has_key e = true -> field_int (with_field "ID" (VInt id) e) "ID" = id.
Proof.
  intros [x Hx]%(has_key_set e id). unfold with_field, field_int. rewrite Hx. simpl.
  by rewrite (get_set_field _ _ _ _ Hx).
Qed.

(** Assigning a field the value it has changes nothing, so every
    entity is its own stamp for some timestamps. *)
Lemma with_field_fix name e : exists v, with_field name v e = e.
Proof.
  unfold with_field.
  destruct e as [[[] [| | | |[[| | |vs| | |]|]| |]]|]; try by exists (VBool false).
  simpl. destruct (field_index elem name) as [i|]; [|by exists (VBool false)]. simpl.
  destruct (vs !! i) as [v|] eqn:Hv.
  - exists v. destruct (i <? length vs); [|done]. simpl. by rewrite list_insert_id.
  - exists (VBool false). apply lookup_ge_None in Hv.
    by destruct (Nat.ltb_spec i (length vs)); [lia|].
Qed.

Lemma stamp_fix id e :
  exists created updated, stamp id created updated e = with_field "ID" (VInt id) e.
Proof.
  unfold stamp. destruct (with_field_fix "CreatedAt" (with_field "ID" (VInt id) e)) as [c Hc].
  destruct (with_field_fix "UpdatedAt" (with_field "ID" (VInt id) e)) as [u Hu].
  exists c, u. by rewrite Hc, Hu.
Qed.

(** ** The in-memory table keeps the contract *)

Section table_rows.
Implicit Types (t : Table any) (e : any).

(** What [Create] leaves of the rows. *)
Lemma table_Create_rows e t e' t' err :
  wf_table pk_any t -> table_Create pk_any set_pk_any e t = (e', t', err) ->
  if err is Some _ then rows t' = rows t
  else exists id, id <> 0%Z /\ rows t !! id = None /\ rows t' = <[id := e']> (rows t).
Proof.
  intros [Hn Hr]. unfold table_Create. case_bool_decide as Hz.
  - case_bool_decide as Hk; intros [= <- <- <-]; [|done].
    exists (next_id t). split; [lia|]. split; [|done].
    destruct (rows t !! next_id t) eqn:E; [|done]. apply Hr in E as (_ & ? & _). lia.
  - destruct (rows t !! pk_any e) eqn:E; intros [= <- <- <-]; [done|]. by exists (pk_any e).
Qed.

(** What [Updates] leaves of the rows. *)
Lemma table_Updates_rows id e t e' t' err :
  wf_table pk_any t -> table_Updates pk_any set_pk_any id e t = (e', t', err) ->
  e' = e /\ wf_table pk_any t' /\
  if err is Some _ then rows t' = rows t
  else match rows t !! id with
       | Some _ => exists row, rows t' = <[id := row]> (rows t)
       | None => rows t' = rows t
       end.
Proof.
  intros Hwf. unfold table_Updates. destruct (rows t !! id) as [x|] eqn:E.
  - case_bool_decide as Hk; intros [= <- <- <-]; [|done]. split; [done|].
    split; [|by eexists].
    destruct Hwf as [Hn Hr]. split; [done|]. simpl. intros k y.
    destruct (decide (k = id)) as [->|Hne].
    + rewrite lookup_insert_eq. intros [= <-]. apply Hr in E as (? & ? & _).
      by repeat split.
    + rewrite lookup_insert_ne by done. apply Hr.
  - by intros [= <- <- <-].
Qed.

End table_rows.

#[export] Instance Table_GormSpec :
  GormSpec (Table any) (wf_table pk_any) (rows (E:=any)).
Proof.
  split.
  - intros e t Hwf Hk Hz. destruct (stamp_fix (next_id t) e) as (c & u & Hs).
    exists (next_id t), c, u, (table_insert (next_id t) (with_field "ID" (VInt (next_id t)) e) t).
    assert (rows t !! next_id t = None) as Hfresh.
    { destruct (rows t !! next_id t) eqn:E; [|done]. destruct Hwf as [_ Hr].
      apply Hr in E as (_ & ? & _). lia. }
    assert (pk_any (with_field "ID" (VInt (next_id t)) e) = next_id t) as Hpk
      by by apply has_key_with_field.
    rewrite Hs. split; [destruct Hwf; lia|]. split; [done|].
    split; [|split; [|done]].
    + cbn. unfold table_Create. rewrite bool_decide_eq_true_2 by done.
      unfold set_pk_any. fold (with_field "ID" (VInt (next_id t)) e).
      by rewrite bool_decide_eq_true_2.
    + apply wf_table_insert; [done|destruct Hwf; lia|done].
  - intros e t Hwf Hz. destruct (with_field_fix "UpdatedAt" e) as [u Hu].
    exists u, (table_insert (pk_any e) e t). rewrite Hu. split; [|split; [|done]].
    + cbn. unfold table_Save. by rewrite bool_decide_eq_false_2.
    + by apply wf_table_insert.
  - done.
  - intros t _. by eexists.
  - intros id t Hwf. eexists. split; [done|]. split; [|done].
    by eapply wf_table_Delete.
  - done.
  - intros e t Hwf. destruct (table_Create pk_any set_pk_any e t) as [[e' t'] err] eqn:HC.
    exists e', t', err. split; [done|]. split; [by eapply wf_table_Create|].
    by apply (table_Create_rows e t).
  - intros id e t Hwf. destruct (table_Updates pk_any set_pk_any id e t) as [[e' t'] err] eqn:HU.
    destruct (table_Updates_rows id e t e' t' err Hwf HU) as (-> & Hwf' & Hrows). eauto.
Qed.

End Gorm.
