(* ===== verification/Resource.v ===== *)
(** * Resource: the REST resource the handlers implement

    The five handlers of src/internal/http/handlers.go serve one
    resource: a collection of rows under integer keys.  This file
    states what a client may rely on as a transition system on the
    rows alone ([spec_step]): each request is an operation, answered by
    a response, that leaves the rows or changes them in the one way its
    rule names.  The handlers, run against a storage driver that keeps
    the contract [Gorm.GormSpec] with hooks that leave the database
    alone, are shown to take only steps of that system, one request
    after the other ([handlers_simulate], [serve_all_simulates]), and
    never to panic when they have a database handle.

    The specification keeps the cases the code has: an operation that
    fails before the database is reached leaves the rows; an after-hook
    that fails is answered 500 although the row is stored, rewritten or
    deleted already ([step_create_reported], [step_update_reported],
    [step_delete_reported]); an update of a key
    that has no row answers 200 and changes nothing. *)

From Corelib Require Import PrimFloat.
From Stdlib Require Import Ascii String ZArith Lia.
From stdpp Require Import base tactics option list strings gmap.
From S2P Require Import Prelude GoStrings Reflect Meta Parse Hooks Repo Router Handlers Gorm.

#[local] Set Warnings "-inexact-float".

#[local] Set Warnings "-clear-no-such-hyp".

Module Resource.
Import Meta.Meta Hooks.Hooks Repo.Repo Router.Router Handlers.Handlers Gorm.Gorm.

(** ** The specification *)

(** The operation a request asks for; [OpInvalid] is a request on an
    item whose id is no number. *)
Inductive Op : Type :=
| OpCreate
| OpList
| OpGet (id : Z)
| OpUpdate (id : Z)
| OpDelete (id : Z)
| OpInvalid.

Abbreviation Rows := (gmap Z any).

(** [m'] is [m] with the row of [id] rewritten, when [m] has one. *)
Definition rewritten (id : Z) (m m' : Rows) : Prop :=
  match m !! id with
  | Some _ => exists row, m' = <[id := row]> m
  | None => m' = m
  end.

(** An answer that reports a failure. *)
Definition failure (resp : Response) : Prop :=
  exists msg, resp = http_Error msg StatusInternalServerError.

Section spec.
Context (meta : EntityMeta).

Inductive spec_step (m : Rows) : Op -> Response -> Rows -> Prop :=
| step_invalid :
    spec_step m OpInvalid (http_Error "Invalid ID" StatusBadRequest) m
| step_create_refused :
    spec_step m OpCreate (http_Error "Invalid request body" StatusBadRequest) m
| step_create_failed resp :
    failure resp -> spec_step m OpCreate resp m
| step_created id row e :
    id <> 0%Z -> m !! id = None ->
    spec_step m OpCreate (write_json StatusCreated e) (<[id := row]> m)
| step_create_reported id row resp :
    id <> 0%Z -> m !! id = None -> failure resp ->
    spec_step m OpCreate resp (<[id := row]> m)
| step_list found :
    found ≡ₚ (map_to_list m).*2 ->
    spec_step m OpList (write_json StatusOK (fill_slice (makeEntitySlice meta) found)) m
| step_found id row :
    m !! id = Some row -> spec_step m (OpGet id) (write_json StatusOK row) m
| step_missing id :
    m !! id = None -> spec_step m (OpGet id) (http_Error "Not found" StatusNotFound) m
| step_update_refused id :
    spec_step m (OpUpdate id) (http_Error "Invalid request body" StatusBadRequest) m
| step_updated id e m' :
    rewritten id m m' -> spec_step m (OpUpdate id) (write_json StatusOK e) m'
| step_update_reported id resp m' :
    rewritten id m m' -> failure resp -> spec_step m (OpUpdate id) resp m'
| step_delete_missing id :
    m !! id = None -> spec_step m (OpDelete id) (http_Error "Not found" StatusNotFound) m
| step_delete_failed id row resp :
    m !! id = Some row -> failure resp -> spec_step m (OpDelete id) resp m
| step_deleted id row :
    m !! id = Some row ->
    spec_step m (OpDelete id) (mkResponse StatusNoContent [] BodyNone) (delete id m)
| step_delete_reported id row resp :
    m !! id = Some row -> failure resp -> spec_step m (OpDelete id) resp (delete id m).

(** A sequence of operations with their answers. *)
Inductive spec_run : Rows -> list Op -> list Response -> Rows -> Prop :=
| run_nil m : spec_run m [] [] m
| run_cons m op resp m1 ops resps m2 :
    spec_step m op resp m1 -> spec_run m1 ops resps m2 ->
    spec_run m (op :: ops) (resp :: resps) m2.

End spec.

(** ** What the specification promises *)

Section spec_facts.
Context (meta : EntityMeta).
Implicit Types (m : Rows) (op : Op) (resp : Response).

(** The statuses an operation is answered with. *)
Definition statuses op : list nat :=
  match op with
  | OpCreate => [201; 400; 500]
  | OpList => [200]
  | OpGet _ => [200; 404]
  | OpUpdate _ => [200; 400; 500]
  | OpDelete _ => [204; 404; 500]
  | OpInvalid => [400]
  end.

(** The operations that only read. *)
Definition reads op : bool :=
  match op with
  | OpList | OpGet _ | OpInvalid => true
  | _ => false
  end.

Lemma spec_step_status m op resp m' :
  spec_step meta m op resp m' -> In (status resp) (statuses op).
Proof.
  destruct 1; repeat match goal with H : failure _ |- _ => destruct H as [? ->] end;
    simpl; tauto.
Qed.

Lemma spec_step_reads m op resp m' :
  spec_step meta m op resp m' -> reads op = true -> m' = m.
Proof. by destruct 1. Qed.

(** A read of a key is answered by the rows alone. *)
Lemma spec_step_get m id resp m' :
  spec_step meta m (OpGet id) resp m' ->
  m' = m /\
  resp = match m !! id with
         | Some row => write_json StatusOK row
         | None => http_Error "Not found" StatusNotFound
         end.
Proof. inversion 1 as [| | | | | |? ? Hrow|? Hrow| | | | | | |]; subst; by rewrite Hrow. Qed.

Lemma rewritten_lookup id m m' k :
  rewritten id m m' -> is_Some (m' !! k) <-> is_Some (m !! k).
Proof.
  unfold rewritten. destruct (m !! id) as [row|] eqn:E; [|by intros ->].
  intros [row' ->]. destruct (decide (k = id)) as [->|Hne].
  - rewrite lookup_insert_eq, E. split; eauto.
  - by rewrite lookup_insert_ne.
Qed.

(** The key zero is never given to a row. *)
Lemma spec_step_zero m op resp m' :
  spec_step meta m op resp m' -> m !! 0%Z = None -> m' !! 0%Z = None.
Proof.
  destruct 1; intros Hz; try done;
    try (by rewrite lookup_insert_ne);
    try (apply eq_None_not_Some; rewrite rewritten_lookup by done; by rewrite Hz; intros []);
    apply lookup_delete_None; auto.
Qed.

Lemma spec_run_zero m ops resps m' :
  spec_run meta m ops resps m' -> m !! 0%Z = None -> m' !! 0%Z = None.
Proof. induction 1; eauto using spec_step_zero. Qed.

(** After a delete that is answered 204 the key has no row, and a read
    of it is answered 404. *)
Lemma spec_deleted_missing m id resp m1 resp' m2 :
  spec_step meta m (OpDelete id) resp m1 -> status resp = StatusNoContent ->
  spec_step meta m1 (OpGet id) resp' m2 ->
  resp' = http_Error "Not found" StatusNotFound /\ m2 = m1.
Proof.
  intros Hd Hs Hg. apply spec_step_get in Hg as [-> ->].
  enough (m1 !! id = None) as -> by done.
  inversion Hd; subst; try done;
    repeat match goal with H : failure _ |- _ => destruct H as [? ->] end;
    try done; apply lookup_delete_eq.
Qed.

End spec_facts.

(** ** The handlers *)

Section handlers.
Context {DB Conn : Type}.
Context `{Driver unit DB any} `{MethodSet (Ctx:=unit) (Tx:=DB) any} `{Codec}.

(** The handler of an endpoint, as [RegisterEntityRoutes] registers
    it. *)
Definition handler_of (kind : Endpoint) : Handlers Conn -> EntityMeta -> Handler unit DB :=
  match kind with
  | EpCreate => CreateHandler
  | EpList => ListHandler
  | EpGet => GetHandler
  | EpUpdate => UpdateHandler
  | EpDelete => DeleteHandler
  end.

(** The operation a request on an endpoint asks for. *)
Definition op_of (kind : Endpoint) (r : Request unit) : Op :=
  let item op := from_option op OpInvalid (ParseInt (URLParam r "id")) in
  match kind with
  | EpCreate => OpCreate
  | EpList => OpList
  | EpGet => item OpGet
  | EpUpdate => item OpUpdate
  | EpDelete => item OpDelete
  end.

(** The requests of a client, served one after the other. *)
Fixpoint serve_all (h : Handlers Conn) (meta : EntityMeta)
    (reqs : list (Endpoint * Request unit)) (st : DB) : outcome (list Response * DB) :=
  match reqs with
  | [] => Ok ([], st)
  | (kind, r) :: rest =>
      '(resp, st) ← handler_of kind h meta r st;
      '(resps, st) ← serve_all h meta rest st;
      mret (resp :: resps, st)
  end.

End handlers.

(** ** The simulation *)

Section simulation.
Context {DB Conn : Type}.
Context `{Driver unit DB any} `{MethodSet (Ctx:=unit) (Tx:=DB) any} `{Codec}.
Context (inv : DB -> Prop) (abs : DB -> Rows) `{!GormSpec DB inv abs}.
Implicit Types (h : Handlers Conn) (meta : EntityMeta) (r : Request unit) (st : DB).

(** The hooks of the entity type leave the database as it is. *)
Hypothesis hooks_keep_db : forall n ctx e st, (Call n ctx e st).1.2 = st.

(** What the run of a handler is held to: it returns, in a state of
    the contract, by a step of the specification. *)
Definition simulates meta st (op : Op) (run : outcome (Response * DB)) : Prop :=
  exists resp st',
    run = Ok (resp, st') /\ inv st' /\ spec_step meta (abs st) op resp (abs st').

Lemma hook_result n e st : exists e' err, Call n tt e st = (e', st, err).
Proof.
  pose proof (hooks_keep_db n tt e st) as Hk.
  destruct (Call n tt e st) as [[e' st'] err]. simpl in Hk. subst. eauto.
Qed.

Lemma WithContext_open h : db h <> None -> exists conn, WithContext h = Ok conn.
Proof. unfold WithContext. destruct (db h); [eauto|done]. Qed.

Lemma failure_Error msg : failure (http_Error msg StatusInternalServerError).
Proof. by exists msg. Qed.

Lemma rewritten_refl id (m : Rows) : rewritten id m m.
Proof.
  unfold rewritten. destruct (m !! id) as [row|] eqn:E; [|done].
  exists row. by rewrite insert_id.
Qed.

(** The run has returned with this response and state: what is left is
    the invariant and the step. *)
Ltac answered := eexists _, _; split; [reflexivity|]; split; [done|].

(** The result of the hook at the head of the run. *)
Ltac hook n e st :=
  let e' := fresh "e" in
  let err := fresh "err" in
  let Hn := fresh "Hhook" in
  destruct (hook_result n e st) as (e' & err & Hn); cbn [Call] in Hn; rewrite Hn;
  destruct err as [err|]; cbv beta iota.

Lemma GetHandler_simulates h meta r st :
  db h <> None -> inv st -> simulates meta st (op_of EpGet r) (GetHandler h meta r st).
Proof.
  intros Hdb Hinv. unfold op_of, GetHandler. destruct r as [[] body params].
  cbn [rContext]. destruct (ParseInt _) as [id|]; cbn [from_option];
    [|answered; constructor].
  destruct (WithContext_open h Hdb) as [conn ->]. cbn [mbind outcome_bind].
  rewrite spec_First by done. destruct (abs st !! id) as [row|] eqn:E; cbv beta iota.
  - answered. by constructor.
  - rewrite bool_decide_eq_true_2 by done. answered. by constructor.
Qed.

Lemma ListHandler_simulates h meta r st :
  db h <> None -> inv st -> simulates meta st (op_of EpList r) (ListHandler h meta r st).
Proof.
  intros Hdb Hinv. unfold op_of, ListHandler. destruct r as [[] body params].
  cbn [rContext]. destruct (WithContext_open h Hdb) as [conn ->]. cbn [mbind outcome_bind].
  destruct (spec_Find st Hinv) as (found & -> & Hperm). cbv beta iota.
  answered. by constructor.
Qed.

Lemma CreateHandler_simulates h meta r st :
  db h <> None -> inv st -> simulates meta st (op_of EpCreate r) (CreateHandler h meta r st).
Proof.
  intros Hdb Hinv. unfold op_of, CreateHandler. destruct r as [[] body params].
  cbn [rContext rBody]. destruct (json_Decode _ _) as [e [derr|]];
    [answered; constructor|].
  hook BeforeCreate e st; [answered; apply step_create_failed, failure_Error|].
  destruct (WithContext_open h Hdb) as [conn ->]. cbn [mbind outcome_bind].
  destruct (spec_Create_any e0 st Hinv) as (e' & st' & cerr & -> & Hinv' & Hrows).
  destruct cerr as [cerr|]; cbv beta iota.
  { answered. rewrite Hrows. apply step_create_failed, failure_Error. }
  destruct Hrows as (id & Hid & Hfresh & Hrows).
  hook AfterCreate e' st'; answered; rewrite Hrows.
  - by apply step_create_reported; [..|apply failure_Error].
  - by apply step_created.
Qed.

Lemma UpdateHandler_simulates h meta r st :
  db h <> None -> inv st -> simulates meta st (op_of EpUpdate r) (UpdateHandler h meta r st).
Proof.
  intros Hdb Hinv. unfold op_of, UpdateHandler. destruct r as [[] body params].
  cbn [rContext rBody]. destruct (ParseInt _) as [id|]; cbn [from_option];
    [|answered; constructor].
  destruct (json_Decode _ _) as [e [derr|]]; [answered; constructor|].
  hook BeforeUpdate e st.
  { answered. apply step_update_reported; [apply rewritten_refl|apply failure_Error]. }
  destruct (WithContext_open h Hdb) as [conn ->]. cbn [mbind outcome_bind].
  destruct (spec_Updates id e0 st Hinv) as (st' & uerr & -> & Hinv' & Hrows).
  destruct uerr as [uerr|]; cbv beta iota.
  { answered. rewrite Hrows.
    apply step_update_reported; [apply rewritten_refl|apply failure_Error]. }
  hook AfterUpdate e0 st'; answered.
  - by apply step_update_reported; [|apply failure_Error].
  - by apply step_updated.
Qed.

Lemma DeleteHandler_simulates h meta r st :
  db h <> None -> inv st -> simulates meta st (op_of EpDelete r) (DeleteHandler h meta r st).
Proof.
  intros Hdb Hinv. unfold op_of, DeleteHandler. destruct r as [[] body params].
  cbn [rContext]. destruct (ParseInt _) as [id|]; cbn [from_option];
    [|answered; constructor].
  destruct (WithContext_open h Hdb) as [conn ->]. cbn [mbind outcome_bind].
  rewrite spec_First by done. destruct (abs st !! id) as [row|] eqn:E; cbv beta iota.
  2: { rewrite bool_decide_eq_true_2 by done. answered. by constructor. }
  hook BeforeDelete row st.
  { answered. by eapply step_delete_failed; [|apply failure_Error]. }
  destruct (spec_Delete id st Hinv) as (st' & -> & Hinv' & Hrows). cbv beta iota.
  hook AfterDelete e st'; answered; rewrite Hrows.
  - by eapply step_delete_reported; [|apply failure_Error].
  - by eapply step_deleted.
Qed.

(** Every run of a handler that has a database handle is a step of
    the resource: the handler returns, the state it leaves is a state
    of the contract, and the response and the rows it leaves are the
    ones a rule of the specification allows for the operation asked. *)
Theorem handlers_simulate kind h meta r st :
  db h <> None -> inv st ->
  simulates meta st (op_of kind r) (handler_of kind h meta r st).
Proof.
  destruct kind; simpl handler_of;
    auto using CreateHandler_simulates, ListHandler_simulates, GetHandler_simulates,
      UpdateHandler_simulates, DeleteHandler_simulates.
Qed.

(** The simulation of one request extends to a sequence of them, by
    induction on the requests. *)
Lemma serve_all_run h meta reqs st :
  db h <> None -> inv st ->
  exists resps st',
    serve_all h meta reqs st = Ok (resps, st') /\ inv st' /\
    spec_run meta (abs st) ((fun q => op_of q.1 q.2) <$> reqs) resps (abs st').
Proof.
  intros Hdb. revert st. induction reqs as [|[kind r] reqs IH]; intros st Hinv.
  { exists [], st. split; [done|]. split; [done|constructor]. }
  destruct (handlers_simulate kind h meta r st Hdb Hinv) as (resp & st1 & Hrun & Hinv1 & Hstep).
  destruct (IH st1 Hinv1) as (resps & st2 & Hrest & Hinv2 & Hsteps).
  exists (resp :: resps), st2. cbn [serve_all]. rewrite Hrun. cbn [mbind outcome_bind].
  rewrite Hrest. split; [done|]. split; [done|]. by econstructor.
Qed.

(** The requests of a client, served one after the other, are a run
    of the resource: the handlers return for each of them, and the
    responses and the rows at the end are those of a sequence of steps
    of the specification from the rows at the start. *)
Theorem serve_all_simulates h meta reqs st :
  db h <> None -> inv st ->
  exists resps st',
    serve_all h meta reqs st = Ok (resps, st') /\ inv st' /\
    spec_run meta (abs st) ((fun q => op_of q.1 q.2) <$> reqs) resps (abs st').
Proof. apply serve_all_run. Qed.

(** C21. An after-hook that fails is reported as a failure of the request,
    while the database has done what was asked: the row of a create,
    whatever the path of the request, is stored under a new key, and
    the row of a delete, on a path with the key of a row, is gone. *)
Theorem after_hook_failure_persists h meta st :
  db h <> None -> inv st ->
  (forall r e e1,
     (forall e2 st2, (CallAfterCreate tt e2 st2).2 <> nil_error) ->
     json_Decode (rBody r) (makeEntityInstance meta) = (e, nil_error) ->
     CallBeforeCreate tt e st = (e1, st, nil_error) ->
     has_key e1 = true -> field_int e1 "ID" = 0%Z ->
     exists resp st' key created updated,
       CreateHandler h meta r st = Ok (resp, st') /\ failure resp /\
       key <> 0%Z /\ abs st !! key = None /\
       abs st' = <[key := stamp key created updated e1]> (abs st)) /\
  (forall r id row row1,
     (forall e2 st2, (CallAfterDelete tt e2 st2).2 <> nil_error) ->
     ParseInt (URLParam r "id") = Some id -> abs st !! id = Some row ->
     CallBeforeDelete tt row st = (row1, st, nil_error) ->
     exists resp st',
       DeleteHandler h meta r st = Ok (resp, st') /\ failure resp /\
       abs st' = delete id (abs st)).
Proof.
  intros Hdb Hinv. destruct (WithContext_open h Hdb) as [conn Hconn].
  split; [intros [[] body params] e e1 Hac Hdec Hbc Hkey Hzero
         |intros [[] body params] id row row1 Had Hid Hrow Hbd]; cbn [rContext rBody] in *.
  - destruct (spec_Create e1 st Hinv Hkey Hzero)
      as (key & c & u & st' & Hk & Hfresh & HC & _ & Hrows).
    specialize (Hac (stamp key c u e1) st').
    destruct (hook_result AfterCreate (stamp key c u e1) st') as (e3 & err & Ha).
    cbn [Call] in Ha. rewrite Ha in Hac. destruct err as [err|]; [|done].
    exists (http_Error (error_message err) StatusInternalServerError), st', key, c, u.
    split; [|by eauto using failure_Error].
    unfold CreateHandler. cbn [rContext rBody]. rewrite Hdec, Hbc, Hconn.
    cbn [mbind outcome_bind]. by rewrite HC, Ha.
  - destruct (spec_Delete id st Hinv) as (st' & HD & _ & Hrows).
    specialize (Had row1 st').
    destruct (hook_result AfterDelete row1 st') as (e3 & err & Ha).
    cbn [Call] in Ha. rewrite Ha in Had. destruct err as [err|]; [|done].
    exists (http_Error (error_message err) StatusInternalServerError), st'.
    split; [|by eauto using failure_Error].
    unfold DeleteHandler. cbn [rContext]. rewrite Hid, Hconn. cbn [mbind outcome_bind].
    rewrite spec_First, Hrow by done. cbv beta iota. by rewrite Hbd, HD, Ha.
Qed.

(** A client that deletes a row and reads it reasons on the rows
    alone: when the delete is answered 204, the read is answered 404,
    whatever the driver and the hooks. *)
Corollary deleted_row_not_found h meta r st :
  db h <> None -> inv st ->
  exists resp resp' st',
    serve_all h meta [(EpDelete, r); (EpGet, r)] st = Ok ([resp; resp'], st') /\
    (status resp = StatusNoContent -> resp' = http_Error "Not found" StatusNotFound).
Proof.
  intros Hdb Hinv.
  destruct (serve_all_run h meta [(EpDelete, r); (EpGet, r)] st Hdb Hinv)
    as (resps & st' & Hrun & _ & Hsteps).
  inversion Hsteps as [|? ? resp m1 ? ? ? Hd Hrest]; subst.
  inversion Hrest as [|? ? resp' m2 ? ? ? Hg Hnil]; subst. inversion Hnil; subst.
  exists resp, resp', st'. split; [done|]. intros Hs. cbn [fst snd] in *.
  unfold op_of in Hd, Hg. destruct (ParseInt (URLParam r "id")) as [id|]; cbn in Hd, Hg.
  - by destruct (spec_deleted_missing meta _ _ _ _ _ _ Hd Hs Hg).
  - apply spec_step_status in Hd. rewrite Hs in Hd. simpl in Hd.
    unfold StatusNoContent in Hd. by intuition.
Qed.

(** After any requests on a table without a row under the key zero, no
    row has that key. *)
Corollary key_zero_unused h meta reqs st :
  db h <> None -> inv st -> abs st !! 0%Z = None ->
  exists resps st', serve_all h meta reqs st = Ok (resps, st') /\ abs st' !! 0%Z = None.
Proof.
  intros Hdb Hinv Hz.
  destruct (serve_all_run h meta reqs st Hdb Hinv) as (resps & st' & Hrun & _ & Hsteps).
  exists resps, st'. split; [done|]. by eapply spec_run_zero.
Qed.

End simulation.

(** ** The example program's Product *)

(** A method set whose after-create and after-delete hooks fail. *)
Definition reporting_methods : MethodSet (Ctx:=unit) (Tx:=Table any) any :=
  @mkMethodSet unit (Table any) any
    None (Some (fun ctx tx e => (e, tx, Some (ErrNew "audit log unavailable")))) None None
    None (Some (fun ctx tx e => (e, tx, Some (ErrNew "audit log unavailable")))).

Lemma reporting_keep_db n ctx e st : (Call (H:=reporting_methods) n ctx e st).1.2 = st.
Proof. by destruct n. Qed.

(** A create and a read of the created key on the in-memory table. *)
Lemma serve_all_simulates_witness :
  exists resps st',
    serve_all handlers product_meta
      [(EpCreate, request "Name=pen;Price=3" ""); (EpGet, request "" "1")] empty_table
    = Ok (resps, st') /\ wf_table pk_any st' /\
    spec_run product_meta (rows (empty_table (E:=any)))
      [OpCreate; OpGet 1] resps (rows st').
Proof.
  apply (serve_all_simulates (H:=any_driver) (H0:=Product_MethodSet) (H1:=pairs_Codec)
           (wf_table pk_any) rows Product_hooks_keep_db handlers product_meta
           [(EpCreate, request "Name=pen;Price=3" ""); (EpGet, request "" "1")] empty_table);
    [done|apply wf_empty_table].
Defined.

(** A create and a delete under the failing after-hooks: both are
    answered 500; the pen is stored a second time, and the row of the
    key 1 is deleted. *)
Lemma after_hook_failure_persists_witness :
  (exists resp st' key created updated,
     CreateHandler (H0:=reporting_methods) handlers product_meta
       (mkRequest tt "Name=pen;Price=3" []) pen_table = Ok (resp, st') /\
     failure resp /\ key <> 0%Z /\ rows pen_table !! key = None /\
     rows st' = <[key := stamp key created updated (product_value 0 "pen" 3)]>
                  (rows pen_table)) /\
  (exists resp st',
     DeleteHandler (H0:=reporting_methods) handlers product_meta
       (request "" "1") pen_table = Ok (resp, st') /\
     failure resp /\ rows st' = delete 1%Z (rows pen_table)).
Proof.
  destruct (after_hook_failure_persists (H:=any_driver) (H0:=reporting_methods)
              (H1:=pairs_Codec) (wf_table pk_any) rows reporting_keep_db handlers
              product_meta pen_table ltac:(done) wf_pen_table) as [Hcreate Hdelete].
  split.
  - apply (Hcreate (mkRequest tt "Name=pen;Price=3" [])
             (product_value 0 "pen" 3) (product_value 0 "pen" 3));
      try done; vm_compute; reflexivity.
  - apply (Hdelete (request "" "1") 1%Z (product_value 1 "pen" 3) (product_value 1 "pen" 3));
      try done; vm_compute; reflexivity.
Defined.

End Resource.
