(* ===== verification/Service.v ===== *)
(** * Service: the REST interface of an entity, from the path to the rows

    Three parts serve an entity when they are put together:
    [RegisterEntityRoutes] of src/internal/hooks/hooks.go registers the
    five handlers of src/internal/http/handlers.go on the mux, the mux
    picks the handler of a request by its method and path, and the
    handler runs the hooks and the storage driver.  This file states
    what the composition promises at the HTTP boundary and shows that
    the parts, put together, keep it.  (The application of
    src/goblar/app.go does not put them together: [App.Start] serves a
    nil handler, see [Server.registered_app_serves_404].)

    The interface is a table ([endpoint_of]): which endpoint a method
    and a path reach, as equations on the path alone, with no reference
    to the segment-wise matching of the mux.  A request that reaches an
    endpoint asks for an operation of the resource of [Resource]
    ([api]); any other request is answered by the mux and changes
    nothing ([unrouted]): 405 with the methods of the path when the
    path is the collection or an item, 405 without a method when the
    method is none the mux knows, 404 when the path is neither.
    [api_step] and [api_run] are the resource seen through HTTP.

    The theorems: the mux with the routes of the entity routes every
    request as the table says ([Mux_find_endpoint],
    [Mux_allowed_endpoint], [Mux_route_endpoint]); a request served
    by the router of the entity, against every storage driver that
    keeps [Gorm.GormSpec], is a step of the interface, and a sequence
    of requests a run ([ServeHTTP_step], [service_simulates]); the
    requests by GET need nothing of the hooks ([service_get_safe]);
    what a client of the service may conclude from the interface
    alone. *)

From Corelib Require Import PrimFloat.
From Stdlib Require Import Ascii String ZArith Lia.
From stdpp Require Import base tactics option list strings gmap.
From S2P Require Import Prelude GoStrings Naming Reflect Meta Parse Hooks Repo Router Handlers.
From S2P Require Import App Server Gorm Resource.

#[local] Set Warnings "-inexact-float".

#[local] Set Warnings "-clear-no-such-hyp".

Module Service.
Import Naming.Naming Meta.Meta Hooks.Hooks Repo.Repo Router.Router Handlers.Handlers.
Import Gorm.Gorm Server.Server Resource.Resource.

(** ** The interface *)

(** What a path names on the resource [res]: the collection is the
    path /res, an item is /res/id for an id that is not empty and has
    no slash. *)
Inductive Target : Type := Collection | Item (id : string).

Definition target_of (res path : string) : option Target :=
  if bool_decide (path = "/" +:+ res) then Some Collection
  else if HasPrefix path ("/" +:+ res +:+ "/") then
    let id := TrimPrefix path ("/" +:+ res +:+ "/") in
    if bool_decide (id = "") || bool_decide ("/"%char ∈ chars id) then None
    else Some (Item id)
  else None.

(** The endpoint a method and a path reach, with the parameters of the
    path. *)
Definition endpoint_of (res : string) (method : Method) (path : string)
    : option (Endpoint * list (string * string)) :=
  t ← target_of res path;
  match t, method with
  | Collection, MPost => Some (EpCreate, [])
  | Collection, MGet => Some (EpList, [])
  | Item id, MGet => Some (EpGet, [("id", id)])
  | Item id, MPut => Some (EpUpdate, [("id", id)])
  | Item id, MDelete => Some (EpDelete, [("id", id)])
  | _, _ => None
  end.

(** The methods a path has. *)
Definition allowed_of (res path : string) : list Method :=
  match target_of res path with
  | Some Collection => [MPost; MGet]
  | Some (Item _) => [MGet; MPut; MDelete]
  | None => []
  end.

(** The operation of the resource a request asks for, when it reaches
    an endpoint. *)
Definition api (res : string) (method : Method) (path : string) : option Op :=
  '(kind, params) ← endpoint_of res method path;
  Some (op_of kind (mkRequest tt "" params)).

(** The answer of the mux to a request whose path names nothing. *)
Definition no_route : Response := http_Error "404 page not found" StatusNotFound.

(** The answer to a request that reaches no endpoint: 405 without a
    method for a method the mux does not know, 405 with the methods of
    the path when the path has some, 404 otherwise. *)
Definition unrouted (res : string) (method : Method) (path : string) : Response :=
  if negb (known method) then not_allowed []
  else match allowed_of res path with
       | [] => no_route
       | allowed => not_allowed allowed
       end.

Section interface.
Context (meta : EntityMeta) (res : string).

(** One request on the service: an operation of the resource, or the
    answer of the mux, which changes nothing. *)
Inductive api_step (m : Rows) : Incoming unit -> Response -> Rows -> Prop :=
| api_routed i op resp m' :
    api res (inMethod i) (inPath i) = Some op -> spec_step meta m op resp m' ->
    api_step m i resp m'
| api_unrouted i :
    api res (inMethod i) (inPath i) = None ->
    api_step m i (unrouted res (inMethod i) (inPath i)) m.

Inductive api_run : Rows -> list (Incoming unit) -> list Response -> Rows -> Prop :=
| api_nil m : api_run m [] [] m
| api_cons m i resp m1 reqs resps m2 :
    api_step m i resp m1 -> api_run m1 reqs resps m2 ->
    api_run m (i :: reqs) (resp :: resps) m2.

End interface.

(** ** What the interface promises *)

Section interface_facts.
Context (meta : EntityMeta) (res : string).
Implicit Types (m : Rows) (i : Incoming unit) (resp : Response).

(** The operations a GET asks for only read. *)
Lemma api_get_reads path op : api res MGet path = Some op -> reads op = true.
Proof.
  unfold api, endpoint_of. destruct (target_of res path) as [[|id]|]; cbn; intros [= <-]; [done|].
  unfold op_of. by destruct (ParseInt _).
Qed.

(** Every path that names something has GET among its methods, so a
    GET that reaches no endpoint is answered 404. *)
Lemma unrouted_get path : api res MGet path = None -> unrouted res MGet path = no_route.
Proof.
  unfold api, endpoint_of, unrouted, allowed_of.
  by destruct (target_of res path) as [[|id]|].
Qed.

(** The statuses of the mux's own answers. *)
Lemma unrouted_status method path : In (status (unrouted res method path)) [404; 405].
Proof.
  unfold unrouted. destruct (known method); cbn; [|tauto].
  destruct (allowed_of res path); cbn; tauto.
Qed.

(** A request is answered 405 exactly when it reaches no endpoint and
    either its method is unknown to the mux or its path names
    something. *)
Lemma unrouted_not_allowed method path :
  status (unrouted res method path) = 405
  <-> known method = false \/ target_of res path <> None.
Proof.
  unfold unrouted, allowed_of. destruct (known method); cbn.
  - destruct (target_of res path) as [[|id]|]; cbn; split; intros Hs;
      try done; try (by right); by destruct Hs.
  - split; auto.
Qed.

(** A GET changes no row, whatever its path. *)
Lemma api_step_get m i resp m' :
  api_step meta res m i resp m' -> inMethod i = MGet -> m' = m.
Proof.
  destruct 1 as [i op resp m' Hapi Hstep|]; [|done]. intros Hm. rewrite Hm in Hapi.
  eauto using spec_step_reads, api_get_reads.
Qed.

Lemma api_run_get m reqs resps m' :
  api_run meta res m reqs resps m' -> Forall (fun i => inMethod i = MGet) reqs -> m' = m.
Proof.
  induction 1 as [|m i resp m1 reqs resps m2 Hstep _ IH]; [done|].
  intros [Hi Hrest]%Forall_cons. rewrite IH by done. by eapply api_step_get.
Qed.

(** A GET is answered 200, 400 or 404. *)
Lemma api_step_get_status m i resp m' :
  api_step meta res m i resp m' -> inMethod i = MGet -> In (status resp) [200; 400; 404].
Proof.
  destruct 1 as [i op resp m' Hapi Hstep|i Hapi]; intros Hm; rewrite Hm in Hapi.
  - apply api_get_reads in Hapi. apply spec_step_status in Hstep.
    destruct op; simpl in *; try done; tauto.
  - rewrite Hm, unrouted_get by done. simpl. tauto.
Qed.

Lemma api_run_get_status m reqs resps m' :
  api_run meta res m reqs resps m' -> Forall (fun i => inMethod i = MGet) reqs ->
  Forall (fun resp => In (status resp) [200; 400; 404]) resps.
Proof.
  induction 1 as [|m i resp m1 reqs resps m2 Hstep _ IH]; [done|].
  intros [Hi Hrest]%Forall_cons. constructor; [by eapply api_step_get_status|auto].
Qed.

(** The statuses of the service. *)
Lemma api_step_status m i resp m' :
  api_step meta res m i resp m' -> In (status resp) [200; 201; 204; 400; 404; 405; 500].
Proof.
  destruct 1 as [i op resp m' _ Hstep|i _].
  - apply spec_step_status in Hstep. destruct op; simpl in *; tauto.
  - pose proof (unrouted_status (inMethod i) (inPath i)). simpl in *. tauto.
Qed.

End interface_facts.

(** ** The server loop *)

Section server.
Context {DB : Type}.

(** The requests of a client, served by the mux one after the other. *)
Fixpoint serve_requests (mx : Mux (Middleware (Ctx:=unit) (DB:=DB)) (Handler unit DB))
    (reqs : list (Incoming unit)) (st : DB) : outcome (list Response * DB) :=
  match reqs with
  | [] => Ok ([], st)
  | i :: rest =>
      '(resp, st) ← ServeHTTP mx i st;
      '(resps, st) ← serve_requests mx rest st;
      mret (resp :: resps, st)
  end.

End server.

(** ** The mux routes by the table *)

Section routing.
Context {M Hs H : Type} `{HandlerSet Hs H}.
Implicit Types (meta : EntityMeta) (hs : Hs) (ms : list M) (path res id : string).

(** The handler constructor of an endpoint. *)
Definition hs_of (kind : Endpoint) : Hs -> EntityMeta -> H :=
  match kind with
  | EpCreate => hs_Create
  | EpList => hs_List
  | EpGet => hs_Get
  | EpUpdate => hs_Update
  | EpDelete => hs_Delete
  end.

(** Where the table sends a request. *)
Definition route_of (res : string) (hs : Hs) (meta : EntityMeta) (method : Method)
    (path : string) : Routing H :=
  match endpoint_of res method path with
  | Some (kind, params) => ToHandler (hs_of kind hs meta) params
  | None =>
      if negb (known method) then ToMethodNotAllowed []
      else match allowed_of res path with
           | [] => ToNotFound
           | allowed => ToMethodNotAllowed allowed
           end
  end.

Lemma item_path res id : ("/" +:+ res +:+ "/") +:+ id = "/" +:+ res +:+ "/" +:+ id.
Proof. simpl. f_equal. by rewrite string_app_assoc. Qed.

Lemma string_app_inv_head s t u : s +:+ t = s +:+ u -> t = u.
Proof.
  intros E. apply chars_inj. apply (f_equal chars) in E. rewrite !chars_app in E.
  by simplify_list_eq.
Qed.

(** The table reads the path as the two patterns of the entity do. *)
Lemma target_of_spec res path :
  literal_segment res ->
  match target_of res path with
  | Some Collection => path = "/" +:+ res
  | Some (Item id) => param_value id /\ path = "/" +:+ res +:+ "/" +:+ id
  | None => match_pattern ("/" +:+ res) path = None /\
            match_pattern ("/" +:+ res +:+ "/{id}") path = None
  end.
Proof.
  intros Hl. unfold target_of. case_bool_decide as Hc; [done|].
  assert (match_pattern ("/" +:+ res) path = None) as Hnc.
  { destruct (match_pattern ("/" +:+ res) path) as [ps|] eqn:Hm; [|done].
    by destruct (match_collection_inv res path ps Hl Hm). }
  assert (forall id, path = "/" +:+ res +:+ "/" +:+ id -> ~ param_value id ->
                     match_pattern ("/" +:+ res +:+ "/{id}") path = None) as Hni.
  { intros id -> Hid. destruct (match_pattern ("/" +:+ res +:+ "/{id}") _) as [ps|] eqn:Hm; [|done].
    destruct (match_item_inv res _ ps Hl Hm) as (id' & Hid' & E & _).
    rewrite <- !item_path in E. by apply string_app_inv_head in E as ->. }
  destruct (HasPrefix path ("/" +:+ res +:+ "/")) eqn:Hpre.
  - apply HasPrefix_iff in Hpre as [id ->]. rewrite TrimPrefix_app, item_path in *.
    case_bool_decide as Hne; [split; [done|]; apply (Hni id); [done|]; by intros []|].
    case_bool_decide as Hin; cbn [orb].
    + split; [done|]. apply (Hni id); [done|]. by intros [_ []]; apply list_elem_of_In.
    + split; [|done]. split; [done|]. by intros ?%list_elem_of_In.
  - split; [done|].
    destruct (match_pattern ("/" +:+ res +:+ "/{id}") _) as [ps|] eqn:Hm; [|done].
    destruct (match_item_inv res _ ps Hl Hm) as (id' & Hid' & -> & _).
    by rewrite <- item_path, HasPrefix_app in Hpre.
Qed.

(** A path that matches neither pattern of the entity has no route and
    no method. *)
Lemma Mux_find_unmatched ms meta hs method path :
  match_pattern ("/" +:+ toURLPath (emName meta)) path = None ->
  match_pattern ("/" +:+ toURLPath (emName meta) +:+ "/{id}") path = None ->
  Mux_find method path (mkMux ms (entity_routes meta hs)) = None.
Proof.
  intros Hc Hi. unfold Mux_find, entity_routes.
  cbn [muxRoutes List.find routeMethod routePattern routeHandler]. rewrite Hc, Hi.
  rewrite (bool_decide_eq_false_2 (is_Some None)) by apply is_Some_None.
  by rewrite !andb_false_r.
Qed.

Lemma Mux_allowed_unmatched ms meta hs path :
  match_pattern ("/" +:+ toURLPath (emName meta)) path = None ->
  match_pattern ("/" +:+ toURLPath (emName meta) +:+ "/{id}") path = None ->
  Mux_allowed path (mkMux ms (entity_routes meta hs)) = [].
Proof.
  intros Hc Hi. unfold Mux_allowed, entity_routes.
  cbn [muxRoutes List.filter routeMethod routePattern routeHandler]. rewrite Hc, Hi.
  by rewrite (bool_decide_eq_false_2 (is_Some None)) by apply is_Some_None.
Qed.

(** The routes of an entity are the table: the mux finds the handler
    of the endpoint the table gives the request, with its parameters,
    and no handler when the table gives none. *)
Lemma Mux_find_endpoint ms meta hs method path :
  literal_segment (toURLPath (emName meta)) ->
  Mux_find method path (mkMux ms (entity_routes meta hs))
  = '(kind, params) ← endpoint_of (toURLPath (emName meta)) method path;
    Some (hs_of kind hs meta, params).
Proof.
  intros Hl. unfold endpoint_of.
  pose proof (target_of_spec (toURLPath (emName meta)) path Hl) as Ht.
  destruct (target_of _ path) as [[|id]|]; cbn [mbind option_bind].
  - subst path. rewrite Mux_find_collection by done. by destruct method.
  - destruct Ht as [Hid ->]. rewrite Mux_find_item by done. by destruct method.
  - destruct Ht. by apply Mux_find_unmatched.
Qed.

(** The methods the mux collects for a path are those of the table. *)
Lemma Mux_allowed_endpoint ms meta hs path :
  literal_segment (toURLPath (emName meta)) ->
  Mux_allowed path (mkMux ms (entity_routes meta hs))
  = allowed_of (toURLPath (emName meta)) path.
Proof.
  intros Hl. unfold allowed_of.
  pose proof (target_of_spec (toURLPath (emName meta)) path Hl) as Ht.
  destruct (target_of _ path) as [[|id]|].
  - subst path. by apply Mux_allowed_collection.
  - destruct Ht as [Hid ->]. by apply Mux_allowed_item.
  - destruct Ht. by apply Mux_allowed_unmatched.
Qed.

(** The mux routes every request as the table says: to the handler of
    the endpoint, to the method-not-allowed handler with the methods of
    the path, or to the not-found handler. *)
Lemma Mux_route_endpoint ms meta hs method path :
  literal_segment (toURLPath (emName meta)) ->
  Mux_route method path (mkMux ms (entity_routes meta hs))
  = route_of (toURLPath (emName meta)) hs meta method path.
Proof.
  intros Hl. unfold Mux_route, route_of.
  rewrite Mux_find_endpoint, Mux_allowed_endpoint by done.
  destruct (endpoint_of _ method path) as [[kind params]|] eqn:He; cbn [mbind option_bind].
  - destruct method; try done. unfold endpoint_of in He.
    by destruct (target_of _ path) as [[|id]|].
  - done.
Qed.

End routing.

(** ** The service implements the interface *)

Section simulation.
Context {DB Conn : Type}.
Context `{Driver unit DB any} `{MethodSet (Ctx:=unit) (Tx:=DB) any} `{Codec}.
Context (inv : DB -> Prop) (abs : DB -> Rows) `{!GormSpec DB inv abs}.
Implicit Types (h : Handlers Conn) (meta : EntityMeta) (st : DB) (i : Incoming unit).
Implicit Types (router : Router (Middleware (Ctx:=unit) (DB:=DB)) (Handler unit DB)).

Lemma hs_of_handler kind h meta : hs_of kind h meta = handler_of kind h meta.
Proof. by destruct kind. Qed.

Lemma op_of_params kind (r : Request unit) :
  op_of kind r = op_of kind (mkRequest tt "" (rParams r)).
Proof. by destruct kind. Qed.

(** A request through the router of the entity is served by the
    handler of its endpoint, or answered by the mux. *)
Lemma ServeHTTP_endpoint h meta router i st :
  RegisterEntityRoutes Router.Router.New meta h = Ok router ->
  literal_segment (toURLPath (emName meta)) ->
  ServeHTTP (rMux router) i st
  = match endpoint_of (toURLPath (emName meta)) (inMethod i) (inPath i) with
    | Some (kind, params) =>
        handler_of kind h meta (mkRequest (inContext i) (inBody i) params) st
    | None => Ok (unrouted (toURLPath (emName meta)) (inMethod i) (inPath i), st)
    end.
Proof.
  unfold Router.Router.New. intros Hreg%RegisterEntityRoutes_New Hl. subst router.
  unfold ServeHTTP, routed. cbn [rMux muxMiddlewares foldr].
  rewrite Mux_route_endpoint by done. unfold route_of, unrouted.
  destruct (endpoint_of _ _ _) as [[kind params]|]; [by rewrite hs_of_handler|].
  destruct (negb _); [done|]. by destruct (allowed_of _ _).
Qed.

(** One request, given that the handler of its endpoint takes a step
    of the resource. *)
Lemma ServeHTTP_step_with h meta router i st :
  RegisterEntityRoutes Router.Router.New meta h = Ok router ->
  literal_segment (toURLPath (emName meta)) -> inv st ->
  (forall kind params,
     endpoint_of (toURLPath (emName meta)) (inMethod i) (inPath i) = Some (kind, params) ->
     simulates inv abs meta st (op_of kind (mkRequest tt "" params))
       (handler_of kind h meta (mkRequest (inContext i) (inBody i) params) st)) ->
  exists resp st',
    ServeHTTP (rMux router) i st = Ok (resp, st') /\ inv st' /\
    api_step meta (toURLPath (emName meta)) (abs st) i resp (abs st').
Proof.
  intros Hreg Hl Hinv Hsim. rewrite (ServeHTTP_endpoint h meta router i st Hreg Hl).
  destruct (endpoint_of _ _ _) as [[kind params]|] eqn:He.
  - destruct (Hsim kind params eq_refl) as (resp & st' & -> & Hinv' & Hstep).
    exists resp, st'. split; [done|]. split; [done|].
    eapply api_routed; [|done]. unfold api. by rewrite He.
  - eexists _, st. split; [done|]. split; [done|].
    apply api_unrouted. unfold api. by rewrite He.
Qed.

(** The requests of a client, given that the handlers of their
    endpoints take steps of the resource. *)
Lemma serve_requests_run_with h meta router reqs st :
  RegisterEntityRoutes Router.Router.New meta h = Ok router ->
  literal_segment (toURLPath (emName meta)) -> inv st ->
  Forall (fun i => forall st kind params, inv st ->
     endpoint_of (toURLPath (emName meta)) (inMethod i) (inPath i) = Some (kind, params) ->
     simulates inv abs meta st (op_of kind (mkRequest tt "" params))
       (handler_of kind h meta (mkRequest (inContext i) (inBody i) params) st)) reqs ->
  exists resps st',
    serve_requests (rMux router) reqs st = Ok (resps, st') /\ inv st' /\
    api_run meta (toURLPath (emName meta)) (abs st) reqs resps (abs st').
Proof.
  intros Hreg Hl Hinv Hsim. revert st Hinv.
  induction Hsim as [|i reqs Hi _ IH]; intros st Hinv.
  { exists [], st. split; [done|]. split; [done|constructor]. }
  destruct (ServeHTTP_step_with h meta router i st Hreg Hl Hinv)
    as (resp & st1 & Hrun & Hinv1 & Hstep); [by auto|].
  destruct (IH st1 Hinv1) as (resps & st2 & Hrest & Hinv2 & Hsteps).
  exists (resp :: resps), st2. cbn [serve_requests]. rewrite Hrun. cbn [mbind outcome_bind].
  rewrite Hrest. split; [done|]. split; [done|]. by econstructor.
Qed.

(** The router of an entity whose name has no upper-case Z (and no
    form feed, which no Go identifier has): registration does not
    panic and the path of the entity is taken literally. *)
Lemma entity_router h meta :
  ~ In "Z"%char (chars (emName meta)) -> ~ In "014"%char (chars (emName meta)) ->
  exists router,
    RegisterEntityRoutes Router.Router.New meta h = Ok router /\
    literal_segment (toURLPath (emName meta)).
Proof.
  intros Hz Hf. eexists. split; [by apply RegisterEntityRoutes_no_Z|].
  by apply literal_toURLPath.
Qed.

(** The handlers a GET reaches take steps of the resource, whatever
    the hooks of the entity do. *)
Lemma get_simulates h meta i st kind params :
  db h <> None -> inv st -> inMethod i = MGet ->
  endpoint_of (toURLPath (emName meta)) (inMethod i) (inPath i) = Some (kind, params) ->
  simulates inv abs meta st (op_of kind (mkRequest tt "" params))
    (handler_of kind h meta (mkRequest (inContext i) (inBody i) params) st).
Proof.
  intros Hdb Hinv ->. unfold endpoint_of.
  destruct (target_of _ _) as [[|id]|]; cbn; intros [= <- <-].
  - by apply (ListHandler_simulates inv abs h meta (mkRequest (inContext i) (inBody i) [])).
  - by apply (GetHandler_simulates inv abs h meta
                (mkRequest (inContext i) (inBody i) [("id", id)])).
Qed.

(** C33. GET is safe: requests by GET, on any paths, leave the rows of the
    entity as they were, and every one of them is answered with one of
    the statuses 200, 400 and 404. *)
Theorem service_get_safe h meta reqs st :
  ~ In "Z"%char (chars (emName meta)) -> ~ In "014"%char (chars (emName meta)) ->
  db h <> None -> inv st ->
  Forall (fun i => inMethod i = MGet) reqs ->
  exists router resps st',
    RegisterEntityRoutes Router.Router.New meta h = Ok router /\
    serve_requests (rMux router) reqs st = Ok (resps, st') /\
    abs st' = abs st /\
    Forall (fun resp => In (status resp) [200; 400; 404]) resps.
Proof.
  intros Hz Hf Hdb Hinv Hget. destruct (entity_router h meta Hz Hf) as (router & Hreg & Hl).
  destruct (serve_requests_run_with h meta router reqs st Hreg Hl Hinv)
    as (resps & st' & Hrun & _ & Hsteps).
  { eapply Forall_impl; [exact Hget|]. intros i Hi st1 kind params Hinv1.
    by apply get_simulates. }
  exists router, resps, st'. split; [done|]. split; [done|].
  split; [by eapply api_run_get|]. by eapply api_run_get_status.
Qed.

(** The hooks of the entity type leave the database as it is. *)
Hypothesis hooks_keep_db : forall n ctx e st, (Call n ctx e st).1.2 = st.

(** One request through the router of the entity: the mux picks the
    handler of the table, and the handler takes a step of the
    resource; a request outside the table is answered by the mux and
    changes nothing. *)
Lemma ServeHTTP_step h meta router i st :
  RegisterEntityRoutes Router.Router.New meta h = Ok router ->
  literal_segment (toURLPath (emName meta)) -> db h <> None -> inv st ->
  exists resp st',
    ServeHTTP (rMux router) i st = Ok (resp, st') /\ inv st' /\
    api_step meta (toURLPath (emName meta)) (abs st) i resp (abs st').
Proof.
  intros Hreg Hl Hdb Hinv. apply (ServeHTTP_step_with h meta router i st Hreg Hl Hinv).
  intros kind params _.
  change (mkRequest tt "" params)
    with (mkRequest tt "" (rParams (mkRequest (inContext i) (inBody i) params))).
  rewrite <- op_of_params. by apply handlers_simulate.
Qed.

Lemma serve_requests_run h meta router reqs st :
  RegisterEntityRoutes Router.Router.New meta h = Ok router ->
  literal_segment (toURLPath (emName meta)) -> db h <> None -> inv st ->
  exists resps st',
    serve_requests (rMux router) reqs st = Ok (resps, st') /\ inv st' /\
    api_run meta (toURLPath (emName meta)) (abs st) reqs resps (abs st').
Proof.
  intros Hreg Hl Hdb Hinv. apply (serve_requests_run_with h meta router reqs st Hreg Hl Hinv).
  apply Forall_forall. intros i _ st1 kind params Hinv1 _.
  change (mkRequest tt "" params)
    with (mkRequest tt "" (rParams (mkRequest (inContext i) (inBody i) params))).
  rewrite <- op_of_params. by apply handlers_simulate.
Qed.

(** C18. The service of an entity implements the interface: for an entity
    whose name has no upper-case Z, registration gives a router, and
    the requests of a client, whatever their methods and paths, served
    one after the other through the mux and the handlers against a
    storage driver that keeps the contract and with hooks that leave
    the database alone, return without a panic and are a run of the
    interface on the rows: an operation of the resource for a request
    that reaches an endpoint, and otherwise 405 with the methods of the
    path when the path is the collection or an item, 404 when it is
    neither, and nothing changed. *)
Theorem service_simulates h meta reqs st :
  ~ In "Z"%char (chars (emName meta)) -> ~ In "014"%char (chars (emName meta)) ->
  db h <> None -> inv st ->
  exists router resps st',
    RegisterEntityRoutes Router.Router.New meta h = Ok router /\
    serve_requests (rMux router) reqs st = Ok (resps, st') /\ inv st' /\
    api_run meta (toURLPath (emName meta)) (abs st) reqs resps (abs st').
Proof.
  intros Hz Hf Hdb Hinv. destruct (entity_router h meta Hz Hf) as (router & Hreg & Hl).
  destruct (serve_requests_run h meta router reqs st Hreg Hl Hdb Hinv)
    as (resps & st' & ? & ? & ?).
  by exists router, resps, st'.
Qed.

End simulation.

(** ** The example program's Product *)

(** A name without the character, by evaluation. *)
Ltac not_in_name :=
  vm_compute; intros Hin; repeat (destruct Hin as [Hin|Hin]; [discriminate|]); exact Hin.

(** The requests of a client of the example program: a create, a read
    of the created key, a read of a key that is no number, a PUT on
    the collection, which has POST and GET only, a PATCH on an item, a
    POST on the path the documentation gives, and a request by a method
    of the client's own. *)
Definition product_requests : list (Incoming unit) :=
  [ mkIncoming MPost ("/" +:+ toURLPath "Product") tt "Name=pen;Price=3";
    mkIncoming MGet ("/" +:+ toURLPath "Product" +:+ "/1") tt "";
    mkIncoming MGet ("/" +:+ toURLPath "Product" +:+ "/one") tt "";
    mkIncoming MPut ("/" +:+ toURLPath "Product") tt "Name=ink";
    mkIncoming MPatch ("/" +:+ toURLPath "Product" +:+ "/1") tt "Name=ink";
    mkIncoming MPost "/product" tt "Name=pen;Price=3";
    mkIncoming (MOther "BREW") "/product" tt "" ].

Lemma service_simulates_witness :
  exists router resps st',
    RegisterEntityRoutes Router.Router.New product_meta handlers = Ok router /\
    serve_requests (rMux router) product_requests empty_table = Ok (resps, st') /\
    wf_table pk_any st' /\
    api_run product_meta (toURLPath (emName product_meta)) (rows (empty_table (E:=any)))
      product_requests resps (rows st').
Proof.
  apply (service_simulates (H:=any_driver) (H0:=Product_MethodSet) (H1:=pairs_Codec)
           (wf_table pk_any) rows Product_hooks_keep_db handlers product_meta
           product_requests empty_table);
    [not_in_name|not_in_name|done|apply wf_empty_table].
Defined.

Lemma service_get_safe_witness :
  exists router resps st',
    RegisterEntityRoutes Router.Router.New product_meta handlers = Ok router /\
    serve_requests (rMux router)
      [ mkIncoming MGet ("/" +:+ toURLPath "Product") tt "";
        mkIncoming MGet ("/" +:+ toURLPath "Product" +:+ "/1") tt "";
        mkIncoming MGet "/product/1" tt "" ] pen_table = Ok (resps, st') /\
    rows st' = rows pen_table /\
    Forall (fun resp => In (status resp) [200; 400; 404]) resps.
Proof.
  apply (service_get_safe (H:=any_driver) (H0:=Product_MethodSet) (H1:=pairs_Codec)
           (wf_table pk_any) rows handlers product_meta _ pen_table);
    [not_in_name|not_in_name|done|apply wf_pen_table|by repeat constructor].
Defined.

(** The interface at work on the example program: what the requests
    of [product_requests] ask of the resource, and the statuses the
    service answers them with, one after the other, from the empty
    table: 201 for the create, 200 for the read of the key, 400 for the
    read of the id one, 405 for the PUT on the collection and for the
    PATCH on the item, 404 for the documented path, 405 for the unknown
    method. *)
Theorem product_service :
  (fun i : Incoming unit => api (toURLPath "Product") (inMethod i) (inPath i))
    <$> product_requests
    = [Some OpCreate; Some (OpGet 1); Some OpInvalid; None; None; None; None] /\
  unrouted (toURLPath "Product") MPut ("/" +:+ toURLPath "Product")
    = mkResponse 405 [("Allow", "POST"); ("Allow", "GET")] BodyNone /\
  (fun run : list Response * Table any => List.map status run.1)
    <$> serve_requests (rMux product_router) product_requests empty_table
    = Ok [201; 200; 400; 405; 405; 404; 405].
Proof. repeat split; vm_compute; reflexivity. Qed.

End Service.
