(* ===== verification/Session.v ===== *)
(** * Session: the database of the product flows

    The product flow tests of src/example_main.go use gorm on several
    tables at once: a product is created with its items, read back with
    [Preload], saved, deleted; tags are attached through the join table
    of the many2many field; items are selected by their product.  gorm
    and the database are outside the repository; this file is an
    in-memory database of the entities of the test package that answers
    those calls, so that the tests can be run:

    - the tables of products, items and tags are [Repo.Table]s with an
      auto-increment key that is never reused; the join table is a list
      of pairs; a table exists once [AutoMigrate] made it, and a call on
      a table that does not exist fails;
    - the row of an entity holds its columns: the fields tagged
      [gorm:"-"] and the associations are not stored ([columns]);
    - [Create] and [Save] of a product write its items with the
      product's key as their [ProductID], leaving alone an item whose
      key is taken, and link its tags;
    - [Find] and [First] return rows in the order of their keys, load
      the associations named by [Preload] and then run the [AfterFind]
      hook of the entity, which for a product is
      [Entities.AfterFind];
    - [Delete] removes the row of the entity's key and nothing else.

    Timestamps are left as the caller set them. *)

From Stdlib Require Import Ascii String ZArith Lia.
From stdpp Require Import base tactics option list strings gmap sorting.
From S2P Require Import Prelude GoStrings Naming Reflect Entities Meta Parse Hooks Repo.
From S2P Require Import Router Handlers Gorm.

#[local] Set Warnings "-clear-no-such-hyp".

Module Session.
Import Naming.Naming Entities.Entities Meta.Meta Repo.Repo Handlers.Handlers Gorm.Gorm.

(** ** The state *)

Record DB : Type := mkDB {
  migrated : list string;
  products : Table any;
  product_items : Table any;
  tags : Table any;
  product_to_price : list (Z * Z);
}.

Definition empty : DB := mkDB [] empty_table empty_table empty_table [].

(** The tables with a key. *)
Inductive Tbl : Type := TProducts | TItems | TTags.

(** The table of an entity type, by the printed name of the type. *)
Definition tbl_of (t : GoType) : option Tbl :=
  if bool_decide (type_String t = "test.Product") then Some TProducts
  else if bool_decide (type_String t = "test.ProductItem") then Some TItems
  else if bool_decide (type_String t = "test.Tag") then Some TTags
  else None.

Definition get_table (k : Tbl) (db : DB) : Table any :=
  match k with
  | TProducts => products db
  | TItems => product_items db
  | TTags => tags db
  end.

Definition set_table (k : Tbl) (t : Table any) (db : DB) : DB :=
  match k with
  | TProducts => mkDB (migrated db) t (product_items db) (tags db) (product_to_price db)
  | TItems => mkDB (migrated db) (products db) t (tags db) (product_to_price db)
  | TTags => mkDB (migrated db) (products db) (product_items db) t (product_to_price db)
  end.

Definition set_links (links : list (Z * Z)) (db : DB) : DB :=
  mkDB (migrated db) (products db) (product_items db) (tags db) links.

(** ** Names *)

(** The table of a struct type: its name in snake case, in the
    plural. *)
Definition table_name (t : GoType) : string := toSnakeCase (type_Name t) +:+ "s".

(** The join table a field's gorm tag names. *)
Definition many2many (tag : StructTag) : option string :=
  head (omap (fun part => if HasPrefix part "many2many:"
                          then Some (TrimPrefix part "many2many:") else None)
             (Split (Tag_Get tag "gorm") ";"%char)).

Definition join_tables (t : GoType) : list string :=
  omap (fun sf => many2many (sfTag sf)) (default [] (struct_fields t)).

Definition has_table (name : string) (db : DB) : bool :=
  bool_decide (name ∈ migrated db).

Definition no_table (name : string) : error := Some (ErrNew ("no such table: " +:+ name)).

(** The struct type of a model or an entity. *)
Definition model_type (e : any) : option GoType := fst <$> pointee e.

(** ** AutoMigrate *)

Definition migrate_one (acc : DB * error) (model : any) : DB * error :=
  let '(db, err) := acc in
  if err is Some _ then acc
  else match model_type model with
       | Some (TStruct pkg name fields as t) =>
           (mkDB (migrated db ++ table_name t :: join_tables t) (products db)
                 (product_items db) (tags db) (product_to_price db), nil_error)
       | _ => (db, Some (ErrNew "unsupported data type"))
       end.

(** [db.AutoMigrate(models...)] *)
Definition AutoMigrate (models : list any) (db : DB) : DB * error :=
  foldl migrate_one (db, nil_error) models.

(** ** Rows *)

Definition is_association (t : GoType) : bool :=
  match t with
  | TSlice (TStruct _ _ _) => true
  | _ => false
  end.

Definition stored (sf : StructField) : bool :=
  negb (bool_decide (Tag_Get (sfTag sf) "gorm" = "-")) && negb (is_association (sfType sf)).

(** The row of an entity: what is not stored is zero. *)
Definition columns (e : any) : any :=
  foldl (fun e sf => if stored sf then e
                     else with_field (sfName sf) (zero_value 2 (sfType sf)) e)
        e (default [] (model_type e ≫= struct_fields)).

(** The rows of a table in the order of their keys. *)
Definition key_le (a b : Z * any) : Prop := (a.1 <= b.1)%Z.

#[global] Instance key_le_dec : RelDecision key_le := fun a b => decide (a.1 <= b.1)%Z.

Definition ordered (t : Table any) : list any :=
  (merge_sort key_le (map_to_list (rows t))).*2.

Definition entity_of (t : GoType) (v : GoValue) : any := Some (TPtr t, VPtr (Some v)).

Definition value_of (e : any) : option GoValue := snd <$> pointee e.

(** ** Create and Save *)

(** The entity's row is inserted; the entity gets the key of the
    row. *)
Definition create_row (k : Tbl) (e : any) (db : DB) : any * DB * error :=
  let '(row, t, err) := table_Create pk_any set_pk_any (columns e) (get_table k db) in
  (set_pk_any (pk_any row) e, set_table k t db, err).

(** An item of a product is written with the product's key; an item
    whose key is taken is left as it is in the table. *)
Definition save_item (owner : Z) (acc : list GoValue * DB) (v : GoValue) : list GoValue * DB :=
  let e := with_field "ProductID" (VInt owner) (entity_of TestPkg.ProductItem v) in
  let '(e, db, _) := create_row TItems e acc.2 in
  (acc.1 ++ [default v (value_of e)], db).

Definition save_items (p : any) (db : DB) : any * DB :=
  let '(items, db) := foldl (save_item (pk_any p)) ([], db) (field_slice p "ProductItems") in
  (with_field "ProductItems" (VSlice items) p, db).

(** A tag of a product is written when it is new, and linked. *)
Definition save_tag (owner : Z) (acc : list GoValue * DB) (v : GoValue) : list GoValue * DB :=
  let '(e, db, _) := create_row TTags (entity_of TestPkg.Tag v) acc.2 in
  let link := (owner, pk_any e) in
  (acc.1 ++ [default v (value_of e)],
   if bool_decide (link ∈ product_to_price db) then db
   else set_links (product_to_price db ++ [link]) db).

Definition save_tags (p : any) (tags : list GoValue) (db : DB) : list GoValue * DB :=
  foldl (save_tag (pk_any p)) ([], db) tags.

(** The tables the associations of an entity need. *)
Definition has_some (e : any) (name : string) : bool :=
  if field_slice e name is [] then false else true.

Definition associations_ready (e : any) (db : DB) : error :=
  if has_some e "ProductItems" && negb (has_table "product_items" db)
  then no_table "product_items"
  else if has_some e "Tags" && negb (has_table "tags" db) then no_table "tags"
  else if has_some e "Tags" && negb (has_table "product_to_price" db)
  then no_table "product_to_price"
  else nil_error.

Definition save_associations (k : Tbl) (e : any) (db : DB) : any * DB :=
  match k with
  | TProducts =>
      let '(e, db) := save_items e db in
      let '(tags, db) := save_tags e (field_slice e "Tags") db in
      (with_field "Tags" (VSlice tags) e, db)
  | _ => (e, db)
  end.

(** [db.Create(e)] *)
Definition Create (e : any) (db : DB) : any * DB * error :=
  match model_type e ≫= fun t => pair t <$> tbl_of t with
  | None => (e, db, Some (ErrNew "unsupported data type"))
  | Some (t, k) =>
      if negb (has_table (table_name t) db) then (e, db, no_table (table_name t))
      else if associations_ready e db is Some err then (e, db, Some err)
      else
        let '(e', db', err) := create_row k e db in
        if err is Some _ then (e, db, err)
        else let '(e', db') := save_associations k e' db' in (e', db', nil_error)
  end.

(** [db.Save(e)]: an entity without a key is created; the row of an
    entity with a key is written over. *)
Definition Save (e : any) (db : DB) : any * DB * error :=
  if bool_decide (pk_any e = 0%Z) then Create e db
  else
    match model_type e ≫= fun t => pair t <$> tbl_of t with
    | None => (e, db, Some (ErrNew "unsupported data type"))
    | Some (t, k) =>
        if negb (has_table (table_name t) db) then (e, db, no_table (table_name t))
        else if associations_ready e db is Some err then (e, db, Some err)
        else
          let db' := set_table k (table_insert (pk_any e) (columns e) (get_table k db)) db in
          let '(e', db') := save_associations k e db' in (e', db', nil_error)
    end.

(** ** Delete *)

(** [db.Delete(e)]: the row of the key of [e]. *)
Definition Delete (e : any) (db : DB) : DB * error :=
  match model_type e ≫= fun t => pair t <$> tbl_of t with
  | None => (db, Some (ErrNew "unsupported data type"))
  | Some (t, k) =>
      if negb (has_table (table_name t) db) then (db, no_table (table_name t))
      else if bool_decide (pk_any e = 0%Z) then (db, Some (ErrNew "WHERE conditions required"))
      else (set_table k (table_Delete (pk_any e) (get_table k db)).1 db, nil_error)
  end.

(** ** Find and First *)

(** The items of a product and its tags, in the order of their keys. *)
Definition items_of (id : Z) (db : DB) : list GoValue :=
  omap value_of (List.filter (fun e => bool_decide (field_int e "ProductID" = id))
                             (ordered (product_items db))).

Definition tags_of (id : Z) (db : DB) : list GoValue :=
  omap value_of (List.filter (fun e => bool_decide ((id, pk_any e) ∈ product_to_price db))
                             (ordered (tags db))).

(** [Preload(name)] on a row of products. *)
Definition preload (db : DB) (acc : any * error) (name : string) : any * error :=
  let '(row, err) := acc in
  if err is Some _ then acc
  else if bool_decide (name = "ProductItems") then
    if has_table "product_items" db
    then (with_field name (VSlice (items_of (pk_any row) db)) row, nil_error)
    else (row, no_table "product_items")
  else if bool_decide (name = "Tags") then
    if has_table "tags" db && has_table "product_to_price" db
    then (with_field name (VSlice (tags_of (pk_any row) db)) row, nil_error)
    else (row, no_table "product_to_price")
  else (row, Some (ErrNew (name +:+ ": unsupported relations for schema"))).

(** The hook [AfterFind] of the entity's type; only the product has
    one. *)
Definition after_find (k : Tbl) (row : any) : outcome (any * error) :=
  match k with
  | TProducts => AfterFind row
  | _ => Ok (row, nil_error)
  end.

(** One row as a query returns it. *)
Definition load (k : Tbl) (preloads : list string) (db : DB) (row : any)
    : outcome (any * error) :=
  let '(row, err) := foldl (preload db) (row, nil_error)
                           (if k is TProducts then preloads else []) in
  if err is Some _ then Ok (row, err) else after_find k row.

Fixpoint load_all (k : Tbl) (preloads : list string) (db : DB) (rows : list any)
    : outcome (list any * error) :=
  match rows with
  | [] => Ok ([], nil_error)
  | row :: rest =>
      '(row, err) ← load k preloads db row;
      if err is Some _ then Ok ([], err)
      else
        '(rest, err) ← load_all k preloads db rest;
        if err is Some _ then Ok ([], err) else Ok (row :: rest, nil_error)
  end.

(** [db.Preload(p1)...Find(&entities)] for a slice of [t]. *)
Definition Find (t : GoType) (preloads : list string) (db : DB) : outcome (list any * error) :=
  match tbl_of t with
  | None => Ok ([], Some (ErrNew "unsupported data type"))
  | Some k =>
      if negb (has_table (table_name t) db) then Ok ([], no_table (table_name t))
      else load_all k preloads db (ordered (get_table k db))
  end.

(** [db.Preload(p1)...First(&entity, id)] for an entity of [t]. *)
Definition First (t : GoType) (preloads : list string) (id : Z) (db : DB)
    : outcome (any * error) :=
  match tbl_of t with
  | None => Ok (reflect_New t, Some (ErrNew "unsupported data type"))
  | Some k =>
      if negb (has_table (table_name t) db) then Ok (reflect_New t, no_table (table_name t))
      else match rows (get_table k db) !! id with
           | Some row => load k preloads db row
           | None => Ok (reflect_New t, Some ErrRecordNotFound)
           end
  end.

(** The field a column names: columns are fields in snake case. *)
Definition column_field (t : GoType) (column : string) : option string :=
  sfName <$> List.find (fun sf => bool_decide (toSnakeCase (sfName sf) = column))
                       (default [] (struct_fields t)).

(** [db.Where("column = ?", value).Find(&entities)] for a slice of
    [t]. *)
Definition Where_Find (t : GoType) (column : string) (value : Z) (db : DB)
    : outcome (list any * error) :=
  match tbl_of t, column_field t column with
  | Some k, Some name =>
      if negb (has_table (table_name t) db) then Ok ([], no_table (table_name t))
      else load_all k [] db
             (List.filter (fun e => bool_decide (field_int e name = value))
                          (ordered (get_table k db)))
  | Some _, None => Ok ([], Some (ErrNew ("no such column: " +:+ column)))
  | None, _ => Ok ([], Some (ErrNew "unsupported data type"))
  end.

(** ** Associations *)

(** [db.Model(owner).Association(name).Append(values...)] *)
Definition Append (owner : any) (name : string) (values : list any) (db : DB)
    : any * DB * error :=
  if negb (bool_decide (type_String <$> model_type owner = Some "test.Product")
           && bool_decide (name = "Tags"))
  then (owner, db, Some (ErrNew "unsupported relations"))
  else if negb (has_table "tags" db && has_table "product_to_price" db)
  then (owner, db, no_table "product_to_price")
  else
    let '(tags, db) := save_tags owner (omap value_of values) db in
    (with_field "Tags" (VSlice (field_slice owner "Tags" ++ tags)) owner, db, nil_error).

(** ** Theorems *)

Section facts.
Implicit Types (db : DB) (e : any) (t : Table any).

#[local] Instance key_le_total : Total key_le.
Proof. intros a b. unfold key_le. lia. Qed.

#[local] Instance key_le_trans : Transitive key_le.
Proof. intros a b c. unfold key_le. lia. Qed.

(** A query lists every row once, in the order of the keys. *)
Theorem ordered_sorted t :
  ordered t ≡ₚ (map_to_list (rows t)).*2 /\
  StronglySorted key_le (merge_sort key_le (map_to_list (rows t))) /\
  length (ordered t) = size (rows t).
Proof.
  unfold ordered. split; [by rewrite merge_sort_Permutation|].
  split; [apply StronglySorted_merge_sort; apply _|].
  by rewrite length_fmap, merge_sort_Permutation, length_map_to_list.
Qed.

Lemma set_table_other j k t db : j <> k -> get_table j (set_table k t db) = get_table j db.
Proof. by destruct j, k. Qed.

Lemma set_table_links k t db : product_to_price (set_table k t db) = product_to_price db.
Proof. by destruct k. Qed.

(** [Delete] removes at most a row of the table of the entity: the
    other tables and the join table are as they were, so the items and
    the links of a deleted product stay. *)
Theorem Delete_no_cascade e db (ty : GoType) k :
  model_type e = Some ty -> tbl_of ty = Some k ->
  let db' := (Delete e db).1 in
  (forall j, j <> k -> get_table j db' = get_table j db) /\
  product_to_price db' = product_to_price db /\
  migrated db' = migrated db /\
  forall id, id <> pk_any e -> rows (get_table k db') !! id = rows (get_table k db) !! id.
Proof.
  intros Ht Hk. unfold Delete. rewrite Ht. cbn [mbind option_bind]. rewrite Hk.
  cbn [fmap option_fmap option_map]. destruct (has_table _ db); cbn [negb]; [|done].
  case_bool_decide; [done|]. cbn [fst]. split; [intros j Hj; by apply set_table_other|].
  split; [apply set_table_links|]. split; [by destruct k|].
  intros id Hid. destruct k; cbn; by rewrite lookup_delete_ne.
Qed.

End facts.

(** The tables [AutoMigrate] makes for the entities of the tests are
    those the metadata of [Parse] names; the join table that the tag of
    [Product.Tags] names is product_to_price, which is not the table of
    the entity ProductToPrice, so the links of a product are no rows of
    that entity. *)
Theorem table_names :
  Forall (fun t => exists pkg name fields,
            t = TStruct pkg name fields /\
            table_name t = emTableName (Parse.Parse.describe pkg name fields))
         [TestPkg.Product; TestPkg.ProductItem; TestPkg.Tag; TestPkg.ProductToPrice] /\
  join_tables TestPkg.Product = ["product_to_price"] /\
  table_name TestPkg.ProductToPrice = "product_to_prices" /\
  migrated (AutoMigrate [new_of TestPkg.Product; new_of TestPkg.ProductItem;
                         new_of TestPkg.Tag; new_of TestPkg.ProductToPrice] empty).1
  = ["products"; "product_to_price"; "product_items"; "tags"; "product_to_prices"].
Proof.
  split; [|by vm_compute].
  repeat constructor; eexists _, _, _; (split; [reflexivity|vm_compute; reflexivity]).
Qed.

Lemma Delete_no_cascade_witness :
  let e := composite TestPkg.Product [("ID", VInt 1)] in
  let db' := (Delete e empty).1 in
  (forall j, j <> TProducts -> get_table j db' = get_table j empty) /\
  product_to_price db' = product_to_price empty /\
  migrated db' = migrated empty /\
  forall id, id <> pk_any e ->
    rows (get_table TProducts db') !! id = rows (get_table TProducts empty) !! id.
Proof.
  exact (Delete_no_cascade (composite TestPkg.Product [("ID", VInt 1)]) empty
           TestPkg.Product TProducts eq_refl eq_refl).
Defined.

End Session.
