(* ===== verification/HooksTest.v ===== *)
(** * HooksTest: the tests of the hook dispatchers

    The nine test functions of src/unnamed/part_004 (package hooks),
    statement by statement.  Each builds a test entity, calls one or
    more dispatchers with the background context and a nil transaction
    handle, and checks the returned error and the flag the entity's
    method sets.  The context is [tt]; the nil [*gorm.DB] is [None].
    An entity is passed by pointer, so a dispatcher returns the entity
    as the method left it and the test reads the flags of that value. *)

From Stdlib Require Import Ascii String ZArith.
From stdpp Require Import base tactics option list strings.
From S2P Require Import Prelude Reflect Hooks Testing.

Module HooksTest.
Import Hooks.Hooks Testing.Testing.

(** [context.Background()] and the nil transaction handle. *)
Definition Background : unit := tt.
Definition nil_tx : option unit := None.

(** [&MockEntityWithHooks{ShouldFail: true}] *)
Definition mock_failing : MockEntityWithHooks :=
  mkMock 0 "" false false false false false false true.

(** [&SimpleEntity{}] *)
Definition simple_zero : SimpleEntity := mkSimple 0 "".

Definition TestCallBeforeCreate : Test unit :=
  let ctx := Background in
  let entity := mock_zero in
  let '(entity, _, err) := CallBeforeCreate ctx entity nil_tx in
  _ ← when (bool_decide (err <> nil_error))
        (Fatalf "expected no error, got %v" [AError err]);
  when (negb (BeforeCreateCalled entity))
    (Fatal [AString "expected BeforeCreate to be called"]).

Definition TestCallBeforeCreateWithError : Test unit :=
  let ctx := Background in
  let entity := mock_failing in
  let '(entity, _, err) := CallBeforeCreate ctx entity nil_tx in
  when (bool_decide (err = nil_error))
    (Fatal [AString "expected error from BeforeCreate"]).

Definition TestCallBeforeCreateNoImplementation : Test unit :=
  let ctx := Background in
  let entity := simple_zero in
  let '(entity, _, err) := CallBeforeCreate ctx entity nil_tx in
  when (bool_decide (err <> nil_error))
    (Fatalf "expected no error for entity without hook, got %v" [AError err]).

Definition TestCallAfterCreate : Test unit :=
  let ctx := Background in
  let entity := mock_zero in
  let '(entity, _, err) := CallAfterCreate ctx entity nil_tx in
  _ ← when (bool_decide (err <> nil_error))
        (Fatalf "expected no error, got %v" [AError err]);
  when (negb (AfterCreateCalled entity))
    (Fatal [AString "expected AfterCreate to be called"]).

Definition TestCallBeforeUpdate : Test unit :=
  let ctx := Background in
  let entity := mock_zero in
  let '(entity, _, err) := CallBeforeUpdate ctx entity nil_tx in
  _ ← when (bool_decide (err <> nil_error))
        (Fatalf "expected no error, got %v" [AError err]);
  when (negb (BeforeUpdateCalled entity))
    (Fatal [AString "expected BeforeUpdate to be called"]).

Definition TestCallAfterUpdate : Test unit :=
  let ctx := Background in
  let entity := mock_zero in
  let '(entity, _, err) := CallAfterUpdate ctx entity nil_tx in
  _ ← when (bool_decide (err <> nil_error))
        (Fatalf "expected no error, got %v" [AError err]);
  when (negb (AfterUpdateCalled entity))
    (Fatal [AString "expected AfterUpdate to be called"]).

Definition TestCallBeforeDelete : Test unit :=
  let ctx := Background in
  let entity := mock_zero in
  let '(entity, _, err) := CallBeforeDelete ctx entity nil_tx in
  _ ← when (bool_decide (err <> nil_error))
        (Fatalf "expected no error, got %v" [AError err]);
  when (negb (BeforeDeleteCalled entity))
    (Fatal [AString "expected BeforeDelete to be called"]).

Definition TestCallAfterDelete : Test unit :=
  let ctx := Background in
  let entity := mock_zero in
  let '(entity, _, err) := CallAfterDelete ctx entity nil_tx in
  _ ← when (bool_decide (err <> nil_error))
        (Fatalf "expected no error, got %v" [AError err]);
  when (negb (AfterDeleteCalled entity))
    (Fatal [AString "expected AfterDelete to be called"]).

Definition TestMultipleHooks : Test unit :=
  let ctx := Background in
  let entity := mock_zero in
  let '(entity, _, err) := CallBeforeCreate ctx entity nil_tx in
  _ ← when (bool_decide (err <> nil_error)) (Fatal [AError err]);
  let '(entity, _, err) := CallAfterCreate ctx entity nil_tx in
  _ ← when (bool_decide (err <> nil_error)) (Fatal [AError err]);
  let '(entity, _, err) := CallBeforeUpdate ctx entity nil_tx in
  _ ← when (bool_decide (err <> nil_error)) (Fatal [AError err]);
  let '(entity, _, err) := CallAfterUpdate ctx entity nil_tx in
  _ ← when (bool_decide (err <> nil_error)) (Fatal [AError err]);
  let '(entity, _, err) := CallBeforeDelete ctx entity nil_tx in
  _ ← when (bool_decide (err <> nil_error)) (Fatal [AError err]);
  let '(entity, _, err) := CallAfterDelete ctx entity nil_tx in
  _ ← when (bool_decide (err <> nil_error)) (Fatal [AError err]);
  when (negb (BeforeCreateCalled entity) || negb (AfterCreateCalled entity) ||
        negb (BeforeUpdateCalled entity) || negb (AfterUpdateCalled entity) ||
        negb (BeforeDeleteCalled entity) || negb (AfterDeleteCalled entity))
    (Fatal [AString "expected all hooks to be called"]).

(** The test functions of the package, in the order of the file. *)
Definition tests : list (string * Test unit) :=
  [ ("TestCallBeforeCreate", TestCallBeforeCreate);
    ("TestCallBeforeCreateWithError", TestCallBeforeCreateWithError);
    ("TestCallBeforeCreateNoImplementation", TestCallBeforeCreateNoImplementation);
    ("TestCallAfterCreate", TestCallAfterCreate);
    ("TestCallBeforeUpdate", TestCallBeforeUpdate);
    ("TestCallAfterUpdate", TestCallAfterUpdate);
    ("TestCallBeforeDelete", TestCallBeforeDelete);
    ("TestCallAfterDelete", TestCallAfterDelete);
    ("TestMultipleHooks", TestMultipleHooks) ].

(** ** The tests pass *)

(** Every test of the dispatchers runs to its end, logs nothing and
    leaves the failure flag unset. *)
Theorem hook_tests_pass :
  Forall (fun test => test.2 new_T = (new_T, Some tt)) tests.
Proof. repeat constructor. Qed.

End HooksTest.
