(* ===== verification/MetaTests.v ===== *)
(** * MetaTests: the tests of the parser

    The eight test functions of src/internal/meta/parse_test.go
    (package meta), statement by statement.  Each declares the struct
    type it parses inside the function; three of them are named
    Product and two Entity, so the types carry the name of their test
    here and keep package and name as the compiler gives them.  Seven
    tests reset the registry and parse a pointer to a zero value; the
    eighth runs [toSnakeCase] over a table.

    The registry is a variable of the package: a test takes the store
    it finds and returns the store it leaves.  A dereference of the
    descriptor the parser returned is [Parse.deref] followed by
    [indirect]. *)

From Stdlib Require Import Ascii String ZArith Lia.
From stdpp Require Import base tactics option list strings gmap.
From S2P Require Import Prelude Naming Reflect Testing Entities Meta Parse.

Module MetaTests.
Import Testing.Testing Naming.Naming Entities.Entities Meta.Meta Parse.Parse.

(** ** The struct types of the tests *)

Definition TestParseBasicStruct_Product : GoType :=
  TStruct "meta" "Product" (fields_of
    [ ("ID", TBasic BUint, pk_tag);
      ("Name", TBasic BString, []);
      ("Price", TBasic BFloat64, []) ]).

Definition TestParseWithPrimaryKey_Entity : GoType :=
  TStruct "meta" "Entity" (fields_of
    [ ("ID", TBasic BUint, pk_tag);
      ("Name", TBasic BString, []) ]).

Definition TestParseWithPointerType_Product : GoType :=
  TStruct "meta" "Product" (fields_of
    [ ("ID", TBasic BUint, []);
      ("Name", TBasic BString, []) ]).

Definition TestCaching_User : GoType :=
  TStruct "meta" "User" (fields_of
    [ ("ID", TBasic BUint, []);
      ("Name", TBasic BString, []) ]).

Definition TestParseTableName_Article : GoType :=
  TStruct "meta" "Article" (fields_of
    [ ("ID", TBasic BUint, []);
      ("Title", TBasic BString, []) ]).

Definition TestParseFieldTags_Product : GoType :=
  TStruct "meta" "Product" (fields_of
    [ ("ID", TBasic BUint, [("go-blar", "pk")]);
      ("Name", TBasic BString, []);
      ("Secret", TBasic BString, [("go-blar", "hidden")]);
      ("ReadOnly", TBasic BString, [("go-blar", "readonly")]);
      ("Items", TSlice (TBasic BString), [("go-blar", "list")]) ]).

Definition TestGetFieldByName_Entity : GoType :=
  TStruct "meta" "Entity" (fields_of
    [ ("ID", TBasic BUint, []);
      ("Name", TBasic BString, []);
      ("Age", TBasic BInt, []) ]).

(** ** The tests *)

(** [*meta] for the pointer [Parse] returned. *)
Definition at_ptr (st : Store) (meta : ptr) : Test EntityMeta :=
  or_panic (indirect (deref st meta)).

Definition TestParseBasicStruct (st : Store) : Test Store :=
  let st := ClearRegistry st in
  '(meta, err, st) ← or_panic (Parse (new_of TestParseBasicStruct_Product) st);
  _ ← when (bool_decide (err <> nil_error))
        (Fatalf "expected no error, got %v" [AError err]);
  _ ← when (is_nil (Some meta)) (Fatal [AString "expected meta to be non-nil"]);
  m ← at_ptr st meta;
  _ ← when (bool_decide (emName m <> "Product"))
        (Fatalf "expected name Product, got %s" [AString (emName m)]);
  _ ← when (bool_decide (Some (emType m) <> TypeOf (zero_of TestParseBasicStruct_Product)))
        (Fatalf "expected correct type" []);
  _ ← when (bool_decide (length (emFields m) = 0))
        (Fatal [AString "expected fields to be parsed"]);
  mret st.

Definition TestParseWithPrimaryKey (st : Store) : Test Store :=
  let st := ClearRegistry st in
  '(meta, err, st) ← or_panic (Parse (new_of TestParseWithPrimaryKey_Entity) st);
  _ ← when (bool_decide (err <> nil_error))
        (Fatalf "expected no error, got %v" [AError err]);
  m ← at_ptr st meta;
  _ ← when (is_nil (emPKField m))
        (Fatal [AString "expected primary key field to be detected"]);
  pk ← or_panic (indirect (emPKField m));
  _ ← when (bool_decide (fmName pk <> "ID"))
        (Fatalf "expected PK to be ID, got %s" [AString (fmName pk)]);
  mret st.

Definition TestParseWithPointerType (st : Store) : Test Store :=
  let st := ClearRegistry st in
  '(meta, err, st) ← or_panic (Parse (new_of TestParseWithPointerType_Product) st);
  _ ← when (bool_decide (err <> nil_error))
        (Fatalf "expected no error, got %v" [AError err]);
  m ← at_ptr st meta;
  _ ← when (bool_decide (type_Kind (emType m) = KPtr))
        (Fatal [AString "expected dereferenced type"]);
  mret st.

Definition TestCaching (st : Store) : Test Store :=
  let st := ClearRegistry st in
  '(meta1, err, st) ← or_panic (Parse (new_of TestCaching_User) st);
  _ ← when (bool_decide (err <> nil_error)) (Fatal [AError err]);
  '(meta2, err, st) ← or_panic (Parse (new_of TestCaching_User) st);
  _ ← when (bool_decide (err <> nil_error)) (Fatal [AError err]);
  _ ← when (bool_decide (meta1 <> meta2))
        (Fatal [AString "expected cached metadata to be the same instance"]);
  mret st.

Definition TestParseTableName (st : Store) : Test Store :=
  let st := ClearRegistry st in
  '(meta, err, st) ← or_panic (Parse (new_of TestParseTableName_Article) st);
  _ ← when (bool_decide (err <> nil_error)) (Fatal [AError err]);
  m ← at_ptr st meta;
  _ ← when (bool_decide (emTableName m = ""))
        (Fatal [AString "expected table name to be set"]);
  mret st.

(** The table of [TestToSnakeCase]: input and expected result. *)
Definition snake_cases : list (string * string) :=
  [ ("UserName", "user_name"); ("ID", "id"); ("Product", "product");
    ("HTTPServer", "http_server") ].

Definition TestToSnakeCase (st : Store) : Test Store :=
  let tests := snake_cases in
  _ ← for_each tests (fun case =>
        let result := toSnakeCase case.1 in
        when (bool_decide (result <> case.2))
          (Errorf "toSnakeCase(%s) = %s, expected %s"
             [AString case.1; AString result; AString case.2]));
  mret st.

(** [field == nil || !field.flag] *)
Definition lacks (field : option FieldMeta) (flag : FieldMeta -> bool) : bool :=
  match field with
  | None => true
  | Some f => negb (flag f)
  end.

Definition TestParseFieldTags (st : Store) : Test Store :=
  let st := ClearRegistry st in
  '(meta, err, st) ← or_panic (Parse (new_of TestParseFieldTags_Product) st);
  _ ← when (bool_decide (err <> nil_error)) (Fatal [AError err]);
  m ← at_ptr st meta;
  let idField := GetFieldByName m "ID" in
  _ ← when (lacks idField fmIsPK) (Fatal [AString "expected ID to be marked as PK"]);
  let secretField := GetFieldByName m "Secret" in
  _ ← when (lacks secretField fmHidden)
        (Fatal [AString "expected Secret to be marked as hidden"]);
  let readOnlyField := GetFieldByName m "ReadOnly" in
  _ ← when (lacks readOnlyField fmReadOnly)
        (Fatal [AString "expected ReadOnly to be marked as readonly"]);
  let listField := GetFieldByName m "Items" in
  _ ← when (lacks listField fmList)
        (Fatal [AString "expected Items to be marked as list"]);
  mret st.

Definition TestGetFieldByName (st : Store) : Test Store :=
  let st := ClearRegistry st in
  '(meta, err, st) ← or_panic (Parse (new_of TestGetFieldByName_Entity) st);
  _ ← when (bool_decide (err <> nil_error)) (Fatal [AError err]);
  m ← at_ptr st meta;
  let field := GetFieldByName m "Name" in
  _ ← when (is_nil field) (Fatal [AString "expected to find Name field"]);
  f ← or_panic (indirect field);
  _ ← when (bool_decide (fmName f <> "Name"))
        (Fatalf "expected field name Name, got %s" [AString (fmName f)]);
  let field := GetFieldByName m "NonExistent" in
  _ ← when (negb (is_nil field)) (Fatal [AString "expected nil for non-existent field"]);
  mret st.

(** The test functions of the package, in the order of the file. *)
Definition tests : list (string * (Store -> Test Store)) :=
  [ ("TestParseBasicStruct", TestParseBasicStruct);
    ("TestParseWithPrimaryKey", TestParseWithPrimaryKey);
    ("TestParseWithPointerType", TestParseWithPointerType);
    ("TestCaching", TestCaching);
    ("TestParseTableName", TestParseTableName);
    ("TestToSnakeCase", TestToSnakeCase);
    ("TestParseFieldTags", TestParseFieldTags);
    ("TestGetFieldByName", TestGetFieldByName) ].

(** ** A dereference after a parse *)

Lemma at_ptr_parsed pkg name fields st :
  at_ptr (parsed pkg name fields st) (length (heap st))
  = or_panic (Ok (describe pkg name fields)).
Proof. unfold at_ptr. by rewrite deref_parsed. Qed.

(** A step through a test of the parser. *)
Ltac meta_step :=
  first [ rewrite Parse_cleared | rewrite Parse_parsed | rewrite at_ptr_parsed | pass_step ].

(** ** The tests pass *)

Section tests_pass.
Context (st : Store).

(** What every test leaves: the descriptors that were on the heap. *)
Definition kept (st' : Store) : Prop := heap st `prefix_of` heap st'.

Lemma TestParseBasicStruct_passes : passing (TestParseBasicStruct st) kept.
Proof.
  unfold TestParseBasicStruct, TestParseBasicStruct_Product. repeat meta_step.
  apply parsed_prefix.
Qed.

Lemma TestParseWithPrimaryKey_passes : passing (TestParseWithPrimaryKey st) kept.
Proof.
  unfold TestParseWithPrimaryKey, TestParseWithPrimaryKey_Entity. repeat meta_step.
  apply parsed_prefix.
Qed.

Lemma TestParseWithPointerType_passes : passing (TestParseWithPointerType st) kept.
Proof.
  unfold TestParseWithPointerType, TestParseWithPointerType_Product. repeat meta_step.
  apply parsed_prefix.
Qed.

Lemma TestCaching_passes : passing (TestCaching st) kept.
Proof.
  unfold TestCaching, TestCaching_User. repeat meta_step. apply parsed_prefix.
Qed.

Lemma TestParseTableName_passes : passing (TestParseTableName st) kept.
Proof.
  unfold TestParseTableName, TestParseTableName_Article. repeat meta_step.
  apply parsed_prefix.
Qed.

Lemma snake_cases_hold : Forall (fun case => toSnakeCase case.1 = case.2) snake_cases.
Proof. repeat constructor. Qed.

Lemma TestToSnakeCase_passes : passing (TestToSnakeCase st) kept.
Proof.
  unfold TestToSnakeCase.
  apply (passing_bind _ _ (fun _ => True)); [|intros; apply passing_ret; by unfold kept].
  apply passing_for_each. intros case Hcase. apply passing_when.
  intros Hne%bool_decide_eq_true. destruct Hne.
  by apply (proj1 (Forall_forall _ _) snake_cases_hold).
Qed.

Lemma TestParseFieldTags_passes : passing (TestParseFieldTags st) kept.
Proof.
  unfold TestParseFieldTags, TestParseFieldTags_Product. repeat meta_step.
  apply parsed_prefix.
Qed.

Lemma TestGetFieldByName_passes : passing (TestGetFieldByName st) kept.
Proof.
  unfold TestGetFieldByName, TestGetFieldByName_Entity. repeat meta_step.
  apply parsed_prefix.
Qed.

End tests_pass.

#[export] Hint Resolve TestParseBasicStruct_passes TestParseWithPrimaryKey_passes
  TestParseWithPointerType_passes TestCaching_passes TestParseTableName_passes
  TestToSnakeCase_passes TestParseFieldTags_passes TestGetFieldByName_passes : goblar.

(** C9. Every test of the parser passes on every store it may find: it
    runs to its end and leaves the failure flag unset, whatever the
    tests before it left in the registry, and keeps the descriptors on
    the heap. *)
Theorem parser_tests_pass st :
  Forall (fun test => passing (test.2 st) (kept st)) tests.
Proof. repeat constructor; simpl; auto with goblar. Qed.

(** The reset matters: the three types named Product share one key.
    On the store [TestParseBasicStruct] leaves, a parse of the Product
    of [TestParseFieldTags] returns the descriptor of the Product of
    [TestParseBasicStruct], which has no field Secret. *)
Theorem tests_share_keys st :
  passing (TestParseBasicStruct st) (fun st1 =>
    exists p m, Parse (new_of TestParseFieldTags_Product) st1 = Ok ((p, nil_error), st1) /\
                deref st1 p = Some m /\ emType m = TestParseBasicStruct_Product /\
                GetFieldByName m "Secret" = None).
Proof.
  unfold TestParseBasicStruct, TestParseBasicStruct_Product. repeat meta_step.
  eexists _, _. split; [apply Parse_parsed|]. split; [apply deref_parsed|].
  by vm_compute.
Qed.

End MetaTests.
