(* ===== verification/ModelTests.v ===== *)
(** * ModelTests: the initialization and model tests of the test packages

    src/example_main.go holds two test packages.  Both start with
    [TestAppInitialization], which opens an in-memory database, builds
    the application and registers the package's five models, and go on
    with one test per model that builds a value with a composite
    literal and reads a field back ([TestUserModel] ...
    [TestProductToPriceModel]).  The first package (lines 97-248)
    declares the entities with relations and timestamps
    ([Entities.TestPkg]); the second (lines 997-1118) the plain ones
    ([Entities.PlainPkg]).

    [gorm.Open] is the environment; the state of the parser's registry
    and of the database are passed to the initialization test and
    returned by it. *)

From Corelib Require Import PrimFloat.
From Stdlib Require Import Ascii String ZArith.
From stdpp Require Import base tactics option list strings gmap.
From S2P Require Import Prelude Reflect Testing Entities Meta Parse App.

#[local] Set Warnings "-inexact-float".

Module ModelTests.
Import Testing.Testing Entities.Entities Parse.Parse App.App.

(** ** The package with relations *)

Module TestPkg.
Import Entities.TestPkg.

Section initialization.
Context {DB : Type} `{Migrator DB}.
Context (gorm_Open : string -> option unit * error).

(** [&User{}, &Product{}, &ProductItem{}, &Tag{}, &ProductToPrice{}] *)
Definition models : list any :=
  [new_of User; new_of Product; new_of ProductItem; new_of Tag; new_of ProductToPrice].

Definition TestAppInitialization (st : Store) (dbst : DB) : Test (Store * DB) :=
  let '(db, err) := gorm_Open ":memory:" in
  _ ← when (bool_decide (err <> nil_error))
        (Fatalf "Failed to initialize database: %v" [AError err]);
  let app := New (M:=unit) (H:=unit) [WithDB db; WithAddress ":8080"] in
  '(err, app, st, dbst) ← or_panic (Register models app st dbst);
  _ ← when (bool_decide (err <> nil_error))
        (Fatalf "Failed to register models: %v" [AError err]);
  _ ← Log [AString "App initialized successfully with all models registered"];
  mret (st, dbst).

End initialization.

Definition TestUserModel : Test unit :=
  let user := composite User
    [("ID", VInt 1); ("Name", VString "John Doe"); ("Email", VString "john@example.com");
     ("Password", VString "securepassword")] in
  when (bool_decide (field_string user "Name" <> "John Doe"))
    (Errorf "Expected user name 'John Doe', got '%s'" [AString (field_string user "Name")]).

Definition TestProductModel : Test unit :=
  let product := composite Product
    [("ID", VInt 1); ("Name", VString "Laptop");
     ("Description", VString "High-performance laptop"); ("UserID", VInt 1)] in
  when (bool_decide (field_string product "Name" <> "Laptop"))
    (Errorf "Expected product name 'Laptop', got '%s'" [AString (field_string product "Name")]).

Definition TestProductItemModel : Test unit :=
  let item := composite ProductItem
    [("ID", VInt 1); ("ProductID", VInt 1); ("Name", VString "Item 1");
     ("PricePerUnit", VFloat 99.99); ("Quantity", VInt 5); ("TotalPrice", VFloat 499.95)] in
  when (negb (field_float item "TotalPrice" =? 499.95)%float)
    (Errorf "Expected total price 499.95, got %f" [AFloat (field_float item "TotalPrice")]).

Definition TestTagModel : Test unit :=
  let color := "#FF5733" in
  let tag := composite Tag
    [("ID", VInt 1); ("Label", VString "Electronics");
     ("Color", VPtr (Some (VString color)))] in
  _ ← when (bool_decide (field_string tag "Label" <> "Electronics"))
        (Errorf "Expected tag label 'Electronics', got '%s'"
           [AString (field_string tag "Label")]);
  when (match field_string_ptr tag "Color" with
        | None => true
        | Some c => bool_decide (c <> "#FF5733")
        end)
    (Errorf "Expected tag color '#FF5733', got '%v'" [AValue (field_any tag "Color")]).

Definition TestProductToPriceModel : Test unit :=
  let p2p := composite ProductToPrice [("ProductID", VInt 1); ("TagID", VInt 1)] in
  when (bool_decide (field_int p2p "ProductID" <> 1%Z) || bool_decide (field_int p2p "TagID" <> 1%Z))
    (Errorf "Expected ProductID=1 and TagID=1, got ProductID=%d TagID=%d"
       [AInt (field_int p2p "ProductID"); AInt (field_int p2p "TagID")]).

Definition tests : list (string * Test unit) :=
  [ ("TestUserModel", TestUserModel);
    ("TestProductModel", TestProductModel);
    ("TestProductItemModel", TestProductItemModel);
    ("TestTagModel", TestTagModel);
    ("TestProductToPriceModel", TestProductToPriceModel) ].

End TestPkg.

(** ** The plain package *)

Module PlainPkg.
Import Entities.PlainPkg.

Section initialization.
Context {DB : Type} `{Migrator DB}.
Context (gorm_Open : string -> option unit * error).

Definition models : list any :=
  [new_of User; new_of Product; new_of ProductItem; new_of Tag; new_of ProductToPrice].

Definition TestAppInitialization (st : Store) (dbst : DB) : Test (Store * DB) :=
  let '(db, err) := gorm_Open ":memory:" in
  _ ← when (bool_decide (err <> nil_error))
        (Fatalf "Failed to initialize database: %v" [AError err]);
  let app := New (M:=unit) (H:=unit) [WithDB db; WithAddress ":8080"] in
  '(err, app, st, dbst) ← or_panic (Register models app st dbst);
  _ ← when (bool_decide (err <> nil_error))
        (Fatalf "Failed to register models: %v" [AError err]);
  _ ← Log [AString "App initialized successfully with all models registered"];
  mret (st, dbst).

End initialization.

Definition TestUserModel : Test unit :=
  let user := composite User
    [("ID", VInt 1); ("Name", VString "John Doe"); ("Email", VString "john@example.com");
     ("Password", VString "securepassword")] in
  when (bool_decide (field_string user "Name" <> "John Doe"))
    (Errorf "Expected user name 'John Doe', got '%s'" [AString (field_string user "Name")]).

Definition TestProductModel : Test unit :=
  let product := composite Product
    [("ID", VInt 1); ("Name", VString "Laptop");
     ("Description", VString "High-performance laptop"); ("UserID", VInt 1)] in
  when (bool_decide (field_string product "Name" <> "Laptop"))
    (Errorf "Expected product name 'Laptop', got '%s'" [AString (field_string product "Name")]).

Definition TestProductItemModel : Test unit :=
  let item := composite ProductItem
    [("ID", VInt 1); ("ProductID", VInt 1); ("Name", VString "Item 1");
     ("PricePerUnit", VFloat 99.99); ("Quantity", VInt 5); ("TotalPrice", VFloat 499.95)] in
  when (negb (field_float item "TotalPrice" =? 499.95)%float)
    (Errorf "Expected total price 499.95, got %f" [AFloat (field_float item "TotalPrice")]).

Definition TestTagModel : Test unit :=
  let tag := composite Tag
    [("ID", VInt 1); ("Label", VString "Electronics"); ("Color", VString "#FF5733")] in
  when (bool_decide (field_string tag "Label" <> "Electronics"))
    (Errorf "Expected tag label 'Electronics', got '%s'" [AString (field_string tag "Label")]).

Definition TestProductToPriceModel : Test unit :=
  let p2p := composite ProductToPrice [("ProductID", VInt 1); ("TagID", VInt 1)] in
  when (bool_decide (field_int p2p "ProductID" <> 1%Z) || bool_decide (field_int p2p "TagID" <> 1%Z))
    (Errorf "Expected ProductID=1 and TagID=1, got ProductID=%d TagID=%d"
       [AInt (field_int p2p "ProductID"); AInt (field_int p2p "TagID")]).

Definition tests : list (string * Test unit) :=
  [ ("TestUserModel", TestUserModel);
    ("TestProductModel", TestProductModel);
    ("TestProductItemModel", TestProductItemModel);
    ("TestTagModel", TestTagModel);
    ("TestProductToPriceModel", TestProductToPriceModel) ].

End PlainPkg.

(** ** The tests pass *)

(** Every model test of either package runs to its end, logs nothing
    and leaves the failure flag unset: each field reads back as
    written, the float and the pointer included. *)
Theorem model_tests_pass :
  Forall (fun test => test.2 new_T = (new_T, Some tt)) (TestPkg.tests ++ PlainPkg.tests).
Proof. repeat constructor. Qed.

Section initialization_theorems.
Context {DB : Type} `{Migrator DB}.
Context (gorm_Open : string -> option unit * error).

Lemma models_struct : Forall struct_model TestPkg.models /\ Forall struct_model PlainPkg.models.
Proof. split; repeat constructor; (do 4 eexists; reflexivity). Qed.

(** The initialization test of either package passes when the database
    opens and no migration fails, from any registry that satisfies the
    parser's invariant: it runs to its end, and its log is the one line
    that reports success. *)
Theorem TestAppInitialization_passes st dbst :
  gorm_Open ":memory:" = (Some tt, nil_error) ->
  (forall model dbst, (AutoMigrate model dbst).2 = nil_error) ->
  wf_store st ->
  exists st1 dbst1 st2 dbst2,
    TestPkg.TestAppInitialization gorm_Open st dbst new_T
    = (mkT false [Plain [AString "App initialized successfully with all models registered"]],
       Some (st1, dbst1)) /\
    PlainPkg.TestAppInitialization gorm_Open st dbst new_T
    = (mkT false [Plain [AString "App initialized successfully with all models registered"]],
       Some (st2, dbst2)).
Proof.
  intros Hopen Hmig Hwf. destruct models_struct as [H1 H2].
  unfold TestPkg.TestAppInitialization, PlainPkg.TestAppInitialization. rewrite Hopen.
  destruct (Register_succeeds (M:=unit) (H:=unit) TestPkg.models
              (New [WithDB (Some tt); WithAddress ":8080"]) st dbst)
    as (a1 & st1 & dbst1 & ->); [done..|].
  destruct (Register_succeeds (M:=unit) (H:=unit) PlainPkg.models
              (New [WithDB (Some tt); WithAddress ":8080"]) st dbst)
    as (a2 & st2 & dbst2 & ->); [done..|].
  by exists st1, dbst1, st2, dbst2.
Qed.

(** When the database does not open, the test stops at its first check
    and nothing is registered. *)
Theorem TestAppInitialization_no_database st dbst err :
  gorm_Open ":memory:" = (None, Some err) ->
  TestPkg.TestAppInitialization gorm_Open st dbst new_T
  = (mkT true [Formatted "Failed to initialize database: %v" [AError (Some err)]], None).
Proof. intros Hopen. unfold TestPkg.TestAppInitialization. by rewrite Hopen. Qed.

End initialization_theorems.

Lemma TestAppInitialization_passes_witness :
  exists st1 dbst1 st2 dbst2,
    TestPkg.TestAppInitialization (H:=log_Migrator) (fun _ => (Some tt, nil_error)) init []
      new_T
    = (mkT false [Plain [AString "App initialized successfully with all models registered"]],
       Some (st1, dbst1)) /\
    PlainPkg.TestAppInitialization (H:=log_Migrator) (fun _ => (Some tt, nil_error)) init []
      new_T
    = (mkT false [Plain [AString "App initialized successfully with all models registered"]],
       Some (st2, dbst2)).
Proof.
  apply (TestAppInitialization_passes (H:=log_Migrator) (fun _ => (Some tt, nil_error)) init []);
    [reflexivity|reflexivity|apply wf_store_init].
Defined.

End ModelTests.
