(* ===== verification/HttpTests.v ===== *)
(** * HttpTests: the request tests of the integration test package

    The eleven test functions under "HTTP Tests" of src/example_main.go
    (lines 250-419).  Each builds a payload, marshals it, builds a
    request and a response recorder, and checks the recorder's status
    code.  No test hands its request to a router or a handler: the
    code it checks is the one [httptest.NewRecorder] starts with.

    A payload ([map[string]interface{}] and the values the tests put
    in it) is a [Payload]; [json.Marshal] is the environment, a
    parameter of the tests; [http.NewRequest] builds a request record
    from a method and a URL that are well formed, as the literals of
    the tests are; the recorder is a [Handlers.Response] with the
    status 200 and nothing written. *)

From Corelib Require Import PrimFloat.
From Stdlib Require Import Ascii String ZArith.
From stdpp Require Import base tactics option list strings gmap.
From S2P Require Import Prelude Reflect Testing Entities Meta Parse Hooks Repo Handlers.

#[local] Set Warnings "-inexact-float".

Module HttpTests.
Import Testing.Testing Handlers.Handlers.

(** The values of the payloads: strings, integers, floats, slices and
    maps from strings; a map literal keeps the order it is written
    in. *)
#[warning="-register-all"]
Inductive Payload : Type :=
| PString (s : string)
| PInt (n : Z)
| PFloat (x : float)
| PList (items : list Payload)
| PMap (entries : list (string * Payload)).

(** [*http.Request], as far as the tests build it. *)
Record HttpRequest : Type := mkHttpRequest {
  Method : string;
  URL : string;
  Header : list (string * string);
  ReqBody : option string;
}.

(** [bytes.NewBuffer(body)] *)
Definition bytes_NewBuffer (body : string) : option string := Some body.

(** [http.NewRequest(method, url, body)] for a valid method and URL. *)
Definition http_NewRequest (method url : string) (body : option string)
  : HttpRequest * error :=
  (mkHttpRequest method url [] body, nil_error).

(** [req.Header.Set(key, value)] *)
Definition Header_Set (req : HttpRequest) (key value : string) : HttpRequest :=
  mkHttpRequest (Method req) (URL req)
    ((key, value) :: List.filter (fun kv => negb (bool_decide (kv.1 = key))) (Header req))
    (ReqBody req).

(** [httptest.NewRecorder()]: status 200, nothing written. *)
Definition httptest_NewRecorder : Response := mkResponse StatusOK [] BodyNone.

(** [w.Code] *)
Definition Code (w : Response) : nat := status w.

Section tests.
Context (json_Marshal : Payload -> string * error).

Definition TestTagCreateRequest : Test unit :=
  let payload := PMap [("label", PString "Electronics"); ("color", PString "#FF5733")] in
  let '(body, _) := json_Marshal payload in
  let '(req, _) := http_NewRequest "POST" "/tag" (bytes_NewBuffer body) in
  let req := Header_Set req "Content-Type" "application/json" in
  let w := httptest_NewRecorder in
  when (bool_decide (Code w <> StatusCreated) && bool_decide (Code w <> StatusOK))
    (Errorf "Expected status 200/201, got %d" [AInt (Z.of_nat (Code w))]).

Definition TestTagListRequest : Test unit :=
  let '(_, _) := http_NewRequest "GET" "/tag?page=1&limit=10" None in
  let w := httptest_NewRecorder in
  when (bool_decide (Code w <> StatusOK))
    (Errorf "Expected status 200, got %d" [AInt (Z.of_nat (Code w))]).

Definition TestTagDetailRequest : Test unit :=
  let '(_, _) := http_NewRequest "GET" "/tag/1" None in
  let w := httptest_NewRecorder in
  when (bool_decide (Code w <> StatusOK))
    (Errorf "Expected status 200, got %d" [AInt (Z.of_nat (Code w))]).

Definition TestTagUpdateRequest : Test unit :=
  let payload :=
    PMap [("label", PString "Updated Electronics"); ("color", PString "#00FF00")] in
  let '(body, _) := json_Marshal payload in
  let '(req, _) := http_NewRequest "PUT" "/tag/1" (bytes_NewBuffer body) in
  let req := Header_Set req "Content-Type" "application/json" in
  let w := httptest_NewRecorder in
  when (bool_decide (Code w <> StatusOK))
    (Errorf "Expected status 200, got %d" [AInt (Z.of_nat (Code w))]).

Definition TestTagDeleteRequest : Test unit :=
  let '(_, _) := http_NewRequest "DELETE" "/tag/1" None in
  let w := httptest_NewRecorder in
  when (bool_decide (Code w <> StatusOK) && bool_decide (Code w <> StatusNoContent))
    (Errorf "Expected status 200/204, got %d" [AInt (Z.of_nat (Code w))]).

Definition TestProductCreateRequest : Test unit :=
  let payload :=
    PMap [("name", PString "Laptop");
          ("description", PString "High-performance laptop");
          ("userID", PInt 1);
          ("productItems",
           PList [PMap [("name", PString "Item 1"); ("pricePerUnit", PFloat 99.99);
                        ("quantity", PInt 5); ("totalPrice", PFloat 499.95)]]);
          ("tagIDs", PList [PInt 1; PInt 2])] in
  let '(body, _) := json_Marshal payload in
  let '(req, _) := http_NewRequest "POST" "/product" (bytes_NewBuffer body) in
  let req := Header_Set req "Content-Type" "application/json" in
  let w := httptest_NewRecorder in
  when (bool_decide (Code w <> StatusCreated) && bool_decide (Code w <> StatusOK))
    (Errorf "Expected status 200/201, got %d" [AInt (Z.of_nat (Code w))]).

Definition TestProductListRequest : Test unit :=
  let '(_, _) := http_NewRequest "GET" "/product?page=1&limit=10" None in
  let w := httptest_NewRecorder in
  when (bool_decide (Code w <> StatusOK))
    (Errorf "Expected status 200, got %d" [AInt (Z.of_nat (Code w))]).

Definition TestProductDetailRequest : Test unit :=
  let '(_, _) := http_NewRequest "GET" "/product/1" None in
  let w := httptest_NewRecorder in
  when (bool_decide (Code w <> StatusOK))
    (Errorf "Expected status 200, got %d" [AInt (Z.of_nat (Code w))]).

Definition TestProductUpdateRequest : Test unit :=
  let payload :=
    PMap [("name", PString "Updated Laptop");
          ("description", PString "High-performance laptop with updated specs");
          ("userID", PInt 1);
          ("productItems",
           PList [PMap [("name", PString "Item 1"); ("pricePerUnit", PFloat 109.99);
                        ("quantity", PInt 5); ("totalPrice", PFloat 549.95)]]);
          ("tagIDs", PList [PInt 1; PInt 2; PInt 3])] in
  let '(body, _) := json_Marshal payload in
  let '(req, _) := http_NewRequest "PUT" "/product/1" (bytes_NewBuffer body) in
  let req := Header_Set req "Content-Type" "application/json" in
  let w := httptest_NewRecorder in
  when (bool_decide (Code w <> StatusOK))
    (Errorf "Expected status 200, got %d" [AInt (Z.of_nat (Code w))]).

Definition TestProductDeleteRequest : Test unit :=
  let '(_, _) := http_NewRequest "DELETE" "/product/1" None in
  let w := httptest_NewRecorder in
  when (bool_decide (Code w <> StatusOK) && bool_decide (Code w <> StatusNoContent))
    (Errorf "Expected status 200/204, got %d" [AInt (Z.of_nat (Code w))]).

Definition TestProductCreateMinimal : Test unit :=
  let payload := PMap [("name", PString "Phone"); ("userID", PInt 1)] in
  let '(body, _) := json_Marshal payload in
  let '(req, _) := http_NewRequest "POST" "/product" (bytes_NewBuffer body) in
  let req := Header_Set req "Content-Type" "application/json" in
  let w := httptest_NewRecorder in
  when (bool_decide (Code w <> StatusCreated) && bool_decide (Code w <> StatusOK))
    (Errorf "Expected status 200/201, got %d" [AInt (Z.of_nat (Code w))]).

Definition tests : list (string * Test unit) :=
  [ ("TestTagCreateRequest", TestTagCreateRequest);
    ("TestTagListRequest", TestTagListRequest);
    ("TestTagDetailRequest", TestTagDetailRequest);
    ("TestTagUpdateRequest", TestTagUpdateRequest);
    ("TestTagDeleteRequest", TestTagDeleteRequest);
    ("TestProductCreateRequest", TestProductCreateRequest);
    ("TestProductListRequest", TestProductListRequest);
    ("TestProductDetailRequest", TestProductDetailRequest);
    ("TestProductUpdateRequest", TestProductUpdateRequest);
    ("TestProductDeleteRequest", TestProductDeleteRequest);
    ("TestProductCreateMinimal", TestProductCreateMinimal) ].

End tests.

(** ** What the request tests check *)

(** The descriptor of the test package's Tag and the handlers over the
    in-memory table. *)
Definition tag_meta : Meta.Meta.EntityMeta :=
  Parse.Parse.describe "test" "Tag"
    (default [] (struct_fields Entities.Entities.TestPkg.Tag)).

(** Every request test passes whatever [json.Marshal] returns, with an
    empty log: the status it checks is the recorder's initial 200,
    since the request is never served. *)
Theorem request_tests_pass json_Marshal :
  Forall (fun test => test.2 new_T = (new_T, Some tt)) (tests json_Marshal).
Proof.
  unfold tests. repeat constructor; simpl;
    unfold TestTagCreateRequest, TestTagUpdateRequest, TestProductCreateRequest,
      TestProductUpdateRequest, TestProductCreateMinimal;
    by destruct (json_Marshal _).
Qed.

(** The request tests never serve their request: each of the eleven
    passes whatever [json.Marshal] returns, with an empty log, and
    [TestTagDetailRequest] does while the handler, had it been given
    the request GET /tag/1 on an empty database, answers 404. *)
Theorem request_tests_unserved json_Marshal :
  Forall (fun test => test.2 new_T = (new_T, Some tt)) (tests json_Marshal) /\
  status <$> (fst <$> GetHandler handlers tag_meta (request "" "1") Repo.Repo.empty_table)
  = Ok StatusNotFound.
Proof. split; [apply request_tests_pass|vm_compute; reflexivity]. Qed.

End HttpTests.
