(* ===== verification/FlowTests.v ===== *)
(** * FlowTests: the flow tests of the tags

    [TestTagFlowComplete] (src/example_main.go, lines 424-550) and
    [TestTagDetailFlow] (lines 738-776), statement by statement, with
    the helpers [stringPtr] and [toJSON] (lines 942-953).  The tests
    call gorm directly: the calls are those of [Repo.Driver] on entity
    values, [AutoMigrate] is [App.Migrator], and [gorm.Open] and
    [json.Marshal] are parameters.  The database handle of the Go code
    is the state [db] that the calls pass on.

    [db.Delete(tag)] deletes the row of the tag's key; [var x Tag]
    followed by [db.First(&x, id)] reads into a pointer to a zero
    value.  The theorems are proved against the contract
    [Gorm.GormSpec], so they hold of every driver that keeps it, and
    the in-memory table is one. *)

From Stdlib Require Import Ascii String ZArith Lia.
From stdpp Require Import base tactics option list strings gmap.
From S2P Require Import Prelude Reflect Testing Entities Meta Parse Hooks Repo Router.
From S2P Require Import Handlers App Gorm.

#[local] Set Warnings "-clear-no-such-hyp".

Module FlowTests.
Import Testing.Testing Entities.Entities Entities.TestPkg Repo.Repo App.App Gorm.Gorm.

(** [stringPtr(s)]: a pointer to a copy of the string. *)
Definition stringPtr (s : string) : GoValue := VPtr (Some (VString s)).

(** A slice of entities as an interface value. *)
Definition slice_of (t : GoType) (entities : list any) : any :=
  Some (TSlice t, VSlice (omap (fun e => snd <$> pointee e) entities)).

Section flows.
Context {DB : Type} `{Driver unit DB any} `{Migrator DB}.
Context (gorm_Open : string -> option unit * error).
Context (json_Marshal : any -> string * error).

(** [toJSON(v)] *)
Definition toJSON (v : any) : string :=
  let '(data, err) := json_Marshal v in
  if err is Some e then "ERROR: " +:+ error_message e
  else data.

Definition TestTagFlowComplete (db : DB) : Test DB :=
  _ ← Log [AString "=== TAG FLOW TEST START ==="];
  let '(_, err) := gorm_Open ":memory:" in
  _ ← when (bool_decide (err <> nil_error))
        (Fatalf "Failed to initialize database: %v" [AError err]);
  let '(db, err) := AutoMigrate (new_of Tag) db in
  _ ← when (bool_decide (err <> nil_error)) (Fatalf "Failed to migrate: %v" [AError err]);
  (* Step 1 *)
  _ ← Log [AString "Step 1: Creating first tag..."];
  let tag1 := composite Tag [("Label", VString "Electronics"); ("Color", stringPtr "#FF5733")] in
  _ ← Logf "REQUEST: %s" [AString (toJSON tag1)];
  let '(tag1, db, err) := drv_Create tt tag1 db in
  _ ← when (bool_decide (err <> nil_error)) (Fatalf "Step 1 Failed: %v" [AError err]);
  _ ← when (bool_decide (field_int tag1 "ID" = 0%Z))
        (Fatalf "Step 1 Failed: Tag ID not assigned" []);
  _ ← Logf "RESPONSE: %s" [AString (toJSON tag1)];
  _ ← Logf "✓ First tag created with ID: %d" [AInt (field_int tag1 "ID")];
  (* Step 2 *)
  _ ← Log [AString "Step 2: Creating second tag..."];
  let tag2 := composite Tag [("Label", VString "Gadgets"); ("Color", stringPtr "#00FF00")] in
  _ ← Logf "REQUEST: %s" [AString (toJSON tag2)];
  let '(tag2, db, err) := drv_Create tt tag2 db in
  _ ← when (bool_decide (err <> nil_error)) (Fatalf "Step 2 Failed: %v" [AError err]);
  _ ← when (bool_decide (field_int tag2 "ID" = 0%Z))
        (Fatalf "Step 2 Failed: Tag ID not assigned" []);
  _ ← Logf "RESPONSE: %s" [AString (toJSON tag2)];
  _ ← Logf "✓ Second tag created with ID: %d" [AInt (field_int tag2 "ID")];
  (* Step 3 *)
  _ ← Log [AString "Step 3: Listing all tags..."];
  let '(tags, err) := drv_Find tt db in
  _ ← when (bool_decide (err <> nil_error)) (Fatalf "Step 3 Failed: %v" [AError err]);
  _ ← when (bool_decide (length tags <> 2))
        (Fatalf "Step 3 Failed: Expected 2 tags, got %d" [AInt (Z.of_nat (length tags))]);
  _ ← Logf "RESPONSE: %s" [AString (toJSON (slice_of Tag tags))];
  _ ← Logf "✓ Found %d tags in database" [AInt (Z.of_nat (length tags))];
  (* Step 4 *)
  _ ← Log [AString "Step 4: Updating first tag..."];
  _ ← Logf "REQUEST (before update): %s" [AString (toJSON tag1)];
  let tag1 := with_field "Label" (VString "Updated Electronics") tag1 in
  let tag1 := with_field "Color" (stringPtr "#0000FF") tag1 in
  _ ← Logf "REQUEST (update to): %s" [AString (toJSON tag1)];
  let '(tag1, db, err) := drv_Save tt tag1 db in
  _ ← when (bool_decide (err <> nil_error)) (Fatalf "Step 4 Failed: %v" [AError err]);
  let '(updated, err) := drv_First tt (new_of Tag) (field_int tag1 "ID") db in
  _ ← when (bool_decide (err <> nil_error)) (Fatalf "Step 4 Failed: %v" [AError err]);
  _ ← when (bool_decide (field_string updated "Label" <> "Updated Electronics"))
        (Fatalf "Step 4 Failed: Expected label 'Updated Electronics', got '%s'"
           [AString (field_string updated "Label")]);
  _ ← Logf "RESPONSE: %s" [AString (toJSON updated)];
  _ ← Logf "✓ Tag label updated to: %s" [AString (field_string updated "Label")];
  (* Step 5 *)
  _ ← Log [AString "Step 5: Listing all tags again..."];
  let '(tagsAfterUpdate, err) := drv_Find tt db in
  _ ← when (bool_decide (err <> nil_error)) (Fatalf "Step 5 Failed: %v" [AError err]);
  _ ← when (bool_decide (length tagsAfterUpdate <> 2))
        (Fatalf "Step 5 Failed: Expected 2 tags, got %d"
           [AInt (Z.of_nat (length tagsAfterUpdate))]);
  _ ← Logf "RESPONSE: %s" [AString (toJSON (slice_of Tag tagsAfterUpdate))];
  _ ← Logf "✓ Still have %d tags" [AInt (Z.of_nat (length tagsAfterUpdate))];
  (* Step 6 *)
  _ ← Log [AString "Step 6: Deleting first tag..."];
  _ ← Logf "REQUEST (delete): %s" [AString (toJSON tag1)];
  let '(db, err) := drv_Delete tt (field_int tag1 "ID") db in
  _ ← when (bool_decide (err <> nil_error)) (Fatalf "Step 6 Failed: %v" [AError err]);
  _ ← Logf "✓ First tag deleted" [];
  (* Step 7 *)
  _ ← Log [AString "Step 7: Listing all tags after deletion..."];
  let '(tagsAfterDelete, err) := drv_Find tt db in
  _ ← when (bool_decide (err <> nil_error)) (Fatalf "Step 7 Failed: %v" [AError err]);
  _ ← when (bool_decide (length tagsAfterDelete <> 1))
        (Fatalf "Step 7 Failed: Expected 1 tag remaining, got %d"
           [AInt (Z.of_nat (length tagsAfterDelete))]);
  _ ← Logf "RESPONSE: %s" [AString (toJSON (slice_of Tag tagsAfterDelete))];
  _ ← Logf "✓ %d tag remaining after deletion" [AInt (Z.of_nat (length tagsAfterDelete))];
  (* Step 8 *)
  _ ← Log [AString "Step 8: Deleting second tag..."];
  _ ← Logf "REQUEST (delete): %s" [AString (toJSON tag2)];
  let '(db, err) := drv_Delete tt (field_int tag2 "ID") db in
  _ ← when (bool_decide (err <> nil_error)) (Fatalf "Step 8 Failed: %v" [AError err]);
  _ ← Logf "✓ Second tag deleted" [];
  (* Step 9 *)
  _ ← Log [AString "Step 9: Listing all tags after all deletions..."];
  let '(tagsAfterAllDelete, err) := drv_Find tt db in
  _ ← when (bool_decide (err <> nil_error)) (Fatalf "Step 9 Failed: %v" [AError err]);
  _ ← when (bool_decide (length tagsAfterAllDelete <> 0))
        (Fatalf "Step 9 Failed: Expected 0 tags, got %d"
           [AInt (Z.of_nat (length tagsAfterAllDelete))]);
  _ ← Logf "RESPONSE: %s" [AString (toJSON (slice_of Tag tagsAfterAllDelete))];
  _ ← Logf "✓ All tags deleted successfully" [];
  _ ← Log [AString "=== TAG FLOW TEST COMPLETED ✓ ==="];
  mret db.

Definition TestTagDetailFlow (db : DB) : Test DB :=
  _ ← Log [AString "=== TAG DETAIL TEST START ==="];
  let '(_, err) := gorm_Open ":memory:" in
  _ ← when (bool_decide (err <> nil_error))
        (Fatalf "Failed to initialize database: %v" [AError err]);
  let '(db, err) := AutoMigrate (new_of Tag) db in
  _ ← when (bool_decide (err <> nil_error)) (Fatalf "Failed to migrate: %v" [AError err]);
  let tag := composite Tag [("Label", VString "Premium"); ("Color", stringPtr "#FFD700")] in
  let '(tag, db, err) := drv_Create tt tag db in
  _ ← when (bool_decide (err <> nil_error)) (Fatalf "Create failed: %v" [AError err]);
  _ ← Logf "✓ Tag created with ID: %d" [AInt (field_int tag "ID")];
  _ ← Log [AString "Getting tag detail..."];
  let '(detail, err) := drv_First tt (new_of Tag) (field_int tag "ID") db in
  _ ← when (bool_decide (err <> nil_error))
        (Fatalf "Detail retrieval failed: %v" [AError err]);
  _ ← when (bool_decide (field_string detail "Label" <> "Premium"))
        (Fatalf "Expected label 'Premium', got '%s'" [AString (field_string detail "Label")]);
  _ ← when (match field_string_ptr detail "Color" with
            | None => true
            | Some c => bool_decide (c <> "#FFD700")
            end)
        (Fatalf "Expected color '#FFD700', got '%v'" [AValue (field_any detail "Color")]);
  _ ← Logf "DETAIL RESPONSE: %s" [AString (toJSON detail)];
  _ ← or_panic (if field_string_ptr detail "Color" is Some _ then Ok tt
                else Panic "invalid memory address or nil pointer dereference");
  _ ← Logf "✓ Tag detail retrieved successfully - ID: %d, Label: %s, Color: %s, CreatedAt: %s"
        [AInt (field_int detail "ID"); AString (field_string detail "Label");
         AString (default "" (field_string_ptr detail "Color"));
         AValue (field_any detail "CreatedAt")];
  _ ← Log [AString "=== TAG DETAIL TEST COMPLETED ✓ ==="];
  mret db.

End flows.

(** ** Tag values *)

(** A pointer to a Tag with the given fields. *)
Definition tag_value (id : Z) (label : string) (color created updated : GoValue) : any :=
  Some (TPtr Tag, VPtr (Some (VStruct [VInt id; VString label; color; created; updated]))).

Definition zero_time : GoValue := zero_value 2 time_Time.

Lemma composite_tag label color :
  composite Tag [("Label", VString label); ("Color", color)]
  = tag_value 0 label color zero_time zero_time.
Proof. reflexivity. Qed.

Lemma new_of_tag : new_of Tag = tag_value 0 "" (VPtr None) zero_time zero_time.
Proof. reflexivity. Qed.

Lemma stamp_tag id c u i label color c0 u0 :
  stamp id c u (tag_value i label color c0 u0) = tag_value id label color c u.
Proof. reflexivity. Qed.

Lemma with_field_tag_Label l i label color c u :
  with_field "Label" (VString l) (tag_value i label color c u) = tag_value i l color c u.
Proof. reflexivity. Qed.

Lemma with_field_tag_Color col i label color c u :
  with_field "Color" col (tag_value i label color c u) = tag_value i label col c u.
Proof. reflexivity. Qed.

Lemma with_field_tag_UpdatedAt u' i label color c u :
  with_field "UpdatedAt" u' (tag_value i label color c u) = tag_value i label color c u'.
Proof. reflexivity. Qed.

Lemma field_int_tag i label color c u : field_int (tag_value i label color c u) "ID" = i.
Proof. reflexivity. Qed.

Lemma field_string_tag i label color c u :
  field_string (tag_value i label color c u) "Label" = label.
Proof. reflexivity. Qed.

Lemma field_string_ptr_tag i label s c u :
  field_string_ptr (tag_value i label (stringPtr s) c u) "Color" = Some s.
Proof. reflexivity. Qed.

Lemma has_key_tag i label color c u : has_key (tag_value i label color c u) = true.
Proof. reflexivity. Qed.

Create Rewrite HintDb tag_rw.
#[export] Hint Rewrite composite_tag stamp_tag with_field_tag_Label with_field_tag_Color
  with_field_tag_UpdatedAt field_int_tag field_string_tag field_string_ptr_tag : tag_rw.

Section flow_theorems.
Context {DB : Type} `{Driver unit DB any} `{Migrator DB}.
Context (inv : DB -> Prop) (abs : DB -> gmap Z any) `{!GormSpec DB inv abs}.
Context (gorm_Open : string -> option unit * error).
Context (json_Marshal : any -> string * error).
Hypothesis open_ok : (gorm_Open ":memory:").2 = nil_error.
Hypothesis migrate_ok : forall model db,
  inv db -> exists db', AutoMigrate model db = (db', nil_error) /\ inv db' /\ abs db' = abs db.

(** A call whose result is known: put the result in place and go on. *)
Ltac flow_step H := rewrite H; cbv beta iota; autorewrite with tag_rw.

(** The states of the table along the flow: two rows under distinct
    keys, one of them overwritten, then deleted one after the other. *)
Section two_rows.
Context {A : Type} (i j : Z) (x x' y : A) (Hij : i <> j).

Lemma size_two : size (<[j := y]> (<[i := x]> (∅ : gmap Z A))) = 2.
Proof.
  rewrite map_size_insert_None by by rewrite lookup_insert_ne, lookup_empty.
  by rewrite map_size_insert_None, map_size_empty by apply lookup_empty.
Qed.

Lemma size_two_overwritten :
  size (<[i := x']> (<[j := y]> (<[i := x]> (∅ : gmap Z A)))) = 2.
Proof.
  rewrite map_size_insert_Some; [apply size_two|].
  by rewrite lookup_insert_ne, lookup_insert_eq.
Qed.

Lemma delete_first :
  delete i (<[i := x']> (<[j := y]> (<[i := x]> (∅ : gmap Z A)))) = <[j := y]> ∅.
Proof.
  rewrite delete_insert_eq, delete_insert_ne by done.
  by rewrite delete_insert_eq, delete_empty.
Qed.

Lemma delete_second : delete j (<[j := y]> (∅ : gmap Z A)) = ∅.
Proof. by rewrite delete_insert_eq, delete_empty. Qed.

End two_rows.

(** C30. [TestTagFlowComplete] passes against every driver that keeps the
    contract, on a database that opens empty and migrates: it runs to
    its end with the failure flag unset, and leaves the table empty. *)
Theorem TestTagFlowComplete_passes db :
  inv db -> abs db = ∅ ->
  exists t db', TestTagFlowComplete gorm_Open json_Marshal db new_T = (t, Some db') /\
                failed t = false /\ abs db' = ∅.
Proof.
  intros Hinv Habs. unfold TestTagFlowComplete.
  destruct (gorm_Open ":memory:") as [conn oerr]. simpl in open_ok. subst oerr.
  destruct (migrate_ok (new_of Tag) db Hinv) as (db0 & -> & Hinv0 & Habs0).
  rewrite Habs in Habs0. rewrite !composite_tag. cbv zeta. cbv beta iota.
  destruct (spec_Create (tag_value 0 "Electronics" (stringPtr "#FF5733") zero_time zero_time)
              db0 Hinv0 eq_refl eq_refl)
    as (id1 & c1 & u1 & db1 & Hid1 & _ & HC1 & Hinv1 & Habs1).
  rewrite stamp_tag, Habs0 in *. flow_step HC1.
  destruct (spec_Create (tag_value 0 "Gadgets" (stringPtr "#00FF00") zero_time zero_time)
              db1 Hinv1 eq_refl eq_refl)
    as (id2 & c2 & u2 & db2 & Hid2 & Hf2 & HC2 & Hinv2 & Habs2).
  rewrite stamp_tag, Habs1 in *. flow_step HC2.
  assert (id1 <> id2) as Hne by (intros ->; by rewrite lookup_insert_eq in Hf2).
  destruct (spec_Find_length inv abs db2 Hinv2) as (tags & HF3 & Hl3).
  rewrite Habs2, size_two in Hl3 by done. flow_step HF3. rewrite Hl3.
  destruct (spec_Save (tag_value id1 "Updated Electronics" (stringPtr "#0000FF") c1 u1)
              db2 Hinv2 Hid1) as (u4 & db3 & HS4 & Hinv3 & Habs3).
  rewrite with_field_tag_UpdatedAt, field_int_tag, Habs2 in *. flow_step HS4.
  flow_step (spec_First_insert inv abs (new_of Tag) id1 _ _ db3 Hinv3 Habs3).
  destruct (spec_Find_length inv abs db3 Hinv3) as (tags5 & HF5 & Hl5).
  rewrite Habs3, size_two_overwritten in Hl5 by done. flow_step HF5. rewrite Hl5.
  destruct (spec_Delete id1 db3 Hinv3) as (db4 & HD6 & Hinv4 & Habs4).
  rewrite Habs3, delete_first in Habs4 by done. flow_step HD6.
  destruct (spec_Find_length inv abs db4 Hinv4) as (tags7 & HF7 & Hl7).
  rewrite Habs4, map_size_insert_None, map_size_empty in Hl7 by apply lookup_empty.
  flow_step HF7. rewrite Hl7.
  destruct (spec_Delete id2 db4 Hinv4) as (db5 & HD8 & Hinv5 & Habs5).
  rewrite Habs4, delete_second in Habs5. flow_step HD8.
  destruct (spec_Find_length inv abs db5 Hinv5) as (tags9 & HF9 & Hl9).
  rewrite Habs5, map_size_empty in Hl9. flow_step HF9. rewrite Hl9.
  rewrite (bool_decide_eq_false_2 _ Hid1), (bool_decide_eq_false_2 _ Hid2).
  eexists _, db5. split; [vm_compute; reflexivity|]. split; [reflexivity|exact Habs5].
Qed.

(** [TestTagDetailFlow] passes against every driver that keeps the
    contract: the tag read back has the label and the colour it was
    created with, and the table holds that one row. *)
Theorem TestTagDetailFlow_passes db :
  inv db -> abs db = ∅ ->
  exists t db' id created updated,
    TestTagDetailFlow gorm_Open json_Marshal db new_T = (t, Some db') /\
    failed t = false /\
    abs db' = {[ id := tag_value id "Premium" (stringPtr "#FFD700") created updated ]}.
Proof.
  intros Hinv Habs. unfold TestTagDetailFlow.
  destruct (gorm_Open ":memory:") as [conn oerr]. simpl in open_ok. subst oerr.
  destruct (migrate_ok (new_of Tag) db Hinv) as (db0 & -> & Hinv0 & Habs0).
  rewrite Habs in Habs0. rewrite !composite_tag. cbv zeta. cbv beta iota.
  destruct (spec_Create (tag_value 0 "Premium" (stringPtr "#FFD700") zero_time zero_time)
              db0 Hinv0 eq_refl eq_refl)
    as (id & c & u & db1 & Hid & _ & HC & Hinv1 & Habs1).
  rewrite stamp_tag, Habs0 in *. flow_step HC.
  flow_step (spec_First_insert inv abs (new_of Tag) id _ _ db1 Hinv1 Habs1).
  eexists _, db1, id, c, u. split; [vm_compute; reflexivity|]. split; [reflexivity|].
  by rewrite Habs1, insert_empty.
Qed.

End flow_theorems.

(** ** The flows on the in-memory table *)

(** A migration that changes nothing, a database that opens and an
    encoder that writes nothing. *)
Definition keep_Migrator : Migrator (Table any) :=
  mkMigrator (Table any) (fun _ db => (db, nil_error)).

Definition open_memory (dsn : string) : option unit * error := (Some tt, nil_error).

Definition no_Marshal (v : any) : string * error := ("", nil_error).

(** The tag flow on the in-memory table: the keys are 1 and 2, the log
    has the 33 entries of a run without a failure, and the table is
    empty again with 3 as its next key. *)
Theorem TestTagFlowComplete_table :
  let r := TestTagFlowComplete (H:=Handlers.Handlers.any_driver) (H0:=keep_Migrator)
             open_memory no_Marshal empty_table new_T in
  failed r.1 = false /\ length (output r.1) = 33 /\ r.2 = Some (mkTable ∅ 3) /\
  Formatted "✓ First tag created with ID: %d" [AInt 1] ∈ output r.1 /\
  Formatted "✓ Second tag created with ID: %d" [AInt 2] ∈ output r.1.
Proof.
  intros r. repeat split; try (vm_compute; reflexivity);
    apply list_elem_of_In; vm_compute; tauto.
Qed.

Lemma TestTagFlowComplete_passes_witness :
  exists t db',
    TestTagFlowComplete (H:=Handlers.Handlers.any_driver) (H0:=keep_Migrator)
      open_memory no_Marshal empty_table new_T = (t, Some db') /\
    failed t = false /\ rows db' = ∅.
Proof.
  apply (TestTagFlowComplete_passes (H:=Handlers.Handlers.any_driver) (H0:=keep_Migrator)
           (wf_table Handlers.Handlers.pk_any) rows open_memory no_Marshal eq_refl);
    [by eexists|apply wf_empty_table|reflexivity].
Defined.

Lemma TestTagDetailFlow_passes_witness :
  exists t db' id created updated,
    TestTagDetailFlow (H:=Handlers.Handlers.any_driver) (H0:=keep_Migrator)
      open_memory no_Marshal empty_table new_T = (t, Some db') /\
    failed t = false /\
    rows db' = {[ id := tag_value id "Premium" (stringPtr "#FFD700") created updated ]}.
Proof.
  apply (TestTagDetailFlow_passes (H:=Handlers.Handlers.any_driver) (H0:=keep_Migrator)
           (wf_table Handlers.Handlers.pk_any) rows open_memory no_Marshal eq_refl);
    [by eexists|apply wf_empty_table|reflexivity].
Defined.

End FlowTests.
