(* ===== verification/RepoTests.v ===== *)
(** * RepoTests: the tests of the repository

    The eight test functions of src/internal/repo/repository_test.go
    (package repo) with their entity [TestUser] and the helper
    [setupTestDB], statement by statement.  Each test but the last
    opens a database of its own in memory and migrates the entity,
    resets the parser's registry, parses the entity and builds a
    repository on the handle and the descriptor; then it creates,
    reads, lists, updates, deletes or counts rows and checks what comes
    back.

    [gorm.Open] is a parameter; the state of the database a test opens
    is passed to it, and what it leaves is returned with the store of
    the parser.  An entity is passed by pointer, so [Create] and
    [Update] return the entity as the driver left it and the test goes
    on with that value.  The theorems are proved against the contract
    [Gorm.GormSpec], so they hold of every driver that keeps it. *)

From Stdlib Require Import Ascii String ZArith Lia.
From stdpp Require Import base tactics option list strings gmap.
From S2P Require Import Prelude Reflect Testing Entities Meta Parse Hooks Repo Router.
From S2P Require Import Handlers App Gorm FlowTests.

#[local] Set Warnings "-clear-no-such-hyp".

Module RepoTests.
Import Testing.Testing Entities.Entities Parse.Parse App.App Repo.Repo Gorm.Gorm.

Definition TestUser : GoType :=
  TStruct "repo" "TestUser" (fields_of
    [ ("ID", TBasic BUint, []);
      ("Name", TBasic BString, []) ]).

(** [context.Background()] *)
Definition Background : unit := tt.

Section tests.
Context {DB : Type} `{Driver unit DB any} `{Migrator DB}.
Context (gorm_Open : string -> option unit * error).

Definition setupTestDB (dbst : DB) : Test (option unit * DB) :=
  let '(db, err) := gorm_Open ":memory:" in
  _ ← when (bool_decide (err <> nil_error))
        (Fatalf "failed to open test database: %v" [AError err]);
  let '(dbst, err) := AutoMigrate (new_of TestUser) dbst in
  _ ← when (bool_decide (err <> nil_error))
        (Fatalf "failed to migrate test schema: %v" [AError err]);
  mret (db, dbst).

Definition TestNewRepository (st : Store) (dbst : DB) : Test (Store * DB) :=
  '(db, dbst) ← setupTestDB dbst;
  let st := ClearRegistry st in
  '(entityMeta, err, st) ← or_panic (Parse (new_of TestUser) st);
  _ ← when (bool_decide (err <> nil_error)) (Fatal [AError err]);
  let repo := New db entityMeta in
  _ ← when (is_nil (Some repo)) (Fatal [AString "expected repository to be non-nil"]);
  _ ← when (bool_decide (Repo.db repo <> db)) (Fatal [AString "expected db to be set"]);
  _ ← when (bool_decide (meta repo <> entityMeta)) (Fatal [AString "expected meta to be set"]);
  mret (st, dbst).

Definition TestCreate (st : Store) (dbst : DB) : Test (Store * DB) :=
  '(db, dbst) ← setupTestDB dbst;
  let st := ClearRegistry st in
  '(entityMeta, err, st) ← or_panic (Parse (new_of TestUser) st);
  _ ← when (bool_decide (err <> nil_error)) (Fatal [AError err]);
  let repo := New db entityMeta in
  let ctx := Background in
  let user := composite TestUser [("Name", VString "John")] in
  let '(user, dbst, err) := Create repo ctx user dbst in
  _ ← when (bool_decide (err <> nil_error))
        (Fatalf "expected no error, got %v" [AError err]);
  _ ← when (bool_decide (field_int user "ID" = 0%Z))
        (Fatal [AString "expected ID to be assigned"]);
  mret (st, dbst).

Definition TestGetByID (st : Store) (dbst : DB) : Test (Store * DB) :=
  '(db, dbst) ← setupTestDB dbst;
  let st := ClearRegistry st in
  '(entityMeta, err, st) ← or_panic (Parse (new_of TestUser) st);
  _ ← when (bool_decide (err <> nil_error)) (Fatal [AError err]);
  let repo := New db entityMeta in
  let ctx := Background in
  let user := composite TestUser [("Name", VString "Jane")] in
  let '(user, dbst, err) := Create repo ctx user dbst in
  _ ← when (bool_decide (err <> nil_error)) (Fatal [AError err]);
  let '(retrieved, err) := GetByID repo ctx (field_int user "ID") dbst in
  _ ← when (bool_decide (err <> nil_error))
        (Fatalf "expected no error, got %v" [AError err]);
  _ ← when (is_nil retrieved) (Fatal [AString "expected user to be retrieved"]);
  retrieved ← or_panic (indirect retrieved);
  _ ← when (bool_decide (field_string retrieved "Name" <> "Jane"))
        (Fatalf "expected name Jane, got %s" [AString (field_string retrieved "Name")]);
  mret (st, dbst).

Definition TestGetAll (st : Store) (dbst : DB) : Test (Store * DB) :=
  '(db, dbst) ← setupTestDB dbst;
  let st := ClearRegistry st in
  '(entityMeta, err, st) ← or_panic (Parse (new_of TestUser) st);
  _ ← when (bool_decide (err <> nil_error)) (Fatal [AError err]);
  let repo := New db entityMeta in
  let ctx := Background in
  let users :=
    [ composite TestUser [("Name", VString "Alice")];
      composite TestUser [("Name", VString "Bob")];
      composite TestUser [("Name", VString "Charlie")] ] in
  dbst ← for_fold users (fun dbst u =>
    let '(u, dbst, err) := Create repo ctx u dbst in
    _ ← when (bool_decide (err <> nil_error)) (Fatal [AError err]);
    mret dbst) dbst;
  let '(all, err) := GetAll repo ctx dbst in
  _ ← when (bool_decide (err <> nil_error))
        (Fatalf "expected no error, got %v" [AError err]);
  _ ← when (bool_decide (length (default [] all) <> 3))
        (Fatalf "expected 3 users, got %d" [AInt (Z.of_nat (length (default [] all)))]);
  mret (st, dbst).

Definition TestUpdate (st : Store) (dbst : DB) : Test (Store * DB) :=
  '(db, dbst) ← setupTestDB dbst;
  let st := ClearRegistry st in
  '(entityMeta, err, st) ← or_panic (Parse (new_of TestUser) st);
  _ ← when (bool_decide (err <> nil_error)) (Fatal [AError err]);
  let repo := New db entityMeta in
  let ctx := Background in
  let user := composite TestUser [("Name", VString "Original")] in
  let '(user, dbst, err) := Create repo ctx user dbst in
  _ ← when (bool_decide (err <> nil_error)) (Fatal [AError err]);
  let user := with_field "Name" (VString "Updated") user in
  let '(user, dbst, err) := Update repo ctx user dbst in
  _ ← when (bool_decide (err <> nil_error))
        (Fatalf "expected no error, got %v" [AError err]);
  let '(retrieved, err) := GetByID repo ctx (field_int user "ID") dbst in
  _ ← when (bool_decide (err <> nil_error)) (Fatal [AError err]);
  retrieved ← or_panic (indirect retrieved);
  _ ← when (bool_decide (field_string retrieved "Name" <> "Updated"))
        (Fatalf "expected name Updated, got %s" [AString (field_string retrieved "Name")]);
  mret (st, dbst).

Definition TestDelete (st : Store) (dbst : DB) : Test (Store * DB) :=
  '(db, dbst) ← setupTestDB dbst;
  let st := ClearRegistry st in
  '(entityMeta, err, st) ← or_panic (Parse (new_of TestUser) st);
  _ ← when (bool_decide (err <> nil_error)) (Fatal [AError err]);
  let repo := New db entityMeta in
  let ctx := Background in
  let user := composite TestUser [("Name", VString "ToDelete")] in
  let '(user, dbst, err) := Create repo ctx user dbst in
  _ ← when (bool_decide (err <> nil_error)) (Fatal [AError err]);
  let userID := field_int user "ID" in
  let '(dbst, err) := Delete repo ctx userID dbst in
  _ ← when (bool_decide (err <> nil_error))
        (Fatalf "expected no error, got %v" [AError err]);
  let '(retrieved, err) := GetByID repo ctx userID dbst in
  _ ← when (bool_decide (err = nil_error)) (Fatal [AString "expected user to be deleted"]);
  _ ← when (negb (is_nil retrieved)) (Fatal [AString "expected nil after deletion"]);
  mret (st, dbst).

Definition TestCount (st : Store) (dbst : DB) : Test (Store * DB) :=
  '(db, dbst) ← setupTestDB dbst;
  let st := ClearRegistry st in
  '(entityMeta, err, st) ← or_panic (Parse (new_of TestUser) st);
  _ ← when (bool_decide (err <> nil_error)) (Fatal [AError err]);
  let repo := New db entityMeta in
  let ctx := Background in
  dbst ← for_fold (seq 0 5) (fun dbst i =>
    let user := composite TestUser [("Name", VString "User")] in
    let '(user, dbst, err) := Create repo ctx user dbst in
    _ ← when (bool_decide (err <> nil_error)) (Fatal [AError err]);
    mret dbst) dbst;
  let '(count, err) := Count repo ctx dbst in
  _ ← when (bool_decide (err <> nil_error))
        (Fatalf "expected no error, got %v" [AError err]);
  _ ← when (bool_decide (count <> 5%Z))
        (Fatalf "expected count 5, got %d" [AInt count]);
  mret (st, dbst).

Definition TestCreateWithoutDB (st : Store) (dbst : DB) : Test (Store * DB) :=
  let st := ClearRegistry st in
  '(entityMeta, err, st) ← or_panic (Parse (new_of TestUser) st);
  _ ← when (bool_decide (err <> nil_error)) (Fatal [AError err]);
  let repo := New (Conn:=unit) None entityMeta in
  let ctx := Background in
  let user := composite TestUser [("Name", VString "John")] in
  let '(user, dbst, err) := Create repo ctx user dbst in
  _ ← when (bool_decide (err = nil_error))
        (Fatal [AString "expected error when creating without database"]);
  mret (st, dbst).

(** The test functions of the package, in the order of the file. *)
Definition tests : list (string * (Store -> DB -> Test (Store * DB))) :=
  [ ("TestNewRepository", TestNewRepository);
    ("TestCreate", TestCreate);
    ("TestGetByID", TestGetByID);
    ("TestGetAll", TestGetAll);
    ("TestUpdate", TestUpdate);
    ("TestDelete", TestDelete);
    ("TestCount", TestCount);
    ("TestCreateWithoutDB", TestCreateWithoutDB) ].

End tests.

(** ** Values of the entity *)

(** A pointer to a TestUser with the given fields. *)
Definition user_value (id : Z) (name : string) : any :=
  Some (TPtr TestUser, VPtr (Some (VStruct [VInt id; VString name]))).

Lemma composite_user name :
  composite TestUser [("Name", VString name)] = user_value 0 name.
Proof. reflexivity. Qed.

Lemma stamp_user id c u i name : stamp id c u (user_value i name) = user_value id name.
Proof. reflexivity. Qed.

Lemma with_field_user_Name n i name :
  with_field "Name" (VString n) (user_value i name) = user_value i n.
Proof. reflexivity. Qed.

Lemma with_field_user_UpdatedAt u i name :
  with_field "UpdatedAt" u (user_value i name) = user_value i name.
Proof. reflexivity. Qed.

Lemma field_int_user i name : field_int (user_value i name) "ID" = i.
Proof. reflexivity. Qed.

Lemma field_string_user i name : field_string (user_value i name) "Name" = name.
Proof. reflexivity. Qed.

Create Rewrite HintDb user_rw.
#[export] Hint Rewrite composite_user stamp_user with_field_user_Name
  with_field_user_UpdatedAt field_int_user field_string_user : user_rw.

(** ** The repository on an open handle *)

Section open_handle.
Context {DB : Type} `{Driver unit DB any}.
Context (conn : unit) (p : ptr).

Lemma Create_open e db : Create (New (Some conn) p) tt e db = drv_Create tt e db.
Proof. reflexivity. Qed.

Lemma Update_open e db : Update (New (Some conn) p) tt e db = drv_Save tt e db.
Proof. reflexivity. Qed.

Lemma Delete_open id db : Delete (New (Some conn) p) tt id db = drv_Delete tt id db.
Proof. reflexivity. Qed.

Lemma Count_open db : Count (New (Some conn) p) tt db = drv_Count tt db.
Proof. reflexivity. Qed.

Lemma GetByID_found id db e :
  drv_First tt drv_zero id db = (e, nil_error) ->
  GetByID (New (Some conn) p) tt id db = (Some e, nil_error).
Proof. unfold GetByID. cbn. by intros ->. Qed.

Lemma GetByID_missing id db e err :
  drv_First tt drv_zero id db = (e, Some err) ->
  GetByID (New (Some conn) p) tt id db = (None, Some err).
Proof. unfold GetByID. cbn. by intros ->. Qed.

Lemma GetAll_found db l :
  drv_Find tt db = (l, nil_error) -> GetAll (New (Some conn) p) tt db = (Some l, nil_error).
Proof. unfold GetAll. cbn. by intros ->. Qed.

(** Without a handle nothing reaches the driver. *)
Lemma Create_closed e db :
  Create (New (Conn:=unit) None p) tt e db = (e, db, Some ErrInvalidDB).
Proof. reflexivity. Qed.

End open_handle.

(** ** The tests pass *)

Section tests_pass.
Context {DB : Type} `{Driver unit DB any} `{Migrator DB}.
Context (inv : DB -> Prop) (abs : DB -> gmap Z any) `{!GormSpec DB inv abs}.
Context (gorm_Open : string -> option unit * error).
Hypothesis open_ok : gorm_Open ":memory:" = (Some tt, nil_error).
Hypothesis migrate_ok : forall model db,
  inv db -> exists db', AutoMigrate model db = (db', nil_error) /\ inv db' /\ abs db' = abs db.

(** A call whose result is known: put the result in place and go on. *)
Ltac repo_step :=
  first [ rewrite Parse_cleared | rewrite Create_open | rewrite Create_closed
        | rewrite Update_open
        | rewrite Delete_open | rewrite Count_open | progress autorewrite with user_rw
        | pass_step ].

(** The database after the setup of a test: open, with the rows it
    had. *)
Definition ready (db : DB) (r : option unit * DB) : Prop :=
  r.1 = Some tt /\ inv r.2 /\ abs r.2 = abs db.

Lemma setupTestDB_passes db : inv db -> passing (setupTestDB gorm_Open db) (ready db).
Proof.
  intros Hinv. unfold setupTestDB. rewrite open_ok.
  destruct (migrate_ok (new_of TestUser) db Hinv) as (db' & -> & Hinv' & Habs).
  repeat pass_step. done.
Qed.

(** A test after its setup. *)
Lemma after_setup {A} db (f : option unit * DB -> Test A) R :
  inv db -> (forall db', inv db' -> abs db' = abs db -> passing (f (Some tt, db')) R) ->
  passing (setupTestDB gorm_Open db ≫= f) R.
Proof.
  intros Hinv Hf. apply (passing_bind _ _ (ready db)); [by apply setupTestDB_passes|].
  intros [conn db'] (Hc & Hinv' & Habs). simpl in *. subst conn. by apply Hf.
Qed.

Lemma TestNewRepository_passes st db :
  inv db -> passing (TestNewRepository gorm_Open st db) (fun r => inv r.2 /\ abs r.2 = abs db).
Proof.
  intros Hinv. unfold TestNewRepository, TestUser. apply after_setup; [done|].
  intros db' Hinv' Habs. repeat repo_step. done.
Qed.

(** The state after one [Create] on an empty table. *)
Definition one_row (name : string) (r : Store * DB) : Prop :=
  inv r.2 /\ exists id, id <> 0%Z /\ abs r.2 = {[ id := user_value id name ]}.

Lemma TestCreate_passes st db :
  inv db -> abs db = ∅ -> passing (TestCreate gorm_Open st db) (one_row "John").
Proof.
  intros Hinv Hemp. unfold TestCreate, TestUser. apply after_setup; [done|].
  intros db0 Hinv0 Habs0. rewrite Hemp in Habs0. repeat repo_step.
  destruct (spec_Create (user_value 0 "John") db0 Hinv0 eq_refl eq_refl)
    as (id & c & u & db1 & Hid & _ & -> & Hinv1 & Habs1).
  rewrite Habs0 in Habs1. repeat repo_step. split; [done|]. by exists id.
Qed.

Lemma TestGetByID_passes st db :
  inv db -> abs db = ∅ -> passing (TestGetByID gorm_Open st db) (one_row "Jane").
Proof.
  intros Hinv Hemp. unfold TestGetByID, TestUser. apply after_setup; [done|].
  intros db0 Hinv0 Habs0. rewrite Hemp in Habs0. repeat repo_step.
  destruct (spec_Create (user_value 0 "Jane") db0 Hinv0 eq_refl eq_refl)
    as (id & c & u & db1 & Hid & _ & -> & Hinv1 & Habs1).
  rewrite Habs0 in Habs1. repeat repo_step.
  rewrite (GetByID_found _ _ id db1 (user_value id "Jane"))
    by by apply (spec_First_insert inv abs _ _ _ ∅).
  repeat repo_step. split; [done|]. by exists id.
Qed.

Lemma TestUpdate_passes st db :
  inv db -> abs db = ∅ -> passing (TestUpdate gorm_Open st db) (one_row "Updated").
Proof.
  intros Hinv Hemp. unfold TestUpdate, TestUser. apply after_setup; [done|].
  intros db0 Hinv0 Habs0. rewrite Hemp in Habs0. repeat repo_step.
  destruct (spec_Create (user_value 0 "Original") db0 Hinv0 eq_refl eq_refl)
    as (id & c & u & db1 & Hid & _ & -> & Hinv1 & Habs1).
  rewrite Habs0 in Habs1. repeat repo_step.
  destruct (spec_Save (user_value id "Updated") db1 Hinv1 Hid)
    as (u' & db2 & -> & Hinv2 & Habs2).
  autorewrite with user_rw in Habs2. rewrite Habs1, insert_insert_eq in Habs2.
  repeat repo_step.
  rewrite (GetByID_found _ _ id db2 (user_value id "Updated"))
    by by apply (spec_First_insert inv abs _ _ _ ∅).
  repeat repo_step. split; [done|]. by exists id.
Qed.

Lemma TestDelete_passes st db :
  inv db -> abs db = ∅ ->
  passing (TestDelete gorm_Open st db) (fun r => inv r.2 /\ abs r.2 = ∅).
Proof.
  intros Hinv Hemp. unfold TestDelete, TestUser. apply after_setup; [done|].
  intros db0 Hinv0 Habs0. rewrite Hemp in Habs0. repeat repo_step.
  destruct (spec_Create (user_value 0 "ToDelete") db0 Hinv0 eq_refl eq_refl)
    as (id & c & u & db1 & Hid & _ & -> & Hinv1 & Habs1).
  rewrite Habs0 in Habs1. repeat repo_step.
  destruct (spec_Delete id db1 Hinv1) as (db2 & -> & Hinv2 & Habs2).
  rewrite Habs1, delete_insert_eq, delete_empty in Habs2. repeat repo_step.
  rewrite (GetByID_missing _ _ id db2 drv_zero ErrRecordNotFound)
    by by rewrite spec_First, Habs2, lookup_empty.
  repeat repo_step. done.
Qed.

Lemma TestCreateWithoutDB_passes st db :
  passing (TestCreateWithoutDB st db) (fun r => r.2 = db).
Proof. unfold TestCreateWithoutDB, TestUser. repeat repo_step. done. Qed.

(** The loops of [TestGetAll] and [TestCount]: each iteration adds a
    row. *)
Definition holds (k : nat) (db : DB) : Prop := inv db /\ size (abs db) = k.

Lemma create_adds p name k db :
  holds k db ->
  passing (let '(_, dbst, err) := Create (New (Some tt) p) Background (user_value 0 name) db in
           _ ← when (bool_decide (err <> nil_error)) (Fatal [AError err]);
           mret dbst)
          (holds (S k)).
Proof.
  intros [Hinv Hsize]. rewrite Create_open.
  destruct (spec_Create (user_value 0 name) db Hinv eq_refl eq_refl)
    as (id & c & u & db1 & Hid & Hfresh & -> & Hinv1 & Habs1).
  repeat pass_step. split; [done|]. by rewrite Habs1, map_size_insert_None, Hsize.
Qed.

Lemma TestGetAll_passes st db :
  inv db -> abs db = ∅ -> passing (TestGetAll gorm_Open st db) (fun r => holds 3 r.2).
Proof.
  intros Hinv Hemp. unfold TestGetAll, TestUser. apply after_setup; [done|].
  intros db0 Hinv0 Habs0. rewrite Hemp in Habs0. repeat repo_step.
  eapply passing_bind.
  { apply (passing_for_fold _ _ holds); [split; [done|by rewrite Habs0]|].
    intros [|[|[|i]]] s x [= <-] Hs; by apply create_adds. }
  intros db3 [Hinv3 Hsize3]. simpl in Hsize3.
  destruct (spec_Find_length inv abs db3 Hinv3) as (all & Hfind & Hlen).
  rewrite (GetAll_found _ _ db3 all Hfind). cbv beta iota. cbn [default from_option id].
  rewrite Hlen, Hsize3. repeat repo_step. done.
Qed.

Lemma TestCount_passes st db :
  inv db -> abs db = ∅ -> passing (TestCount gorm_Open st db) (fun r => holds 5 r.2).
Proof.
  intros Hinv Hemp. unfold TestCount, TestUser. apply after_setup; [done|].
  intros db0 Hinv0 Habs0. rewrite Hemp in Habs0. repeat repo_step.
  eapply passing_bind.
  { apply (passing_for_fold _ _ holds); [split; [done|by rewrite Habs0]|].
    intros i s x _ Hs. autorewrite with user_rw. by apply create_adds. }
  intros db5 [Hinv5 Hsize5]. simpl in Hsize5.
  rewrite Count_open, spec_Count, Hsize5 by done. repeat repo_step. done.
Qed.

(** C31. Every test of the repository passes against every driver that
    keeps the contract, on a database that opens empty and migrates,
    whatever the parser's registry holds: it runs to its end with the
    failure flag unset and leaves the database in a state of the
    contract. *)
Theorem repository_tests_pass st db :
  inv db -> abs db = ∅ ->
  Forall (fun test => passing (test.2 st db) (fun r => inv r.2)) (tests gorm_Open).
Proof.
  intros Hinv Hemp.
  repeat constructor; simpl; (eapply passing_consequence; [|shelve]).
  - by apply TestNewRepository_passes.
  - by apply TestCreate_passes.
  - by apply TestGetByID_passes.
  - by apply TestGetAll_passes.
  - by apply TestUpdate_passes.
  - by apply TestDelete_passes.
  - by apply TestCount_passes.
  - apply TestCreateWithoutDB_passes.
  Unshelve. all: simpl; try by intros ? [? ?]. by intros ? ->.
Qed.

End tests_pass.

(** The tests on the in-memory table, from the registry of a starting
    program. *)
Lemma repository_tests_pass_witness :
  Forall (fun test => passing (test.2 init empty_table)
                        (fun r => wf_table Handlers.Handlers.pk_any r.2))
         (tests (H:=Handlers.Handlers.any_driver) (H0:=FlowTests.FlowTests.keep_Migrator)
            FlowTests.FlowTests.open_memory).
Proof.
  apply (repository_tests_pass (H:=Handlers.Handlers.any_driver)
           (H0:=FlowTests.FlowTests.keep_Migrator)
           (wf_table Handlers.Handlers.pk_any) rows FlowTests.FlowTests.open_memory eq_refl);
    [by eexists|apply wf_empty_table|reflexivity].
Defined.

End RepoTests.
