(* ===== verification/AppTests.v ===== *)
(** * AppTests: the tests of the application and its options

    The seven test functions of src/goblar/app_test.go and the five of
    src/goblar/options_test.go (package goblar), statement by
    statement, with the entity [TestEntity] and the two struct types
    [TestRegisterMultiple] declares.  The tests of the options apply
    the options to a configuration and read it back; the tests of the
    application build an application and, in three of them, register
    models.

    [gorm.Open] is a parameter.  A test that registers takes the store
    of the parser and the state of the database it opens, and returns
    what it leaves; the package never resets the parser's registry, so
    the store a test finds is the one the tests before it left.  A
    middleware is a function from handlers to handlers. *)

From Stdlib Require Import Ascii String ZArith Lia.
From stdpp Require Import base tactics option list strings gmap.
From S2P Require Import Prelude Reflect Testing Entities Meta Parse App FlowTests.

Module AppTests.
Import Testing.Testing Entities.Entities Meta.Meta Parse.Parse App.App.

Definition TestEntity : GoType :=
  TStruct "goblar" "TestEntity" (fields_of
    [ ("ID", TBasic BUint, []);
      ("Name", TBasic BString, []) ]).

Definition TestRegisterMultiple_User : GoType :=
  TStruct "goblar" "User" (fields_of
    [ ("ID", TBasic BUint, []);
      ("Name", TBasic BString, []) ]).

Definition TestRegisterMultiple_Product : GoType :=
  TStruct "goblar" "Product" (fields_of
    [ ("ID", TBasic BUint, []);
      ("Title", TBasic BString, []);
      ("Price", TBasic BFloat64, []) ]).

Section tests.
Context {DB Handler : Type} `{Migrator DB}.
Context (gorm_Open : string -> option unit * error).

#[local] Abbreviation Middleware := (Handler -> Handler).
#[local] Abbreviation Application := (App unit Middleware Handler).
#[local] Abbreviation Config := (config unit Middleware).

(** ** app_test.go *)

Definition TestNew : Test unit :=
  let app : Application := New [] in
  _ ← when (is_nil (Some app)) (Fatal [AString "expected app to be non-nil"]);
  _ ← when (is_nil (Some (registry app)))
        (Fatal [AString "expected registry to be initialized"]);
  when (negb (is_nil (App.db app)))
    (Fatal [AString "expected db to be nil without WithDB option"]).

Definition TestNewWithDB : Test unit :=
  let '(db, err) := gorm_Open ":memory:" in
  _ ← when (bool_decide (err <> nil_error)) (Fatal [AError err]);
  let app : Application := New [WithDB db] in
  _ ← when (is_nil (Some app)) (Fatal [AString "expected app to be non-nil"]);
  when (bool_decide (App.db app <> db)) (Fatal [AString "expected db to be set"]).

Definition TestNewWithAddress : Test unit :=
  let app : Application := New [WithAddress ":3000"] in
  when (bool_decide (addr (cfg app) <> ":3000"))
    (Fatalf "expected address :3000, got %s" [AString (addr (cfg app))]).

Definition TestNewWithMultipleOptions : Test unit :=
  let '(db, err) := gorm_Open ":memory:" in
  _ ← when (bool_decide (err <> nil_error)) (Fatal [AError err]);
  let app : Application := New [WithDB db; WithAddress ":9000"] in
  _ ← when (bool_decide (App.db app <> db)) (Fatal [AString "expected db to be set"]);
  when (bool_decide (addr (cfg app) <> ":9000"))
    (Fatal [AString "expected address to be :9000"]).

Definition TestRegisterWithoutDB (st : Store) (dbst : DB) : Test (Store * DB) :=
  let app : Application := New [] in
  '(err, app, st, dbst) ← or_panic (Register [new_of TestEntity] app st dbst);
  _ ← when (bool_decide (err = nil_error))
        (Fatal [AString "expected error when registering without database"]);
  mret (st, dbst).

Definition TestRegisterValid (st : Store) (dbst : DB) : Test (Store * DB) :=
  let '(db, err) := gorm_Open ":memory:" in
  _ ← when (bool_decide (err <> nil_error)) (Fatal [AError err]);
  let app : Application := New [WithDB db] in
  '(err, app, st, dbst) ← or_panic (Register [new_of TestEntity] app st dbst);
  _ ← when (bool_decide (err <> nil_error))
        (Fatalf "expected no error, got %v" [AError err]);
  _ ← when (bool_decide (size (registry app) = 0))
        (Fatal [AString "expected entity in registry"]);
  mret (st, dbst).

Definition TestRegisterMultiple (st : Store) (dbst : DB) : Test (Store * DB) :=
  let '(db, err) := gorm_Open ":memory:" in
  _ ← when (bool_decide (err <> nil_error)) (Fatal [AError err]);
  let app : Application := New [WithDB db] in
  '(err, app, st, dbst) ←
    or_panic (Register [new_of TestRegisterMultiple_User;
                        new_of TestRegisterMultiple_Product] app st dbst);
  _ ← when (bool_decide (err <> nil_error))
        (Fatalf "expected no error, got %v" [AError err]);
  _ ← when (bool_decide (size (registry app) <> 2))
        (Fatalf "expected 2 entities in registry, got %d"
           [AInt (Z.of_nat (size (registry app)))]);
  mret (st, dbst).

(** ** options_test.go *)

Definition TestWithDB : Test unit :=
  let '(db, err) := gorm_Open ":memory:" in
  _ ← when (bool_decide (err <> nil_error)) (Fatal [AError err]);
  let cfg : Config := newConfig in
  let opt := WithDB db in
  let cfg := opt cfg in
  when (bool_decide (cfg_db cfg <> db)) (Fatal [AString "expected db to be set"]).

Definition TestWithAddress : Test unit :=
  let cfg : Config := newConfig in
  let opt := WithAddress ":5000" in
  let cfg := opt cfg in
  when (bool_decide (addr cfg <> ":5000"))
    (Fatalf "expected address :5000, got %s" [AString (addr cfg)]).

Definition TestWithMiddleware : Test unit :=
  let cfg : Config := newConfig in
  let middleware1 : Middleware := fun h => h in
  let middleware2 : Middleware := fun h => h in
  let cfg := WithMiddleware middleware1 cfg in
  let cfg := WithMiddleware middleware2 cfg in
  when (bool_decide (length (middleware cfg) <> 2))
    (Fatalf "expected 2 middlewares, got %d" [AInt (Z.of_nat (length (middleware cfg)))]).

Definition TestConfig_Apply : Test unit :=
  let '(db, err) := gorm_Open ":memory:" in
  _ ← when (bool_decide (err <> nil_error)) (Fatal [AError err]);
  let cfg : Config := newConfig in
  let cfg := apply cfg [WithDB db; WithAddress ":7000"] in
  _ ← when (bool_decide (cfg_db cfg <> db)) (Fatal [AString "expected db to be set"]);
  when (bool_decide (addr cfg <> ":7000"))
    (Fatalf "expected address :7000, got %s" [AString (addr cfg)]).

Definition TestNewConfig_Defaults : Test unit :=
  let cfg : Config := newConfig in
  _ ← when (bool_decide (addr cfg <> ":8080"))
        (Fatalf "expected default address :8080, got %s" [AString (addr cfg)]);
  _ ← when (negb (is_nil (cfg_db cfg))) (Fatal [AString "expected db to be nil by default"]);
  when (bool_decide (length (middleware cfg) <> 0))
    (Fatal [AString "expected no middleware by default"]).

(** ** The package *)

(** A test that leaves the variables of the package alone. *)
Definition alone (test : Test unit) (st : Store) (dbst : DB) : Test (Store * DB) :=
  _ ← test; mret (st, dbst).

(** The test functions of the package, in the order the files and the
    functions come. *)
Definition tests : list (string * (Store -> DB -> Test (Store * DB))) :=
  [ ("TestNew", alone TestNew);
    ("TestNewWithDB", alone TestNewWithDB);
    ("TestNewWithAddress", alone TestNewWithAddress);
    ("TestNewWithMultipleOptions", alone TestNewWithMultipleOptions);
    ("TestRegisterWithoutDB", TestRegisterWithoutDB);
    ("TestRegisterValid", TestRegisterValid);
    ("TestRegisterMultiple", TestRegisterMultiple);
    ("TestWithDB", alone TestWithDB);
    ("TestWithAddress", alone TestWithAddress);
    ("TestWithMiddleware", alone TestWithMiddleware);
    ("TestConfig_Apply", alone TestConfig_Apply);
    ("TestNewConfig_Defaults", alone TestNewConfig_Defaults) ].

End tests.

(** ** The tests pass *)

Section tests_pass.
Context {DB Handler : Type} `{Migrator DB}.
Context (gorm_Open : string -> option unit * error).
Hypothesis open_ok : gorm_Open ":memory:" = (Some tt, nil_error).
Hypothesis migrate_ok : forall model dbst, (AutoMigrate model dbst).2 = nil_error.

Lemma alone_passes test st (dbst : DB) :
  passing test (fun _ => True) -> passing (alone test st dbst) (fun r => r.1 = st).
Proof.
  intros Ht. unfold alone. apply (passing_bind _ _ (fun _ => True)); [done|].
  intros _ _. by apply passing_ret.
Qed.

(** The tests that register nothing. *)
Lemma option_tests_pass :
  Forall (fun test : Test unit => passing test (fun _ => True))
    [ TestNew (Handler:=Handler); TestNewWithDB (Handler:=Handler) gorm_Open;
      TestNewWithAddress (Handler:=Handler);
      TestNewWithMultipleOptions (Handler:=Handler) gorm_Open;
      TestWithDB (Handler:=Handler) gorm_Open; TestWithAddress (Handler:=Handler);
      TestWithMiddleware (Handler:=Handler); TestConfig_Apply (Handler:=Handler) gorm_Open;
      TestNewConfig_Defaults (Handler:=Handler) ].
Proof.
  repeat constructor;
    unfold TestNew, TestNewWithDB, TestNewWithAddress, TestNewWithMultipleOptions,
      TestWithDB, TestWithAddress, TestWithMiddleware, TestConfig_Apply,
      TestNewConfig_Defaults;
    rewrite ?open_ok; repeat pass_step; done.
Qed.

(** ** The tests that register *)

Lemma Register_open models (a : App unit (Handler -> Handler) Handler) st (dbst : DB) :
  App.db a = Some tt -> Register models a st dbst = register_models models a st dbst.
Proof. unfold Register. by intros ->. Qed.

(** One turn of the loop of [Register] on [&T{}]. *)
Lemma register_new_of pkg name fields rest
    (a : App unit (Handler -> Handler) Handler) st (dbst : DB) :
  wf_store st -> dotless pkg = true -> dotless name = true ->
  exists p st1,
    wf_store st1 /\
    register_models (new_of (TStruct pkg name fields) :: rest) a st dbst
    = register_models rest
        (mkApp (App.db a) (router a) (cfg a) (<[name := p]> (registry a))) st1
        (AutoMigrate (new_of (TStruct pkg name fields)) dbst).1.
Proof.
  intros Hwf Hp Hn.
  destruct (register_models_struct pkg name fields _ rest a st dbst Hwf Hp Hn
              (migrate_ok (new_of (TStruct pkg name fields)) dbst))
    as (p & st1 & Hwf1 & _ & Heq).
  by exists p, st1.
Qed.

Lemma TestRegisterWithoutDB_passes st (dbst : DB) :
  passing (TestRegisterWithoutDB (Handler:=Handler) st dbst) (fun r => r.1 = st).
Proof. unfold TestRegisterWithoutDB. repeat pass_step. done. Qed.

Lemma TestRegisterValid_passes st (dbst : DB) :
  wf_store st ->
  passing (TestRegisterValid (Handler:=Handler) gorm_Open st dbst) (fun r => wf_store r.1).
Proof.
  intros Hwf. unfold TestRegisterValid, TestEntity. rewrite open_ok. repeat pass_step.
  rewrite Register_open by done.
  edestruct (register_new_of "goblar" "TestEntity") as (p & st1 & Hwf1 & ->);
    [done..|].
  cbn [register_models]. repeat pass_step. done.
Qed.

Lemma TestRegisterMultiple_passes st (dbst : DB) :
  wf_store st ->
  passing (TestRegisterMultiple (Handler:=Handler) gorm_Open st dbst)
          (fun r => wf_store r.1).
Proof.
  intros Hwf. unfold TestRegisterMultiple, TestRegisterMultiple_User,
    TestRegisterMultiple_Product. rewrite open_ok. repeat pass_step.
  rewrite Register_open by done.
  edestruct (register_new_of "goblar" "User") as (p1 & st1 & Hwf1 & ->); [done..|].
  edestruct (register_new_of "goblar" "Product") as (p2 & st2 & Hwf2 & ->); [done..|].
  cbn [register_models]. repeat pass_step. done.
Qed.

(** C32. Every test of the application and of its options passes on every
    store that satisfies the parser's invariant, when the database
    opens and the migrations succeed, and leaves a store that
    satisfies the invariant: the tests pass in any order. *)
Theorem application_tests_pass st (dbst : DB) :
  wf_store st ->
  Forall (fun test => passing (test.2 st dbst) (fun r => wf_store r.1))
         (tests (Handler:=Handler) gorm_Open).
Proof.
  intros Hwf. pose proof option_tests_pass as Hopt.
  repeat match goal with H : Forall _ (_ :: _) |- _ => apply Forall_cons in H as [? H] end.
  assert (forall test, passing test (fun _ => True) ->
            passing (alone test st dbst) (fun r => wf_store r.1)) as Halone.
  { intros test Ht. eapply passing_consequence; [by apply alone_passes|]. by intros r ->. }
  repeat constructor; simpl; auto using TestRegisterValid_passes, TestRegisterMultiple_passes.
  eapply passing_consequence; [apply TestRegisterWithoutDB_passes|]. by intros r ->.
Qed.

End tests_pass.

(** The tests from the registry of a starting program, on a database
    that records its migrations. *)
Lemma application_tests_pass_witness :
  Forall (fun test => passing (test.2 init []) (fun r => wf_store r.1))
         (tests (H:=log_Migrator) (Handler:=unit) FlowTests.FlowTests.open_memory).
Proof.
  apply (application_tests_pass (H:=log_Migrator) FlowTests.FlowTests.open_memory eq_refl);
    [done|apply wf_store_init].
Defined.

End AppTests.
