(* ===== verification/ProductFlows.v ===== *)
(** * ProductFlows: the flow tests of the products

    [TestProductFlowComplete] (src/example_main.go, lines 551-733),
    [TestProductDetailFlow] (lines 777-870) and
    [TestProductItemDetailFlow] (lines 872-939), statement by
    statement, on the database of [Session].  [gorm.Open] and
    [json.Marshal] are parameters; the database handle of the Go code
    is the state [db] that the calls pass on.

    A variable declared as a struct ([var updated Product]) and filled
    through its address is the entity the query returns; it is passed
    to [toJSON] by value ([pointee]).  An index expression
    ([products[0]]) is [index], which panics out of range.  The
    comparisons of prices are those of [float64]. *)

From Corelib Require Import PrimFloat.
From Stdlib Require Import Ascii String ZArith Lia.
From stdpp Require Import base tactics option list strings gmap.
From S2P Require Import Prelude Reflect Testing Entities Meta Parse Hooks Repo Router.
From S2P Require Import Handlers App Gorm Session FlowTests.

#[local] Set Warnings "-clear-no-such-hyp,-inexact-float".

Module ProductFlows.
Import Testing.Testing Entities.Entities Entities.TestPkg Repo.Repo Gorm.Gorm.
Import Session.Session FlowTests.FlowTests.

(** [T{name: value, ...}]: a struct value. *)
Definition literal (t : GoType) (inits : list (string * GoValue)) : GoValue :=
  default (VStruct []) (value_of (composite t inits)).

(** [xs[i]] *)
Definition index (xs : list any) (i : nat) : outcome any :=
  match xs !! i with
  | Some x => Ok x
  | None => Panic "index out of range"
  end.

(** [for i := range ps { ps[i].CalculateTotals() }] *)
Fixpoint each_CalculateTotals (ps : list any) : outcome (list any) :=
  match ps with
  | [] => Ok []
  | p :: rest => p ← CalculateTotals p; rest ← each_CalculateTotals rest; Ok (p :: rest)
  end.

Section flows.
Context (gorm_Open : string -> option unit * error).
Context (json_Marshal : any -> string * error).

#[local] Abbreviation toJSON := (toJSON json_Marshal).
#[local] Abbreviation failing err := (bool_decide (err <> nil_error)).

Definition TestProductFlowComplete (db : DB) : Test DB :=
  _ ← Log [AString "=== PRODUCT FLOW TEST START ==="];
  let '(_, err) := gorm_Open ":memory:" in
  _ ← when (failing err) (Fatalf "Failed to initialize database: %v" [AError err]);
  let '(db, err) := AutoMigrate [new_of Product; new_of ProductItem; new_of Tag;
                                 new_of ProductToPrice] db in
  _ ← when (failing err) (Fatalf "Failed to migrate: %v" [AError err]);
  (* Step 1 *)
  _ ← Log [AString "Step 1: Creating first product..."];
  let product1 := composite Product
    [("Name", VString "Laptop"); ("Description", VString "High-performance laptop");
     ("UserID", VInt 1);
     ("ProductItems", VSlice
        [literal ProductItem [("Name", VString "Item 1"); ("PricePerUnit", VFloat 99.99);
                              ("Quantity", VInt 5); ("TotalPrice", VFloat 499.95)]])] in
  _ ← Logf "REQUEST: %s" [AString (toJSON product1)];
  let '(product1, db, err) := Create product1 db in
  _ ← when (failing err) (Fatalf "Step 1 Failed: %v" [AError err]);
  _ ← when (bool_decide (field_int product1 "ID" = 0%Z))
        (Fatalf "Step 1 Failed: Product ID not assigned" []);
  product1 ← or_panic (CalculateTotals product1);
  _ ← when (negb (field_float product1 "TotalPrice" =? 499.95)%float)
        (Fatalf "Step 1 Failed: Expected TotalPrice 499.95, got %f"
           [AFloat (field_float product1 "TotalPrice")]);
  _ ← when (bool_decide (field_int product1 "TotalItem" <> 5%Z))
        (Fatalf "Step 1 Failed: Expected TotalItem 5, got %d"
           [AInt (field_int product1 "TotalItem")]);
  _ ← Logf "RESPONSE: %s" [AString (toJSON product1)];
  _ ← Logf "✓ First product created with ID: %d, Name: %s, TotalPrice: %.2f, TotalItem: %d"
        [AInt (field_int product1 "ID"); AString (field_string product1 "Name");
         AFloat (field_float product1 "TotalPrice"); AInt (field_int product1 "TotalItem")];
  (* Step 2 *)
  _ ← Log [AString "Step 2: Creating second product..."];
  let product2 := composite Product
    [("Name", VString "Phone"); ("Description", VString "Smartphone with great camera");
     ("UserID", VInt 1);
     ("ProductItems", VSlice
        [literal ProductItem [("Name", VString "Item 1"); ("PricePerUnit", VFloat 199.99);
                              ("Quantity", VInt 3); ("TotalPrice", VFloat 599.97)]])] in
  _ ← Logf "REQUEST: %s" [AString (toJSON product2)];
  let '(product2, db, err) := Create product2 db in
  _ ← when (failing err) (Fatalf "Step 2 Failed: %v" [AError err]);
  _ ← when (bool_decide (field_int product2 "ID" = 0%Z))
        (Fatalf "Step 2 Failed: Product ID not assigned" []);
  product2 ← or_panic (CalculateTotals product2);
  _ ← when (negb (field_float product2 "TotalPrice" =? 599.97)%float)
        (Fatalf "Step 2 Failed: Expected TotalPrice 599.97, got %f"
           [AFloat (field_float product2 "TotalPrice")]);
  _ ← when (bool_decide (field_int product2 "TotalItem" <> 3%Z))
        (Fatalf "Step 2 Failed: Expected TotalItem 3, got %d"
           [AInt (field_int product2 "TotalItem")]);
  _ ← Logf "RESPONSE: %s" [AString (toJSON product2)];
  _ ← Logf "✓ Second product created with ID: %d, Name: %s, TotalPrice: %.2f, TotalItem: %d"
        [AInt (field_int product2 "ID"); AString (field_string product2 "Name");
         AFloat (field_float product2 "TotalPrice"); AInt (field_int product2 "TotalItem")];
  (* Step 3 *)
  _ ← Log [AString "Step 3: Listing all products..."];
  '(products, err) ← or_panic (Find Product ["ProductItems"; "Tags"] db);
  _ ← when (failing err) (Fatalf "Step 3 Failed: %v" [AError err]);
  products ← or_panic (each_CalculateTotals products);
  _ ← when (bool_decide (length products <> 2))
        (Fatalf "Step 3 Failed: Expected 2 products, got %d"
           [AInt (Z.of_nat (length products))]);
  first ← or_panic (index products 0);
  _ ← when (negb (field_float first "TotalPrice" =? 499.95)%float)
        (Fatalf "Step 3 Failed: First product - Expected TotalPrice 499.95, got %f"
           [AFloat (field_float first "TotalPrice")]);
  _ ← when (bool_decide (field_int first "TotalItem" <> 5%Z))
        (Fatalf "Step 3 Failed: First product - Expected TotalItem 5, got %d"
           [AInt (field_int first "TotalItem")]);
  _ ← Logf "RESPONSE: %s" [AString (toJSON (slice_of Product products))];
  second ← or_panic (index products 1);
  _ ← Logf "✓ Listed %d products. Product 1 - TotalPrice: %.2f, TotalItem: %d; Product 2 - TotalPrice: %.2f, TotalItem: %d"
        [AInt (Z.of_nat (length products));
         AFloat (field_float first "TotalPrice"); AInt (field_int first "TotalItem");
         AFloat (field_float second "TotalPrice"); AInt (field_int second "TotalItem")];
  (* Step 4 *)
  _ ← Log [AString "Step 4: Updating first product..."];
  _ ← Logf "REQUEST (before update): %s" [AString (toJSON product1)];
  let product1 := with_field "Name" (VString "Updated Laptop") product1 in
  let product1 := with_field "Description"
                    (VString "High-performance laptop with upgraded specs") product1 in
  _ ← Logf "REQUEST (update to): %s" [AString (toJSON product1)];
  let '(product1, db, err) := Save product1 db in
  _ ← when (failing err) (Fatalf "Step 4 Failed: %v" [AError err]);
  '(updated, err) ← or_panic (First Product ["ProductItems"; "Tags"]
                                 (field_int product1 "ID") db);
  _ ← when (failing err) (Fatalf "Step 4 Failed: %v" [AError err]);
  updated ← or_panic (CalculateTotals updated);
  _ ← when (bool_decide (field_string updated "Name" <> "Updated Laptop"))
        (Fatalf "Step 4 Failed: Expected name 'Updated Laptop', got '%s'"
           [AString (field_string updated "Name")]);
  _ ← when (bool_decide (field_string updated "Description"
                         <> "High-performance laptop with upgraded specs"))
        (Fatalf "Step 4 Failed: Expected description match, got '%s'"
           [AString (field_string updated "Description")]);
  _ ← when (negb (field_float updated "TotalPrice" =? 499.95)%float)
        (Fatalf "Step 4 Failed: Expected TotalPrice 499.95, got %f"
           [AFloat (field_float updated "TotalPrice")]);
  _ ← Logf "RESPONSE: %s" [AString (toJSON (pointee updated))];
  _ ← Logf "✓ Product updated - Name: %s, TotalPrice: %.2f, TotalItem: %d"
        [AString (field_string updated "Name"); AFloat (field_float updated "TotalPrice");
         AInt (field_int updated "TotalItem")];
  (* Step 5 *)
  _ ← Log [AString "Step 5: Listing all products again..."];
  '(productsAfterUpdate, err) ← or_panic (Find Product ["ProductItems"; "Tags"] db);
  _ ← when (failing err) (Fatalf "Step 5 Failed: %v" [AError err]);
  productsAfterUpdate ← or_panic (each_CalculateTotals productsAfterUpdate);
  _ ← when (bool_decide (length productsAfterUpdate <> 2))
        (Fatalf "Step 5 Failed: Expected 2 products, got %d"
           [AInt (Z.of_nat (length productsAfterUpdate))]);
  _ ← Logf "RESPONSE: %s" [AString (toJSON (slice_of Product productsAfterUpdate))];
  first ← or_panic (index productsAfterUpdate 0);
  second ← or_panic (index productsAfterUpdate 1);
  _ ← Logf "✓ Still have %d products. Product 1 - TotalPrice: %.2f; Product 2 - TotalPrice: %.2f"
        [AInt (Z.of_nat (length productsAfterUpdate));
         AFloat (field_float first "TotalPrice"); AFloat (field_float second "TotalPrice")];
  (* Step 6 *)
  _ ← Log [AString "Step 6: Deleting first product..."];
  _ ← Logf "REQUEST (delete): %s" [AString (toJSON product1)];
  let '(db, err) := Delete product1 db in
  _ ← when (failing err) (Fatalf "Step 6 Failed: %v" [AError err]);
  _ ← Logf "✓ First product deleted" [];
  (* Step 7 *)
  _ ← Log [AString "Step 7: Listing all products after deletion..."];
  '(productsAfterDelete, err) ← or_panic (Find Product ["ProductItems"; "Tags"] db);
  _ ← when (failing err) (Fatalf "Step 7 Failed: %v" [AError err]);
  productsAfterDelete ← or_panic (each_CalculateTotals productsAfterDelete);
  _ ← when (bool_decide (length productsAfterDelete <> 1))
        (Fatalf "Step 7 Failed: Expected 1 product remaining, got %d"
           [AInt (Z.of_nat (length productsAfterDelete))]);
  _ ← Logf "RESPONSE: %s" [AString (toJSON (slice_of Product productsAfterDelete))];
  first ← or_panic (index productsAfterDelete 0);
  _ ← Logf "✓ %d product remaining with TotalPrice: %.2f"
        [AInt (Z.of_nat (length productsAfterDelete)); AFloat (field_float first "TotalPrice")];
  (* Step 8 *)
  _ ← Log [AString "Step 8: Deleting second product..."];
  _ ← Logf "REQUEST (delete): %s" [AString (toJSON product2)];
  let '(db, err) := Delete product2 db in
  _ ← when (failing err) (Fatalf "Step 8 Failed: %v" [AError err]);
  _ ← Logf "✓ Second product deleted" [];
  (* Step 9 *)
  _ ← Log [AString "Step 9: Listing all products after all deletions..."];
  '(productsAfterAllDelete, err) ← or_panic (Find Product [] db);
  _ ← when (failing err) (Fatalf "Step 9 Failed: %v" [AError err]);
  _ ← when (bool_decide (length productsAfterAllDelete <> 0))
        (Fatalf "Step 9 Failed: Expected 0 products, got %d"
           [AInt (Z.of_nat (length productsAfterAllDelete))]);
  _ ← Logf "RESPONSE: %s" [AString (toJSON (slice_of Product productsAfterAllDelete))];
  _ ← Logf "✓ All products deleted successfully" [];
  _ ← Log [AString "=== PRODUCT FLOW TEST COMPLETED ✓ ==="];
  mret db.

Definition TestProductDetailFlow (db : DB) : Test DB :=
  _ ← Log [AString "=== PRODUCT DETAIL TEST START ==="];
  let '(_, err) := gorm_Open ":memory:" in
  _ ← when (failing err) (Fatalf "Failed to initialize database: %v" [AError err]);
  let '(db, err) := AutoMigrate [new_of Product; new_of ProductItem; new_of Tag;
                                 new_of ProductToPrice] db in
  _ ← when (failing err) (Fatalf "Failed to migrate: %v" [AError err]);
  let tag1 := composite Tag [("Label", VString "Electronics"); ("Color", stringPtr "#FF5733")] in
  let tag2 := composite Tag [("Label", VString "Premium"); ("Color", stringPtr "#FFD700")] in
  let '(tag1, db, err) := Create tag1 db in
  _ ← when (failing err) (Fatalf "Tag1 creation failed: %v" [AError err]);
  let '(tag2, db, err) := Create tag2 db in
  _ ← when (failing err) (Fatalf "Tag2 creation failed: %v" [AError err]);
  let product := composite Product
    [("Name", VString "Gaming Laptop");
     ("Description", VString "High-end gaming laptop with RTX 4090");
     ("UserID", VInt 1);
     ("ProductItems", VSlice
        [literal ProductItem [("Name", VString "Base Unit"); ("PricePerUnit", VFloat 1500);
                              ("Quantity", VInt 1); ("TotalPrice", VFloat 1500)];
         literal ProductItem [("Name", VString "Extended Warranty");
                              ("PricePerUnit", VFloat 200);
                              ("Quantity", VInt 1); ("TotalPrice", VFloat 200)];
         literal ProductItem [("Name", VString "Protective Case"); ("PricePerUnit", VFloat 50);
                              ("Quantity", VInt 2); ("TotalPrice", VFloat 100)]])] in
  let '(product, db, err) := Create product db in
  _ ← when (failing err) (Fatalf "Product creation failed: %v" [AError err]);
  _ ← Logf "✓ Product created with ID: %d" [AInt (field_int product "ID")];
  let '(product, db, err) := Append product "Tags" [tag1; tag2] db in
  _ ← when (failing err) (Fatalf "Tag association failed: %v" [AError err]);
  _ ← Logf "✓ Associated 2 tags with product" [];
  _ ← Log [AString "Getting product detail with all relations..."];
  '(detail, err) ← or_panic (First Product ["ProductItems"; "Tags"]
                                (field_int product "ID") db);
  _ ← when (failing err) (Fatalf "Detail retrieval failed: %v" [AError err]);
  detail ← or_panic (CalculateTotals detail);
  _ ← when (bool_decide (field_string detail "Name" <> "Gaming Laptop"))
        (Fatalf "Expected name 'Gaming Laptop', got '%s'" [AString (field_string detail "Name")]);
  _ ← when (bool_decide (length (field_slice detail "ProductItems") <> 3))
        (Fatalf "Expected 3 items, got %d"
           [AInt (Z.of_nat (length (field_slice detail "ProductItems")))]);
  _ ← when (bool_decide (length (field_slice detail "Tags") <> 2))
        (Fatalf "Expected 2 tags, got %d"
           [AInt (Z.of_nat (length (field_slice detail "Tags")))]);
  let expectedTotal := (1500 + 200 + 100)%float in
  _ ← when (negb (field_float detail "TotalPrice" =? expectedTotal)%float)
        (Fatalf "Expected TotalPrice %.2f, got %.2f"
           [AFloat expectedTotal; AFloat (field_float detail "TotalPrice")]);
  _ ← when (bool_decide (field_int detail "TotalItem" <> 4%Z))
        (Fatalf "Expected TotalItem 4, got %d" [AInt (field_int detail "TotalItem")]);
  _ ← Logf "DETAIL RESPONSE: %s" [AString (toJSON (pointee detail))];
  _ ← Logf "✓ Product detail retrieved - ID: %d, Name: %s, Items: %d, Tags: %d, TotalPrice: %.2f, TotalItem: %d"
        [AInt (field_int detail "ID"); AString (field_string detail "Name");
         AInt (Z.of_nat (length (field_slice detail "ProductItems")));
         AInt (Z.of_nat (length (field_slice detail "Tags")));
         AFloat (field_float detail "TotalPrice"); AInt (field_int detail "TotalItem")];
  _ ← for_each (imap pair (field_slice detail "ProductItems")) (fun '(i, item) =>
        let item : any := Some (ProductItem, item) in
        Logf "  Item %d: Name='%s', Qty=%d, Price=%.2f, Total=%.2f"
          [AInt (Z.of_nat i + 1); AString (field_string item "Name");
           AInt (field_int item "Quantity"); AFloat (field_float item "PricePerUnit");
           AFloat (field_float item "TotalPrice")]);
  _ ← for_each (imap pair (field_slice detail "Tags")) (fun '(i, tag) =>
        let tag : any := Some (Tag, tag) in
        let colorStr := "nil" in
        let colorStr := if field_string_ptr tag "Color" is Some c then c else colorStr in
        Logf "  Tag %d: Label='%s', Color=%s"
          [AInt (Z.of_nat i + 1); AString (field_string tag "Label"); AString colorStr]);
  _ ← Log [AString "=== PRODUCT DETAIL TEST COMPLETED ✓ ==="];
  mret db.

Definition TestProductItemDetailFlow (db : DB) : Test DB :=
  _ ← Log [AString "=== PRODUCT ITEM DETAIL TEST START ==="];
  let '(_, err) := gorm_Open ":memory:" in
  _ ← when (failing err) (Fatalf "Failed to initialize database: %v" [AError err]);
  let '(db, err) := AutoMigrate [new_of Product; new_of ProductItem] db in
  _ ← when (failing err) (Fatalf "Failed to migrate: %v" [AError err]);
  let product := composite Product
    [("Name", VString "Bundle"); ("Description", VString "Multi-item bundle");
     ("UserID", VInt 1)] in
  let '(product, db, err) := Create product db in
  _ ← when (failing err) (Fatalf "Product creation failed: %v" [AError err]);
  let items :=
    [ literal ProductItem [("ProductID", VInt (field_int product "ID"));
                           ("Name", VString "Item A"); ("PricePerUnit", VFloat 25.5);
                           ("Quantity", VInt 10); ("TotalPrice", VFloat 255)];
      literal ProductItem [("ProductID", VInt (field_int product "ID"));
                           ("Name", VString "Item B"); ("PricePerUnit", VFloat 15.75);
                           ("Quantity", VInt 20); ("TotalPrice", VFloat 315)];
      literal ProductItem [("ProductID", VInt (field_int product "ID"));
                           ("Name", VString "Item C"); ("PricePerUnit", VFloat 5);
                           ("Quantity", VInt 50); ("TotalPrice", VFloat 250)] ] in
  db ← for_fold items (fun db item =>
         let '(_, db, err) := Create (entity_of ProductItem item) db in
         _ ← when (failing err) (Fatalf "Item creation failed: %v" [AError err]);
         mret db) db;
  _ ← Logf "✓ Created 3 product items" [];
  _ ← Log [AString "Retrieving all product items..."];
  '(retrievedItems, err) ← or_panic (Where_Find ProductItem "product_id"
                                        (field_int product "ID") db);
  _ ← when (failing err) (Fatalf "Items retrieval failed: %v" [AError err]);
  _ ← when (bool_decide (length retrievedItems <> 3))
        (Fatalf "Expected 3 items, got %d" [AInt (Z.of_nat (length retrievedItems))]);
  let totalPrice := 0%float in
  let totalQty := 0%Z in
  '(totalPrice, totalQty) ← for_fold retrievedItems (fun '(totalPrice, totalQty) item =>
         let totalPrice := (totalPrice + field_float item "TotalPrice")%float in
         let totalQty := wrap_int (totalQty + field_int item "Quantity") in
         _ ← Logf "ITEM DETAIL: %s" [AString (toJSON (pointee item))];
         mret (totalPrice, totalQty)) (totalPrice, totalQty);
  let expectedTotalPrice := 820%float in
  _ ← when (negb (totalPrice =? expectedTotalPrice)%float)
        (Fatalf "Expected total price %.2f, got %.2f"
           [AFloat expectedTotalPrice; AFloat totalPrice]);
  _ ← when (bool_decide (totalQty <> 80%Z))
        (Fatalf "Expected total quantity 80, got %d" [AInt totalQty]);
  _ ← Logf "✓ All items verified - Total Price: %.2f, Total Quantity: %d"
        [AFloat totalPrice; AInt totalQty];
  _ ← Log [AString "=== PRODUCT ITEM DETAIL TEST COMPLETED ✓ ==="];
  mret db.

End flows.

(** The test functions of the products, in the order of the file. *)
Definition tests (gorm_Open : string -> option unit * error)
    (json_Marshal : any -> string * error) : list (string * (DB -> Test DB)) :=
  [ ("TestProductFlowComplete", TestProductFlowComplete gorm_Open json_Marshal);
    ("TestProductDetailFlow", TestProductDetailFlow gorm_Open json_Marshal);
    ("TestProductItemDetailFlow", TestProductItemDetailFlow gorm_Open json_Marshal) ].

(** The keys of the rows of a table, in order. *)
Definition keys (t : Table any) : list Z := (fun e => field_int e "ID") <$> ordered t.

(** ** The tests pass *)

(** On a new database that [gorm.Open] opens without an error, every
    product flow test runs to its end and leaves the failure flag
    unset, whatever [json.Marshal] returns. *)
Theorem product_tests_pass gorm_Open json_Marshal :
  (gorm_Open ":memory:").2 = nil_error ->
  Forall (fun test => exists t db, test.2 empty new_T = (t, Some db) /\ failed t = false)
         (tests gorm_Open json_Marshal).
Proof.
  intros Hopen. unfold tests, TestProductFlowComplete, TestProductDetailFlow,
    TestProductItemDetailFlow.
  destruct (gorm_Open ":memory:") as [h err]. simpl in Hopen. subst err.
  repeat constructor; eexists _, _; (split; [vm_compute; reflexivity|reflexivity]).
Qed.

(** [TestProductFlowComplete] ends with no product and reports that
    all products are deleted, and the items of the two products are
    still in their table, with the keys of the products they belonged
    to: [Delete] removes the product's row only. *)
Theorem TestProductFlowComplete_leaves_items :
  exists t db,
    TestProductFlowComplete open_memory no_Marshal empty new_T = (t, Some db) /\
    failed t = false /\
    nth_error (output t) 31 = Some (Formatted "✓ All products deleted successfully" []) /\
    keys (products db) = [] /\
    keys (product_items db) = [1%Z; 2%Z] /\
    (fun e => field_int e "ProductID") <$> ordered (product_items db) = [1%Z; 2%Z].
Proof. eexists _, _. split; [vm_compute; reflexivity|]. vm_compute. repeat split. Qed.

Lemma product_tests_pass_witness :
  Forall (fun test => exists t db, test.2 empty new_T = (t, Some db) /\ failed t = false)
         (tests open_memory no_Marshal).
Proof. apply (product_tests_pass open_memory no_Marshal). reflexivity. Defined.

End ProductFlows.
